(** * Compliance workflow, audit ledger and signature engine of cipla_dms

    A shallow embedding of the Django code under [backend/apps]: the
    immutable audit trail ([apps/audit/models.py]), the digital signature
    model ([apps/auth/models_signature.py]), the privilege resolver
    ([apps/auth/permissions.py]), the barcode sequencer ([Crate.save] in
    [apps/documents/models.py]) and the request workflow views
    ([apps/requests/views.py]).

    Python strings are Rocq strings whose characters are code points below
    256; database tables are finite maps from primary key to row; the views
    run in a state-and-exception monad over the store. *)

From Stdlib Require Import ZArith NArith List String Ascii Bool Lia.
From Stdlib Require Import DecimalString.
From stdpp Require Import base option gmap strings list.

Local Open Scope string_scope.
Local Open Scope Z_scope.

(** ** Python primitives used by the source *)
Module Py.

(** [str(n)] for a Python int. *)
Definition str_int (z : Z) : string := NilZero.string_of_int (Z.to_int z).

(** [str(n)] for a non-negative component of a date. *)
Definition str_N (n : N) : string := NilZero.string_of_uint (N.to_uint n).

Fixpoint replicate_char (n : nat) (c : ascii) : string :=
  match n with
  | O => EmptyString
  | S k => String c (replicate_char k c)
  end.

(** [s.zfill(w)] on a string of digits (no sign). *)
Definition zfill (w : nat) (s : string) : string :=
  replicate_char (w - String.length s) "0"%char +:+ s.

(** [f"{n:0{w}d}"]: sign first, then zero padding up to width [w]. *)
Definition format_0d (w : nat) (z : Z) : string :=
  if z <? 0 then "-" +:+ zfill (w - 1) (str_int (- z)) else zfill w (str_int z).

(** [s.replace(c, '')] for a one-character pattern. *)
Fixpoint remove_char (c : ascii) (s : string) : string :=
  match s with
  | EmptyString => EmptyString
  | String a r => if Ascii.eqb a c then remove_char c r else String a (remove_char c r)
  end.

(** [s[:n]]. *)
Fixpoint take (n : nat) (s : string) : string :=
  match n, s with
  | S k, String a r => String a (take k r)
  | _, _ => EmptyString
  end.

(** Truthiness of a [str]. *)
Definition truthy_str (s : string) : bool :=
  match s with EmptyString => false | _ => true end.

(** Truthiness of an optional integer primary key: [None] and [0] are falsy. *)
Definition truthy_pk (pk : option Z) : bool :=
  match pk with Some k => negb (k =? 0) | None => false end.

(** [s.startswith(p)]. *)
Definition startswith (p s : string) : bool := String.prefix p s.

(** [s.split(sep)[-1]]: the part after the last separator. *)
Fixpoint last_segment_aux (sep : ascii) (s acc : string) : string :=
  match s with
  | EmptyString => acc
  | String a r =>
      if Ascii.eqb a sep then last_segment_aux sep r EmptyString
      else last_segment_aux sep r (acc +:+ String a EmptyString)
  end.

Definition last_segment (sep : ascii) (s : string) : string :=
  last_segment_aux sep s EmptyString.

Definition is_digit (c : ascii) : bool :=
  let n := N_of_ascii c in ((48 <=? n) && (n <=? 57))%N.

(** [c.isspace()] for a code point below 256: the characters [str.strip]
    removes and the regular expression class [\s] matches. *)
Definition is_space (c : ascii) : bool :=
  let n := N_of_ascii c in
  ((n =? 32) || ((9 <=? n) && (n <=? 13)) || ((28 <=? n) && (n <=? 31)) ||
   (n =? 133) || (n =? 160))%N.

(** The white space [int()] skips around a literal: the ASCII characters
    of C's [isspace] and the white space above 127; the separators 28 to 31
    are not among them. *)
Definition is_int_space (c : ascii) : bool :=
  let n := N_of_ascii c in
  ((n =? 32) || ((9 <=? n) && (n <=? 13)) || (n =? 133) || (n =? 160))%N.

Fixpoint lstrip (s : string) : string :=
  match s with
  | String a r => if is_space a then lstrip r else s
  | EmptyString => EmptyString
  end.

Fixpoint rev_string_aux (s acc : string) : string :=
  match s with
  | EmptyString => acc
  | String a r => rev_string_aux r (String a acc)
  end.

Definition rev_string (s : string) : string := rev_string_aux s EmptyString.

(** [s.strip()]. *)
Definition strip (s : string) : string :=
  rev_string (lstrip (rev_string (lstrip s))).

Fixpoint drop_while (p : ascii -> bool) (s : string) : string :=
  match s with
  | String a r => if p a then drop_while p r else s
  | EmptyString => EmptyString
  end.

(** [s] without the characters satisfying [p] at either end. *)
Definition strip_by (p : ascii -> bool) (s : string) : string :=
  rev_string (drop_while p (rev_string (drop_while p s))).

(** [c in s]. *)
Fixpoint contains (c : ascii) (s : string) : bool :=
  match s with
  | EmptyString => false
  | String a r => Ascii.eqb a c || contains c r
  end.

(** Digits of an [int] literal: groups of digits separated by single
    underscores.  [seen] tells whether the previous character was a digit. *)
Fixpoint parse_digits (s : string) (acc : Z) (seen : bool) : option Z :=
  match s with
  | EmptyString => if seen then Some acc else None
  | String a r =>
      if is_digit a then parse_digits r (10 * acc + (Z.of_N (N_of_ascii a) - 48)) true
      else if Ascii.eqb a "_"%char then
        (if seen then parse_digits r acc false else None)
      else None
  end.

(** [int(s)]: [None] stands for [ValueError].  The strings the code
    converts are a barcode segment or at most 1000 characters long, below
    the length at which [int] starts to refuse a literal for its size. *)
Definition int_of_str (s : string) : option Z :=
  match strip_by is_int_space s with
  | String "-"%char r => option_map Z.opp (parse_digits r 0 false)
  | String "+"%char r => parse_digits r 0 false
  | t => parse_digits t 0 false
  end.

(** [s.encode()]: UTF-8 bytes of a string of code points below 256. *)
Fixpoint encode (s : string) : list Z :=
  match s with
  | EmptyString => []
  | String a r =>
      let n := Z.of_N (N_of_ascii a) in
      if n <? 128 then n :: encode r
      else (192 + n / 64) :: (128 + n mod 64) :: encode r
  end.

Definition hex_digit (n : Z) : ascii :=
  if n <? 10 then ascii_of_N (Z.to_N (48 + n)) else ascii_of_N (Z.to_N (87 + n)).

(** [c.isprintable()] for a code point below 256. *)
Definition is_printable (c : ascii) : bool :=
  let n := N_of_ascii c in
  (((32 <=? n) && (n <=? 126)) || ((161 <=? n) && negb (n =? 173)))%N.

(** One character of [repr(s)] inside the quotes [q]. *)
Definition repr_char (q c : ascii) : string :=
  let n := Z.of_N (N_of_ascii c) in
  if Ascii.eqb c q || (n =? 92) then String "\"%char (String c EmptyString)
  else if n =? 9 then "\t"
  else if n =? 10 then "\n"
  else if n =? 13 then "\r"
  else if is_printable c then String c EmptyString
  else String "\"%char (String "x"%char
         (String (hex_digit (n / 16)) (String (hex_digit (n mod 16)) EmptyString))).

Fixpoint repr_chars (q : ascii) (s : string) : string :=
  match s with
  | EmptyString => EmptyString
  | String a r => repr_char q a +:+ repr_chars q r
  end.

(** [repr(s)] of a [str]: single quotes, unless the text has a single
    quote and no double quote. *)
Definition repr_str (s : string) : string :=
  let q := if contains "'"%char s && negb (contains (ascii_of_N 34) s)
           then ascii_of_N 34 else "'"%char in
  String q (repr_chars q s +:+ String q EmptyString).

(** A calendar timestamp as [datetime] holds it; [utcoffset] is the offset
    in minutes of an aware value, [None] for a naive one. *)
Record datetime := {
  year : N; month : N; day : N;
  hour : N; minute : N; second : N; microsecond : N;
  utcoffset : option Z
}.

(** The proleptic Gregorian ordinal of a date, as [datetime.py] counts it
    ([_is_leap], [_days_before_year], [_days_before_month], [_ymd2ord]). *)
Definition is_leap (y : Z) : bool :=
  (y mod 4 =? 0) && (negb (y mod 100 =? 0) || (y mod 400 =? 0)).

Definition days_before_year (y : Z) : Z :=
  let p := y - 1 in p * 365 + p / 4 - p / 100 + p / 400.

Definition days_before_month (y m : Z) : Z :=
  nth (Z.to_nat m) [-1; 0; 31; 59; 90; 120; 151; 181; 212; 243; 273; 304; 334] 0 +
  (if (2 <? m) && is_leap y then 1 else 0).

Definition toordinal (d : datetime) : Z :=
  days_before_year (Z.of_N (year d)) +
  days_before_month (Z.of_N (year d)) (Z.of_N (month d)) + Z.of_N (day d).

(** Microseconds between 0001-01-01 00:00 on the value's own clock and the
    value, less its UTC offset when it has one. *)
Definition instant (d : datetime) : Z :=
  ((((toordinal d - 1) * 24 + Z.of_N (hour d)) * 60 + Z.of_N (minute d)
    - default 0 (utcoffset d)) * 60 + Z.of_N (second d)) * 1000000 +
  Z.of_N (microsecond d).

(** The order of two [datetime] values: two aware values compare as
    instants, two naive ones as calendar values; [None] stands for the
    [TypeError] of comparing a naive value with an aware one. *)
Definition datetime_cmp (a b : datetime) : option comparison :=
  match utcoffset a, utcoffset b with
  | Some _, Some _ | None, None => Some (instant a ?= instant b)
  | _, _ => None
  end.

Definition str_offset (o : option Z) : string :=
  match o with
  | None => ""
  | Some m =>
      (if m <? 0 then "-" else "+") +:+
      zfill 2 (str_int (Z.abs m / 60)) +:+ ":" +:+ zfill 2 (str_int (Z.abs m mod 60))
  end.

(** [str(dt)], that is [dt.isoformat(sep=' ')]. *)
Definition str_datetime (d : datetime) : string :=
  zfill 4 (str_N (year d)) +:+ "-" +:+ zfill 2 (str_N (month d)) +:+ "-" +:+
  zfill 2 (str_N (day d)) +:+ " " +:+ zfill 2 (str_N (hour d)) +:+ ":" +:+
  zfill 2 (str_N (minute d)) +:+ ":" +:+ zfill 2 (str_N (second d)) +:+
  (if (microsecond d =? 0)%N then "" else "." +:+ zfill 6 (str_N (microsecond d))) +:+
  str_offset (utcoffset d).

(** [f"{x}"] for a field that holds [None] or a [datetime]. *)
Definition str_opt_datetime (o : option datetime) : string :=
  match o with None => "None" | Some d => str_datetime d end.

End Py.

(** ** [hashlib.sha256(...).hexdigest()] *)
Module SHA256.

Definition mask32 : Z := 0xFFFFFFFF.
Definition add32 (x y : Z) : Z := Z.land (x + y) mask32.
Definition rotr (n x : Z) : Z :=
  Z.lor (Z.shiftr x n) (Z.land (Z.shiftl x (32 - n)) mask32).
Definition shr (n x : Z) : Z := Z.shiftr x n.
Definition not32 (x : Z) : Z := Z.lxor x mask32.

Definition Ch (x y z : Z) : Z := Z.lxor (Z.land x y) (Z.land (not32 x) z).
Definition Maj (x y z : Z) : Z :=
  Z.lxor (Z.lxor (Z.land x y) (Z.land x z)) (Z.land y z).
Definition Sigma0 (x : Z) : Z := Z.lxor (Z.lxor (rotr 2 x) (rotr 13 x)) (rotr 22 x).
Definition Sigma1 (x : Z) : Z := Z.lxor (Z.lxor (rotr 6 x) (rotr 11 x)) (rotr 25 x).
Definition sigma0 (x : Z) : Z := Z.lxor (Z.lxor (rotr 7 x) (rotr 18 x)) (shr 3 x).
Definition sigma1 (x : Z) : Z := Z.lxor (Z.lxor (rotr 17 x) (rotr 19 x)) (shr 10 x).

(** The round constants are the first 32 bits of the fractional parts of
    the cube roots of the first 64 primes, the initial state those of the
    square roots of the first 8. *)
Definition is_prime (n : Z) : bool :=
  forallb (fun d => negb (n mod Z.of_nat d =? 0)) (seq 2 (Z.to_nat n - 2)).

Definition primes : list Z :=
  Eval vm_compute in List.filter is_prime (List.map Z.of_nat (seq 2 310)).

(** The integer cube root of [target], one bit at a time from bit [n - 1]. *)
Fixpoint cube_root (n : nat) (target x : Z) : Z :=
  match n with
  | O => x
  | S k =>
      let y := x + 2 ^ Z.of_nat k in
      if y * y * y <=? target then cube_root k target y else cube_root k target x
  end.

Definition K : list Z :=
  Eval vm_compute in
    List.map (fun p => cube_root 40 (p * 2 ^ 96) 0 mod 2 ^ 32) primes.

Definition H0 : list Z :=
  Eval vm_compute in
    List.map (fun p => Z.sqrt (p * 2 ^ 64) mod 2 ^ 32) (firstn 8 primes).

(** Big-endian bytes of [x], [n] of them. *)
Fixpoint be_bytes (n : nat) (x : Z) : list Z :=
  match n with
  | O => []
  | S k => Z.land (Z.shiftr x (8 * Z.of_nat k)) 255 :: be_bytes k x
  end.

Definition pad (msg : list Z) : list Z :=
  let l := Z.of_nat (length msg) in
  msg ++ [128] ++ repeat 0 (Z.to_nat ((55 - l) mod 64)) ++ be_bytes 8 (8 * l).

(** Big-endian 32-bit words of a byte string, four bytes at a time. *)
Fixpoint words (fuel : nat) (bs : list Z) : list Z :=
  match fuel, bs with
  | S f, b0 :: b1 :: b2 :: b3 :: r =>
      (Z.shiftl b0 24 + Z.shiftl b1 16 + Z.shiftl b2 8 + b3) :: words f r
  | _, _ => []
  end.

(** The message schedule, newest word first. *)
Fixpoint schedule (n : nat) (rw : list Z) : list Z :=
  match n with
  | O => rw
  | S k =>
      let w := add32 (add32 (sigma1 (nth 1 rw 0)) (nth 6 rw 0))
                     (add32 (sigma0 (nth 14 rw 0)) (nth 15 rw 0)) in
      schedule k (w :: rw)
  end.

Record regs := { ra : Z; rb : Z; rc : Z; rd : Z; re : Z; rf : Z; rg : Z; rh : Z }.

Definition round (s : regs) (kw : Z * Z) : regs :=
  let t1 := add32 (add32 (add32 (rh s) (Sigma1 (re s))) (Ch (re s) (rf s) (rg s)))
                  (add32 (fst kw) (snd kw)) in
  let t2 := add32 (Sigma0 (ra s)) (Maj (ra s) (rb s) (rc s)) in
  {| ra := add32 t1 t2; rb := ra s; rc := rb s; rd := rc s;
     re := add32 (rd s) t1; rf := re s; rg := rf s; rh := rg s |}.

Definition compress (h : regs) (block : list Z) : regs :=
  let w := rev (schedule 48 (rev block)) in
  let s := fold_left round (combine K w) h in
  {| ra := add32 (ra h) (ra s); rb := add32 (rb h) (rb s);
     rc := add32 (rc h) (rc s); rd := add32 (rd h) (rd s);
     re := add32 (re h) (re s); rf := add32 (rf h) (rf s);
     rg := add32 (rg h) (rg s); rh := add32 (rh h) (rh s) |}.

Fixpoint blocks (fuel : nat) (ws : list Z) (h : regs) : regs :=
  match fuel, ws with
  | S f, _ :: _ => blocks f (skipn 16 ws) (compress h (firstn 16 ws))
  | _, _ => h
  end.

Definition init : regs :=
  {| ra := nth 0 H0 0; rb := nth 1 H0 0; rc := nth 2 H0 0; rd := nth 3 H0 0;
     re := nth 4 H0 0; rf := nth 5 H0 0; rg := nth 6 H0 0; rh := nth 7 H0 0 |}.

Definition digest (msg : list Z) : list Z :=
  let p := pad msg in
  let ws := words (length p) p in
  let h := blocks (length ws) ws init in
  flat_map (be_bytes 4) [ra h; rb h; rc h; rd h; re h; rf h; rg h; rh h].

Fixpoint hex (bs : list Z) : string :=
  match bs with
  | [] => EmptyString
  | b :: r => String (Py.hex_digit (b / 16)) (String (Py.hex_digit (b mod 16)) (hex r))
  end.

(** [hashlib.sha256(s.encode()).hexdigest()]. *)
Definition hexdigest (s : string) : string := hex (digest (Py.encode s)).

End SHA256.

(** ** [json.dumps(obj, sort_keys=True)] *)
Module Json.

#[warnings="-register-all"]
Inductive value : Type :=
| JNull
| JBool (b : bool)
| JInt (z : Z)
| JStr (s : string)
| JList (l : list value)
| JDict (l : list (string * value)).

Definition dquote : ascii := ascii_of_N 34.

Definition hex4 (n : Z) : string :=
  String (Py.hex_digit (n / 4096 mod 16)) (String (Py.hex_digit (n / 256 mod 16))
    (String (Py.hex_digit (n / 16 mod 16)) (String (Py.hex_digit (n mod 16)) EmptyString))).

(** One character under [ensure_ascii=True]. *)
Definition escape_char (c : ascii) : string :=
  let n := Z.of_N (N_of_ascii c) in
  if n =? 34 then String "\"%char (String dquote EmptyString)
  else if n =? 92 then "\\"
  else if n =? 10 then "\n"
  else if n =? 13 then "\r"
  else if n =? 9 then "\t"
  else if n =? 12 then "\f"
  else if n =? 8 then "\b"
  else if (n <? 32) || (126 <? n) then "\u" +:+ hex4 n
  else String c EmptyString.

Fixpoint escape (s : string) : string :=
  match s with
  | EmptyString => EmptyString
  | String a r => escape_char a +:+ escape r
  end.

Definition quote (s : string) : string :=
  String dquote (escape s +:+ String dquote EmptyString).

Fixpoint join (sep : string) (l : list string) : string :=
  match l with
  | [] => EmptyString
  | [x] => x
  | x :: r => x +:+ sep +:+ join sep r
  end.

(** [sorted(items)] by key; equal keys keep their order. *)
Fixpoint insert_item {A} (kv : string * A) (l : list (string * A)) : list (string * A) :=
  match l with
  | [] => [kv]
  | x :: r => if String.ltb (fst kv) (fst x) then kv :: l else x :: insert_item kv r
  end.

Definition sort_items {A} (l : list (string * A)) : list (string * A) :=
  fold_right insert_item [] l.

Definition render_item (kv : string * string) : string :=
  quote (fst kv) +:+ ": " +:+ snd kv.

Fixpoint dumps (v : value) : string :=
  match v with
  | JNull => "null"
  | JBool b => if b then "true" else "false"
  | JInt z => Py.str_int z
  | JStr s => quote s
  | JList l => "[" +:+ join ", " (List.map dumps l) +:+ "]"
  | JDict l =>
      "{" +:+
      join ", " (List.map render_item
                   (sort_items (List.map (fun kv => (fst kv, dumps (snd kv))) l))) +:+
      "}"
  end.

(** [repr(v)] of a parsed JSON value. *)
Fixpoint repr (v : value) : string :=
  match v with
  | JNull => "None"
  | JBool b => if b then "True" else "False"
  | JInt z => Py.str_int z
  | JStr s => Py.repr_str s
  | JList l => "[" +:+ join ", " (List.map repr l) +:+ "]"
  | JDict l =>
      "{" +:+
      join ", " (List.map (fun kv => Py.repr_str (fst kv) +:+ ": " +:+ repr (snd kv)) l) +:+
      "}"
  end.

(** [str(v)]: a [str] is itself, anything else reads as its [repr]. *)
Definition str (v : value) : string :=
  match v with
  | JStr s => s
  | _ => repr v
  end.

End Json.

(** ** Rows of the tables the workflow touches

    One module per Django model; a field keeps the name it has in the
    source.  A foreign key is the primary key of the row it points to, and
    an instance that was never saved has [pk = None]. *)

Module Privilege.
Record row := { codename : string; name : string; is_active : bool }.
End Privilege.

Module Role.
Record row := { role_name : string; is_active : bool }.
End Role.

Module User.
Record row := {
  id : Z;
  username : string;
  full_name : string;
  email : string;
  password : string;
  is_superuser : bool;
  is_active : bool;
  status : string;
  role : option Z;
  groups : list string
}.

Definition with_id (k : Z) (u : row) : row :=
  {| id := k; username := username u; full_name := full_name u; email := email u;
     password := password u; is_superuser := is_superuser u; is_active := is_active u;
     status := status u; role := role u; groups := groups u |}.
End User.

(** What [request.user] holds: Django's [AnonymousUser] or a row of the
    users table. *)
Inductive actor :=
| AnonymousUser
| Authenticated (u : User.row).

Definition is_authenticated (a : actor) : bool :=
  match a with AnonymousUser => false | Authenticated _ => true end.

Module Unit.
Record row := { unit_code : string; unit_name : string }.
End Unit.

Module Department.
Record row := { department_name : string; unit : Z }.
End Department.

Module Section.
Record row := { section_name : string; department : Z }.
End Section.

Module Storage.
Record row := {
  id : Z;
  unit : Z;
  room_name : string;
  rack_name : string;
  compartment_name : string;
  shelf_name : option string
}.

Definition with_id (k : Z) (r : row) : row :=
  {| id := k; unit := unit r; room_name := room_name r; rack_name := rack_name r;
     compartment_name := compartment_name r; shelf_name := shelf_name r |}.
End Storage.

Module Crate.
Record row := {
  pk : option Z;
  barcode : string;
  destruction_date : option string;
  created_by : Z;
  status : string;
  storage : option Z;
  unit : Z;
  department : Z;
  section : option Z;
  to_central : bool;
  to_be_retained : bool
}.

Definition with_pk (k : Z) (c : row) : row :=
  {| pk := Some k; barcode := barcode c; destruction_date := destruction_date c;
     created_by := created_by c; status := status c; storage := storage c;
     unit := unit c; department := department c; section := section c;
     to_central := to_central c; to_be_retained := to_be_retained c |}.

Definition with_barcode (b : string) (c : row) : row :=
  {| pk := pk c; barcode := b; destruction_date := destruction_date c;
     created_by := created_by c; status := status c; storage := storage c;
     unit := unit c; department := department c; section := section c;
     to_central := to_central c; to_be_retained := to_be_retained c |}.

Definition with_status (st : string) (c : row) : row :=
  {| pk := pk c; barcode := barcode c; destruction_date := destruction_date c;
     created_by := created_by c; status := st; storage := storage c;
     unit := unit c; department := department c; section := section c;
     to_central := to_central c; to_be_retained := to_be_retained c |}.

Definition with_storage (sto : option Z) (c : row) : row :=
  {| pk := pk c; barcode := barcode c; destruction_date := destruction_date c;
     created_by := created_by c; status := status c; storage := sto;
     unit := unit c; department := department c; section := section c;
     to_central := to_central c; to_be_retained := to_be_retained c |}.
End Crate.

Module Request.
Record row := {
  pk : option Z;
  request_type : string;
  crate : Z;
  unit : Z;
  approval_date : option Py.datetime;
  issue_date : option Py.datetime;
  return_date : option Py.datetime;
  expected_return_date : option Py.datetime;
  approved_by : option Z;
  allocation_date : option Py.datetime;
  allocated_by : option Z;
  status : string;
  withdrawn_by : option Z;
  purpose : string;
  full_withdrawal : bool;
  issued_by : option Z;
  updated_at : option Py.datetime
}.

Definition with_pk (k : Z) (r : row) : row :=
  {| pk := Some k; request_type := request_type r; crate := crate r; unit := unit r;
     approval_date := approval_date r; issue_date := issue_date r;
     return_date := return_date r; expected_return_date := expected_return_date r;
     approved_by := approved_by r; allocation_date := allocation_date r;
     allocated_by := allocated_by r; status := status r; withdrawn_by := withdrawn_by r;
     purpose := purpose r; full_withdrawal := full_withdrawal r;
     issued_by := issued_by r; updated_at := updated_at r |}.

Definition with_status (st : string) (r : row) : row :=
  {| pk := pk r; request_type := request_type r; crate := crate r; unit := unit r;
     approval_date := approval_date r; issue_date := issue_date r;
     return_date := return_date r; expected_return_date := expected_return_date r;
     approved_by := approved_by r; allocation_date := allocation_date r;
     allocated_by := allocated_by r; status := st; withdrawn_by := withdrawn_by r;
     purpose := purpose r; full_withdrawal := full_withdrawal r;
     issued_by := issued_by r; updated_at := updated_at r |}.

Definition with_approval (by_ : option Z) (at_ : option Py.datetime) (r : row) : row :=
  {| pk := pk r; request_type := request_type r; crate := crate r; unit := unit r;
     approval_date := at_; issue_date := issue_date r;
     return_date := return_date r; expected_return_date := expected_return_date r;
     approved_by := by_; allocation_date := allocation_date r;
     allocated_by := allocated_by r; status := status r; withdrawn_by := withdrawn_by r;
     purpose := purpose r; full_withdrawal := full_withdrawal r;
     issued_by := issued_by r; updated_at := updated_at r |}.

Definition with_allocation (by_ : option Z) (at_ : option Py.datetime) (r : row) : row :=
  {| pk := pk r; request_type := request_type r; crate := crate r; unit := unit r;
     approval_date := approval_date r; issue_date := issue_date r;
     return_date := return_date r; expected_return_date := expected_return_date r;
     approved_by := approved_by r; allocation_date := at_;
     allocated_by := by_; status := status r; withdrawn_by := withdrawn_by r;
     purpose := purpose r; full_withdrawal := full_withdrawal r;
     issued_by := issued_by r; updated_at := updated_at r |}.

Definition with_issue (by_ : option Z) (at_ : option Py.datetime) (r : row) : row :=
  {| pk := pk r; request_type := request_type r; crate := crate r; unit := unit r;
     approval_date := approval_date r; issue_date := at_;
     return_date := return_date r; expected_return_date := expected_return_date r;
     approved_by := approved_by r; allocation_date := allocation_date r;
     allocated_by := allocated_by r; status := status r; withdrawn_by := withdrawn_by r;
     purpose := purpose r; full_withdrawal := full_withdrawal r;
     issued_by := by_; updated_at := updated_at r |}.

Definition with_return_date (at_ : option Py.datetime) (r : row) : row :=
  {| pk := pk r; request_type := request_type r; crate := crate r; unit := unit r;
     approval_date := approval_date r; issue_date := issue_date r;
     return_date := at_; expected_return_date := expected_return_date r;
     approved_by := approved_by r; allocation_date := allocation_date r;
     allocated_by := allocated_by r; status := status r; withdrawn_by := withdrawn_by r;
     purpose := purpose r; full_withdrawal := full_withdrawal r;
     issued_by := issued_by r; updated_at := updated_at r |}.

Definition with_updated_at (at_ : option Py.datetime) (r : row) : row :=
  {| pk := pk r; request_type := request_type r; crate := crate r; unit := unit r;
     approval_date := approval_date r; issue_date := issue_date r;
     return_date := return_date r; expected_return_date := expected_return_date r;
     approved_by := approved_by r; allocation_date := allocation_date r;
     allocated_by := allocated_by r; status := status r; withdrawn_by := withdrawn_by r;
     purpose := purpose r; full_withdrawal := full_withdrawal r;
     issued_by := issued_by r; updated_at := at_ |}.
Definition with_purpose (p : string) (r : row) : row :=
  {| pk := pk r; request_type := request_type r; crate := crate r; unit := unit r;
     approval_date := approval_date r; issue_date := issue_date r;
     return_date := return_date r; expected_return_date := expected_return_date r;
     approved_by := approved_by r; allocation_date := allocation_date r;
     allocated_by := allocated_by r; status := status r; withdrawn_by := withdrawn_by r;
     purpose := p; full_withdrawal := full_withdrawal r;
     issued_by := issued_by r; updated_at := updated_at r |}.

Definition with_expected_return_date (d : option Py.datetime) (r : row) : row :=
  {| pk := pk r; request_type := request_type r; crate := crate r; unit := unit r;
     approval_date := approval_date r; issue_date := issue_date r;
     return_date := return_date r; expected_return_date := d;
     approved_by := approved_by r; allocation_date := allocation_date r;
     allocated_by := allocated_by r; status := status r; withdrawn_by := withdrawn_by r;
     purpose := purpose r; full_withdrawal := full_withdrawal r;
     issued_by := issued_by r; updated_at := updated_at r |}.

Definition with_full_withdrawal (b : bool) (r : row) : row :=
  {| pk := pk r; request_type := request_type r; crate := crate r; unit := unit r;
     approval_date := approval_date r; issue_date := issue_date r;
     return_date := return_date r; expected_return_date := expected_return_date r;
     approved_by := approved_by r; allocation_date := allocation_date r;
     allocated_by := allocated_by r; status := status r; withdrawn_by := withdrawn_by r;
     purpose := purpose r; full_withdrawal := b;
     issued_by := issued_by r; updated_at := updated_at r |}.

End Request.

Module SendBack.
Record row := {
  request : Z;
  reason : string;
  created_at : option Py.datetime;
  created_by : option Z;
  sendback_type : string
}.
End SendBack.

Module AuditTrail.
Record row := {
  pk : option Z;
  action_time : option Py.datetime;
  action : string;
  user : option Z;
  attempted_username : string;
  request_id : option Z;
  storage_id : option Z;
  crate_id : option Z;
  document_id : option Z;
  message : string;
  ip_address : option string;
  user_agent : option string
}.

Definition with_pk_time (k : Z) (t : Py.datetime) (a : row) : row :=
  {| pk := Some k; action_time := Some t; action := action a; user := user a;
     attempted_username := attempted_username a; request_id := request_id a;
     storage_id := storage_id a; crate_id := crate_id a; document_id := document_id a;
     message := message a; ip_address := ip_address a; user_agent := user_agent a |}.
End AuditTrail.

Module DigitalSignature.
Record row := {
  pk : option Z;
  signer : Z;
  signer_username : string;
  signer_full_name : string;
  signer_role : string;
  signer_email : string;
  password_verified_at : option Py.datetime;
  authentication_method : string;
  signature_type : string;
  signature_purpose : string;
  signature_timestamp : option Py.datetime;
  signed_model : string;
  signed_record_id : Z;
  signed_record_description : string;
  data_hash : string;
  signature_data : Json.value;
  signature_hash : string;
  ip_address : option string;
  user_agent : string;
  is_valid : bool;
  invalidation_reason : string;
  invalidated_at : option Py.datetime;
  invalidated_by : option Z;
  audit_trail_id : option Z
}.

Definition with_signature_hash (h : string) (d : row) : row :=
  {| pk := pk d; signer := signer d; signer_username := signer_username d;
     signer_full_name := signer_full_name d; signer_role := signer_role d;
     signer_email := signer_email d; password_verified_at := password_verified_at d;
     authentication_method := authentication_method d;
     signature_type := signature_type d; signature_purpose := signature_purpose d;
     signature_timestamp := signature_timestamp d; signed_model := signed_model d;
     signed_record_id := signed_record_id d;
     signed_record_description := signed_record_description d;
     data_hash := data_hash d; signature_data := signature_data d;
     signature_hash := h; ip_address := ip_address d; user_agent := user_agent d;
     is_valid := is_valid d; invalidation_reason := invalidation_reason d;
     invalidated_at := invalidated_at d; invalidated_by := invalidated_by d;
     audit_trail_id := audit_trail_id d |}.

(** What the inherited [Model.save] does to the instance on insert: the
    two [auto_now_add] fields and the primary key are filled in. *)
Definition with_insert (k : Z) (t : Py.datetime) (d : row) : row :=
  {| pk := Some k; signer := signer d; signer_username := signer_username d;
     signer_full_name := signer_full_name d; signer_role := signer_role d;
     signer_email := signer_email d; password_verified_at := Some t;
     authentication_method := authentication_method d;
     signature_type := signature_type d; signature_purpose := signature_purpose d;
     signature_timestamp := Some t; signed_model := signed_model d;
     signed_record_id := signed_record_id d;
     signed_record_description := signed_record_description d;
     data_hash := data_hash d; signature_data := signature_data d;
     signature_hash := signature_hash d; ip_address := ip_address d;
     user_agent := user_agent d;
     is_valid := is_valid d; invalidation_reason := invalidation_reason d;
     invalidated_at := invalidated_at d; invalidated_by := invalidated_by d;
     audit_trail_id := audit_trail_id d |}.
End DigitalSignature.

(** ** The store and the monad the code runs in *)

Record Store := {
  now : Py.datetime;
  uuid_source : nat -> string;
  uuid_count : nat;
  users : gmap Z User.row;
  roles : gmap Z Role.row;
  privileges : gmap Z Privilege.row;
  role_privileges : list (Z * Z);
  units : gmap Z Unit.row;
  departments : gmap Z Department.row;
  sections : gmap Z Section.row;
  storages : gmap Z Storage.row;
  crates : gmap Z Crate.row;
  crate_documents : list (Z * Z);
  requests : gmap Z Request.row;
  documents : gset Z;
  request_documents : list (Z * Z);
  sendbacks : list SendBack.row;
  audit_trail : gmap Z AuditTrail.row;
  digital_signatures : gmap Z DigitalSignature.row
}.

Definition set_uuid_count (n : nat) (s : Store) : Store :=
  {| now := now s; uuid_source := uuid_source s; uuid_count := n; users := users s; roles := roles s; privileges := privileges s;
     role_privileges := role_privileges s;
     units := units s; departments := departments s; sections := sections s;
     storages := storages s; crates := crates s; crate_documents := crate_documents s;
     requests := requests s; documents := documents s;
     request_documents := request_documents s; sendbacks := sendbacks s; audit_trail := audit_trail s;
     digital_signatures := digital_signatures s |}.

Definition set_crates (m : gmap Z Crate.row) (s : Store) : Store :=
  {| now := now s; uuid_source := uuid_source s; uuid_count := uuid_count s;
     users := users s; roles := roles s; privileges := privileges s;
     role_privileges := role_privileges s; units := units s; departments := departments s;
     sections := sections s; storages := storages s; crates := m;
     crate_documents := crate_documents s; requests := requests s; documents := documents s;
     request_documents := request_documents s;
     sendbacks := sendbacks s; audit_trail := audit_trail s;
     digital_signatures := digital_signatures s |}.

Definition set_requests (m : gmap Z Request.row) (s : Store) : Store :=
  {| now := now s; uuid_source := uuid_source s; uuid_count := uuid_count s;
     users := users s; roles := roles s; privileges := privileges s;
     role_privileges := role_privileges s; units := units s; departments := departments s;
     sections := sections s; storages := storages s; crates := crates s;
     crate_documents := crate_documents s; requests := m;
     documents := documents s; request_documents := request_documents s;
     sendbacks := sendbacks s; audit_trail := audit_trail s;
     digital_signatures := digital_signatures s |}.

Definition set_sendbacks (l : list SendBack.row) (s : Store) : Store :=
  {| now := now s; uuid_source := uuid_source s; uuid_count := uuid_count s;
     users := users s; roles := roles s; privileges := privileges s;
     role_privileges := role_privileges s; units := units s; departments := departments s;
     sections := sections s; storages := storages s; crates := crates s;
     crate_documents := crate_documents s; requests := requests s; documents := documents s;
     request_documents := request_documents s;
     sendbacks := l; audit_trail := audit_trail s;
     digital_signatures := digital_signatures s |}.

Definition set_audit_trail (m : gmap Z AuditTrail.row) (s : Store) : Store :=
  {| now := now s; uuid_source := uuid_source s; uuid_count := uuid_count s;
     users := users s; roles := roles s; privileges := privileges s;
     role_privileges := role_privileges s; units := units s; departments := departments s;
     sections := sections s; storages := storages s; crates := crates s;
     crate_documents := crate_documents s; requests := requests s; documents := documents s;
     request_documents := request_documents s;
     sendbacks := sendbacks s; audit_trail := m;
     digital_signatures := digital_signatures s |}.

Definition set_digital_signatures (m : gmap Z DigitalSignature.row) (s : Store) : Store :=
  {| now := now s; uuid_source := uuid_source s; uuid_count := uuid_count s;
     users := users s; roles := roles s; privileges := privileges s;
     role_privileges := role_privileges s; units := units s; departments := departments s;
     sections := sections s; storages := storages s; crates := crates s;
     crate_documents := crate_documents s; requests := requests s; documents := documents s;
     request_documents := request_documents s;
     sendbacks := sendbacks s; audit_trail := audit_trail s;
     digital_signatures := m |}.

Definition set_request_documents (l : list (Z * Z)) (s : Store) : Store :=
  {| now := now s; uuid_source := uuid_source s; uuid_count := uuid_count s;
     users := users s; roles := roles s; privileges := privileges s;
     role_privileges := role_privileges s; units := units s;
     departments := departments s; sections := sections s; storages := storages s;
     crates := crates s; crate_documents := crate_documents s; requests := requests s;
     documents := documents s; request_documents := l;
     sendbacks := sendbacks s; audit_trail := audit_trail s;
     digital_signatures := digital_signatures s |}.

(** The exceptions the modelled code raises. *)
Inductive exn :=
| ValueError (msg : string)
| IntegrityError (msg : string)
| DoesNotExist (model : string)
| AttributeError (msg : string)
| TypeError (msg : string).

(** A computation reads and writes the store and either returns or raises.
    Writes made before an exception stay in the store: the connection
    commits every statement on its own (Django's autocommit; the settings in
    [config/settings_production.py] do not turn on [ATOMIC_REQUESTS]) unless
    the statement runs inside [atomic]. *)
Definition M (A : Type) : Type := Store -> (exn + A) * Store.

#[global] Instance M_ret : MRet M := fun A x s => (inr x, s).

#[global] Instance M_bind : MBind M := fun A B f m s =>
  match m s with
  | (inl e, s') => (inl e, s')
  | (inr x, s') => f x s'
  end.

Definition raise {A} (e : exn) : M A := fun s => (inl e, s).
Definition get_store : M Store := fun s => (inr s, s).
Definition put_store (s' : Store) : M unit := fun _ => (inr tt, s').

(** [with transaction.atomic(): ...]: an exception restores the store. *)
Definition atomic {A} (m : M A) : M A := fun s =>
  match m s with
  | (inl e, _) => (inl e, s)
  | r => r
  end.

(** [try: ... except Exception as e: ...]: the handler runs in the store
    the body left behind. *)
Definition try_except {A} (m : M A) (handler : exn -> M A) : M A := fun s =>
  match m s with
  | (inl e, s') => handler e s'
  | r => r
  end.

(** [str(e)]; a missing row reads as Django words it. *)
Definition str_exn (e : exn) : string :=
  match e with
  | ValueError msg => msg
  | IntegrityError msg => msg
  | DoesNotExist model => model +:+ " matching query does not exist."
  | AttributeError msg => msg
  | TypeError msg => msg
  end.

(** [timezone.now()]. *)
Definition timezone_now : M Py.datetime := fun s => (inr (now s), s).

(** [uuid.uuid4().hex]. *)
Definition uuid4_hex : M string := fun s =>
  (inr (uuid_source s (uuid_count s)), set_uuid_count (S (uuid_count s)) s).

(** [Model.objects.get(pk=k)] on a table: the instance carries the key it
    was found under as its primary key ([with_pk] writes it). *)
Definition objects_get {A} (model : string) (table : Store -> gmap Z A)
    (with_pk : Z -> A -> A) (k : Z) : M A :=
  fun s => match table s !! k with
           | Some r => (inr (with_pk k r), s)
           | None => (inl (DoesNotExist model), s)
           end.

(** The same lookup where the source tells a missing row apart itself
    ([try: ... except Model.DoesNotExist]). *)
Definition find {A} (table : gmap Z A) (with_pk : Z -> A -> A) (k : Z) : option A :=
  with_pk k <$> table !! k.

(** The next value of an [AutoField]: above every key in use. *)
Definition max_pk {A} (m : gmap Z A) : Z :=
  fold_right Z.max 0 (List.map fst (map_to_list m)).

Definition fresh_pk {A} (m : gmap Z A) : Z := max_pk m + 1.

(** Rows of a table as a list, the way a queryset yields them. *)
Definition rows {A} (m : gmap Z A) : list A := List.map snd (map_to_list m).

(** The instances a queryset yields, each with its key as primary key. *)
Definition instances {A} (with_pk : Z -> A -> A) (m : gmap Z A) : list A :=
  List.map (fun kr : Z * A => with_pk (fst kr) (snd kr)) (map_to_list m).

(** ** HTTP requests and responses *)

(** [request.data] after parsing: character and integer fields arrive as
    JSON values and are validated by the serializers below;
    [expected_return_date], [full_withdrawal] and [document_ids] hold the
    values their fields ([DateTimeField], [BooleanField], [ListField]) put
    into the validated data. *)
Record Payload := {
  digital_signature : option Json.value;
  reason : option Json.value;
  storage : option Json.value;
  crate_id : option Json.value;
  purpose : option Json.value;
  expected_return_date : option Py.datetime;
  full_withdrawal : option bool;
  document_ids : option (list Z)
}.

Record HttpRequest := {
  user : actor;
  data : Payload;
  REMOTE_ADDR : option string;
  HTTP_X_FORWARDED_FOR : option string;
  HTTP_USER_AGENT : option string
}.

Record Response := { status_code : Z; body : list (string * Json.value) }.

Definition HTTP_200_OK : Z := 200.
Definition HTTP_201_CREATED : Z := 201.
Definition HTTP_400_BAD_REQUEST : Z := 400.
Definition HTTP_401_UNAUTHORIZED : Z := 401.
Definition HTTP_403_FORBIDDEN : Z := 403.
Definition HTTP_404_NOT_FOUND : Z := 404.
Definition HTTP_500_INTERNAL_SERVER_ERROR : Z := 500.

(** [str(x)] of a primary key that may still be [None]. *)
Definition str_pk (o : option Z) : string :=
  match o with Some k => Py.str_int k | None => "None" end.

Definition json_pk (o : option Z) : Json.value :=
  match o with Some k => Json.JInt k | None => Json.JNull end.

(** The row behind [request.user]; [AnonymousUser] has none of the
    attributes of the custom user model. *)
Definition the_user (request : HttpRequest) : M User.row :=
  match user request with
  | Authenticated u => mret u
  | AnonymousUser => raise (AttributeError "AnonymousUser")
  end.

(** ** [apps/auth/request_utils]: client address and user agent *)
Module RequestUtils.

Fixpoint first_segment (sep : ascii) (s : string) : string :=
  match s with
  | EmptyString => EmptyString
  | String a r => if Ascii.eqb a sep then EmptyString else String a (first_segment sep r)
  end.

Definition get_client_ip (request : HttpRequest) : option string :=
  match HTTP_X_FORWARDED_FOR request with
  | Some x => if Py.truthy_str x then Some (first_segment ","%char x) else REMOTE_ADDR request
  | None => REMOTE_ADDR request
  end.

Definition get_user_agent (request : HttpRequest) : string :=
  Py.take 500 (default "" (HTTP_USER_AGENT request)).

End RequestUtils.

(** ** [apps/auth/role_utils.py] and [apps/auth/permissions.py] *)
Module Permissions.

(** [Role.get_privilege_codenames]: codenames of the active privileges
    linked to the role through [role_privileges]. *)
Definition get_privilege_codenames (role_id : Z) : M (list string) :=
  s ← get_store;
  mret (omap (fun rp : Z * Z =>
                if fst rp =? role_id then
                  match privileges s !! snd rp with
                  | Some p => if Privilege.is_active p then Some (Privilege.codename p) else None
                  | None => None
                  end
                else None)
             (role_privileges s)).

(** [hasattr(user, 'role') and user.role]: the role row, when there is one. *)
Definition user_role (a : actor) : M (option (Z * Role.row)) :=
  s ← get_store;
  mret (match a with
        | AnonymousUser => None
        | Authenticated u =>
            match User.role u with
            | Some rid => match roles s !! rid with Some r => Some (rid, r) | None => None end
            | None => None
            end
        end).

Definition actor_is_superuser (a : actor) : bool :=
  match a with AnonymousUser => false | Authenticated u => User.is_superuser u end.

Definition actor_groups (a : actor) : list string :=
  match a with AnonymousUser => [] | Authenticated u => User.groups u end.

Definition has_privilege (user : option actor) (privilege_codename : string) : M bool :=
  match user with
  | None => mret false
  | Some a =>
      if negb (is_authenticated a) then mret false
      else if actor_is_superuser a then mret true
      else
        r ← user_role a;
        match r with
        | Some (rid, _) =>
            codenames ← get_privilege_codenames rid;
            mret (bool_decide (privilege_codename ∈ codenames))
        | None => mret false
        end
  end.

Definition has_role (user : option actor) (role_name : string) : M bool :=
  match user with
  | None => mret false
  | Some a =>
      if negb (is_authenticated a) then mret false
      else if bool_decide (role_name ∈ actor_groups a) then mret true
      else
        r ← user_role a;
        mret (match r with
              | Some (_, row) => String.eqb (Role.role_name row) role_name
              | None => false
              end)
  end.

Definition is_section_head (user : option actor) : M bool := has_role user "Section Head".
Definition is_store_head (user : option actor) : M bool := has_role user "Store Head".
Definition is_regular_user (user : option actor) : M bool := has_role user "User".

(** A permission class: its [has_permission] and its [message]. *)
Record permission := {
  has_permission : HttpRequest -> M bool;
  message : string
}.

Definition default_message : string :=
  "You do not have permission to perform this action.".

Definition IsAuthenticated : permission :=
  {| has_permission := fun request => mret (is_authenticated (user request));
     message := default_message |}.

Definition or_else (a b : M bool) : M bool :=
  a ≫= fun x : bool => if x then mret true else b.

Definition CanCreateRequests : permission :=
  {| has_permission := fun request =>
       or_else (has_privilege (Some (user request)) "create_request")
               (is_regular_user (Some (user request)));
     message := "You do not have permission to create requests." |}.

Definition CanApproveRequests : permission :=
  {| has_permission := fun request =>
       or_else (has_privilege (Some (user request)) "approve_request")
               (is_section_head (Some (user request)));
     message := "You do not have permission to approve or reject requests." |}.

Definition CanAllocateStorage : permission :=
  {| has_permission := fun request =>
       or_else (has_privilege (Some (user request)) "allocate_storage")
               (is_store_head (Some (user request)));
     message := "You do not have permission to allocate storage." |}.

Definition IsActiveUser : permission :=
  {| has_permission := fun request =>
       mret (match user request with
             | Authenticated u => String.eqb (User.status u) "Active"
             | AnonymousUser => false
             end);
     message := "Your account is not active. Please contact administrator." |}.

(** [is_system_admin] of [role_utils.py]. *)
Definition is_system_admin (user : option actor) : M bool :=
  match user with
  | None => mret false
  | Some a =>
      if negb (is_authenticated a) then mret false
      else if actor_is_superuser a then mret true
      else has_role user "System Admin"
  end.

Definition IsSystemAdmin : permission :=
  {| has_permission := fun request => is_system_admin (Some (user request));
     message := "Only System Admins can perform this action." |}.

Definition IsSectionHead : permission :=
  {| has_permission := fun request => is_section_head (Some (user request));
     message := "Only Section Heads can perform this action." |}.

Definition IsStoreHead : permission :=
  {| has_permission := fun request => is_store_head (Some (user request));
     message := "Only Store Heads can perform this action." |}.

Definition IsUser : permission :=
  {| has_permission := fun request => is_regular_user (Some (user request));
     message := "Only Users can perform this action." |}.

Definition CanManageUsers : permission :=
  {| has_permission := fun request =>
       or_else (has_privilege (Some (user request)) "manage_users")
               (is_system_admin (Some (user request)));
     message := "You do not have permission to manage users." |}.

Definition CanManageMasterData : permission :=
  {| has_permission := fun request =>
       or_else (has_privilege (Some (user request)) "manage_master_data")
               (is_system_admin (Some (user request)));
     message := "You do not have permission to manage master data." |}.

(** [HasPrivilege]; [privilege_codename] is the attribute of the view, when
    the view has one. *)
Definition HasPrivilege (privilege_codename : option string) : permission :=
  {| has_permission := fun request =>
       match privilege_codename with
       | Some c => if Py.truthy_str c then has_privilege (Some (user request)) c
                   else mret false
       | None => mret false
       end;
     message := "You do not have the required privilege for this action." |}.

Definition CanViewReports : permission :=
  {| has_permission := fun request =>
       or_else (has_privilege (Some (user request)) "view_reports")
               (mret (is_authenticated (user request)));
     message := "You do not have permission to view reports." |}.

Definition CanExportReports : permission :=
  {| has_permission := fun request =>
       or_else (has_privilege (Some (user request)) "export_reports")
               (is_system_admin (Some (user request)));
     message := "You do not have permission to export reports." |}.

Definition CanViewAuditTrails : permission :=
  {| has_permission := fun request =>
       or_else (has_privilege (Some (user request)) "view_audit_trails")
               (mret (is_authenticated (user request)));
     message := "You do not have permission to view audit trails." |}.

Definition CanManageRoles : permission :=
  {| has_permission := fun request =>
       or_else (has_privilege (Some (user request)) "manage_roles")
               (is_system_admin (Some (user request)));
     message := "You do not have permission to manage roles." |}.

Definition CanReallocateStorage : permission :=
  {| has_permission := fun request =>
       or_else (has_privilege (Some (user request)) "reallocate_storage")
               (is_store_head (Some (user request)));
     message := "You do not have permission to reallocate storage." |}.

Definition CanIssueWithdrawal : permission :=
  {| has_permission := fun request =>
       or_else (has_privilege (Some (user request)) "issue_withdrawal")
               (is_store_head (Some (user request)));
     message := "You do not have permission to issue withdrawals." |}.

Definition CanConfirmDestruction : permission :=
  {| has_permission := fun request =>
       or_else (has_privilege (Some (user request)) "confirm_destruction")
               (is_store_head (Some (user request)));
     message := "You do not have permission to confirm destruction." |}.

End Permissions.

(** ** [apps/auth/models_signature.py]: [DigitalSignature] *)
Module Signature.
Import DigitalSignature.

Section WithHash.

(** [hashlib.sha256(s.encode()).hexdigest()]; [SHA256.hexdigest] is the
    function CPython computes. *)
Variable sha256_hexdigest : string -> string.

(** The string both [save] and [verify_integrity] hash. *)
Definition signature_string (self : row) : string :=
  signer_username self +:+ "|" +:+ signer_full_name self +:+ "|" +:+
  signer_role self +:+ "|" +:+ signature_type self +:+ "|" +:+
  Py.str_opt_datetime (signature_timestamp self) +:+ "|" +:+
  signed_model self +:+ "|" +:+ Py.str_int (signed_record_id self) +:+ "|" +:+
  data_hash self.

(** [data_hash] and [signature_hash] are declared [unique=True]. *)
Definition hash_taken (self : row) (others : list row) : bool :=
  existsb (fun r => String.eqb (data_hash r) (data_hash self)
                    || String.eqb (signature_hash r) (signature_hash self)) others.

(** The inherited [Model.save]: an instance without a primary key is
    inserted under a fresh one, and the [auto_now_add] timestamps are set on
    the instance during that insert; an instance with a primary key
    replaces the row of that key, or is inserted under it when there is no
    such row. *)
Definition Model_save (self : row) : M row := fun s =>
  let table := digital_signatures s in
  match pk self with
  | None =>
      let k := fresh_pk table in
      let self' := with_insert k (now s) self in
      if hash_taken self' (rows table)
      then (inl (IntegrityError "digital_signatures"), s)
      else (inr self', set_digital_signatures (<[k := self']> table) s)
  | Some k =>
      let self' := match table !! k with
                   | Some _ => self
                   | None => with_insert k (now s) self
                   end in
      if hash_taken self' (rows (delete k table))
      then (inl (IntegrityError "digital_signatures"), s)
      else (inr self', set_digital_signatures (<[k := self']> table) s)
  end.

(** [DigitalSignature.save]. *)
Definition save (self : row) : M row :=
  if Py.truthy_pk (pk self) then
    raise (ValueError
      "Digital signatures are immutable and cannot be modified after creation")
  else
    let self := with_signature_hash (sha256_hexdigest (signature_string self)) self in
    Model_save self.

(** [DigitalSignature.delete] is not overridden: the inherited
    [Model.delete] removes the row. *)
Definition delete (self : row) : M unit := fun s =>
  match pk self with
  | None => (inl (ValueError "DigitalSignature object can't be deleted because its id attribute is set to None."), s)
  | Some k => (inr tt, set_digital_signatures (base.delete k (digital_signatures s)) s)
  end.

(** [DigitalSignature.create_signature]. *)
Definition create_signature (user : User.row) (signature_type purpose signed_model : string)
    (signed_record_id : Z) (signed_data : Json.value) (description : string)
    (request : option HttpRequest) : M row :=
  let data_string := Json.dumps signed_data in
  let data_hash := sha256_hexdigest data_string in
  s ← get_store;
  let signature :=
    {| pk := None;
       signer := User.id user;
       signer_username := User.username user;
       signer_full_name := User.full_name user;
       signer_role :=
         match User.role user ≫= fun rid => roles s !! rid with
         | Some r => Role.role_name r
         | None => "No Role"
         end;
       signer_email := User.email user;
       password_verified_at := None;
       authentication_method := "PASSWORD";
       signature_type := signature_type;
       signature_purpose := purpose;
       signature_timestamp := None;
       signed_model := signed_model;
       signed_record_id := signed_record_id;
       signed_record_description := description;
       data_hash := data_hash;
       signature_data := signed_data;
       signature_hash := "";
       ip_address := request ≫= REMOTE_ADDR;
       user_agent :=
         match request with
         | Some r => Py.take 500 (default "" (HTTP_USER_AGENT r))
         | None => ""
         end;
       is_valid := true;
       invalidation_reason := "";
       invalidated_at := None;
       invalidated_by := None;
       audit_trail_id := None |} in
  save signature.

(** [DigitalSignature.verify_integrity]. *)
Definition verify_integrity (self : row) : bool * string :=
  let data_string := Json.dumps (signature_data self) in
  let calculated_hash := sha256_hexdigest data_string in
  if negb (String.eqb calculated_hash (data_hash self)) then
    (false, "Data hash mismatch - signature data has been tampered with")
  else
    let calculated_sig_hash := sha256_hexdigest (signature_string self) in
    if negb (String.eqb calculated_sig_hash (signature_hash self)) then
      (false, "Signature hash mismatch - signature has been altered")
    else if negb (is_valid self) then
      (false, "Signature invalidated: " +:+ invalidation_reason self)
    else (true, "Signature is valid and intact").

End WithHash.
End Signature.

(** ** [apps/audit/models.py] and [apps/audit/utils.py] *)
Module Audit.
Import AuditTrail.

(** The inherited [Model.save] for an instance without a primary key:
    insert under a fresh key, [action_time] set by [auto_now_add].
    [user_agent] is a column without [null=True]. *)
Definition Model_save (self : row) : M row := fun s =>
  match user_agent self with
  | None => (inl (IntegrityError "audit_trail.user_agent"), s)
  | Some _ =>
      let k := fresh_pk (audit_trail s) in
      let self' := with_pk_time k (now s) self in
      (inr self', set_audit_trail (<[k := self']> (audit_trail s)) s)
  end.

(** [AuditTrail.save]. *)
Definition save (self : row) : M row :=
  match pk self with
  | Some _ =>
      raise (ValueError
        "Audit trail records cannot be modified once created (21 CFR Part 11 compliance)")
  | None => Model_save self
  end.

(** [AuditTrail.delete]. *)
Definition delete (self : row) : M unit :=
  raise (ValueError "Audit trail records cannot be deleted (21 CFR Part 11 compliance)").

(** [log_audit_event]; the logger calls write no state. *)
Definition log_audit_event (user : option User.row) (action message : string)
    (request : option HttpRequest) (request_id storage_id crate_id document_id : option Z)
    (attempted_username : option string) : M row :=
  let ip_address := request ≫= RequestUtils.get_client_ip in
  let user_agent := RequestUtils.get_user_agent <$> request in
  let username_to_record :=
    match user with
    | Some u => User.username u
    | None => default "" attempted_username
    end in
  save {| pk := None; action_time := None; action := action;
          AuditTrail.user := User.id <$> user;
          AuditTrail.attempted_username := username_to_record;
          AuditTrail.request_id := request_id; AuditTrail.storage_id := storage_id;
          AuditTrail.crate_id := crate_id; AuditTrail.document_id := document_id;
          AuditTrail.message := message; AuditTrail.ip_address := ip_address;
          AuditTrail.user_agent := user_agent |}.

End Audit.

(** ** [apps/storage/models.py] and [apps/documents/models.py] *)
Module Documents.

(** [Storage.get_full_location]. *)
Definition get_full_location (self : Storage.row) : M string :=
  u ← objects_get "Unit" units (fun _ r => r) (Storage.unit self);
  mret (match Storage.shelf_name self with
        | Some sh =>
            if Py.truthy_str sh then
              Unit.unit_code u +:+ "-" +:+ Storage.room_name self +:+ "-" +:+
              Storage.rack_name self +:+ Storage.compartment_name self +:+ sh
            else
              Unit.unit_code u +:+ "-" +:+ Storage.room_name self +:+ "-" +:+
              Storage.rack_name self +:+ Storage.compartment_name self
        | None =>
            Unit.unit_code u +:+ "-" +:+ Storage.room_name self +:+ "-" +:+
            Storage.rack_name self +:+ Storage.compartment_name self
        end).

(** [Crate.get_document_count]. *)
Definition get_document_count (self : Crate.row) : M Z :=
  s ← get_store;
  mret (Z.of_nat (length (List.filter (fun cd : Z * Z =>
                                          bool_decide (Some (fst cd) = Crate.pk self))
                                       (crate_documents s)))).

(** [barcode] is declared [unique=True]. *)
Definition barcode_taken (b : string) (others : list Crate.row) : bool :=
  existsb (fun r => String.eqb (Crate.barcode r) b) others.

(** The inherited [Model.save] of a crate. *)
Definition Model_save (self : Crate.row) : M Crate.row := fun s =>
  let table := crates s in
  match Crate.pk self with
  | None =>
      let k := fresh_pk table in
      if barcode_taken (Crate.barcode self) (rows table)
      then (inl (IntegrityError "crates.barcode"), s)
      else (inr (Crate.with_pk k self),
            set_crates (<[k := Crate.with_pk k self]> table) s)
  | Some k =>
      if barcode_taken (Crate.barcode self) (rows (delete k table))
      then (inl (IntegrityError "crates.barcode"), s)
      else (inr self, set_crates (<[k := self]> table) s)
  end.

(** [Max('barcode')] over a queryset: the greatest string, [None] when the
    queryset is empty. *)
Definition max_barcode_of (l : list string) : option string :=
  fold_right (fun b acc =>
                match acc with
                | None => Some b
                | Some m => if String.ltb m b then Some b else Some m
                end) None l.

(** [name.replace(' ', '').replace('-', '')[:10]]. *)
Definition clean_name (name : string) : string :=
  Py.take 10 (Py.remove_char "-"%char (Py.remove_char " "%char name)).

(** The queryset [Crate.save] aggregates over: crates of the same unit,
    department and section whose barcode starts with the prefix, the
    crate being saved left out. *)
Definition siblings (self : Crate.row) (barcode_prefix : string) (s : Store) : list string :=
  List.map Crate.barcode
    (List.filter (fun r =>
        (Crate.unit r =? Crate.unit self) && (Crate.department r =? Crate.department self)
        && bool_decide (Crate.section r = Crate.section self)
        && Py.startswith (barcode_prefix +:+ "/") (Crate.barcode r)
        && negb (bool_decide (Crate.pk r = Crate.pk self)))
      (instances Crate.with_pk (crates s))).

(** The number [Crate.save] derives from the aggregate. *)
Definition next_number_after (max_barcode : option string) : Z :=
  match max_barcode with
  | Some b =>
      if Py.truthy_str b then
        match Py.int_of_str (Py.last_segment "/"%char b) with
        | Some last_number => last_number + 1
        | None => 1
        end
      else 1
  | None => 1
  end.

(** [Crate.save]. *)
Definition save (self : Crate.row) : M Crate.row :=
  if negb (Py.truthy_str (Crate.barcode self)) then
    if negb (Py.truthy_pk (Crate.pk self)) then
      u1 ← uuid4_hex;
      self ← Model_save (Crate.with_barcode ("TEMP-" +:+ u1) self);
      u2 ← uuid4_hex;
      let self := Crate.with_barcode
                    ("TEMP-" +:+ str_pk (Crate.pk self) +:+ "-" +:+ Py.take 8 u2) self in
      t ← timezone_now;
      let current_year := Py.str_N (Py.year t) in
      dept ← objects_get "Department" departments (fun _ r => r) (Crate.department self);
      let dept_name_clean := clean_name (Department.department_name dept) in
      section_name_clean ←
        match Crate.section self with
        | Some sid =>
            sec ← objects_get "Section" sections (fun _ r => r) sid;
            mret (clean_name (Section.section_name sec))
        | None => mret ""
        end;
      unit ← objects_get "Unit" units (fun _ r => r) (Crate.unit self);
      let barcode_prefix :=
        if Py.truthy_str section_name_clean then
          Unit.unit_code unit +:+ "/" +:+ dept_name_clean +:+ "/" +:+
          section_name_clean +:+ "/" +:+ current_year
        else
          Unit.unit_code unit +:+ "/" +:+ dept_name_clean +:+ "/" +:+ current_year in
      s ← get_store;
      let max_barcode := max_barcode_of (siblings self barcode_prefix s) in
      let next_number := next_number_after max_barcode in
      Model_save (Crate.with_barcode
                    (barcode_prefix +:+ "/" +:+ Py.format_0d 5 next_number) self)
    else Model_save self
  else Model_save self.

End Documents.

(** ** The typed logging helpers of [apps/audit/utils.py] *)
Module AuditUtils.

(** [request_obj.crate]: the crate row behind the foreign key. *)
Definition crate_of (request_obj : Request.row) : M Crate.row :=
  objects_get "Crate" crates Crate.with_pk (Request.crate request_obj).

Definition log_request_created (user : User.row) (request_obj : Request.row)
    (django_request : option HttpRequest) : M AuditTrail.row :=
  crate ← crate_of request_obj;
  Audit.log_audit_event (Some user) "Created"
    (Request.request_type request_obj +:+ " request #" +:+ str_pk (Request.pk request_obj) +:+
     " created for Crate #" +:+ str_pk (Crate.pk crate))
    django_request (Request.pk request_obj) None (Crate.pk crate) None None.

Definition log_request_approved (user : User.row) (request_obj : Request.row)
    (django_request : option HttpRequest) : M AuditTrail.row :=
  crate ← crate_of request_obj;
  Audit.log_audit_event (Some user) "Approved"
    (Request.request_type request_obj +:+ " request #" +:+ str_pk (Request.pk request_obj) +:+
     " approved by " +:+ User.full_name user)
    django_request (Request.pk request_obj) None (Crate.pk crate) None None.

Definition log_request_rejected (user : User.row) (request_obj : Request.row)
    (reason : string) (django_request : option HttpRequest) : M AuditTrail.row :=
  crate ← crate_of request_obj;
  Audit.log_audit_event (Some user) "Rejected"
    (Request.request_type request_obj +:+ " request #" +:+ str_pk (Request.pk request_obj) +:+
     " rejected. Reason: " +:+ reason)
    django_request (Request.pk request_obj) None (Crate.pk crate) None None.

Definition log_storage_allocated (user : User.row) (request_obj : Request.row)
    (storage : Storage.row) (django_request : option HttpRequest) : M AuditTrail.row :=
  crate ← crate_of request_obj;
  location ← Documents.get_full_location storage;
  Audit.log_audit_event (Some user) "Allocated"
    ("Storage allocated for Crate #" +:+ str_pk (Crate.pk crate) +:+ ": " +:+ location)
    django_request (Request.pk request_obj) (Some (Storage.id storage)) (Crate.pk crate)
    None None.

Definition log_document_issued (user : User.row) (request_obj : Request.row)
    (django_request : option HttpRequest) : M AuditTrail.row :=
  crate ← crate_of request_obj;
  requester ←
    match Request.withdrawn_by request_obj with
    | Some uid => objects_get "User" users User.with_id uid
    | None => raise (AttributeError "'NoneType' object has no attribute 'full_name'")
    end;
  Audit.log_audit_event (Some user) "Issued"
    ("Documents from Crate #" +:+ str_pk (Crate.pk crate) +:+ " issued to " +:+
     User.full_name requester)
    django_request (Request.pk request_obj) None (Crate.pk crate) None None.

Definition log_document_returned (user : User.row) (request_obj : Request.row)
    (django_request : option HttpRequest) : M AuditTrail.row :=
  crate ← crate_of request_obj;
  Audit.log_audit_event (Some user) "Returned"
    ("Documents from Crate #" +:+ str_pk (Crate.pk crate) +:+ " returned")
    django_request (Request.pk request_obj) None (Crate.pk crate) None None.

Definition log_crate_destroyed (user : User.row) (crate : Crate.row)
    (django_request : option HttpRequest) : M AuditTrail.row :=
  n ← Documents.get_document_count crate;
  Audit.log_audit_event (Some user) "Deleted"
    ("Crate #" +:+ str_pk (Crate.pk crate) +:+ " with " +:+ Py.str_int n +:+
     " documents permanently destroyed")
    django_request None None (Crate.pk crate) None None.

Definition log_login_success (user : User.row) (django_request : option HttpRequest)
  : M AuditTrail.row :=
  Audit.log_audit_event (Some user) "Login"
    ("User " +:+ User.username user +:+ " (" +:+ User.full_name user +:+
     ") logged in successfully")
    django_request None None None None None.

Definition log_login_failed (user : option User.row) (reason : string)
    (django_request : option HttpRequest) (attempted_username : option string)
  : M AuditTrail.row :=
  let quote := String Json.dquote "" in
  let message :=
    match user with
    | Some u =>
        "Failed login attempt for user " +:+ User.username u +:+ " (" +:+
        User.full_name u +:+ "). Reason: " +:+ reason
    | None =>
        "Failed login attempt for username " +:+ quote +:+
        default "None" attempted_username +:+ quote +:+ ". Reason: " +:+ reason
    end in
  let username_for_audit :=
    match user with Some _ => None | None => attempted_username end in
  Audit.log_audit_event user "LoginFailed" message django_request None None None None
    username_for_audit.

Definition log_logout (user : User.row) (django_request : option HttpRequest)
  : M AuditTrail.row :=
  Audit.log_audit_event (Some user) "Logout"
    ("User " +:+ User.username user +:+ " (" +:+ User.full_name user +:+ ") logged out")
    django_request None None None None None.

Definition log_session_timeout (user : User.row) (django_request : option HttpRequest)
  : M AuditTrail.row :=
  Audit.log_audit_event (Some user) "SessionTimeout"
    ("Session timeout for user " +:+ User.username user +:+ " (" +:+
     User.full_name user +:+ ") due to inactivity")
    django_request None None None None None.

Definition log_session_terminated (user : User.row) (reason : string)
    (django_request : option HttpRequest) : M AuditTrail.row :=
  Audit.log_audit_event (Some user) "SessionTerminated"
    ("Session terminated for user " +:+ User.username user +:+ " (" +:+
     User.full_name user +:+ "). Reason: " +:+ reason)
    django_request None None None None None.

End AuditUtils.

(** ** [apps/requests/serializers.py]

    The field classes are Django REST framework's; what they accept is
    written out for the JSON values of the model. *)
Module Serializers.

Definition errors := list (string * Json.value).

Definition one_error (name msg : string) : errors :=
  [(name, Json.JList [Json.JStr msg])].

(** The entry of [serializer.errors] for a field with these messages. *)
Definition field_errors (name : string) (msgs : list string) : errors :=
  [(name, Json.JList (List.map Json.JStr msgs))].

Definition is_nil {A} (l : list A) : bool :=
  match l with [] => true | _ => false end.

(** [CharField(allow_blank=..., min_length=...)] on a value that is
    present.  [run_validation] answers a blank text first; then
    [to_internal_value] takes a string or a number and trims it, and the
    validators run on the trimmed text: the minimum length, when one is
    declared ([min_length = 0] stands for none), and
    [ProhibitNullCharactersValidator].  Their messages add up. *)
Definition CharField (allow_blank : bool) (min_length : nat) (v : Json.value)
  : list string + string :=
  let check (raw : string) :=
    let value := Py.strip raw in
    if negb (Py.truthy_str value) then
      if allow_blank then inr "" else inl ["This field may not be blank."]
    else
      let msgs :=
        ((if (String.length value <? min_length)%nat then
            ["Ensure this field has at least " +:+ Py.str_int (Z.of_nat min_length) +:+
             " characters."]
          else []) ++
         (if Py.contains (ascii_of_N 0) value
          then ["Null characters are not allowed."] else []))%list in
      if is_nil msgs then inr value else inl msgs in
  match v with
  | Json.JStr raw => check raw
  | Json.JInt z => check (Py.str_int z)
  | Json.JNull => inl ["This field may not be null."]
  | _ => inl ["Not a valid string."]
  end.

(** The rest of the text is white space. *)
Definition all_space (s : string) : bool :=
  negb (Py.truthy_str (Py.drop_while Py.is_space s)).

(** [re_decimal.sub('', s)] for [re_decimal = re.compile(r'\.0*\s*$')]:
    the text is cut at the first full stop that only zeros and then white
    space follow. *)
Fixpoint re_decimal_sub (s : string) : string :=
  match s with
  | EmptyString => EmptyString
  | String a r =>
      if Ascii.eqb a "."%char && all_space (Py.drop_while (Ascii.eqb "0"%char) r)
      then EmptyString
      else String a (re_decimal_sub r)
  end.

Definition MAX_STRING_LENGTH : nat := 1000.

(** [IntegerField()] on a value that is present: [int] of the text of the
    value once [re_decimal] is cut off. *)
Definition IntegerField (v : Json.value) : list string + Z :=
  match v with
  | Json.JInt z => inr z
  | Json.JStr raw =>
      if (MAX_STRING_LENGTH <? String.length raw)%nat then inl ["String value too large."]
      else
        match Py.int_of_str (re_decimal_sub raw) with
        | Some z => inr z
        | None => inl ["A valid integer is required."]
        end
  | Json.JNull => inl ["This field may not be null."]
  | _ => inl ["A valid integer is required."]
  end.

(** One declared field: the errors it adds and the value it yields. *)
Definition field {A} (name : string) (required : bool)
    (validate : Json.value -> list string + A) (v : option Json.value)
  : errors * option A :=
  match v with
  | None => (if required then one_error name "This field is required." else [], None)
  | Some x =>
      match validate x with
      | inl msgs => (field_errors name msgs, None)
      | inr a => ([], Some a)
      end
  end.

Definition ApproveRequestSerializer (d : Payload) : errors + unit :=
  let e := fst (field "digital_signature" true (CharField false 0) (digital_signature d)) in
  if is_nil e then inr tt else inl e.

(** Validated data of [RejectRequestSerializer] and
    [SendBackCreateSerializer]: the reason. *)
Definition RejectRequestSerializer (d : Payload) : errors + string :=
  let r := field "reason" true (CharField false 0) (reason d) in
  let e := (fst r ++
            fst (field "digital_signature" true (CharField false 0) (digital_signature d)))%list in
  match snd r with
  | Some x => if is_nil e then inr x else inl e
  | None => inl e
  end.

Definition SendBackCreateSerializer (d : Payload) : errors + string :=
  let r := field "reason" true (CharField false 10) (reason d) in
  let e := (fst r ++
            fst (field "digital_signature" true (CharField false 0) (digital_signature d)))%list in
  match snd r with
  | Some x => if is_nil e then inr x else inl e
  | None => inl e
  end.

(** Validated data of [AllocateStorageSerializer]: the storage id. *)
Definition AllocateStorageSerializer (d : Payload) : errors + Z :=
  let r := field "storage" true IntegerField (storage d) in
  let e := (fst r ++
            fst (field "digital_signature" true (CharField false 0) (digital_signature d)))%list in
  match snd r with
  | Some x => if is_nil e then inr x else inl e
  | None => inl e
  end.

Definition IssueDocumentsSerializer (d : Payload) : errors + unit :=
  let e := fst (field "digital_signature" true (CharField false 0) (digital_signature d)) in
  if is_nil e then inr tt else inl e.

(** Validated data of [ReturnDocumentsSerializer]: the optional reason and
    the storage id. *)
Definition ReturnDocumentsSerializer (d : Payload) : errors + (option string * Z) :=
  let r := field "reason" false (CharField true 0) (reason d) in
  let st := field "storage" true IntegerField (storage d) in
  let e := (fst r ++ fst st ++
            fst (field "digital_signature" true (CharField false 0) (digital_signature d)))%list in
  match snd st with
  | Some x => if is_nil e then inr (snd r, x) else inl e
  | None => inl e
  end.

(** [validate] of the two withdrawal serializers, which share its text:
    the message it raises a [ValidationError] with, if any.  The dates are
    compared as Python compares them, so a naive date against the aware
    clock raises [TypeError]. *)
Definition validate (full_withdrawal : bool) (document_ids : option (list Z))
    (expected_return_date : Py.datetime) : M (option string) :=
  if negb full_withdrawal && is_nil (default [] document_ids) then
    mret (Some "For partial withdrawal, you must specify document_ids")
  else
    current ← timezone_now;
    match Py.datetime_cmp expected_return_date current with
    | None => raise (TypeError "can't compare offset-naive and offset-aware datetimes")
    | Some Gt => mret None
    | Some _ => mret (Some "Expected return date must be in the future")
    end.

Record WithdrawalData := {
  w_crate : Z;
  w_expected_return_date : Py.datetime;
  w_purpose : option string;
  w_full_withdrawal : bool;
  w_document_ids : option (list Z)
}.

(** [WithdrawalRequestCreateSerializer]: [is_valid] runs the fields and,
    once they are valid, [validate]. *)
Definition WithdrawalRequestCreateSerializer (d : Payload) : M (errors + WithdrawalData) :=
  let c := field "crate_id" true IntegerField (crate_id d) in
  let date_errors :=
    match expected_return_date d with
    | None => one_error "expected_return_date" "This field is required."
    | Some _ => []
    end in
  let p := field "purpose" false (CharField true 0) (purpose d) in
  let e := (fst c ++ date_errors ++ fst p ++
            fst (field "digital_signature" true (CharField false 0) (digital_signature d)))%list in
  match snd c, expected_return_date d with
  | Some cid, Some date =>
      if negb (is_nil e) then mret (inl e)
      else
        let full := default true (full_withdrawal d) in
        failed ← validate full (document_ids d) date;
        match failed with
        | Some msg => mret (inl (one_error "non_field_errors" msg))
        | None =>
            mret (inr {| w_crate := cid; w_expected_return_date := date; w_purpose := snd p;
                         w_full_withdrawal := full; w_document_ids := document_ids d |})
        end
  | _, _ => mret (inl e)
  end.

Record DestructionData := {
  d_crate : Z;
  d_purpose : option string
}.

(** [DestructionRequestCreateSerializer]. *)
Definition DestructionRequestCreateSerializer (d : Payload) : errors + DestructionData :=
  let c := field "crate_id" true IntegerField (crate_id d) in
  let p := field "purpose" false (CharField true 0) (purpose d) in
  let e := (fst c ++ fst p ++
            fst (field "digital_signature" true (CharField false 0) (digital_signature d)))%list in
  match snd c with
  | Some cid => if is_nil e then inr {| d_crate := cid; d_purpose := snd p |} else inl e
  | None => inl e
  end.

(** Validated data of [DestructionRequestUpdateSerializer]: the purpose,
    when one was sent. *)
Definition DestructionRequestUpdateSerializer (d : Payload) : errors + option string :=
  let p := field "purpose" false (CharField true 0) (purpose d) in
  let e := (fst p ++
            fst (field "digital_signature" true (CharField false 0) (digital_signature d)))%list in
  if is_nil e then inr (snd p) else inl e.

Record WithdrawalUpdate := {
  wu_expected_return_date : Py.datetime;
  wu_purpose : option string;
  wu_full_withdrawal : bool;
  wu_document_ids : option (list Z)
}.

(** [WithdrawalRequestUpdateSerializer], with its [validate]. *)
Definition WithdrawalRequestUpdateSerializer (d : Payload) : M (errors + WithdrawalUpdate) :=
  let date_errors :=
    match expected_return_date d with
    | None => one_error "expected_return_date" "This field is required."
    | Some _ => []
    end in
  let p := field "purpose" false (CharField true 0) (purpose d) in
  let e := (date_errors ++ fst p ++
            fst (field "digital_signature" true (CharField false 0) (digital_signature d)))%list in
  match expected_return_date d with
  | Some date =>
      if negb (is_nil e) then mret (inl e)
      else
        let full := default true (full_withdrawal d) in
        failed ← validate full (document_ids d) date;
        match failed with
        | Some msg => mret (inl (one_error "non_field_errors" msg))
        | None =>
            mret (inr {| wu_expected_return_date := date; wu_purpose := snd p;
                         wu_full_withdrawal := full; wu_document_ids := document_ids d |})
        end
  | None => mret (inl e)
  end.

End Serializers.

(** ** [apps/requests/models.py]: methods of [Request] *)
Module Requests.

(** [Request.is_overdue]. *)
Definition is_overdue (self : Request.row) : M bool :=
  if String.eqb (Request.request_type self) "Withdrawal"
     && String.eqb (Request.status self) "Issued" then
    match Request.expected_return_date self with
    | Some expected =>
        current ← timezone_now;
        match Py.datetime_cmp current expected with
        | None => raise (TypeError "can't compare offset-naive and offset-aware datetimes")
        | Some Gt => mret true
        | Some _ => mret false
        end
    | None => mret false
    end
  else mret false.

End Requests.

(** ** [apps/requests/views.py]: the bodies of the view functions

    The notification tasks queued after a transition sit in a [try] that
    swallows every exception and write nothing to the store, and the
    [post_save] receivers only broadcast; neither is part of the model. *)
Module Handlers.
Import Json.

(** The inherited [Model.save] of a request; [updated_at] is [auto_now]. *)
Definition Request_save (self : Request.row) : M Request.row := fun s =>
  let self := Request.with_updated_at (Some (now s)) self in
  match Request.pk self with
  | None =>
      let k := fresh_pk (requests s) in
      (inr (Request.with_pk k self), set_requests (<[k := Request.with_pk k self]> (requests s)) s)
  | Some k => (inr self, set_requests (<[k := self]> (requests s)) s)
  end.

(** [SendBack.objects.create(...)]. *)
Definition SendBack_create (request_obj : Request.row) (reason : string)
    (created_by : User.row) (sendback_type : string) : M unit := fun s =>
  match Request.pk request_obj with
  | None => (inl (ValueError "save() prohibited to prevent data loss due to unsaved related object 'request'."), s)
  | Some k =>
      (inr tt,
       set_sendbacks (sendbacks s ++
                      [{| SendBack.request := k; SendBack.reason := reason;
                          SendBack.created_at := Some (now s);
                          SendBack.created_by := Some (User.id created_by);
                          SendBack.sendback_type := sendback_type |}])%list s)
  end.

Definition error_response (code : Z) (msg : string) : Response :=
  {| status_code := code; body := [("error", JStr msg)] |}.

Definition status_in (st : string) (allowed : list string) : bool :=
  existsb (String.eqb st) allowed.

Definition approve_request (request : HttpRequest) (pk : Z) : M Response :=
  match Serializers.ApproveRequestSerializer (data request) with
  | inl errors => mret {| status_code := HTTP_400_BAD_REQUEST; body := errors |}
  | inr _ =>
  s ← get_store;
  match find (requests s) Request.with_pk pk with
  | None => mret (error_response HTTP_404_NOT_FOUND "Request not found")
  | Some request_obj =>
  if negb (String.eqb (Request.status request_obj) "Pending") then
    mret (error_response HTTP_400_BAD_REQUEST
            ("Request is not in pending state (current status: " +:+
             Request.status request_obj +:+ ")"))
  else
    u ← the_user request;
    t ← timezone_now;
    let request_obj :=
      Request.with_approval (Some (User.id u)) (Some t)
        (Request.with_status "Approved" request_obj) in
    request_obj ← Request_save request_obj;
    AuditUtils.log_request_approved u request_obj (Some request);;
    mret {| status_code := HTTP_200_OK;
            body := [("message", JStr (Request.request_type request_obj +:+
                                       " request approved successfully"));
                     ("request_id", json_pk (Request.pk request_obj));
                     ("status", JStr "Approved")] |}
  end
  end.

Definition reject_request (request : HttpRequest) (pk : Z) : M Response :=
  match Serializers.RejectRequestSerializer (data request) with
  | inl errors => mret {| status_code := HTTP_400_BAD_REQUEST; body := errors |}
  | inr reason =>
  s ← get_store;
  match find (requests s) Request.with_pk pk with
  | None => mret (error_response HTTP_404_NOT_FOUND "Request not found")
  | Some request_obj =>
  if negb (status_in (Request.status request_obj) ["Pending"; "Sent Back"]) then
    mret (error_response HTTP_400_BAD_REQUEST
            ("Request cannot be rejected (current status: " +:+ Request.status request_obj +:+
             "). Only Pending or Sent Back requests can be rejected."))
  else
    u ← the_user request;
    crate_status ←
      (if String.eqb (Request.request_type request_obj) "Withdrawal" then
         crate ← AuditUtils.crate_of request_obj;
         if String.eqb (Crate.status crate) "Withdrawn" then
           crate ← Documents.save (Crate.with_status "Active" crate);
           Audit.log_audit_event (Some u) "Updated"
             ("Crate #" +:+ str_pk (Crate.pk crate) +:+
              " status restored to Active after withdrawal request #" +:+
              str_pk (Request.pk request_obj) +:+ " was rejected")
             (Some request) (Request.pk request_obj) None (Crate.pk crate) None None;;
           mret (JStr (Crate.status crate))
         else mret (JStr (Crate.status crate))
       else mret JNull);
    let original_status := Request.status request_obj in
    request_obj ← Request_save (Request.with_status "Rejected" request_obj);
    SendBack_create request_obj reason u "Change Request";;
    let action_verb :=
      if String.eqb original_status "Sent Back" then "canceled" else "rejected" in
    AuditUtils.log_request_rejected u request_obj reason (Some request);;
    mret {| status_code := HTTP_200_OK;
            body := [("message", JStr (Request.request_type request_obj +:+ " request " +:+
                                       action_verb +:+ " successfully"));
                     ("request_id", json_pk (Request.pk request_obj));
                     ("status", JStr "Rejected");
                     ("crate_status", crate_status)] |}
  end
  end.

Definition send_back_request (request : HttpRequest) (pk : Z) : M Response :=
  match Serializers.SendBackCreateSerializer (data request) with
  | inl errors => mret {| status_code := HTTP_400_BAD_REQUEST; body := errors |}
  | inr reason =>
  s ← get_store;
  match find (requests s) Request.with_pk pk with
  | None => mret (error_response HTTP_404_NOT_FOUND "Request not found")
  | Some request_obj =>
  if negb (status_in (Request.status request_obj) ["Pending"; "Sent Back"]) then
    mret (error_response HTTP_400_BAD_REQUEST
            ("Request cannot be sent back (current status: " +:+ Request.status request_obj +:+
             "). Only Pending or Sent Back requests can be sent back."))
  else
    u ← the_user request;
    request_obj ← Request_save (Request.with_status "Sent Back" request_obj);
    SendBack_create request_obj reason u "Change Request";;
    crate ← AuditUtils.crate_of request_obj;
    Audit.log_audit_event (Some u) "Sent Back"
      (Request.request_type request_obj +:+ " request #" +:+ str_pk (Request.pk request_obj) +:+
       " sent back for changes. Reason: " +:+ reason)
      (Some request) (Request.pk request_obj) None (Crate.pk crate) None None;;
    mret {| status_code := HTTP_200_OK;
            body := [("message", JStr (Request.request_type request_obj +:+
                                       " request sent back for changes"));
                     ("request_id", json_pk (Request.pk request_obj));
                     ("status", JStr "Sent Back");
                     ("reason", JStr reason)] |}
  end
  end.

Definition allocate_storage (request : HttpRequest) (pk : Z) : M Response :=
  match Serializers.AllocateStorageSerializer (data request) with
  | inl errors => mret {| status_code := HTTP_400_BAD_REQUEST; body := errors |}
  | inr storage_id =>
  s ← get_store;
  match find (requests s) Request.with_pk pk with
  | None => mret (error_response HTTP_404_NOT_FOUND "Request not found")
  | Some request_obj =>
  if negb (String.eqb (Request.status request_obj) "Approved") then
    mret (error_response HTTP_400_BAD_REQUEST
            "Request must be approved before storage allocation")
  else
  match find (storages s) Storage.with_id storage_id with
  | None => mret (error_response HTTP_404_NOT_FOUND "Storage location not found")
  | Some storage =>
    u ← the_user request;
    crate ← AuditUtils.crate_of request_obj;
    crate ← Documents.save (Crate.with_storage (Some (Storage.id storage)) crate);
    t ← timezone_now;
    request_obj ← Request_save
      (Request.with_status "Completed"
         (Request.with_allocation (Some (User.id u)) (Some t) request_obj));
    AuditUtils.log_storage_allocated u request_obj storage (Some request);;
    location ← Documents.get_full_location storage;
    mret {| status_code := HTTP_200_OK;
            body := [("message", JStr "Storage allocated successfully");
                     ("request_id", json_pk (Request.pk request_obj));
                     ("crate_id", json_pk (Crate.pk crate));
                     ("location", JStr location)] |}
  end
  end
  end.

(** [RequestDocument.objects.create(...)] for each known document of a
    partial withdrawal; the pair (request, document) is [unique_together]. *)
Fixpoint link_documents (request_pk : Z) (doc_ids : list Z) : M unit :=
  match doc_ids with
  | [] => mret tt
  | doc_id :: rest =>
      s ← get_store;
      (if bool_decide (doc_id ∈ documents s) then
         if bool_decide ((request_pk, doc_id) ∈ request_documents s)
         then raise (IntegrityError "request_documents")
         else put_store (set_request_documents
                           (request_documents s ++ [(request_pk, doc_id)])%list s)
       else mret tt);;
      link_documents request_pk rest
  end.

Definition create_withdrawal_request (request : HttpRequest) : M Response :=
  validated ← Serializers.WithdrawalRequestCreateSerializer (data request);
  match validated with
  | inl errors => mret {| status_code := HTTP_400_BAD_REQUEST; body := errors |}
  | inr data =>
  s ← get_store;
  match find (crates s) Crate.with_pk (Serializers.w_crate data) with
  | None => mret (error_response HTTP_404_NOT_FOUND "Crate not found")
  | Some crate =>
  if negb (status_in (Crate.status crate) ["Active"; "Archived"]) then
    mret (error_response HTTP_400_BAD_REQUEST
            ("Crate cannot be withdrawn (current status: " +:+ Crate.status crate +:+
             "). Only Active or Archived crates can be withdrawn."))
  else
    r ← atomic (
      u ← the_user request;
      withdrawal_request ← Request_save
        {| Request.pk := None; Request.request_type := "Withdrawal";
           Request.crate := Serializers.w_crate data; Request.unit := Crate.unit crate;
           Request.approval_date := None; Request.issue_date := None;
           Request.return_date := None;
           Request.expected_return_date := Some (Serializers.w_expected_return_date data);
           Request.approved_by := None; Request.allocation_date := None;
           Request.allocated_by := None; Request.status := "Pending";
           Request.withdrawn_by := Some (User.id u);
           Request.purpose := default "" (Serializers.w_purpose data);
           Request.full_withdrawal := Serializers.w_full_withdrawal data;
           Request.issued_by := None; Request.updated_at := None |};
      (match Serializers.w_document_ids data, Request.pk withdrawal_request with
       | Some ids, Some k =>
           if negb (Request.full_withdrawal withdrawal_request)
           then link_documents k ids else mret tt
       | _, _ => mret tt
       end);;
      let old_status := Crate.status crate in
      crate ← Documents.save (Crate.with_status "Withdrawn" crate);
      AuditUtils.log_request_created u withdrawal_request (Some request);;
      Audit.log_audit_event (Some u) "Updated"
        ("Crate #" +:+ str_pk (Crate.pk crate) +:+ " status changed from " +:+ old_status +:+
         " to Withdrawn due to withdrawal request #" +:+
         str_pk (Request.pk withdrawal_request))
        (Some request) (Request.pk withdrawal_request) None (Crate.pk crate) None None;;
      mret (withdrawal_request, crate));
    mret {| status_code := HTTP_201_CREATED;
            body := [("message", JStr "Withdrawal request created successfully. Crate is now marked as Withdrawn.");
                     ("request_id", json_pk (Request.pk (fst r)));
                     ("crate_id", json_pk (Crate.pk (snd r)));
                     ("status", JStr "Pending");
                     ("crate_status", JStr "Withdrawn")] |}
  end
  end.

Definition issue_documents (request : HttpRequest) (pk : Z) : M Response :=
  match Serializers.IssueDocumentsSerializer (data request) with
  | inl errors => mret {| status_code := HTTP_400_BAD_REQUEST; body := errors |}
  | inr _ =>
  s ← get_store;
  match find (requests s) Request.with_pk pk with
  | None => mret (error_response HTTP_404_NOT_FOUND "Request not found")
  | Some request_obj =>
  if negb (String.eqb (Request.request_type request_obj) "Withdrawal") then
    mret (error_response HTTP_400_BAD_REQUEST "This endpoint is only for withdrawal requests")
  else if negb (String.eqb (Request.status request_obj) "Approved") then
    mret (error_response HTTP_400_BAD_REQUEST
            "Request must be approved before issuing documents")
  else
    u ← the_user request;
    t ← timezone_now;
    request_obj ← Request_save
      (Request.with_issue (Some (User.id u)) (Some t)
         (Request.with_status "Issued" request_obj));
    crate ← AuditUtils.crate_of request_obj;
    crate ← Documents.save (Crate.with_status "Withdrawn" crate);
    AuditUtils.log_document_issued u request_obj (Some request);;
    mret {| status_code := HTTP_200_OK;
            body := [("message", JStr "Documents issued successfully");
                     ("request_id", json_pk (Request.pk request_obj));
                     ("crate_id", json_pk (Crate.pk crate));
                     ("expected_return_date",
                      match Request.expected_return_date request_obj with
                      | Some d => JStr (Py.str_datetime d)
                      | None => JNull
                      end)] |}
  end
  end.

Definition return_documents (request : HttpRequest) (pk : Z) : M Response :=
  match Serializers.ReturnDocumentsSerializer (data request) with
  | inl errors => mret {| status_code := HTTP_400_BAD_REQUEST; body := errors |}
  | inr (reason, storage_id) =>
  s ← get_store;
  match find (requests s) Request.with_pk pk with
  | None => mret (error_response HTTP_404_NOT_FOUND "Request not found")
  | Some request_obj =>
  if negb (String.eqb (Request.request_type request_obj) "Withdrawal") then
    mret (error_response HTTP_400_BAD_REQUEST "This endpoint is only for withdrawal requests")
  else if negb (String.eqb (Request.status request_obj) "Issued") then
    mret (error_response HTTP_400_BAD_REQUEST "Documents have not been issued yet")
  else
  match find (storages s) Storage.with_id storage_id with
  | None => mret (error_response HTTP_404_NOT_FOUND "Storage location not found")
  | Some storage =>
    u ← the_user request;
    t ← timezone_now;
    request_obj ← Request_save
      (Request.with_return_date (Some t) (Request.with_status "Returned" request_obj));
    crate ← AuditUtils.crate_of request_obj;
    let old_storage := Crate.storage crate in
    crate ← Documents.save
      (Crate.with_storage (Some (Storage.id storage)) (Crate.with_status "Active" crate));
    (if Py.truthy_str (default "" reason)
     then SendBack_create request_obj (default "" reason) u "Return Note"
     else mret tt);;
    AuditUtils.log_document_returned u request_obj (Some request);;
    old_location ←
      match old_storage with
      | Some sid =>
          old ← objects_get "Storage" storages Storage.with_id sid;
          Documents.get_full_location old
      | None => mret "No Storage"
      end;
    location ← Documents.get_full_location storage;
    Audit.log_audit_event (Some u) "Allocated"
      ("Crate #" +:+ str_pk (Crate.pk crate) +:+ " storage updated on return from " +:+
       old_location +:+ " to " +:+ location)
      (Some request) None (Some (Storage.id storage)) (Crate.pk crate) None None;;
    mret {| status_code := HTTP_200_OK;
            body := [("message", JStr "Documents returned successfully and storage allocated");
                     ("request_id", json_pk (Request.pk request_obj));
                     ("crate_id", json_pk (Crate.pk crate));
                     ("storage_location", JStr location)] |}
  end
  end
  end.

Definition confirm_destruction (request : HttpRequest) (pk : Z) : M Response :=
  s ← get_store;
  match find (requests s) Request.with_pk pk with
  | None => mret (error_response HTTP_404_NOT_FOUND "Request not found")
  | Some request_obj =>
  if negb (String.eqb (Request.request_type request_obj) "Destruction") then
    mret (error_response HTTP_400_BAD_REQUEST "This endpoint is only for destruction requests")
  else if negb (String.eqb (Request.status request_obj) "Approved") then
    mret (error_response HTTP_400_BAD_REQUEST "Request must be approved before destruction")
  else
    u ← the_user request;
    crate ← AuditUtils.crate_of request_obj;
    crate ← Documents.save (Crate.with_status "Destroyed" crate);
    request_obj ← Request_save (Request.with_status "Completed" request_obj);
    AuditUtils.log_crate_destroyed u crate (Some request);;
    mret {| status_code := HTTP_200_OK;
            body := [("message", JStr "Crate destroyed successfully");
                     ("request_id", json_pk (Request.pk request_obj));
                     ("crate_id", json_pk (Crate.pk crate))] |}
  end.

Definition create_destruction_request (request : HttpRequest) : M Response :=
  match Serializers.DestructionRequestCreateSerializer (data request) with
  | inl errors => mret {| status_code := HTTP_400_BAD_REQUEST; body := errors |}
  | inr data =>
  s ← get_store;
  match find (crates s) Crate.with_pk (Serializers.d_crate data) with
  | None => mret (error_response HTTP_404_NOT_FOUND "Crate not found")
  | Some crate =>
  if String.eqb (Crate.status crate) "Destroyed" then
    mret (error_response HTTP_400_BAD_REQUEST "Crate has already been destroyed")
  else
    u ← the_user request;
    destruction_request ← Request_save
      {| Request.pk := None; Request.request_type := "Destruction";
         Request.crate := Serializers.d_crate data; Request.unit := Crate.unit crate;
         Request.approval_date := None; Request.issue_date := None;
         Request.return_date := None; Request.expected_return_date := None;
         Request.approved_by := None; Request.allocation_date := None;
         Request.allocated_by := None; Request.status := "Pending";
         Request.withdrawn_by := Some (User.id u);
         Request.purpose := default "" (Serializers.d_purpose data);
         Request.full_withdrawal := true;
         Request.issued_by := None; Request.updated_at := None |};
    AuditUtils.log_request_created u destruction_request (Some request);;
    mret {| status_code := HTTP_201_CREATED;
            body := [("message", JStr "Destruction request created successfully");
                     ("request_id", json_pk (Request.pk destruction_request));
                     ("crate_id", json_pk (Crate.pk crate));
                     ("status", JStr "Pending")] |}
  end
  end.

(** [request_obj.withdrawn_by != request.user]: the requester is fetched
    through the foreign key and compared with the caller by primary key. *)
Definition not_own_request (request_obj : Request.row) (request : HttpRequest) : M bool :=
  match Request.withdrawn_by request_obj with
  | Some uid =>
      owner ← objects_get "User" users User.with_id uid;
      mret (match user request with
            | Authenticated u => negb (User.id owner =? User.id u)
            | AnonymousUser => true
            end)
  | None => mret true
  end.

Definition update_failed (what : string) (e : exn) : M Response :=
  mret {| status_code := HTTP_500_INTERNAL_SERVER_ERROR;
          body := [("error", JStr ("Failed to update " +:+ what +:+ " request"));
                   ("detail", JStr (str_exn e))] |}.

Definition update_withdrawal_request (request : HttpRequest) (pk : Z) : M Response :=
  validated ← Serializers.WithdrawalRequestUpdateSerializer (data request);
  match validated with
  | inl errors => mret {| status_code := HTTP_400_BAD_REQUEST; body := errors |}
  | inr data =>
  s ← get_store;
  match find (requests s) Request.with_pk pk with
  | None => mret (error_response HTTP_404_NOT_FOUND "Request not found")
  | Some request_obj =>
  if negb (String.eqb (Request.status request_obj) "Sent Back") then
    mret (error_response HTTP_400_BAD_REQUEST
            ("Only sent-back requests can be updated (current status: " +:+
             Request.status request_obj +:+ ")"))
  else
    other ← not_own_request request_obj request;
    if (other : bool) then
      mret (error_response HTTP_403_FORBIDDEN "You can only update your own requests")
    else if negb (String.eqb (Request.request_type request_obj) "Withdrawal") then
      mret (error_response HTTP_400_BAD_REQUEST
              "This endpoint is only for withdrawal requests")
    else
      try_except
        (atomic (
           let request_obj :=
             Request.with_full_withdrawal (Serializers.wu_full_withdrawal data)
               (Request.with_purpose (default "" (Serializers.wu_purpose data))
                  (Request.with_expected_return_date
                     (Some (Serializers.wu_expected_return_date data)) request_obj)) in
           s ← get_store;
           put_store (set_request_documents
                        (List.filter (fun rd : Z * Z =>
                                        negb (bool_decide (Some (fst rd) = Request.pk request_obj)))
                                     (request_documents s)) s);;
           (match Serializers.wu_document_ids data, Request.pk request_obj with
            | Some ids, Some k =>
                if negb (Request.full_withdrawal request_obj) && negb (Serializers.is_nil ids)
                then link_documents k ids else mret tt
            | _, _ => mret tt
            end);;
           request_obj ← Request_save (Request.with_status "Pending" request_obj);
           u ← the_user request;
           crate ← AuditUtils.crate_of request_obj;
           Audit.log_audit_event (Some u) "Updated"
             ("Withdrawal request #" +:+ str_pk (Request.pk request_obj) +:+
              " updated and resubmitted for approval")
             (Some request) None None (Crate.pk crate) None None;;
           mret {| status_code := HTTP_200_OK;
                   body := [("message",
                             JStr "Withdrawal request updated and resubmitted successfully");
                            ("request_id", json_pk (Request.pk request_obj));
                            ("status", JStr "Pending")] |}))
        (update_failed "withdrawal")
  end
  end.

Definition update_destruction_request (request : HttpRequest) (pk : Z) : M Response :=
  match Serializers.DestructionRequestUpdateSerializer (data request) with
  | inl errors => mret {| status_code := HTTP_400_BAD_REQUEST; body := errors |}
  | inr purpose =>
  s ← get_store;
  match find (requests s) Request.with_pk pk with
  | None => mret (error_response HTTP_404_NOT_FOUND "Request not found")
  | Some request_obj =>
  if negb (String.eqb (Request.status request_obj) "Sent Back") then
    mret (error_response HTTP_400_BAD_REQUEST
            ("Only sent-back requests can be updated (current status: " +:+
             Request.status request_obj +:+ ")"))
  else
    other ← not_own_request request_obj request;
    if (other : bool) then
      mret (error_response HTTP_403_FORBIDDEN "You can only update your own requests")
    else if negb (String.eqb (Request.request_type request_obj) "Destruction") then
      mret (error_response HTTP_400_BAD_REQUEST
              "This endpoint is only for destruction requests")
    else
      try_except
        (request_obj ← Request_save
           (Request.with_status "Pending"
              (Request.with_purpose (default "" purpose) request_obj));
         u ← the_user request;
         crate ← AuditUtils.crate_of request_obj;
         Audit.log_audit_event (Some u) "Updated"
           ("Destruction request #" +:+ str_pk (Request.pk request_obj) +:+
            " updated and resubmitted for approval")
           (Some request) None None (Crate.pk crate) None None;;
         mret {| status_code := HTTP_200_OK;
                 body := [("message",
                           JStr "Destruction request updated and resubmitted successfully");
                          ("request_id", json_pk (Request.pk request_obj));
                          ("status", JStr "Pending")] |})
        (update_failed "destruction")
  end
  end.

End Handlers.

(** ** The decorators around a view function *)
Module Decorators.
Import Json.

(** Truthiness of a value of [request.data]. *)
Definition truthy (v : Json.value) : bool :=
  match v with
  | JNull => false
  | JBool b => b
  | JInt z => negb (z =? 0)
  | JStr s => Py.truthy_str s
  | JList l => negb (Serializers.is_nil l)
  | JDict l => negb (Serializers.is_nil l)
  end.

(** [django.contrib.auth.authenticate(username=..., password=...)] with the
    model backend, called with the name of [request.user]: the active user
    of that name whose credential matches.  A stored credential is the
    password it was made from; the hasher turns the value it is given into
    bytes with [str], so a number or a list is checked as its text; [None]
    matches nobody. *)
Definition authenticate (username : string) (password : Json.value) : M (option User.row) :=
  s ← get_store;
  mret (match password with
        | JNull => None
        | _ =>
            head (List.filter (fun u => String.eqb (User.username u) username
                                        && String.eqb (User.password u) (Json.str password)
                                        && User.is_active u)
                              (instances User.with_id (users s)))
        end).

(** [require_digital_signature] of [apps/auth/decorators.py]. *)
Definition require_digital_signature {A} (view_func : HttpRequest -> A -> M Response)
    (request : HttpRequest) (args : A) : M Response :=
  match digital_signature (data request) with
  | None =>
      mret {| status_code := HTTP_400_BAD_REQUEST;
              body := [("error", JStr "Password required");
                       ("detail", JStr "Please enter your password to confirm this action")] |}
  | Some sig =>
  if negb (truthy sig) then
      mret {| status_code := HTTP_400_BAD_REQUEST;
              body := [("error", JStr "Password required");
                       ("detail", JStr "Please enter your password to confirm this action")] |}
  else
    u ← the_user request;
    if negb (String.eqb (User.status u) "Active") then
      mret {| status_code := HTTP_403_FORBIDDEN;
              body := [("error", JStr "Account not active");
                       ("detail", JStr "Your account is not active. Please contact administrator.")] |}
    else
      found ← authenticate (User.username u) sig;
      match found with
      | Some v =>
          if negb (User.id v =? User.id u) then
            mret {| status_code := HTTP_403_FORBIDDEN;
                    body := [("error", JStr "Authentication failed");
                             ("detail", JStr "Invalid password. Please try again.")] |}
          else view_func request args
      | None =>
          mret {| status_code := HTTP_403_FORBIDDEN;
                  body := [("error", JStr "Authentication failed");
                           ("detail", JStr "Invalid password. Please try again.")] |}
      end
  end.

(** [@api_view] with [@permission_classes]: the permissions are checked in
    order before the handler runs, and the first one that fails ends the
    request (401 without credentials, 403 otherwise). *)
Fixpoint check_permissions (perms : list Permissions.permission) (request : HttpRequest)
  : M (option string) :=
  match perms with
  | [] => mret None
  | p :: rest =>
      Permissions.has_permission p request ≫= fun ok : bool =>
      if ok then check_permissions rest request
      else mret (Some (Permissions.message p))
  end.

Definition api_view {A} (perms : list Permissions.permission)
    (handler : HttpRequest -> A -> M Response) (request : HttpRequest) (args : A)
  : M Response :=
  denied ← check_permissions perms request;
  match denied with
  | Some msg =>
      mret (if is_authenticated (user request)
            then {| status_code := HTTP_403_FORBIDDEN; body := [("detail", JStr msg)] |}
            else {| status_code := HTTP_401_UNAUTHORIZED;
                    body := [("detail", JStr "Authentication credentials were not provided.")] |})
  | None => handler request args
  end.

(** [require_group]. *)
Definition require_group {A} (group_name : string)
    (view_func : HttpRequest -> A -> M Response) (request : HttpRequest) (args : A)
  : M Response :=
  if negb (bool_decide (group_name ∈ Permissions.actor_groups (user request)))
     && negb (Permissions.actor_is_superuser (user request)) then
    mret {| status_code := HTTP_403_FORBIDDEN;
            body := [("error", JStr "Permission denied");
                     ("message",
                      JStr ("You must be in the " +:+ String Json.dquote group_name +:+
                            String Json.dquote " group to perform this action"))] |}
  else view_func request args.

(** [require_any_group]. *)
Definition require_any_group {A} (group_names : list string)
    (view_func : HttpRequest -> A -> M Response) (request : HttpRequest) (args : A)
  : M Response :=
  if negb (existsb (fun g => bool_decide (g ∈ group_names))
                   (Permissions.actor_groups (user request)))
     && negb (Permissions.actor_is_superuser (user request)) then
    mret {| status_code := HTTP_403_FORBIDDEN;
            body := [("error", JStr "Permission denied");
                     ("message",
                      JStr ("You must be in one of these groups: " +:+
                            Json.join ", " group_names))] |}
  else view_func request args.

End Decorators.

(** ** The views as the URL configuration reaches them *)
Module Views.
Import Permissions Decorators.

Definition approve_request : HttpRequest -> Z -> M Response :=
  api_view [IsAuthenticated; CanApproveRequests; IsActiveUser]
    (require_digital_signature Handlers.approve_request).

Definition reject_request : HttpRequest -> Z -> M Response :=
  api_view [IsAuthenticated; CanApproveRequests; IsActiveUser]
    (require_digital_signature Handlers.reject_request).

Definition send_back_request : HttpRequest -> Z -> M Response :=
  api_view [IsAuthenticated; CanApproveRequests; IsActiveUser]
    (require_digital_signature Handlers.send_back_request).

Definition allocate_storage : HttpRequest -> Z -> M Response :=
  api_view [IsAuthenticated; CanAllocateStorage; IsActiveUser]
    (require_digital_signature Handlers.allocate_storage).

Definition create_withdrawal_request : HttpRequest -> unit -> M Response :=
  api_view [IsAuthenticated; CanCreateRequests; IsActiveUser]
    (require_digital_signature (fun request _ => Handlers.create_withdrawal_request request)).

Definition issue_documents : HttpRequest -> Z -> M Response :=
  api_view [IsAuthenticated; CanAllocateStorage; IsActiveUser]
    (require_digital_signature Handlers.issue_documents).

Definition return_documents : HttpRequest -> Z -> M Response :=
  api_view [IsAuthenticated; CanAllocateStorage; IsActiveUser]
    (require_digital_signature Handlers.return_documents).

Definition confirm_destruction : HttpRequest -> Z -> M Response :=
  api_view [IsAuthenticated; CanCreateRequests; IsActiveUser]
    (require_digital_signature Handlers.confirm_destruction).

Definition create_destruction_request : HttpRequest -> unit -> M Response :=
  api_view [IsAuthenticated; CanCreateRequests; IsActiveUser]
    (require_digital_signature (fun request _ => Handlers.create_destruction_request request)).

Definition update_withdrawal_request : HttpRequest -> Z -> M Response :=
  api_view [IsAuthenticated; CanCreateRequests; IsActiveUser]
    (require_digital_signature Handlers.update_withdrawal_request).

Definition update_destruction_request : HttpRequest -> Z -> M Response :=
  api_view [IsAuthenticated; CanCreateRequests; IsActiveUser]
    (require_digital_signature Handlers.update_destruction_request).

End Views.

(** ** A small archive used to run the code on concrete inputs *)
Module Sample.

Definition clock : Py.datetime :=
  {| Py.year := 2025; Py.month := 3; Py.day := 7; Py.hour := 9; Py.minute := 5;
     Py.second := 1; Py.microsecond := 1234; Py.utcoffset := Some 0 |}.

Definition later : Py.datetime :=
  {| Py.year := 2025; Py.month := 4; Py.day := 1; Py.hour := 0; Py.minute := 0;
     Py.second := 0; Py.microsecond := 0; Py.utcoffset := Some 0 |}.

Definition mk_user (k : Z) (name full : string) (r : Z) : User.row :=
  {| User.id := k; User.username := name; User.full_name := full;
     User.email := name +:+ "@example.org"; User.password := name +:+ "-secret";
     User.is_superuser := false; User.is_active := true; User.status := "Active";
     User.role := Some r; User.groups := [] |}.

Definition alice : User.row := mk_user 1 "alice" "Alice Requester" 1.
Definition bob : User.row := mk_user 2 "bob" "Bob Approver" 2.
Definition carol : User.row := mk_user 3 "carol" "Carol Storekeeper" 3.

Definition mk_crate (k : Z) (st : string) (b : string) (sto : option Z) : Crate.row :=
  {| Crate.pk := Some k; Crate.barcode := b; Crate.destruction_date := Some "2030-01-01";
     Crate.created_by := 1; Crate.status := st; Crate.storage := sto; Crate.unit := 1;
     Crate.department := 1; Crate.section := Some 1; Crate.to_central := false;
     Crate.to_be_retained := false |}.

Definition mk_request (k : Z) (ty st : string) (c : Z) : Request.row :=
  {| Request.pk := Some k; Request.request_type := ty; Request.crate := c;
     Request.unit := 1; Request.approval_date := None; Request.issue_date := None;
     Request.return_date := None; Request.expected_return_date := None;
     Request.approved_by := None; Request.allocation_date := None;
     Request.allocated_by := None; Request.status := st; Request.withdrawn_by := Some 1;
     Request.purpose := "archive"; Request.full_withdrawal := true;
     Request.issued_by := None; Request.updated_at := None |}.

(** Crate 1 is stored and active, crate 2 awaits allocation, crate 3 is
    out on a withdrawal.  Requests: 1 storage (pending), 2 storage (sent
    back), 3 withdrawal of crate 3 (pending), 4 destruction of crate 1
    (approved), 5 storage of crate 2 (approved), 6 withdrawal of crate 3
    (approved), 7 withdrawal of crate 3 (issued). *)
Definition store : Store :=
  {| now := clock;
     uuid_source := fun n => Py.replicate_char 32 (Py.hex_digit (Z.of_nat n mod 16));
     uuid_count := 0;
     users := {[ 1 := alice; 2 := bob; 3 := carol ]};
     roles := {[ 1 := {| Role.role_name := "User"; Role.is_active := true |};
                 2 := {| Role.role_name := "Section Head"; Role.is_active := true |};
                 3 := {| Role.role_name := "Store Head"; Role.is_active := true |} ]};
     privileges :=
       {[ 1 := {| Privilege.codename := "create_request"; Privilege.name := "Create Request";
                  Privilege.is_active := true |};
          2 := {| Privilege.codename := "approve_request"; Privilege.name := "Approve Request";
                  Privilege.is_active := true |};
          3 := {| Privilege.codename := "allocate_storage";
                  Privilege.name := "Allocate Storage"; Privilege.is_active := false |} ]};
     role_privileges := [(1, 1); (2, 2); (3, 3)];
     units := {[ 1 := {| Unit.unit_code := "MFG01"; Unit.unit_name := "Plant 1" |} ]};
     departments := {[ 1 := {| Department.department_name := "QC"; Department.unit := 1 |} ]};
     sections := {[ 1 := {| Section.section_name := "Lab 1"; Section.department := 1 |} ]};
     storages :=
       {[ 1 := {| Storage.id := 1; Storage.unit := 1; Storage.room_name := "RoomA";
                  Storage.rack_name := "Rack1"; Storage.compartment_name := "C1";
                  Storage.shelf_name := None |} ]};
     crates := {[ 1 := mk_crate 1 "Active" "MFG01/QC/Lab1/2025/00001" (Some 1);
                  2 := mk_crate 2 "Active" "MFG01/QC/Lab1/2025/00002" None;
                  3 := mk_crate 3 "Withdrawn" "MFG01/QC/Lab1/2025/00003" (Some 1) ]};
     crate_documents := [(1, 10); (1, 11); (2, 12)];
     requests := {[ 1 := mk_request 1 "Storage" "Pending" 1;
                    2 := mk_request 2 "Storage" "Sent Back" 2;
                    3 := mk_request 3 "Withdrawal" "Pending" 3;
                    4 := mk_request 4 "Destruction" "Approved" 1;
                    5 := mk_request 5 "Storage" "Approved" 2;
                    6 := mk_request 6 "Withdrawal" "Approved" 3;
                    7 := mk_request 7 "Withdrawal" "Issued" 3 ]};
     documents := {[ 10; 11; 12 ]};
     request_documents := [];
     sendbacks := [];
     audit_trail := ∅;
     digital_signatures := ∅ |}.

(** The same archive late in a busy year: two crates carry the sequence
    numbers 99998 and 99999 of their unit, department and section. *)
Definition crowded : Store :=
  set_crates {[ 1 := mk_crate 1 "Active" "MFG01/QC/Lab1/2025/99998" (Some 1);
                2 := mk_crate 2 "Active" "MFG01/QC/Lab1/2025/99999" None ]} store.

(** A crate about to be saved for the first time. *)
Definition new_crate : Crate.row :=
  {| Crate.pk := None; Crate.barcode := ""; Crate.destruction_date := Some "2031-01-01";
     Crate.created_by := 1; Crate.status := "Active"; Crate.storage := None;
     Crate.unit := 1; Crate.department := 1; Crate.section := Some 1;
     Crate.to_central := false; Crate.to_be_retained := false |}.

Definition payload (password : string) : Payload :=
  {| digital_signature := Some (Json.JStr password);
     reason := Some (Json.JStr "label does not match the manifest");
     storage := Some (Json.JInt 1);
     crate_id := Some (Json.JInt 1);
     purpose := Some (Json.JStr "audit");
     expected_return_date := Some later;
     full_withdrawal := None;
     document_ids := None |}.

(** A request sent by [u] who re-enters the right password. *)
Definition http (u : User.row) : HttpRequest :=
  {| user := Authenticated u; data := payload (User.password u);
     REMOTE_ADDR := Some "10.0.0.7"; HTTP_X_FORWARDED_FOR := None;
     HTTP_USER_AGENT := Some "Mozilla/5.0" |}.

End Sample.

(** ** Notions the statements below use *)
Module Spec.

(** The capability set granted to a role: the codenames of the active
    privileges linked to it. *)
Definition granted (s : Store) (role_id : Z) (codename : string) : Prop :=
  exists pid p, (role_id, pid) ∈ role_privileges s /\ privileges s !! pid = Some p /\
                Privilege.is_active p = true /\ Privilege.codename p = codename.


(** Everything but the crates table and the uuid counter is as before. *)
Definition crates_frame (s s1 : Store) : Prop :=
  set_crates (crates s) (set_uuid_count (uuid_count s) s1) = s.


Definition same_accounts (s s' : Store) : Prop :=
  users s = users s' /\ roles s = roles s' /\ privileges s = privileges s' /\
  role_privileges s = role_privileges s'.


(** The tables no workflow transition writes, and the clock. *)
Definition static_frame (s s' : Store) : Prop :=
  now s' = now s /\ users s' = users s /\ roles s' = roles s /\
  privileges s' = privileges s /\ role_privileges s' = role_privileges s /\
  units s' = units s /\ departments s' = departments s /\ sections s' = sections s /\
  storages s' = storages s /\ crate_documents s' = crate_documents s /\
  documents s' = documents s /\ digital_signatures s' = digital_signatures s.

(** The computation leaves the links between requests and documents as
    they are, however it ends. *)
Definition keeps_links {A} (m : M A) : Prop :=
  forall s r s', m s = (r, s') -> request_documents s' = request_documents s.

(** What [reject_request] does to the crate of the request and to the
    audit trail before it touches the request: the crate of a withdrawal
    that is out goes back to Active, with an audit entry; nothing
    otherwise. *)
Definition reject_crate_effect (r : Request.row) (s s1 : Store) : Prop :=
  (Request.request_type r = "Withdrawal" /\
   exists c c' e,
     crates s !! Request.crate r = Some c /\ Crate.status c = "Withdrawn" /\
     c' = Crate.with_barcode (Crate.barcode c')
            (Crate.with_status "Active" (Crate.with_pk (Request.crate r) c)) /\
     crates s1 = <[Request.crate r := c']> (crates s) /\
     audit_trail s1 = <[fresh_pk (audit_trail s) := e]> (audit_trail s) /\
     AuditTrail.action e = "Updated")
  \/
  (~ (Request.request_type r = "Withdrawal" /\
      Crate.status <$> crates s !! Request.crate r = Some "Withdrawn") /\
   crates s1 = crates s /\ audit_trail s1 = audit_trail s).

(** The crate stored under [k] can be written back: it has a barcode and
    no other crate carries the same one. *)
Definition crate_writable (s : Store) (k : Z) : Prop :=
  exists c, crates s !! k = Some c /\ Py.truthy_str (Crate.barcode c) = true /\
            Documents.barcode_taken (Crate.barcode c) (rows (delete k (crates s))) = false.


(** The permission lists of the views. *)
Definition approvers : list Permissions.permission :=
  [Permissions.IsAuthenticated; Permissions.CanApproveRequests; Permissions.IsActiveUser].

Definition allocators : list Permissions.permission :=
  [Permissions.IsAuthenticated; Permissions.CanAllocateStorage; Permissions.IsActiveUser].

Definition requesters : list Permissions.permission :=
  [Permissions.IsAuthenticated; Permissions.CanCreateRequests; Permissions.IsActiveUser].

(** A computation that only reads the account tables: it returns without
    raising, leaves the store alone, and returns the same on any store with
    the same accounts. *)
Definition account_reader {A} (m : M A) : Prop :=
  forall s, exists x, m s = (inr x, s) /\
                      forall s', same_accounts s s' -> m s' = (inr x, s').


(** The permission classes the views use. *)
Definition reads_accounts (p : Permissions.permission) : Prop :=
  forall request, account_reader (Permissions.has_permission p request).


(** The caller is let through: every permission holds and the re-entered
    password authenticates the user of the request. *)
Definition gate_open (perms : list Permissions.permission) (request : HttpRequest)
    (s : Store) : Prop :=
  Decorators.check_permissions perms request s = (inr None, s) /\
  exists u sig v,
    user request = Authenticated u /\
    digital_signature (data request) = Some sig /\
    Decorators.truthy sig = true /\
    User.status u = "Active" /\
    Decorators.authenticate (User.username u) sig s = (inr (Some v), s) /\
    User.id v = User.id u.


(** The seven transitions of the workflow, the view behind each, and the
    status each leaves the request in. *)
Inductive transition :=
| Approve | Reject | SendBack | AllocateStorage | Issue | Return | ConfirmDestruction.


(** The body of the view and the permissions in front of it. *)
Definition handler (t : transition) : HttpRequest -> Z -> M Response :=
  match t with
  | Approve => Handlers.approve_request
  | Reject => Handlers.reject_request
  | SendBack => Handlers.send_back_request
  | AllocateStorage => Handlers.allocate_storage
  | Issue => Handlers.issue_documents
  | Return => Handlers.return_documents
  | ConfirmDestruction => Handlers.confirm_destruction
  end.


Definition target (t : transition) : string :=
  match t with
  | Approve => "Approved"
  | Reject => "Rejected"
  | SendBack => "Sent Back"
  | AllocateStorage => "Completed"
  | Issue => "Issued"
  | Return => "Returned"
  | ConfirmDestruction => "Completed"
  end.


(** The actor is signed in and holds the role of that name, through a
    group or through the role field. *)
Definition holds_role (s : Store) (a : actor) (role_name : string) : Prop :=
  exists u, a = Authenticated u /\
    (role_name ∈ User.groups u \/
     exists rid r, User.role u = Some rid /\ roles s !! rid = Some r /\
                   Role.role_name r = role_name).

(** The actor is signed in and is a superuser or has a role that is
    granted the capability. *)
Definition holds_privilege (s : Store) (a : actor) (codename : string) : Prop :=
  exists u, a = Authenticated u /\
    (User.is_superuser u = true \/
     exists rid r, User.role u = Some rid /\ roles s !! rid = Some r /\
                   granted s rid codename).

(** The permission classes that test a capability and fall back on a role
    name. *)
Definition capability_classes : list (Permissions.permission * string * string) :=
  [(Permissions.CanCreateRequests, "create_request", "User");
   (Permissions.CanApproveRequests, "approve_request", "Section Head");
   (Permissions.CanAllocateStorage, "allocate_storage", "Store Head");
   (Permissions.CanReallocateStorage, "reallocate_storage", "Store Head");
   (Permissions.CanIssueWithdrawal, "issue_withdrawal", "Store Head");
   (Permissions.CanConfirmDestruction, "confirm_destruction", "Store Head")].

(** The permission classes that test a capability and fall back on the
    administrator check. *)
Definition admin_classes : list (Permissions.permission * string) :=
  [(Permissions.CanManageUsers, "manage_users");
   (Permissions.CanManageMasterData, "manage_master_data");
   (Permissions.CanExportReports, "export_reports");
   (Permissions.CanManageRoles, "manage_roles")].

(** The texts that enter the string a signature record is hashed from, in
    the order in which the code joins them with a bar. *)
Definition signature_components (d : DigitalSignature.row) : list string :=
  [DigitalSignature.signer_username d; DigitalSignature.signer_full_name d;
   DigitalSignature.signer_role d; DigitalSignature.signature_type d;
   Py.str_opt_datetime (DigitalSignature.signature_timestamp d);
   DigitalSignature.signed_model d; Py.str_int (DigitalSignature.signed_record_id d);
   DigitalSignature.data_hash d].

(** Two records whose texts differ in exactly one place. *)
Definition one_component_changed (d d' : DigitalSignature.row) : Prop :=
  exists l1 x y l2,
    signature_components d = (l1 ++ x :: l2)%list /\
    signature_components d' = (l1 ++ y :: l2)%list /\ x <> y.

End Spec.

(*DEFS-END*)
(** * Facts *)

Import Spec.

(** ** The primitives agree with CPython on test vectors *)
Example sha_empty : SHA256.hexdigest "" = "e3b0c44298fc1c149afbf4c8996fb92427ae41e4649b934ca495991b7852b855".
Proof. vm_compute. reflexivity. Qed.
Example sha_abc : SHA256.hexdigest "abc" = "ba7816bf8f01cfea414140de5dae2223b00361a396177a9cb410ff61f20015ad".
Proof. vm_compute. reflexivity. Qed.
Example sha_a64 : SHA256.hexdigest (Py.replicate_char 64 "a"%char) = "ffe054fe7ae0cb6dc65c3af9b61d5209f439851db43d0ba5997337df154668eb".
Proof. vm_compute. reflexivity. Qed.
Example fmt1 : Py.format_0d 5 42 = "00042". Proof. reflexivity. Qed.
Example fmt2 : Py.format_0d 5 100000 = "100000". Proof. reflexivity. Qed.
Example fmt3 : Py.format_0d 5 (-4) = "-0004". Proof. reflexivity. Qed.
Example int1 : Py.int_of_str " 00_42 " = Some 42. Proof. reflexivity. Qed.
Example int2 : Py.int_of_str "4a" = None. Proof. reflexivity. Qed.
Example seg1 : Py.last_segment "/"%char "A/B/2025/00017" = "00017". Proof. reflexivity. Qed.

Example strip1 :
  Py.strip (String " " (String (ascii_of_N 28) (String (ascii_of_N 160)
              ("a b" +:+ String (ascii_of_N 133) (String (ascii_of_N 31) ""))))) = "a b".
Proof. reflexivity. Qed.

Example int3 :
  Py.int_of_str (String (ascii_of_N 160) ("+1_000" +:+ String (ascii_of_N 133) ""))
  = Some 1000.
Proof. reflexivity. Qed.

Example int4 : Py.int_of_str (String (ascii_of_N 28) "5") = None.
Proof. reflexivity. Qed.

Example int5 :
  List.map Py.int_of_str ["1__0"; "007"; "-0"; " 5 "; "+ 5"; String "5" (String (ascii_of_N 0) "")]
  = [None; Some 7; Some 0; Some 5; None; None].
Proof. reflexivity. Qed.

Example repr1 : Py.repr_str "it's" = String (ascii_of_N 34) ("it's" +:+ String (ascii_of_N 34) "").
Proof. reflexivity. Qed.

Example repr2 :
  Py.repr_str (String "x" (String (ascii_of_N 0) (String (ascii_of_N 160)
                 (String (ascii_of_N 233) (String (ascii_of_N 10) "")))))
  = "'x\x00\xa0" +:+ String (ascii_of_N 233) "\n'".
Proof. reflexivity. Qed.

Example str1 :
  List.map Json.str [Json.JInt 123; Json.JBool true;
                     Json.JList [Json.JInt 1; Json.JStr "a"];
                     Json.JDict [("k", Json.JNull)]; Json.JStr "abc"]
  = ["123"; "True"; "[1, 'a']"; "{'k': None}"; "abc"].
Proof. reflexivity. Qed.

Example ord1 :
  Py.toordinal {| Py.year := 2025; Py.month := 3; Py.day := 7; Py.hour := 0; Py.minute := 0;
                  Py.second := 0; Py.microsecond := 0; Py.utcoffset := None |} = 739317.
Proof. reflexivity. Qed.

Example ord2 :
  Py.toordinal {| Py.year := 2024; Py.month := 2; Py.day := 29; Py.hour := 0; Py.minute := 0;
                  Py.second := 0; Py.microsecond := 0; Py.utcoffset := None |} = 738945.
Proof. reflexivity. Qed.

(** 12:00+05:30 is before 09:05 UTC, 08:00-05:00 is after it, and a naive
    value does not compare with an aware one. *)
Example cmp1 :
  List.map (fun d => Py.datetime_cmp d
              {| Py.year := 2025; Py.month := 3; Py.day := 7; Py.hour := 9; Py.minute := 5;
                 Py.second := 0; Py.microsecond := 0; Py.utcoffset := Some 0 |})
    [{| Py.year := 2025; Py.month := 3; Py.day := 7; Py.hour := 12; Py.minute := 0;
        Py.second := 0; Py.microsecond := 0; Py.utcoffset := Some 330 |};
     {| Py.year := 2025; Py.month := 3; Py.day := 7; Py.hour := 8; Py.minute := 0;
        Py.second := 0; Py.microsecond := 0; Py.utcoffset := Some (-300) |};
     {| Py.year := 2025; Py.month := 3; Py.day := 7; Py.hour := 8; Py.minute := 0;
        Py.second := 0; Py.microsecond := 0; Py.utcoffset := None |}]
  = [Some Lt; Some Gt; None].
Proof. reflexivity. Qed.

Example cmp2 :
  Py.datetime_cmp
    {| Py.year := 2024; Py.month := 12; Py.day := 31; Py.hour := 23; Py.minute := 30;
       Py.second := 0; Py.microsecond := 0; Py.utcoffset := Some (-60) |}
    {| Py.year := 2025; Py.month := 1; Py.day := 1; Py.hour := 0; Py.minute := 30;
       Py.second := 0; Py.microsecond := 0; Py.utcoffset := Some 0 |} = Some Eq.
Proof. reflexivity. Qed.

(** The fields of Django REST framework on the inputs that tell them
    apart from a plain parse. *)
Example integer1 :
  List.map (fun x => Serializers.IntegerField (Json.JStr x))
    ["1.0"; "7.000 " +:+ String (ascii_of_N 160) ""; "7.0.0"; ".0"; "7.50"; " 12 "; "1_0"]
  = [inr 1; inr 7; inl ["A valid integer is required."];
     inl ["A valid integer is required."]; inl ["A valid integer is required."];
     inr 12; inr 10].
Proof. reflexivity. Qed.

Example integer2 :
  List.map Serializers.IntegerField [Json.JInt (-3); Json.JBool true; Json.JNull]
  = [inr (-3); inl ["A valid integer is required."]; inl ["This field may not be null."]].
Proof. reflexivity. Qed.

Example char1 :
  Serializers.CharField false 0
    (Json.JStr (Py.replicate_char 8 (ascii_of_N 160)))
  = inl ["This field may not be blank."].
Proof. reflexivity. Qed.

Example char2 :
  Serializers.CharField false 0 (Json.JStr ("1234567890" +:+ String (ascii_of_N 0) "ab"))
  = inl ["Null characters are not allowed."].
Proof. reflexivity. Qed.

Example char3 :
  Serializers.CharField true 0 (Json.JStr ("audit" +:+ String (ascii_of_N 160) ""))
  = inr "audit".
Proof. reflexivity. Qed.

Example char4 :
  List.map (Serializers.CharField false 3) [Json.JInt 1234; Json.JBool true; Json.JStr "ab"]
  = [inr "1234"; inl ["Not a valid string."];
     inl ["Ensure this field has at least 3 characters."]].
Proof. reflexivity. Qed.
Example dt1 : Py.str_datetime {| Py.year := 2025; Py.month := 3; Py.day := 7; Py.hour := 9; Py.minute := 5; Py.second := 1; Py.microsecond := 1234; Py.utcoffset := Some 0 |} = "2025-03-07 09:05:01.001234+00:00". Proof. reflexivity. Qed.
Example dumps1 :
  Json.dumps (Json.JDict [("request_id", Json.JInt 7); ("status", Json.JStr "Pending");
     ("crate", Json.JNull);
     ("docs", Json.JList [Json.JInt 1; Json.JInt 2;
        Json.JStr ("a" +:+ String Json.dquote ("b\c" +:+ String (ascii_of_N 10) EmptyString))]);
     ("nested", Json.JDict [("b", Json.JBool true); ("a", Json.JBool false)]);
     ("env", Json.JStr ("caf" +:+ String (ascii_of_N 233) (String (ascii_of_N 127) EmptyString)))])
  = "{" +:+ Json.quote "crate" +:+ ": null, " +:+ Json.quote "docs" +:+ ": [1, 2, " +:+
    String Json.dquote ("a\" +:+ String Json.dquote ("b\\c\n" +:+ String Json.dquote EmptyString)) +:+
    "], " +:+ Json.quote "env" +:+ ": " +:+ String Json.dquote ("caf\u00e9\u007f" +:+ String Json.dquote EmptyString) +:+
    ", " +:+ Json.quote "nested" +:+ ": {" +:+ Json.quote "a" +:+ ": false, " +:+ Json.quote "b" +:+ ": true}, " +:+
    Json.quote "request_id" +:+ ": 7, " +:+ Json.quote "status" +:+ ": " +:+ Json.quote "Pending" +:+ "}".
Proof. vm_compute. reflexivity. Qed.
Example dumps1_sha :
  SHA256.hexdigest (Json.dumps (Json.JDict [("request_id", Json.JInt 7); ("status", Json.JStr "Pending");
     ("crate", Json.JNull);
     ("docs", Json.JList [Json.JInt 1; Json.JInt 2;
        Json.JStr ("a" +:+ String Json.dquote ("b\c" +:+ String (ascii_of_N 10) EmptyString))]);
     ("nested", Json.JDict [("b", Json.JBool true); ("a", Json.JBool false)]);
     ("env", Json.JStr ("caf" +:+ String (ascii_of_N 233) (String (ascii_of_N 127) EmptyString)))]))
  = "6fd35882ecf0d8166fc38b0a524408a71b8b40751acf46aea9fabd6bb750069a".
Proof. vm_compute. reflexivity. Qed.


(** ** The monad *)

Lemma bind_inr {A B} (m : M A) (f : A -> M B) s x s' :
  m s = (inr x, s') -> (m ≫= f) s = f x s'.
Proof. intros H. unfold mbind, M_bind. rewrite H. reflexivity. Qed.

Lemma bind_inl {A B} (m : M A) (f : A -> M B) s e s' :
  m s = (inl e, s') -> (m ≫= f) s = (inl e, s').
Proof. intros H. unfold mbind, M_bind. rewrite H. reflexivity. Qed.

Lemma bind_inv {A B} (m : M A) (f : A -> M B) s y s2 :
  (m ≫= f) s = (inr y, s2) -> exists x s1, m s = (inr x, s1) /\ f x s1 = (inr y, s2).
Proof.
  unfold mbind, M_bind. destruct (m s) as [[e|x] s1]; intros H.
  - discriminate.
  - eauto.
Qed.

(** ** Primary keys *)

Lemma max_pk_bound {A} (m : gmap Z A) k x : m !! k = Some x -> k <= max_pk m.
Proof.
  intros H. apply elem_of_map_to_list in H. unfold max_pk.
  induction (map_to_list m) as [|[k' x'] l IH]; simpl.
  - inversion H.
  - apply elem_of_cons in H as [H|H].
    + inversion H; subst. lia.
    + specialize (IH H). lia.
Qed.

Lemma fresh_pk_None {A} (m : gmap Z A) : m !! fresh_pk m = None.
Proof.
  destruct (m !! fresh_pk m) as [x|] eqn:E; [|reflexivity].
  apply max_pk_bound in E. unfold fresh_pk in E. lia.
Qed.

(** ** The privilege resolver *)

Lemma elem_of_privilege_codenames s rid c :
  c ∈ omap (fun rp : Z * Z =>
              if fst rp =? rid then
                match privileges s !! snd rp with
                | Some p => if Privilege.is_active p then Some (Privilege.codename p) else None
                | None => None
                end
              else None) (role_privileges s)
  <-> Spec.granted s rid c.
Proof.
  rewrite list_elem_of_omap. unfold Spec.granted. split.
  - intros [[r pid] [Hin Hf]]. simpl in Hf.
    destruct (r =? rid) eqn:Er; [|discriminate]. apply Z.eqb_eq in Er. subst r.
    destruct (privileges s !! pid) as [p|] eqn:Ep; [|discriminate].
    destruct (Privilege.is_active p) eqn:Ea; [|discriminate].
    inversion Hf. eauto 10.
  - intros (pid & p & Hin & Hp & Ha & Hc). exists (rid, pid). split; [exact Hin|].
    simpl. rewrite Z.eqb_refl, Hp, Ha. congruence.
Qed.

(** C9: [has_privilege] never raises and leaves the store as it found it;
    it answers [True] exactly for an authenticated actor who is a superuser
    or whose role is granted the codename, and so [False] for a missing or
    anonymous actor. *)
Theorem C9_has_privilege (s : Store) (user : option actor) (codename : string) :
  exists b : bool,
    Permissions.has_privilege user codename s = (inr b, s) /\
    (b = true <->
     exists u, user = Some (Authenticated u) /\
       (User.is_superuser u = true \/
        exists rid r, User.role u = Some rid /\ roles s !! rid = Some r /\
                      Spec.granted s rid codename)).
Proof.
  destruct user as [[|u]|]; simpl.
  - exists false. split; [reflexivity|]. split; [discriminate|].
    intros (u & Hu & _). discriminate.
  - unfold Permissions.actor_is_superuser. destruct (User.is_superuser u) eqn:Hs.
    + exists true. split; [reflexivity|]. split; [|reflexivity]. eauto.
    + unfold mbind, M_bind, mret, M_ret, Permissions.user_role,
        Permissions.get_privilege_codenames, get_store. simpl.
      destruct (User.role u) as [rid|] eqn:Hr.
      * destruct (roles s !! rid) as [r|] eqn:Hrow.
        -- eexists. split; [reflexivity|].
           rewrite bool_decide_eq_true, elem_of_privilege_codenames. split.
           ++ intros Hg. exists u. split; [reflexivity|]. right. eauto.
           ++ intros (u' & Hu & [Hsu|(rid' & r' & Hr' & _ & Hg)]).
              ** inversion Hu; subst. congruence.
              ** inversion Hu; subst. congruence.
        -- exists false. split; [reflexivity|]. split; [discriminate|].
           intros (u' & Hu & [Hsu|(rid' & r' & Hr' & Hrow' & _)]);
             inversion Hu; subst; congruence.
      * exists false. split; [reflexivity|]. split; [discriminate|].
        intros (u' & Hu & [Hsu|(rid' & r' & Hr' & _)]);
          inversion Hu; subst; congruence.
  - exists false. split; [reflexivity|]. split; [discriminate|].
    intros (u & Hu & _). discriminate.
Qed.

(** ** The immutable ledgers *)

(** Saving an audit entry that already has a primary key raises and
    leaves the store alone. *)
Lemma audit_update_raises (s : Store) (a : AuditTrail.row) (k : Z) :
  AuditTrail.pk a = Some k ->
  Audit.save a s =
    (inl (ValueError
       "Audit trail records cannot be modified once created (21 CFR Part 11 compliance)"), s).
Proof. intros H. unfold Audit.save. rewrite H. reflexivity. Qed.

(** Deleting an audit entry raises and leaves the store alone. *)
Lemma audit_delete_raises (s : Store) (a : AuditTrail.row) :
  Audit.delete a s =
    (inl (ValueError "Audit trail records cannot be deleted (21 CFR Part 11 compliance)"), s).
Proof. reflexivity. Qed.

(** Saving a signature whose primary key is set (and not zero) raises and
    leaves the store alone. *)
Lemma signature_update_raises (H : string -> string) (s : Store)
    (d : DigitalSignature.row) (k : Z) :
  DigitalSignature.pk d = Some k -> k <> 0 ->
  Signature.save H d s =
    (inl (ValueError
       "Digital signatures are immutable and cannot be modified after creation"), s).
Proof.
  intros Hk Hz. unfold Signature.save, Py.truthy_pk. rewrite Hk.
  destruct (k =? 0) eqn:E; [apply Z.eqb_eq in E; contradiction|reflexivity].
Qed.

(** Deleting a persisted signature goes through: the row is gone. *)
Lemma signature_delete_removes (s : Store) (d : DigitalSignature.row) (k : Z) :
  DigitalSignature.pk d = Some k ->
  exists s', Signature.delete d s = (inr tt, s') /\ digital_signatures s' !! k = None.
Proof.
  intros Hk. unfold Signature.delete. rewrite Hk. eexists. split; [reflexivity|].
  simpl. apply lookup_delete_eq.
Qed.

(** C2 (the code departs from it): a signature stored under key 1 by
    [create_signature] is removed by [delete], which raises nothing. *)
Theorem C2_signature_delete_succeeds :
  match Signature.create_signature SHA256.hexdigest Sample.bob "APPROVE"
          "approval of request 1" "Request" 1
          (Json.JDict [("status", Json.JStr "Approved")]) "Storage request 1"
          (Some (Sample.http Sample.bob)) Sample.store with
  | (inr sig, s1) =>
      DigitalSignature.pk sig = Some 1 /\
      digital_signatures s1 !! 1 = Some sig /\
      match Signature.delete sig s1 with
      | (inr _, s2) => digital_signatures s2 !! 1 = None
      | (inl _, _) => False
      end
  | (inl _, _) => False
  end.
Proof. vm_compute. repeat split; reflexivity. Qed.

(** ** Signing and verifying *)

Lemma app_inv_prefix (p x y : string) : p +:+ x = p +:+ y -> x = y.
Proof.
  induction p as [|a p IH]; simpl; intros H; [exact H|].
  injection H as H. auto.
Qed.

Lemma string_of_uint_head (u : Decimal.uint) :
  exists c r, NilZero.string_of_uint u = String c r /\ c <> "N"%char.
Proof. destruct u; simpl; eexists _, _; (split; [reflexivity|discriminate]). Qed.

Lemma zfill_head (w : nat) (s : string) :
  (exists c r, s = String c r /\ c <> "N"%char) ->
  exists c r, Py.zfill w s = String c r /\ c <> "N"%char.
Proof.
  intros (c & r & -> & Hc). unfold Py.zfill.
  destruct (w - String.length (String c r))%nat; simpl; eexists _, _;
    (split; [reflexivity|]); [exact Hc|discriminate].
Qed.

Lemma str_datetime_head (d : Py.datetime) (rest : string) :
  exists c r, Py.str_datetime d +:+ rest = String c r /\ c <> "N"%char.
Proof.
  unfold Py.str_datetime.
  destruct (zfill_head 4 (Py.str_N (Py.year d)) (string_of_uint_head _))
    as (c & r & E & Hc).
  rewrite E. simpl. eauto.
Qed.

(** The string hashed at creation differs from the one hashed at
    verification: the first is built while the timestamp is still unset. *)
Lemma signature_string_unset_differs (d : DigitalSignature.row) (k : Z) (t : Py.datetime) :
  DigitalSignature.signature_timestamp d = None ->
  Signature.signature_string (DigitalSignature.with_insert k t d)
  <> Signature.signature_string d.
Proof.
  intros Hnone Heq. unfold Signature.signature_string in Heq. simpl in Heq.
  rewrite Hnone in Heq.
  repeat (first [apply app_inv_prefix in Heq | injection Heq as Heq]).
  simpl in Heq.
  destruct (str_datetime_head t
              ("|" +:+ DigitalSignature.signed_model d +:+ "|" +:+
               Py.str_int (DigitalSignature.signed_record_id d) +:+ "|" +:+
               DigitalSignature.data_hash d)) as (c & r & E & Hc).
  rewrite E in Heq. injection Heq as Hc' _. contradiction.
Qed.

(** What [save] returns for an instance that was never saved. *)
Lemma signature_save_new (H : string -> string) (d sig : DigitalSignature.row) (s s' : Store) :
  DigitalSignature.pk d = None ->
  Signature.save H d s = (inr sig, s') ->
  exists k, sig = DigitalSignature.with_insert k (now s)
                    (DigitalSignature.with_signature_hash
                       (H (Signature.signature_string d)) d).
Proof.
  intros Hpk. unfold Signature.save, Py.truthy_pk. rewrite Hpk.
  unfold Signature.Model_save.
  change (DigitalSignature.pk (DigitalSignature.with_signature_hash
            (H (Signature.signature_string d)) d)) with (DigitalSignature.pk d).
  rewrite Hpk.
  match goal with |- context [Signature.hash_taken ?a ?b] =>
    destruct (Signature.hash_taken a b) end; [discriminate|].
  intros Hc. injection Hc as <- _. eexists. reflexivity.
Qed.

(** Whatever the hash function, a signature that verifies right after
    [create_signature] exhibits two different strings with the same hash. *)
Lemma verify_after_create_collision (H : string -> string) (user : User.row)
    (ty purpose model : string) (rid : Z) (signed_data : Json.value) (descr : string)
    (request : option HttpRequest) (s s' : Store) (sig : DigitalSignature.row) (msg : string) :
  Signature.create_signature H user ty purpose model rid signed_data descr request s
    = (inr sig, s') ->
  Signature.verify_integrity H sig = (true, msg) ->
  exists x y, x <> y /\ H x = H y.
Proof.
  cbv [Signature.create_signature get_store mbind M_bind].
  intros Hc. apply signature_save_new in Hc as [k ->]; [|reflexivity].
  unfold Signature.verify_integrity.
  match goal with |- context [negb (String.eqb ?a ?b)] =>
    destruct (String.eqb a b) end; cbv [negb]; [|discriminate].
  match goal with |- context [String.eqb ?a ?b] =>
    destruct (String.eqb a b) eqn:E end; [|discriminate].
  intros _. apply String.eqb_eq in E.
  match type of E with context [DigitalSignature.with_signature_hash _ ?d] =>
    set (d0 := d) in * end.
  change (H (Signature.signature_string (DigitalSignature.with_insert k (now s) d0))
          = H (Signature.signature_string d0)) in E.
  eexists _, _. split; [|exact E].
  apply signature_string_unset_differs. reflexivity.
Qed.

(** C1 (the code departs from it): the record [create_signature] returns
    fails [verify_integrity] at once, with the signature-hash message. *)
Theorem C1_verify_after_create_fails :
  match Signature.create_signature SHA256.hexdigest Sample.bob "APPROVE"
          "approval of request 1" "Request" 1
          (Json.JDict [("status", Json.JStr "Approved")]) "Storage request 1"
          (Some (Sample.http Sample.bob)) Sample.store with
  | (inr sig, s1) =>
      digital_signatures s1 !! 1 = Some sig /\
      Signature.verify_integrity SHA256.hexdigest sig
        = (false, "Signature hash mismatch - signature has been altered")
  | (inl _, _) => False
  end.
Proof. vm_compute. split; reflexivity. Qed.

(** ** The barcode sequencer *)

(** On the sample archive the fourth crate of the tuple gets sequence 4. *)
Example barcode_fourth :
  match Documents.save Sample.new_crate Sample.store with
  | (inr c, s') =>
      Crate.barcode c = "MFG01/QC/Lab1/2025/00004" /\ crates s' !! 4 = Some c
  | (inl _, _) => False
  end.
Proof. vm_compute. split; reflexivity. Qed.

(** A crate that has a barcode keeps it through [save]: the row written is
    the instance itself. *)
Lemma save_keeps_barcode (self r : Crate.row) (s s' : Store) (k : Z) :
  Py.truthy_str (Crate.barcode self) = true ->
  Crate.pk self = Some k ->
  Documents.save self s = (inr r, s') ->
  r = self /\ crates s' !! k = Some self.
Proof.
  intros Hb Hk. unfold Documents.save. rewrite Hb. cbv [negb].
  unfold Documents.Model_save. rewrite Hk.
  destruct (Documents.barcode_taken _ _); [discriminate|].
  intros H. injection H as <- <-. split; [reflexivity|].
  cbv [set_crates crates]. apply lookup_insert_eq.
Qed.

(** C8 (the code departs from it): with sequence number 99999 in use, the
    first save of a crate of the same tuple gets 100000; the aggregate is a
    maximum of strings, so for the next crate the greatest barcode is still
    the one ending in 99999, the sequence derived is 100000 again, the final
    write violates the unique constraint and the crate keeps its
    placeholder. *)
Theorem C8_sequence_repeats_after_99999 :
  match Documents.save Sample.new_crate Sample.crowded with
  | (inr c1, s1) =>
      Crate.barcode c1 = "MFG01/QC/Lab1/2025/100000" /\
      crates s1 !! 3 = Some c1 /\
      Documents.max_barcode_of
        (Documents.siblings (Crate.with_pk 4 Sample.new_crate) "MFG01/QC/Lab1/2025" s1)
        = Some "MFG01/QC/Lab1/2025/99999" /\
      match Documents.save Sample.new_crate s1 with
      | (inl e, s2) =>
          e = IntegrityError "crates.barcode" /\
          Crate.barcode <$> crates s2 !! 4 = Some "TEMP-22222222222222222222222222222222"
      | (inr _, _) => False
      end
  | (inl _, _) => False
  end.
Proof. vm_compute. repeat split; reflexivity. Qed.

(** ** How each primitive of the workflow returns *)

Lemma ret_inv {A} (x y : A) (s s1 : Store) :
  (mret x : M A) s = (inr y, s1) -> y = x /\ s1 = s.
Proof. cbv [mret M_ret]. intros H. injection H as <- <-. auto. Qed.

Lemma get_store_inv (x s s1 : Store) : get_store s = (inr x, s1) -> x = s /\ s1 = s.
Proof. cbv [get_store]. intros H. injection H as <- <-. auto. Qed.

Lemma timezone_now_inv (t : Py.datetime) (s s1 : Store) :
  timezone_now s = (inr t, s1) -> t = now s /\ s1 = s.
Proof. cbv [timezone_now]. intros H. injection H as <- <-. auto. Qed.

Lemma the_user_inv (request : HttpRequest) (u : User.row) (s s1 : Store) :
  the_user request s = (inr u, s1) -> user request = Authenticated u /\ s1 = s.
Proof.
  unfold the_user. destruct (user request); cbv [raise mret M_ret]; intros H.
  - discriminate.
  - injection H as <- <-. auto.
Qed.

Lemma objects_get_inv {A} (model : string) (table : Store -> gmap Z A)
    (with_pk : Z -> A -> A) (k : Z) (x : A) (s s1 : Store) :
  objects_get model table with_pk k s = (inr x, s1) ->
  s1 = s /\ exists r, table s !! k = Some r /\ x = with_pk k r.
Proof.
  unfold objects_get. destruct (table s !! k) as [r|]; intros H; [|discriminate].
  injection H as <- <-. eauto.
Qed.

Lemma crate_of_inv (r : Request.row) (c : Crate.row) (s s1 : Store) :
  AuditUtils.crate_of r s = (inr c, s1) ->
  s1 = s /\ Crate.pk c = Some (Request.crate r) /\
  exists row, crates s !! Request.crate r = Some row /\ c = Crate.with_pk (Request.crate r) row.
Proof.
  unfold AuditUtils.crate_of. intros H. apply objects_get_inv in H as (-> & row & Hr & ->).
  split; [reflexivity|]. split; [reflexivity|]. eauto.
Qed.

Lemma Request_save_inv (r r' : Request.row) (k : Z) (s s1 : Store) :
  Request.pk r = Some k ->
  Handlers.Request_save r s = (inr r', s1) ->
  r' = Request.with_updated_at (Some (now s)) r /\
  s1 = set_requests (<[k := r']> (requests s)) s.
Proof.
  intros Hk. unfold Handlers.Request_save.
  change (Request.pk (Request.with_updated_at (Some (now s)) r)) with (Request.pk r).
  rewrite Hk. intros H. injection H as <- <-. auto.
Qed.

Lemma log_audit_event_inv (u : option User.row) (action message : string)
    (request : option HttpRequest) (rid sid cid did : option Z) (au : option string)
    (e : AuditTrail.row) (s s1 : Store) :
  Audit.log_audit_event u action message request rid sid cid did au s = (inr e, s1) ->
  s1 = set_audit_trail (<[fresh_pk (audit_trail s) := e]> (audit_trail s)) s /\
  AuditTrail.action e = action /\ AuditTrail.request_id e = rid /\
  AuditTrail.crate_id e = cid /\ AuditTrail.user e = User.id <$> u.
Proof.
  unfold Audit.log_audit_event, Audit.save, Audit.Model_save.
  cbv [AuditTrail.pk AuditTrail.user_agent].
  destruct (RequestUtils.get_user_agent <$> request); intros H; [|discriminate].
  injection H as <- <-. repeat split.
Qed.

Lemma SendBack_create_inv (r : Request.row) (reason : string) (u : User.row)
    (ty : string) (s s1 : Store) :
  Handlers.SendBack_create r reason u ty s = (inr tt, s1) ->
  exists sb, s1 = set_sendbacks (sendbacks s ++ [sb])%list s /\
             SendBack.reason sb = reason /\ SendBack.sendback_type sb = ty /\
             Some (SendBack.request sb) = Request.pk r.
Proof.
  unfold Handlers.SendBack_create. destruct (Request.pk r); intros H; [|discriminate].
  injection H as <-. eexists. repeat split.
Qed.

Lemma get_full_location_inv (st : Storage.row) (loc : string) (s s1 : Store) :
  Documents.get_full_location st s = (inr loc, s1) -> s1 = s.
Proof.
  unfold Documents.get_full_location. intros H.
  apply bind_inv in H as (u & s2 & Hu & H).
  apply objects_get_inv in Hu as (-> & _). apply ret_inv in H as (_ & ->). reflexivity.
Qed.

Lemma get_document_count_inv (c : Crate.row) (n : Z) (s s1 : Store) :
  Documents.get_document_count c s = (inr n, s1) -> s1 = s.
Proof.
  unfold Documents.get_document_count. intros H.
  apply bind_inv in H as (x & s2 & Hx & H).
  apply get_store_inv in Hx as (-> & ->). apply ret_inv in H as (_ & ->). reflexivity.
Qed.

(** *** Saving a crate *)

Lemma crates_frame_refl (s : Store) : crates_frame s s.
Proof. unfold crates_frame. destruct s. reflexivity. Qed.

Lemma crates_frame_set (m : gmap Z Crate.row) (n : nat) (s : Store) :
  crates_frame s (set_crates m (set_uuid_count n s)).
Proof. unfold crates_frame. destruct s. reflexivity. Qed.

Lemma crates_frame_trans (s s1 s2 : Store) :
  crates_frame s s1 -> crates_frame s1 s2 -> crates_frame s s2.
Proof.
  unfold crates_frame, set_crates, set_uuid_count.
  destruct s, s1, s2. cbn. intros H1 H2.
  injection H1 as ?; injection H2 as ?; subst. reflexivity.
Qed.

Lemma Model_save_crate_inv (c c' : Crate.row) (s s1 : Store) :
  Documents.Model_save c s = (inr c', s1) ->
  exists k, c' = Crate.with_pk k c /\ s1 = set_crates (<[k := c']> (crates s)) s /\
            (Crate.pk c = Some k \/ Crate.pk c = None).
Proof.
  unfold Documents.Model_save. destruct (Crate.pk c) as [k|] eqn:Hk.
  - destruct (Documents.barcode_taken _ _); intros H; [discriminate|].
    injection H as <- <-. exists k. repeat split; [|auto].
    destruct c; cbv [Crate.pk] in Hk; subst; reflexivity.
  - destruct (Documents.barcode_taken _ _); intros H; [discriminate|].
    injection H as <- <-. eexists. repeat split. auto.
Qed.
Lemma uuid4_hex_inv (x : string) (s s1 : Store) :
  uuid4_hex s = (inr x, s1) -> s1 = set_uuid_count (S (uuid_count s)) s.
Proof. cbv [uuid4_hex]. intros H. injection H as _ <-. reflexivity. Qed.

Lemma crates_frame_set_crates (m : gmap Z Crate.row) (s : Store) :
  crates_frame s (set_crates m s).
Proof. unfold crates_frame. destruct s. reflexivity. Qed.

Lemma crates_frame_set_uuid (n : nat) (s : Store) :
  crates_frame s (set_uuid_count n s).
Proof. unfold crates_frame. destruct s. reflexivity. Qed.

Lemma with_pk_same (c : Crate.row) (k : Z) : Crate.pk c = Some k -> Crate.with_pk k c = c.
Proof. destruct c. cbv [Crate.pk]. intros ->. reflexivity. Qed.

Lemma with_barcode_same (c : Crate.row) : Crate.with_barcode (Crate.barcode c) c = c.
Proof. destruct c. reflexivity. Qed.

Ltac bind_step H x s1 Hm :=
  apply bind_inv in H as (x & s1 & Hm & H).

Lemma Documents_save_inv (c c' : Crate.row) (k : Z) (s s1 : Store) :
  Crate.pk c = Some k ->
  Documents.save c s = (inr c', s1) ->
  c' = Crate.with_barcode (Crate.barcode c') c /\
  crates s1 = <[k := c']> (crates s) /\ crates_frame s s1.
Proof.
  intros Hk. unfold Documents.save.
  assert (Hplain : Documents.Model_save c s = (inr c', s1) ->
          c' = Crate.with_barcode (Crate.barcode c') c /\
          crates s1 = <[k := c']> (crates s) /\ crates_frame s s1).
  { intros H. apply Model_save_crate_inv in H as (k' & -> & -> & [Hk'|Hk']);
      [|congruence].
    assert (k' = k) as -> by congruence. rewrite (with_pk_same c k Hk).
    split; [symmetry; apply with_barcode_same|].
    split; [reflexivity|apply crates_frame_set_crates]. }
  destruct (Py.truthy_str (Crate.barcode c)); cbv [negb]; [exact Hplain|].
  destruct (Py.truthy_pk (Crate.pk c)); cbv [negb]; [exact Hplain|].
  clear Hplain. intros H.
  bind_step H u1 s2 Hu1. apply uuid4_hex_inv in Hu1 as ->.
  bind_step H c1 s3 Hc1.
  apply Model_save_crate_inv in Hc1 as (k1 & -> & -> & Hk1).
  bind_step H u2 s4 Hu2. apply uuid4_hex_inv in Hu2 as ->.
  bind_step H t s5 Ht. apply timezone_now_inv in Ht as (-> & ->).
  bind_step H dept s6 Hd. apply objects_get_inv in Hd as (-> & _).
  bind_step H sec s7 Hs.
  assert (s7 = set_uuid_count
            (S (uuid_count (set_crates
               (<[k1:=Crate.with_pk k1 (Crate.with_barcode ("TEMP-" +:+ u1) c)]>
                  (crates (set_uuid_count (S (uuid_count s)) s)))
               (set_uuid_count (S (uuid_count s)) s))))
            (set_crates
               (<[k1:=Crate.with_pk k1 (Crate.with_barcode ("TEMP-" +:+ u1) c)]>
                  (crates (set_uuid_count (S (uuid_count s)) s)))
               (set_uuid_count (S (uuid_count s)) s))) as ->.
  { match type of Hs with (match ?o with _ => _ end) _ = _ => destruct o end.
    - bind_step Hs x s8 Hx. apply objects_get_inv in Hx as (-> & _).
      apply ret_inv in Hs as (_ & ->). reflexivity.
    - apply ret_inv in Hs as (_ & ->). reflexivity. }
  bind_step H un s8 Hun. apply objects_get_inv in Hun as (-> & _).
  bind_step H st s9 Hst. apply get_store_inv in Hst as (-> & ->).
  apply Model_save_crate_inv in H as (k2 & -> & -> & Hk2).
  assert (k1 = k) as ->.
  { destruct Hk1 as [Hk1|Hk1]; cbn [Crate.pk Crate.with_barcode] in Hk1; congruence. }
  assert (k2 = k) as ->.
  { destruct Hk2 as [Hk2|Hk2]; cbn [Crate.pk Crate.with_barcode Crate.with_pk] in Hk2;
      congruence. }
  split.
  - destruct c. cbv [Crate.pk] in Hk. subst. reflexivity.
  - split.
    + cbv [crates set_crates set_uuid_count]. apply insert_insert_eq.
    + destruct s. reflexivity.
Qed.

(** ** The gate in front of every view *)

Lemma reader_ret {A} (x : A) : account_reader (mret x : M A).
Proof. intros s. exists x. split; [reflexivity|]. intros s' _. reflexivity. Qed.

Lemma reader_bind {A B} (m : M A) (f : A -> M B) :
  account_reader m -> (forall x, account_reader (f x)) -> account_reader (m ≫= f).
Proof.
  intros Hm Hf s. destruct (Hm s) as (x & Hx & Hx').
  destruct (Hf x s) as (y & Hy & Hy'). exists y. split.
  - rewrite (bind_inr _ _ _ _ _ Hx). exact Hy.
  - intros s' Hs. rewrite (bind_inr _ _ _ _ _ (Hx' s' Hs)). apply Hy'. exact Hs.
Qed.

Lemma reader_codenames (rid : Z) : account_reader (Permissions.get_privilege_codenames rid).
Proof.
  intros s. eexists. split; [reflexivity|]. intros s' (_ & _ & Hp & Hrp).
  cbv [Permissions.get_privilege_codenames get_store mbind M_bind mret M_ret].
  rewrite Hp, Hrp. reflexivity.
Qed.

Lemma reader_user_role (a : actor) : account_reader (Permissions.user_role a).
Proof.
  intros s. eexists. split; [reflexivity|]. intros s' (_ & Hr & _).
  cbv [Permissions.user_role get_store mbind M_bind mret M_ret].
  rewrite Hr. reflexivity.
Qed.

Lemma reader_has_privilege (user : option actor) (c : string) :
  account_reader (Permissions.has_privilege user c).
Proof.
  unfold Permissions.has_privilege. destruct user as [a|]; [|apply reader_ret].
  destruct (negb (is_authenticated a)); [apply reader_ret|].
  destruct (Permissions.actor_is_superuser a); [apply reader_ret|].
  apply reader_bind; [apply reader_user_role|]. intros [[rid r]|]; [|apply reader_ret].
  apply reader_bind; [apply reader_codenames|]. intros l. apply reader_ret.
Qed.

Lemma reader_has_role (user : option actor) (name : string) :
  account_reader (Permissions.has_role user name).
Proof.
  unfold Permissions.has_role. destruct user as [a|]; [|apply reader_ret].
  destruct (negb (is_authenticated a)); [apply reader_ret|].
  destruct (bool_decide _); [apply reader_ret|].
  apply reader_bind; [apply reader_user_role|]. intros r. apply reader_ret.
Qed.

Lemma reader_or_else (a b : M bool) :
  account_reader a -> account_reader b -> account_reader (Permissions.or_else a b).
Proof.
  intros Ha Hb. unfold Permissions.or_else. apply reader_bind; [exact Ha|].
  intros [|]; [apply reader_ret|exact Hb].
Qed.

Lemma reads_IsAuthenticated : reads_accounts Permissions.IsAuthenticated.
Proof. intros request. apply reader_ret. Qed.

Lemma reads_IsActiveUser : reads_accounts Permissions.IsActiveUser.
Proof. intros request. apply reader_ret. Qed.

Lemma reads_CanApproveRequests : reads_accounts Permissions.CanApproveRequests.
Proof.
  intros request. apply reader_or_else; [apply reader_has_privilege|apply reader_has_role].
Qed.

Lemma reads_CanAllocateStorage : reads_accounts Permissions.CanAllocateStorage.
Proof.
  intros request. apply reader_or_else; [apply reader_has_privilege|apply reader_has_role].
Qed.

Lemma reads_CanCreateRequests : reads_accounts Permissions.CanCreateRequests.
Proof.
  intros request. apply reader_or_else; [apply reader_has_privilege|apply reader_has_role].
Qed.

Lemma reader_check_permissions (perms : list Permissions.permission) (request : HttpRequest) :
  Forall reads_accounts perms ->
  account_reader (Decorators.check_permissions perms request).
Proof.
  induction 1 as [|p perms Hp _ IH]; simpl; [apply reader_ret|].
  apply reader_bind; [apply Hp|]. intros [|]; [exact IH|apply reader_ret].
Qed.

Lemma reader_authenticate (name : string) (password : Json.value) :
  account_reader (Decorators.authenticate name password).
Proof.
  intros s. eexists. split; [reflexivity|]. intros s' (Hu & _).
  cbv [Decorators.authenticate get_store mbind M_bind mret M_ret].
  rewrite Hu. reflexivity.
Qed.

Lemma gate_open_stable (perms : list Permissions.permission) (request : HttpRequest)
    (s s' : Store) :
  Forall reads_accounts perms -> same_accounts s s' ->
  gate_open perms request s -> gate_open perms request s'.
Proof.
  intros Hp Hs (Hc & u & sig & v & Hu & Hsig & Ht & Hst & Ha & Hid). split.
  - destruct (reader_check_permissions perms request Hp s) as (x & Hx & Hx').
    rewrite Hx in Hc. injection Hc as ->. apply Hx'. exact Hs.
  - exists u, sig, v. repeat split; try assumption.
    destruct (reader_authenticate (User.username u) sig s) as (x & Hx & Hx').
    rewrite Hx in Ha. injection Ha as ->. apply Hx'. exact Hs.
Qed.

(** Behind an open gate the view is its body. *)
Lemma gate_open_run {A} (perms : list Permissions.permission)
    (h : HttpRequest -> A -> M Response) (request : HttpRequest) (a : A) (s : Store) :
  gate_open perms request s ->
  Decorators.api_view perms (Decorators.require_digital_signature h) request a s
  = h request a s.
Proof.
  intros (Hc & u & sig & v & Hu & Hsig & Ht & Hst & Ha & Hid).
  unfold Decorators.api_view. rewrite (bind_inr _ _ _ _ _ Hc).
  unfold Decorators.require_digital_signature. rewrite Hsig, Ht. cbv [negb].
  assert (Hthe : the_user request s = (inr u, s)).
  { unfold the_user. rewrite Hu. reflexivity. }
  rewrite (bind_inr _ _ _ _ _ Hthe). rewrite Hst. cbv [String.eqb Ascii.eqb Bool.eqb negb].
  rewrite (bind_inr _ _ _ _ _ Ha). rewrite Hid, Z.eqb_refl. reflexivity.
Qed.

Lemma ret_inv_any {A} (x : A) (r : exn + A) (s s1 : Store) :
  (mret x : M A) s = (r, s1) -> r = inr x /\ s1 = s.
Proof. cbv [mret M_ret]. intros H. injection H as <- <-. auto. Qed.

Ltac code_bound :=
  cbv [status_code HTTP_200_OK HTTP_201_CREATED HTTP_400_BAD_REQUEST
       HTTP_401_UNAUTHORIZED HTTP_403_FORBIDDEN HTTP_404_NOT_FOUND
       HTTP_500_INTERNAL_SERVER_ERROR Handlers.error_response]; lia.

(** A closed gate answers with an error and writes nothing. *)
Lemma gate_inv {A} (rest : list Permissions.permission)
    (h : HttpRequest -> A -> M Response) (request : HttpRequest) (a : A) (s s' : Store)
    (r : exn + Response) :
  Forall reads_accounts rest ->
  Decorators.api_view (Permissions.IsAuthenticated :: rest)
    (Decorators.require_digital_signature h) request a s = (r, s') ->
  (exists resp, r = inr resp /\ s' = s /\ 400 <= status_code resp) \/
  (gate_open (Permissions.IsAuthenticated :: rest) request s /\ h request a s = (r, s')).
Proof.
  intros Hp. unfold Decorators.api_view.
  assert (Hall : Forall reads_accounts (Permissions.IsAuthenticated :: rest)).
  { constructor; [apply reads_IsAuthenticated|exact Hp]. }
  destruct (reader_check_permissions _ request Hall s) as (d & Hd & _).
  rewrite (bind_inr _ _ _ _ _ Hd). destruct d as [msg|].
  { intros H. left. destruct (is_authenticated (user request));
      apply ret_inv_any in H as (-> & ->); eexists; repeat split; code_bound. }
  assert (Hauth : exists u, user request = Authenticated u).
  { revert Hd. cbn [Decorators.check_permissions].
    cbv [Permissions.IsAuthenticated Permissions.has_permission].
    rewrite (bind_inr _ _ s (is_authenticated (user request)) s eq_refl).
    destruct (user request) as [|u]; cbn [is_authenticated]; [|eauto].
    cbv [mret M_ret]. discriminate. }
  destruct Hauth as (u & Hu).
  unfold Decorators.require_digital_signature.
  destruct (digital_signature (data request)) as [sig|] eqn:Hsig.
  2:{ intros H. left. apply ret_inv_any in H as (-> & ->).
      eexists; repeat split; code_bound. }
  destruct (Decorators.truthy sig) eqn:Ht; cbv [negb].
  2:{ intros H. left. apply ret_inv_any in H as (-> & ->).
      eexists; repeat split; code_bound. }
  assert (Hthe : the_user request s = (inr u, s)).
  { unfold the_user. rewrite Hu. reflexivity. }
  rewrite (bind_inr _ _ _ _ _ Hthe).
  destruct (String.eqb (User.status u) "Active") eqn:Hst; cbv [negb].
  2:{ intros H. left. apply ret_inv_any in H as (-> & ->).
      eexists; repeat split; code_bound. }
  destruct (reader_authenticate (User.username u) sig s) as (found & Hf & _).
  rewrite (bind_inr _ _ _ _ _ Hf). destruct found as [v|].
  2:{ intros H. left. apply ret_inv_any in H as (-> & ->).
      eexists; repeat split; code_bound. }
  destruct (User.id v =? User.id u) eqn:Hid; cbv [negb].
  2:{ intros H. left. apply ret_inv_any in H as (-> & ->).
      eexists; repeat split; code_bound. }
  intros H. right. split; [|exact H]. split; [exact Hd|].
  exists u, sig, v. apply String.eqb_eq in Hst. apply Z.eqb_eq in Hid. auto 10.
Qed.

(** ** The view bodies, one outcome at a time *)

Ltac bind_in H x s1 Hm := apply bind_inv in H as (x & s1 & Hm & H).

Lemma find_Some {A} (m : gmap Z A) (w : Z -> A -> A) (k : Z) (x : A) :
  find m w k = Some x -> exists row, m !! k = Some row /\ x = w k row.
Proof.
  unfold find. destruct (m !! k) as [row|]; cbn; intros H; [|discriminate].
  injection H as <-. eauto.
Qed.

Lemma same_accounts_refl (s : Store) : same_accounts s s.
Proof. repeat split. Qed.

Lemma log_request_approved_inv (u : User.row) (r : Request.row) (rq : option HttpRequest)
    (e : AuditTrail.row) (s s1 : Store) :
  AuditUtils.log_request_approved u r rq s = (inr e, s1) ->
  s1 = set_audit_trail (<[fresh_pk (audit_trail s) := e]> (audit_trail s)) s /\
  AuditTrail.action e = "Approved" /\ AuditTrail.request_id e = Request.pk r /\
  AuditTrail.user e = Some (User.id u) /\
  is_Some (crates s !! Request.crate r).
Proof.
  unfold AuditUtils.log_request_approved. intros H.
  bind_in H c s2 Hc. apply crate_of_inv in Hc as (-> & _ & row & Hrow & _).
  apply log_audit_event_inv in H as (-> & Ha & Hr & _ & Hu). eauto 10.
Qed.

(** What a returned response of [approve_request] means. *)
Lemma approve_request_inr (request : HttpRequest) (pk : Z) (resp : Response) (s s' : Store) :
  Handlers.approve_request request pk s = (inr resp, s') ->
  (400 <= status_code resp /\ s' = s) \/
  (status_code resp = 200 /\
   exists r u e,
     find (requests s) Request.with_pk pk = Some r /\
     Request.status r = "Pending" /\
     user request = Authenticated u /\
     requests s' = <[pk := Request.with_updated_at (Some (now s))
                             (Request.with_approval (Some (User.id u)) (Some (now s))
                                (Request.with_status "Approved" r))]> (requests s) /\
     audit_trail s' = <[fresh_pk (audit_trail s) := e]> (audit_trail s) /\
     AuditTrail.action e = "Approved" /\ AuditTrail.request_id e = Some pk /\
     crates s' = crates s /\ sendbacks s' = sendbacks s /\ static_frame s s').
Proof.
  unfold Handlers.approve_request.
  destruct (Serializers.ApproveRequestSerializer (data request)) as [errors|[]].
  { intros H. apply ret_inv in H as (-> & ->). left. split; [code_bound|reflexivity]. }
  intros H. bind_in H s0 s1 Hs. apply get_store_inv in Hs as (-> & ->).
  destruct (find (requests s) Request.with_pk pk) as [r|] eqn:Hfind.
  2:{ apply ret_inv in H as (-> & ->). left. split; [code_bound|reflexivity]. }
  destruct (String.eqb (Request.status r) "Pending") eqn:Hst; cbv [negb] in H.
  2:{ apply ret_inv in H as (-> & ->). left. split; [code_bound|reflexivity]. }
  apply String.eqb_eq in Hst.
  bind_in H u s1 Hu. apply the_user_inv in Hu as (Hu & ->).
  bind_in H t s1 Ht. apply timezone_now_inv in Ht as (-> & ->).
  bind_in H r' s1 Hr.
  destruct (find_Some _ _ _ _ Hfind) as (row & Hrow & Hreq).
  apply (Request_save_inv _ _ pk) in Hr as (-> & ->); [|subst r; reflexivity].
  bind_in H e s2 He. apply log_request_approved_inv in He as (-> & Ha & Hrid & _ & _).
  apply ret_inv in H as (-> & ->). right. split; [reflexivity|].
  exists r, u, e. repeat split; try assumption; try reflexivity.
  rewrite Hrid. subst r. reflexivity.
Qed.

Lemma static_frame_refl (s : Store) : static_frame s s.
Proof. repeat split. Qed.

Lemma static_frame_trans (s s1 s2 : Store) :
  static_frame s s1 -> static_frame s1 s2 -> static_frame s s2.
Proof.
  unfold static_frame. intros H1 H2.
  destruct H1 as (?&?&?&?&?&?&?&?&?&?&?&?), H2 as (?&?&?&?&?&?&?&?&?&?&?&?).
  repeat split; congruence.
Qed.

Lemma static_frame_accounts (s s' : Store) : static_frame s s' -> same_accounts s s'.
Proof.
  intros (_ & ? & ? & ? & ? & _). repeat split; congruence.
Qed.

Lemma static_frame_signatures (s s' : Store) :
  static_frame s s' -> digital_signatures s' = digital_signatures s.
Proof. intros H. apply H. Qed.

Lemma crates_frame_static (s s1 : Store) :
  crates_frame s s1 ->
  static_frame s s1 /\ requests s1 = requests s /\ audit_trail s1 = audit_trail s /\
  sendbacks s1 = sendbacks s.
Proof.
  unfold crates_frame. intros H. rewrite <- H. destruct s1. cbn. repeat split.
Qed.

Lemma log_request_rejected_inv (u : User.row) (r : Request.row) (reason : string)
    (rq : option HttpRequest) (e : AuditTrail.row) (s s1 : Store) :
  AuditUtils.log_request_rejected u r reason rq s = (inr e, s1) ->
  s1 = set_audit_trail (<[fresh_pk (audit_trail s) := e]> (audit_trail s)) s /\
  AuditTrail.action e = "Rejected" /\ AuditTrail.request_id e = Request.pk r.
Proof.
  unfold AuditUtils.log_request_rejected. intros H.
  bind_in H c s2 Hc. apply crate_of_inv in Hc as (-> & _).
  apply log_audit_event_inv in H as (-> & Ha & Hr & _). auto.
Qed.

Lemma reject_request_inr (request : HttpRequest) (pk : Z) (resp : Response) (s s' : Store) :
  Handlers.reject_request request pk s = (inr resp, s') ->
  (400 <= status_code resp /\ s' = s) \/
  (status_code resp = 200 /\
   exists r u reason s1 sb e,
     find (requests s) Request.with_pk pk = Some r /\
     Handlers.status_in (Request.status r) ["Pending"; "Sent Back"] = true /\
     user request = Authenticated u /\
     Serializers.RejectRequestSerializer (data request) = inr reason /\
     reject_crate_effect r s s1 /\
     requests s' = <[pk := Request.with_updated_at (Some (now s))
                             (Request.with_status "Rejected" r)]> (requests s) /\
     sendbacks s' = (sendbacks s ++ [sb])%list /\ SendBack.reason sb = reason /\
     crates s' = crates s1 /\
     audit_trail s' = <[fresh_pk (audit_trail s1) := e]> (audit_trail s1) /\
     AuditTrail.action e = "Rejected" /\ AuditTrail.request_id e = Some pk /\
     static_frame s s').
Proof.
  unfold Handlers.reject_request.
  destruct (Serializers.RejectRequestSerializer (data request)) as [errors|reason] eqn:Hser.
  { intros H. apply ret_inv in H as (-> & ->). left. split; [code_bound|reflexivity]. }
  intros H. bind_in H s0 s1 Hs. apply get_store_inv in Hs as (-> & ->).
  destruct (find (requests s) Request.with_pk pk) as [r|] eqn:Hfind.
  2:{ apply ret_inv in H as (-> & ->). left. split; [code_bound|reflexivity]. }
  destruct (Handlers.status_in (Request.status r) ["Pending"; "Sent Back"]) eqn:Hst;
    cbv [negb] in H.
  2:{ apply ret_inv in H as (-> & ->). left. split; [code_bound|reflexivity]. }
  bind_in H u s1 Hu. apply the_user_inv in Hu as (Hu & ->).
  bind_in H cs s1 Hcs.
  destruct (find_Some _ _ _ _ Hfind) as (row & Hrow & Hreq).
  assert (Hpk : Request.pk r = Some pk) by (subst r; reflexivity).
  assert (Heff : reject_crate_effect r s s1 /\ static_frame s s1 /\
                 requests s1 = requests s /\ sendbacks s1 = sendbacks s).
  { destruct (String.eqb (Request.request_type r) "Withdrawal") eqn:Hty.
    - apply String.eqb_eq in Hty.
      bind_in Hcs c s2 Hc. apply crate_of_inv in Hc as (-> & Hck & crow & Hcrow & Hc).
      destruct (String.eqb (Crate.status c) "Withdrawn") eqn:Hcst.
      + apply String.eqb_eq in Hcst.
        bind_in Hcs c' s2 Hsave.
        apply (Documents_save_inv _ _ (Request.crate r)) in Hsave
          as (Hc' & Hcrates & Hframe); [|exact Hck].
        apply crates_frame_static in Hframe as (Hstatic & Hreqs & Haud & Hsb).
        bind_in Hcs e s3 He. apply log_audit_event_inv in He as (-> & Hact & _).
        apply ret_inv in Hcs as (_ & ->).
        split; [|split; [exact Hstatic|split; [exact Hreqs|exact Hsb]]].
        left. split; [exact Hty|]. exists crow, c', e.
        split; [exact Hcrow|]. split; [subst c; exact Hcst|].
        split; [subst c; exact Hc'|]. split; [exact Hcrates|].
        split; [cbn; rewrite Haud; reflexivity|exact Hact].
      + apply ret_inv in Hcs as (_ & ->).
        split; [|split; [apply static_frame_refl|split; reflexivity]].
        right. split; [|split; reflexivity].
        intros (_ & Hw). rewrite Hcrow in Hw. cbn in Hw. injection Hw as Hw.
        subst c. cbn in Hcst. rewrite Hw in Hcst. discriminate.
    - apply ret_inv in Hcs as (_ & ->).
      split; [|split; [apply static_frame_refl|split; reflexivity]].
      right. split; [|split; reflexivity].
      intros (Hw & _). rewrite Hw in Hty. discriminate. }
  destruct Heff as (Heff & Hstatic & Hreqs & Hsbs).
  bind_in H r' s2 Hr.
  apply (Request_save_inv _ _ pk) in Hr as (-> & ->); [|exact Hpk].
  bind_in H x s3 Hsb. destruct x.
  apply SendBack_create_inv in Hsb as (sb & -> & Hreason & _).
  bind_in H e s4 He. apply log_request_rejected_inv in He as (-> & Ha & Hrid).
  apply ret_inv in H as (-> & ->). right. split; [reflexivity|].
  cbn [Request.pk Request.with_updated_at Request.with_status] in Hrid.
  rewrite Hpk in Hrid.
  exists r, u, reason, s1, sb, e.
  destruct Hstatic as (Hnow & Hrest).
  repeat split; try assumption; cbn; try congruence.
  all: try (destruct Hrest as (?&?&?&?&?&?&?&?&?&?&?); congruence).
Qed.

(** Fetching the crate of a request and saving it with some fields set. *)
Lemma crate_update_inv (r : Request.row) (f : Crate.row -> Crate.row)
    (c0 c' : Crate.row) (s s0 s1 : Store) :
  (forall c, Crate.pk (f c) = Crate.pk c) ->
  AuditUtils.crate_of r s = (inr c0, s0) ->
  Documents.save (f c0) s0 = (inr c', s1) ->
  s0 = s /\
  exists c, crates s !! Request.crate r = Some c /\
            c' = Crate.with_barcode (Crate.barcode c') (f (Crate.with_pk (Request.crate r) c)) /\
            crates s1 = <[Request.crate r := c']> (crates s) /\
            static_frame s s1 /\ requests s1 = requests s /\
            audit_trail s1 = audit_trail s /\ sendbacks s1 = sendbacks s.
Proof.
  intros Hf Hc Hs. apply crate_of_inv in Hc as (-> & Hck & row & Hrow & ->).
  split; [reflexivity|]. exists row. split; [exact Hrow|].
  apply (Documents_save_inv _ _ (Request.crate r)) in Hs as (Hc' & Hcr & Hfr).
  - apply crates_frame_static in Hfr as (? & ? & ? & ?). auto 10.
  - rewrite Hf. reflexivity.
Qed.

Lemma send_back_request_inr (request : HttpRequest) (pk : Z) (resp : Response)
    (s s' : Store) :
  Handlers.send_back_request request pk s = (inr resp, s') ->
  (400 <= status_code resp /\ s' = s) \/
  (status_code resp = 200 /\
   exists r u reason sb e,
     find (requests s) Request.with_pk pk = Some r /\
     Handlers.status_in (Request.status r) ["Pending"; "Sent Back"] = true /\
     user request = Authenticated u /\
     Serializers.SendBackCreateSerializer (data request) = inr reason /\
     requests s' = <[pk := Request.with_updated_at (Some (now s))
                             (Request.with_status "Sent Back" r)]> (requests s) /\
     sendbacks s' = (sendbacks s ++ [sb])%list /\ SendBack.reason sb = reason /\
     crates s' = crates s /\
     audit_trail s' = <[fresh_pk (audit_trail s) := e]> (audit_trail s) /\
     AuditTrail.action e = "Sent Back" /\ AuditTrail.request_id e = Some pk /\
     static_frame s s').
Proof.
  unfold Handlers.send_back_request.
  destruct (Serializers.SendBackCreateSerializer (data request)) as [errors|reason] eqn:Hser.
  { intros H. apply ret_inv in H as (-> & ->). left. split; [code_bound|reflexivity]. }
  intros H. bind_in H s0 s1 Hs. apply get_store_inv in Hs as (-> & ->).
  destruct (find (requests s) Request.with_pk pk) as [r|] eqn:Hfind.
  2:{ apply ret_inv in H as (-> & ->). left. split; [code_bound|reflexivity]. }
  destruct (Handlers.status_in (Request.status r) ["Pending"; "Sent Back"]) eqn:Hst;
    cbv [negb] in H.
  2:{ apply ret_inv in H as (-> & ->). left. split; [code_bound|reflexivity]. }
  destruct (find_Some _ _ _ _ Hfind) as (row & Hrow & Hreq).
  assert (Hpk : Request.pk r = Some pk) by (subst r; reflexivity).
  bind_in H u s1 Hu. apply the_user_inv in Hu as (Hu & ->).
  bind_in H r' s2 Hr.
  apply (Request_save_inv _ _ pk) in Hr as (-> & ->); [|exact Hpk].
  bind_in H x s3 Hsb. destruct x.
  apply SendBack_create_inv in Hsb as (sb & -> & Hreason & _).
  bind_in H c s4 Hc. apply crate_of_inv in Hc as (-> & _).
  bind_in H e s4 He. apply log_audit_event_inv in He as (-> & Ha & Hrid & _).
  apply ret_inv in H as (-> & ->). right. split; [reflexivity|].
  cbn [Request.pk Request.with_updated_at Request.with_status] in Hrid.
  rewrite Hpk in Hrid.
  exists r, u, reason, sb, e. repeat split; assumption.
Qed.

Lemma log_storage_allocated_inv (u : User.row) (r : Request.row) (st : Storage.row)
    (rq : option HttpRequest) (e : AuditTrail.row) (s s1 : Store) :
  AuditUtils.log_storage_allocated u r st rq s = (inr e, s1) ->
  s1 = set_audit_trail (<[fresh_pk (audit_trail s) := e]> (audit_trail s)) s /\
  AuditTrail.action e = "Allocated" /\ AuditTrail.request_id e = Request.pk r.
Proof.
  unfold AuditUtils.log_storage_allocated. intros H.
  bind_in H c s2 Hc. apply crate_of_inv in Hc as (-> & _).
  bind_in H l s2 Hl. apply get_full_location_inv in Hl as ->.
  apply log_audit_event_inv in H as (-> & Ha & Hr & _). auto.
Qed.

Lemma allocate_storage_inr (request : HttpRequest) (pk : Z) (resp : Response)
    (s s' : Store) :
  Handlers.allocate_storage request pk s = (inr resp, s') ->
  (400 <= status_code resp /\ s' = s) \/
  (status_code resp = 200 /\
   exists r u storage_id c c' e,
     find (requests s) Request.with_pk pk = Some r /\
     Request.status r = "Approved" /\
     user request = Authenticated u /\
     Serializers.AllocateStorageSerializer (data request) = inr storage_id /\
     is_Some (storages s !! storage_id) /\
     crates s !! Request.crate r = Some c /\
     c' = Crate.with_barcode (Crate.barcode c')
            (Crate.with_storage (Some storage_id) (Crate.with_pk (Request.crate r) c)) /\
     crates s' = <[Request.crate r := c']> (crates s) /\
     requests s' = <[pk := Request.with_updated_at (Some (now s))
                             (Request.with_status "Completed"
                                (Request.with_allocation (Some (User.id u)) (Some (now s)) r))]>
                     (requests s) /\
     sendbacks s' = sendbacks s /\
     audit_trail s' = <[fresh_pk (audit_trail s) := e]> (audit_trail s) /\
     AuditTrail.action e = "Allocated" /\ AuditTrail.request_id e = Some pk /\
     static_frame s s').
Proof.
  unfold Handlers.allocate_storage.
  destruct (Serializers.AllocateStorageSerializer (data request)) as [errors|sid] eqn:Hser.
  { intros H. apply ret_inv in H as (-> & ->). left. split; [code_bound|reflexivity]. }
  intros H. bind_in H s0 s1 Hs. apply get_store_inv in Hs as (-> & ->).
  destruct (find (requests s) Request.with_pk pk) as [r|] eqn:Hfind.
  2:{ apply ret_inv in H as (-> & ->). left. split; [code_bound|reflexivity]. }
  destruct (String.eqb (Request.status r) "Approved") eqn:Hst; cbv [negb] in H.
  2:{ apply ret_inv in H as (-> & ->). left. split; [code_bound|reflexivity]. }
  apply String.eqb_eq in Hst.
  destruct (find (storages s) Storage.with_id sid) as [st|] eqn:Hsto.
  2:{ apply ret_inv in H as (-> & ->). left. split; [code_bound|reflexivity]. }
  destruct (find_Some _ _ _ _ Hfind) as (row & Hrow & Hreq).
  destruct (find_Some _ _ _ _ Hsto) as (srow & Hsrow & Hst').
  assert (Hpk : Request.pk r = Some pk) by (subst r; reflexivity).
  assert (Hsid : Storage.id st = sid) by (subst st; reflexivity).
  bind_in H u s1 Hu. apply the_user_inv in Hu as (Hu & ->).
  bind_in H c0 s1 Hc. bind_in H c' s2 Hsave.
  rewrite Hsid in Hsave.
  apply (crate_update_inv r (Crate.with_storage (Some sid)) _ _ _ _ _
           (fun c => eq_refl) Hc) in Hsave
    as (-> & c & Hcrow & Hc' & Hcr & Hstatic & Hreqs & Haud & Hsbs).
  bind_in H t s3 Ht. apply timezone_now_inv in Ht as (-> & ->).
  bind_in H r' s3 Hr.
  apply (Request_save_inv _ _ pk) in Hr as (-> & ->); [|exact Hpk].
  bind_in H e s4 He. apply log_storage_allocated_inv in He as (-> & Ha & Hrid).
  bind_in H l s4 Hl. apply get_full_location_inv in Hl as ->.
  apply ret_inv in H as (-> & ->). right. split; [reflexivity|].
  cbn [Request.pk Request.with_updated_at Request.with_status Request.with_allocation]
    in Hrid.
  rewrite Hpk in Hrid.
  destruct Hstatic as (Hnow & Hrest).
  exists r, u, sid, c, c', e.
  repeat split; try assumption; cbn; try congruence; eauto.
  all: try (destruct Hrest as (?&?&?&?&?&?&?&?&?&?&?); congruence).
Qed.

Lemma log_document_issued_inv (u : User.row) (r : Request.row)
    (rq : option HttpRequest) (e : AuditTrail.row) (s s1 : Store) :
  AuditUtils.log_document_issued u r rq s = (inr e, s1) ->
  s1 = set_audit_trail (<[fresh_pk (audit_trail s) := e]> (audit_trail s)) s /\
  AuditTrail.action e = "Issued" /\ AuditTrail.request_id e = Request.pk r.
Proof.
  unfold AuditUtils.log_document_issued. intros H.
  bind_in H c s2 Hc. apply crate_of_inv in Hc as (-> & _).
  bind_in H w s2 Hw.
  assert (s2 = s) as ->.
  { destruct (Request.withdrawn_by r); [|discriminate].
    apply objects_get_inv in Hw as (-> & _). reflexivity. }
  apply log_audit_event_inv in H as (-> & Ha & Hr & _). auto.
Qed.

Lemma log_document_returned_inv (u : User.row) (r : Request.row)
    (rq : option HttpRequest) (e : AuditTrail.row) (s s1 : Store) :
  AuditUtils.log_document_returned u r rq s = (inr e, s1) ->
  s1 = set_audit_trail (<[fresh_pk (audit_trail s) := e]> (audit_trail s)) s /\
  AuditTrail.action e = "Returned" /\ AuditTrail.request_id e = Request.pk r.
Proof.
  unfold AuditUtils.log_document_returned. intros H.
  bind_in H c s2 Hc. apply crate_of_inv in Hc as (-> & _).
  apply log_audit_event_inv in H as (-> & Ha & Hr & _). auto.
Qed.

Lemma log_crate_destroyed_inv (u : User.row) (c : Crate.row)
    (rq : option HttpRequest) (e : AuditTrail.row) (s s1 : Store) :
  AuditUtils.log_crate_destroyed u c rq s = (inr e, s1) ->
  s1 = set_audit_trail (<[fresh_pk (audit_trail s) := e]> (audit_trail s)) s /\
  AuditTrail.action e = "Deleted" /\ AuditTrail.crate_id e = Crate.pk c.
Proof.
  unfold AuditUtils.log_crate_destroyed. intros H.
  bind_in H n s2 Hn. apply get_document_count_inv in Hn as ->.
  apply log_audit_event_inv in H as (-> & Ha & _ & Hc & _). auto.
Qed.

Lemma issue_documents_inr (request : HttpRequest) (pk : Z) (resp : Response)
    (s s' : Store) :
  Handlers.issue_documents request pk s = (inr resp, s') ->
  (400 <= status_code resp /\ s' = s) \/
  (status_code resp = 200 /\
   exists r u c c' e,
     find (requests s) Request.with_pk pk = Some r /\
     Request.request_type r = "Withdrawal" /\ Request.status r = "Approved" /\
     user request = Authenticated u /\
     crates s !! Request.crate r = Some c /\
     c' = Crate.with_barcode (Crate.barcode c')
            (Crate.with_status "Withdrawn" (Crate.with_pk (Request.crate r) c)) /\
     crates s' = <[Request.crate r := c']> (crates s) /\
     requests s' = <[pk := Request.with_updated_at (Some (now s))
                             (Request.with_issue (Some (User.id u)) (Some (now s))
                                (Request.with_status "Issued" r))]> (requests s) /\
     sendbacks s' = sendbacks s /\
     audit_trail s' = <[fresh_pk (audit_trail s) := e]> (audit_trail s) /\
     AuditTrail.action e = "Issued" /\ AuditTrail.request_id e = Some pk /\
     static_frame s s').
Proof.
  unfold Handlers.issue_documents.
  destruct (Serializers.IssueDocumentsSerializer (data request)) as [errors|[]].
  { intros H. apply ret_inv in H as (-> & ->). left. split; [code_bound|reflexivity]. }
  intros H. bind_in H s0 s1 Hs. apply get_store_inv in Hs as (-> & ->).
  destruct (find (requests s) Request.with_pk pk) as [r|] eqn:Hfind.
  2:{ apply ret_inv in H as (-> & ->). left. split; [code_bound|reflexivity]. }
  destruct (String.eqb (Request.request_type r) "Withdrawal") eqn:Hty; cbv [negb] in H.
  2:{ apply ret_inv in H as (-> & ->). left. split; [code_bound|reflexivity]. }
  destruct (String.eqb (Request.status r) "Approved") eqn:Hst; cbv [negb] in H.
  2:{ apply ret_inv in H as (-> & ->). left. split; [code_bound|reflexivity]. }
  apply String.eqb_eq in Hst, Hty.
  destruct (find_Some _ _ _ _ Hfind) as (row & Hrow & Hreq).
  assert (Hpk : Request.pk r = Some pk) by (subst r; reflexivity).
  bind_in H u s1 Hu. apply the_user_inv in Hu as (Hu & ->).
  bind_in H t s1 Ht. apply timezone_now_inv in Ht as (-> & ->).
  bind_in H r' s1 Hr.
  apply (Request_save_inv _ _ pk) in Hr as (-> & ->); [|exact Hpk].
  bind_in H c0 s1 Hc. bind_in H c' s2 Hsave.
  apply (crate_update_inv _ (Crate.with_status "Withdrawn") _ _ _ _ _
           (fun c => eq_refl) Hc) in Hsave
    as (-> & c & Hcrow & Hc' & Hcr & Hstatic & Hreqs & Haud & Hsbs).
  bind_in H e s3 He. apply log_document_issued_inv in He as (-> & Ha & Hrid).
  apply ret_inv in H as (-> & ->). right. split; [reflexivity|].
  cbn [Request.pk Request.with_updated_at Request.with_status Request.with_issue
       Request.crate] in *.
  rewrite Hpk in Hrid. cbn [crates set_requests] in Hcrow, Hcr.
  destruct Hstatic as (Hnow & Hrest).
  exists r, u, c, c', e.
  repeat split; try assumption; cbn; try congruence.
  all: try (destruct Hrest as (?&?&?&?&?&?&?&?&?&?&?); cbn in *; congruence).
Qed.

Lemma confirm_destruction_inr (request : HttpRequest) (pk : Z) (resp : Response)
    (s s' : Store) :
  Handlers.confirm_destruction request pk s = (inr resp, s') ->
  (400 <= status_code resp /\ s' = s) \/
  (status_code resp = 200 /\
   exists r u c c' e,
     find (requests s) Request.with_pk pk = Some r /\
     Request.request_type r = "Destruction" /\ Request.status r = "Approved" /\
     user request = Authenticated u /\
     crates s !! Request.crate r = Some c /\
     c' = Crate.with_barcode (Crate.barcode c')
            (Crate.with_status "Destroyed" (Crate.with_pk (Request.crate r) c)) /\
     crates s' = <[Request.crate r := c']> (crates s) /\
     requests s' = <[pk := Request.with_updated_at (Some (now s))
                             (Request.with_status "Completed" r)]> (requests s) /\
     sendbacks s' = sendbacks s /\
     audit_trail s' = <[fresh_pk (audit_trail s) := e]> (audit_trail s) /\
     AuditTrail.action e = "Deleted" /\ AuditTrail.crate_id e = Some (Request.crate r) /\
     static_frame s s').
Proof.
  unfold Handlers.confirm_destruction.
  intros H. bind_in H s0 s1 Hs. apply get_store_inv in Hs as (-> & ->).
  destruct (find (requests s) Request.with_pk pk) as [r|] eqn:Hfind.
  2:{ apply ret_inv in H as (-> & ->). left. split; [code_bound|reflexivity]. }
  destruct (String.eqb (Request.request_type r) "Destruction") eqn:Hty; cbv [negb] in H.
  2:{ apply ret_inv in H as (-> & ->). left. split; [code_bound|reflexivity]. }
  destruct (String.eqb (Request.status r) "Approved") eqn:Hst; cbv [negb] in H.
  2:{ apply ret_inv in H as (-> & ->). left. split; [code_bound|reflexivity]. }
  apply String.eqb_eq in Hst, Hty.
  destruct (find_Some _ _ _ _ Hfind) as (row & Hrow & Hreq).
  assert (Hpk : Request.pk r = Some pk) by (subst r; reflexivity).
  bind_in H u s1 Hu. apply the_user_inv in Hu as (Hu & ->).
  bind_in H c0 s1 Hc. bind_in H c' s2 Hsave.
  apply (crate_update_inv _ (Crate.with_status "Destroyed") _ _ _ _ _
           (fun c => eq_refl) Hc) in Hsave
    as (-> & c & Hcrow & Hc' & Hcr & Hstatic & Hreqs & Haud & Hsbs).
  bind_in H r' s3 Hr.
  apply (Request_save_inv _ _ pk) in Hr as (-> & ->); [|exact Hpk].
  bind_in H e s4 He. apply log_crate_destroyed_inv in He as (-> & Ha & Hcid).
  apply ret_inv in H as (-> & ->). right. split; [reflexivity|].
  assert (Hpk' : Crate.pk c' = Some (Request.crate r)) by (rewrite Hc'; reflexivity).
  rewrite Hpk' in Hcid.
  destruct Hstatic as (Hnow & Hrest).
  exists r, u, c, c', e.
  repeat split; try assumption; cbn; try congruence.
  all: try (destruct Hrest as (?&?&?&?&?&?&?&?&?&?&?); cbn in *; congruence).
Qed.

Lemma return_documents_inr (request : HttpRequest) (pk : Z) (resp : Response)
    (s s' : Store) :
  Handlers.return_documents request pk s = (inr resp, s') ->
  (400 <= status_code resp /\ s' = s) \/
  (status_code resp = 200 /\
   exists r u storage_id c c' e1 e2,
     find (requests s) Request.with_pk pk = Some r /\
     Request.request_type r = "Withdrawal" /\ Request.status r = "Issued" /\
     user request = Authenticated u /\
     is_Some (storages s !! storage_id) /\
     crates s !! Request.crate r = Some c /\
     c' = Crate.with_barcode (Crate.barcode c')
            (Crate.with_storage (Some storage_id)
               (Crate.with_status "Active" (Crate.with_pk (Request.crate r) c))) /\
     crates s' = <[Request.crate r := c']> (crates s) /\
     requests s' = <[pk := Request.with_updated_at (Some (now s))
                             (Request.with_return_date (Some (now s))
                                (Request.with_status "Returned" r))]> (requests s) /\
     (sendbacks s' = sendbacks s \/ exists sb, sendbacks s' = (sendbacks s ++ [sb])%list) /\
     audit_trail s' =
       <[fresh_pk (<[fresh_pk (audit_trail s) := e1]> (audit_trail s)) := e2]>
         (<[fresh_pk (audit_trail s) := e1]> (audit_trail s)) /\
     AuditTrail.action e1 = "Returned" /\ AuditTrail.request_id e1 = Some pk /\
     AuditTrail.action e2 = "Allocated" /\
     static_frame s s').
Proof.
  unfold Handlers.return_documents.
  destruct (Serializers.ReturnDocumentsSerializer (data request))
    as [errors|[reason sid]] eqn:Hser.
  { intros H. apply ret_inv in H as (-> & ->). left. split; [code_bound|reflexivity]. }
  intros H. bind_in H s0 s1 Hs. apply get_store_inv in Hs as (-> & ->).
  destruct (find (requests s) Request.with_pk pk) as [r|] eqn:Hfind.
  2:{ apply ret_inv in H as (-> & ->). left. split; [code_bound|reflexivity]. }
  destruct (String.eqb (Request.request_type r) "Withdrawal") eqn:Hty; cbv [negb] in H.
  2:{ apply ret_inv in H as (-> & ->). left. split; [code_bound|reflexivity]. }
  destruct (String.eqb (Request.status r) "Issued") eqn:Hst; cbv [negb] in H.
  2:{ apply ret_inv in H as (-> & ->). left. split; [code_bound|reflexivity]. }
  apply String.eqb_eq in Hst, Hty.
  destruct (find (storages s) Storage.with_id sid) as [st|] eqn:Hsto.
  2:{ apply ret_inv in H as (-> & ->). left. split; [code_bound|reflexivity]. }
  destruct (find_Some _ _ _ _ Hfind) as (row & Hrow & Hreq).
  destruct (find_Some _ _ _ _ Hsto) as (srow & Hsrow & Hst').
  assert (Hpk : Request.pk r = Some pk) by (subst r; reflexivity).
  assert (Hsid : Storage.id st = sid) by (subst st; reflexivity).
  bind_in H u s1 Hu. apply the_user_inv in Hu as (Hu & ->).
  bind_in H t s1 Ht. apply timezone_now_inv in Ht as (-> & ->).
  bind_in H r' s1 Hr.
  apply (Request_save_inv _ _ pk) in Hr as (-> & ->); [|exact Hpk].
  bind_in H c0 s1 Hc. bind_in H c' s2 Hsave.
  rewrite Hsid in Hsave.
  apply (crate_update_inv _
           (fun c => Crate.with_storage (Some sid) (Crate.with_status "Active" c))
           _ _ _ _ _ (fun c => eq_refl) Hc) in Hsave
    as (-> & c & Hcrow & Hc' & Hcr & Hstatic & Hreqs & Haud & Hsbs).
  bind_in H x s3 Hsb.
  assert (Hs3 : s3 = s2 \/ exists sb, s3 = set_sendbacks (sendbacks s2 ++ [sb])%list s2).
  { destruct (Py.truthy_str (default "" reason)).
    - destruct x. apply SendBack_create_inv in Hsb as (sb & -> & _). eauto.
    - apply ret_inv in Hsb as (_ & ->). auto. }
  clear Hsb.
  bind_in H e1 s4 He1. apply log_document_returned_inv in He1 as (-> & Ha1 & Hrid).
  bind_in H old s5 Hold.
  assert (s5 = set_audit_trail (<[fresh_pk (audit_trail s3):=e1]> (audit_trail s3)) s3)
    as ->.
  { destruct (Crate.storage c0).
    - bind_in Hold o s6 Ho. apply objects_get_inv in Ho as (-> & _).
      apply get_full_location_inv in Hold. exact Hold.
    - apply ret_inv in Hold as (_ & ->). reflexivity. }
  bind_in H l s5 Hl. apply get_full_location_inv in Hl as ->.
  bind_in H e2 s5 He2. apply log_audit_event_inv in He2 as (-> & Ha2 & _).
  apply ret_inv in H as (-> & ->). right. split; [reflexivity|].
  cbn [Request.pk Request.with_updated_at Request.with_status Request.with_return_date
       Request.crate] in *.
  rewrite Hpk in Hrid. cbn [crates set_requests] in Hcrow, Hcr.
  destruct Hstatic as (Hnow & Hrest).
  exists r, u, sid, c, c', e1, e2.
  destruct Hs3 as [-> | (sb & ->)].
  - repeat split; try assumption; cbn; try congruence; eauto.
    all: try (destruct Hrest as (?&?&?&?&?&?&?&?&?&?&?); cbn in *; congruence).
  - repeat split; try assumption; cbn; try congruence; eauto.
    all: try (right; eexists; rewrite Hsbs; reflexivity).
    all: try (destruct Hrest as (?&?&?&?&?&?&?&?&?&?&?); cbn in *; congruence).
Qed.

Lemma atomic_inv {A} (m : M A) (x : A) (s s1 : Store) :
  atomic m s = (inr x, s1) -> m s = (inr x, s1).
Proof. unfold atomic. destruct (m s) as [[e|y] s2]; intros H; [discriminate|exact H]. Qed.

Lemma link_documents_inv (k : Z) (ids : list Z) (s s1 : Store) :
  Handlers.link_documents k ids s = (inr tt, s1) ->
  exists l, s1 = set_request_documents l s.
Proof.
  revert s. induction ids as [|d ids IH]; intros s; cbn [Handlers.link_documents].
  - intros H. apply ret_inv in H as (_ & ->). exists (request_documents s).
    destruct s. reflexivity.
  - intros H. bind_in H s0 s2 Hs. apply get_store_inv in Hs as (-> & ->).
    bind_in H x s2 Hx.
    assert (exists l, s2 = set_request_documents l s) as (l & ->).
    { destruct (bool_decide (d ∈ documents s)).
      - destruct (bool_decide _); [discriminate|].
        cbv [put_store] in Hx. injection Hx as _ <-. eauto.
      - apply ret_inv in Hx as (_ & ->). exists (request_documents s).
        destruct s. reflexivity. }
    apply IH in H as (l' & ->). exists l'. destruct s. reflexivity.
Qed.

Lemma log_request_created_inv (u : User.row) (r : Request.row)
    (rq : option HttpRequest) (e : AuditTrail.row) (s s1 : Store) :
  AuditUtils.log_request_created u r rq s = (inr e, s1) ->
  s1 = set_audit_trail (<[fresh_pk (audit_trail s) := e]> (audit_trail s)) s /\
  AuditTrail.action e = "Created" /\ AuditTrail.request_id e = Request.pk r.
Proof.
  unfold AuditUtils.log_request_created. intros H.
  bind_in H c s2 Hc. apply crate_of_inv in Hc as (-> & _).
  apply log_audit_event_inv in H as (-> & Ha & Hr & _). auto.
Qed.

Lemma validate_pure (full : bool) (ids : option (list Z)) (date : Py.datetime)
    (s : Store) :
  snd (Serializers.validate full ids date s) = s.
Proof.
  unfold Serializers.validate.
  destruct (negb full && Serializers.is_nil (default [] ids)); [reflexivity|].
  cbv [mbind M_bind timezone_now].
  destruct (Py.datetime_cmp date (now s)) as [[ | | ]|]; reflexivity.
Qed.

Lemma WithdrawalRequestCreateSerializer_pure (d : Payload) (s : Store) :
  snd (Serializers.WithdrawalRequestCreateSerializer d s) = s.
Proof.
  unfold Serializers.WithdrawalRequestCreateSerializer.
  destruct (snd (Serializers.field "crate_id" _ _ _)); [|reflexivity].
  destruct (expected_return_date d) as [date|]; [|reflexivity].
  destruct (negb _); [reflexivity|].
  pose proof (validate_pure (default true (full_withdrawal d)) (document_ids d) date s) as Hv.
  cbv [mbind M_bind].
  destruct (Serializers.validate _ _ _ s) as [[e|[msg|]] s1]; cbn [snd] in Hv; subst s1;
    reflexivity.
Qed.

Lemma WithdrawalRequestUpdateSerializer_pure (d : Payload) (s : Store) :
  snd (Serializers.WithdrawalRequestUpdateSerializer d s) = s.
Proof.
  unfold Serializers.WithdrawalRequestUpdateSerializer.
  destruct (expected_return_date d) as [date|]; [|reflexivity].
  destruct (negb _); [reflexivity|].
  pose proof (validate_pure (default true (full_withdrawal d)) (document_ids d) date s) as Hv.
  cbv [mbind M_bind].
  destruct (Serializers.validate _ _ _ s) as [[e|[msg|]] s1]; cbn [snd] in Hv; subst s1;
    reflexivity.
Qed.

Lemma create_withdrawal_request_inr (request : HttpRequest) (resp : Response)
    (s s' : Store) :
  Handlers.create_withdrawal_request request s = (inr resp, s') ->
  (400 <= status_code resp /\ s' = s) \/
  (status_code resp = 201 /\
   exists d u c c' r' e1 e2,
     Serializers.WithdrawalRequestCreateSerializer (data request) s = (inr (inr d), s) /\
     crates s !! Serializers.w_crate d = Some c /\
     Handlers.status_in (Crate.status c) ["Active"; "Archived"] = true /\
     user request = Authenticated u /\
     c' = Crate.with_barcode (Crate.barcode c')
            (Crate.with_status "Withdrawn" (Crate.with_pk (Serializers.w_crate d) c)) /\
     crates s' = <[Serializers.w_crate d := c']> (crates s) /\
     requests s' = <[fresh_pk (requests s) := r']> (requests s) /\
     Request.status r' = "Pending" /\ Request.request_type r' = "Withdrawal" /\
     Request.crate r' = Serializers.w_crate d /\
     Request.approved_by r' = None /\
     audit_trail s' =
       <[fresh_pk (<[fresh_pk (audit_trail s) := e1]> (audit_trail s)) := e2]>
         (<[fresh_pk (audit_trail s) := e1]> (audit_trail s)) /\
     AuditTrail.action e1 = "Created" /\ AuditTrail.action e2 = "Updated" /\
     sendbacks s' = sendbacks s /\ static_frame s s').
Proof.
  unfold Handlers.create_withdrawal_request. intros H.
  bind_in H v s1 Hser.
  pose proof (WithdrawalRequestCreateSerializer_pure (data request) s) as Hpure.
  rewrite Hser in Hpure. cbn [snd] in Hpure. subst s1.
  destruct v as [errors|d].
  { apply ret_inv in H as (-> & ->). left. split; [code_bound|reflexivity]. }
  bind_in H s0 s1 Hs. apply get_store_inv in Hs as (-> & ->).
  destruct (find (crates s) Crate.with_pk (Serializers.w_crate d)) as [c0|] eqn:Hfind.
  2:{ apply ret_inv in H as (-> & ->). left. split; [code_bound|reflexivity]. }
  destruct (Handlers.status_in (Crate.status c0) ["Active"; "Archived"]) eqn:Hst;
    cbv [negb] in H.
  2:{ apply ret_inv in H as (-> & ->). left. split; [code_bound|reflexivity]. }
  destruct (find_Some _ _ _ _ Hfind) as (c & Hcrow & Hc0).
  bind_in H p s1 Hp. apply ret_inv in H as (-> & ->).
  apply atomic_inv in Hp.
  bind_in Hp u s2 Hu. apply the_user_inv in Hu as (Hu & ->).
  bind_in Hp r' s2 Hr.
  unfold Handlers.Request_save in Hr. cbn [Request.pk Request.with_updated_at] in Hr.
  match type of Hr with (inr ?a, _) = _ => set (r0 := a) in Hr end.
  injection Hr as <- <-.
  bind_in Hp x s3 Hx.
  assert (exists l, s3 = set_request_documents l
            (set_requests (<[fresh_pk (requests s) := r0]> (requests s)) s)) as (l & ->).
  { subst r0. cbn [Request.pk Request.with_pk Request.full_withdrawal] in Hx.
    destruct (Serializers.w_document_ids d).
    - match type of Hx with (if ?b then _ else _) _ = _ => destruct b end.
      + destruct x. apply link_documents_inv in Hx. exact Hx.
      + apply ret_inv in Hx as (_ & ->). eexists (request_documents _).
        destruct s. reflexivity.
    - apply ret_inv in Hx as (_ & ->). eexists (request_documents _).
      destruct s. reflexivity. }
  bind_in Hp c' s4 Hsave.
  apply (Documents_save_inv _ _ (Serializers.w_crate d)) in Hsave
    as (Hc' & Hcr & Hfr); [|subst c0; reflexivity].
  apply crates_frame_static in Hfr as (Hstatic & Hreqs & Haud & Hsbs).
  bind_in Hp e1 s5 He1. apply log_request_created_inv in He1 as (-> & Ha1 & _).
  bind_in Hp e2 s5 He2. apply log_audit_event_inv in He2 as (-> & Ha2 & _).
  apply ret_inv in Hp as (-> & ->). right. split; [reflexivity|].
  destruct Hstatic as (Hnow & Hrest).
  exists d, u, c, c', r0, e1, e2.
  repeat split; try eassumption; cbn; try congruence; try reflexivity.
  all: try (destruct Hrest as (?&?&?&?&?&?&?&?&?&?&?); cbn in *; congruence).
  subst c0. exact Hst.
Qed.

(** ** The view bodies run to a response when the data is in order *)

Lemma the_user_run (request : HttpRequest) (u : User.row) (s : Store) :
  user request = Authenticated u -> the_user request s = (inr u, s).
Proof. intros H. unfold the_user. rewrite H. reflexivity. Qed.

Lemma Request_save_run (r : Request.row) (k : Z) (s : Store) :
  Request.pk r = Some k ->
  Handlers.Request_save r s =
    (inr (Request.with_updated_at (Some (now s)) r),
     set_requests (<[k := Request.with_updated_at (Some (now s)) r]> (requests s)) s).
Proof.
  intros Hk. unfold Handlers.Request_save.
  change (Request.pk (Request.with_updated_at (Some (now s)) r)) with (Request.pk r).
  rewrite Hk. reflexivity.
Qed.

Lemma crate_of_run (r : Request.row) (c : Crate.row) (s : Store) :
  crates s !! Request.crate r = Some c ->
  AuditUtils.crate_of r s = (inr (Crate.with_pk (Request.crate r) c), s).
Proof. intros H. unfold AuditUtils.crate_of, objects_get. rewrite H. reflexivity. Qed.

Lemma log_audit_event_run (u : option User.row) (action message : string)
    (rq : HttpRequest) (rid sid cid did : option Z) (au : option string) (s : Store) :
  exists e,
    Audit.log_audit_event u action message (Some rq) rid sid cid did au s =
      (inr e, set_audit_trail (<[fresh_pk (audit_trail s) := e]> (audit_trail s)) s).
Proof. eexists. reflexivity. Qed.

Lemma SendBack_create_run (r : Request.row) (k : Z) (reason : string) (u : User.row)
    (ty : string) (s : Store) :
  Request.pk r = Some k ->
  exists sb, Handlers.SendBack_create r reason u ty s =
               (inr tt, set_sendbacks (sendbacks s ++ [sb])%list s).
Proof. intros Hk. unfold Handlers.SendBack_create. rewrite Hk. eexists. reflexivity. Qed.

Lemma Documents_save_run (c : Crate.row) (k : Z) (s : Store) :
  Crate.pk c = Some k ->
  Py.truthy_str (Crate.barcode c) = true ->
  Documents.barcode_taken (Crate.barcode c) (rows (delete k (crates s))) = false ->
  Documents.save c s = (inr c, set_crates (<[k := c]> (crates s)) s).
Proof.
  intros Hk Hb Ht. unfold Documents.save. rewrite Hb. cbv [negb].
  unfold Documents.Model_save. rewrite Hk, Ht. reflexivity.
Qed.

Lemma log_request_approved_run (u : User.row) (r : Request.row) (rq : HttpRequest)
    (s : Store) :
  is_Some (crates s !! Request.crate r) ->
  exists e, AuditUtils.log_request_approved u r (Some rq) s =
              (inr e, set_audit_trail (<[fresh_pk (audit_trail s) := e]> (audit_trail s)) s).
Proof.
  intros (c & Hc). unfold AuditUtils.log_request_approved.
  rewrite (bind_inr _ _ _ _ _ (crate_of_run _ _ _ Hc)). apply log_audit_event_run.
Qed.

Lemma log_request_rejected_run (u : User.row) (r : Request.row) (reason : string)
    (rq : HttpRequest) (s : Store) :
  is_Some (crates s !! Request.crate r) ->
  exists e, AuditUtils.log_request_rejected u r reason (Some rq) s =
              (inr e, set_audit_trail (<[fresh_pk (audit_trail s) := e]> (audit_trail s)) s).
Proof.
  intros (c & Hc). unfold AuditUtils.log_request_rejected.
  rewrite (bind_inr _ _ _ _ _ (crate_of_run _ _ _ Hc)). apply log_audit_event_run.
Qed.

Lemma approve_request_run (request : HttpRequest) (pk : Z) (r : Request.row)
    (u : User.row) (s : Store) :
  Serializers.ApproveRequestSerializer (data request) = inr tt ->
  requests s !! pk = Some r ->
  Request.status r = "Pending" ->
  user request = Authenticated u ->
  is_Some (crates s !! Request.crate r) ->
  exists resp s', Handlers.approve_request request pk s = (inr resp, s') /\
                  status_code resp = 200.
Proof.
  intros Hser Hr Hst Hu Hc. unfold Handlers.approve_request. rewrite Hser.
  rewrite (bind_inr get_store _ s s s eq_refl). unfold find. rewrite Hr.
  cbn [fmap option_fmap option_map Request.status Request.with_pk]. rewrite Hst.
  cbv [String.eqb Ascii.eqb Bool.eqb negb].
  rewrite (bind_inr _ _ _ _ _ (the_user_run _ _ _ Hu)).
  rewrite (bind_inr timezone_now _ s (now s) s eq_refl).
  erewrite bind_inr by (apply (Request_save_run _ pk); reflexivity).
  match goal with |- context [AuditUtils.log_request_approved ?a ?b (Some ?c) ≫= _] =>
    destruct (log_request_approved_run a b c
                (set_requests (<[pk := b]> (requests s)) s) Hc) as (e & He) end.
  rewrite (bind_inr _ _ _ _ _ He).
  eexists _, _. split; reflexivity.
Qed.

Lemma send_back_request_run (request : HttpRequest) (pk : Z) (r : Request.row)
    (u : User.row) (reason : string) (s : Store) :
  Serializers.SendBackCreateSerializer (data request) = inr reason ->
  requests s !! pk = Some r ->
  Handlers.status_in (Request.status r) ["Pending"; "Sent Back"] = true ->
  user request = Authenticated u ->
  is_Some (crates s !! Request.crate r) ->
  exists resp s', Handlers.send_back_request request pk s = (inr resp, s') /\
                  status_code resp = 200.
Proof.
  intros Hser Hr Hst Hu (c & Hc). unfold Handlers.send_back_request. rewrite Hser.
  rewrite (bind_inr get_store _ s s s eq_refl). unfold find. rewrite Hr.
  cbn [fmap option_fmap option_map Request.status Request.with_pk]. rewrite Hst.
  cbv [negb].
  rewrite (bind_inr _ _ _ _ _ (the_user_run _ _ _ Hu)).
  erewrite bind_inr by (apply (Request_save_run _ pk); reflexivity).
  match goal with |- context [Handlers.SendBack_create ?a ?b ?c ?d ≫= _] =>
    destruct (SendBack_create_run a pk b c d
                (set_requests (<[pk := a]> (requests s)) s) eq_refl) as (sb & Hsb) end.
  rewrite (bind_inr _ _ _ _ _ Hsb).
  erewrite bind_inr by (apply crate_of_run; exact Hc).
  match goal with |- context [Audit.log_audit_event ?a ?b ?c (Some ?d) ?e ?f ?g ?h ?i ≫= _] =>
    match goal with |- (_ ≫= _) ?st = _ \/ _ => idtac | |- context [mbind _ _ ?st] =>
      destruct (log_audit_event_run a b c d e f g h i st) as (ev & Hev) end end.
  rewrite (bind_inr _ _ _ _ _ Hev).
  eexists _, _. split; reflexivity.
Qed.

Lemma reject_request_run (request : HttpRequest) (pk : Z) (r : Request.row)
    (u : User.row) (reason : string) (s : Store) :
  Serializers.RejectRequestSerializer (data request) = inr reason ->
  requests s !! pk = Some r ->
  Handlers.status_in (Request.status r) ["Pending"; "Sent Back"] = true ->
  user request = Authenticated u ->
  crate_writable s (Request.crate r) ->
  exists resp s', Handlers.reject_request request pk s = (inr resp, s') /\
                  status_code resp = 200.
Proof.
  intros Hser Hr Hst Hu (c & Hc & Hb & Ht). unfold Handlers.reject_request. rewrite Hser.
  rewrite (bind_inr get_store _ s s s eq_refl). unfold find. rewrite Hr.
  cbn [fmap option_fmap option_map Request.status Request.with_pk]. rewrite Hst.
  cbv [negb].
  rewrite (bind_inr _ _ _ _ _ (the_user_run _ _ _ Hu)).
  cbn [Request.request_type].
  assert (Hcs : exists v s1,
            (if String.eqb (Request.request_type r) "Withdrawal"
             then
               crate ← AuditUtils.crate_of (Request.with_pk pk r);
               if String.eqb (Crate.status crate) "Withdrawn"
               then
                 crate0 ← Documents.save (Crate.with_status "Active" crate);
                 Audit.log_audit_event (Some u) "Updated"
                   ("Crate #" +:+ str_pk (Crate.pk crate0) +:+
                    " status restored to Active after withdrawal request #" +:+
                    str_pk (Request.pk (Request.with_pk pk r)) +:+ " was rejected")
                   (Some request) (Request.pk (Request.with_pk pk r)) None
                   (Crate.pk crate0) None None;;
                 mret (Json.JStr (Crate.status crate0))
               else mret (Json.JStr (Crate.status crate))
             else mret Json.JNull) s = (inr v, s1) /\
            requests s1 = requests s /\ is_Some (crates s1 !! Request.crate r)).
  { destruct (String.eqb (Request.request_type r) "Withdrawal").
    - erewrite bind_inr by (apply crate_of_run; exact Hc).
      cbn [Crate.status Crate.with_pk].
      destruct (String.eqb (Crate.status c) "Withdrawn").
      + erewrite bind_inr.
        2:{ apply (Documents_save_run _ (Request.crate r)); [reflexivity|exact Hb|exact Ht]. }
        match goal with |- context [Audit.log_audit_event ?a ?b ?m (Some ?d) ?e ?f ?g ?h ?i] =>
          destruct (log_audit_event_run a b m d e f g h i
                      (set_crates (<[Request.crate r :=
                                       Crate.with_status "Active"
                                         (Crate.with_pk (Request.crate r) c)]> (crates s)) s))
            as (ev & Hev) end.
        rewrite (bind_inr _ _ _ _ _ Hev).
        eexists _, _. split; [reflexivity|]. split; [reflexivity|].
        cbn [crates set_audit_trail set_crates]. rewrite lookup_insert_eq. eauto.
      + eexists _, _. split; [reflexivity|]. split; [reflexivity|eauto].
    - eexists _, _. split; [reflexivity|]. split; [reflexivity|eauto]. }
  destruct Hcs as (v & s1 & Hcs & Hreqs & Hcr).
  cbn [Request.request_type Request.with_pk] in *.
  rewrite (bind_inr _ _ _ _ _ Hcs).
  erewrite bind_inr by (apply (Request_save_run _ pk); reflexivity).
  match goal with |- context [Handlers.SendBack_create ?a ?b ?c ?d ≫= _] =>
    destruct (SendBack_create_run a pk b c d
                (set_requests (<[pk := a]> (requests s1)) s1) eq_refl) as (sb & Hsb) end.
  rewrite (bind_inr _ _ _ _ _ Hsb).
  match goal with |- context [AuditUtils.log_request_rejected ?a ?b ?c (Some ?d) ≫= _] =>
    match goal with |- context [mbind _ (AuditUtils.log_request_rejected a b c (Some d)) ?st] =>
      destruct (log_request_rejected_run a b c d st Hcr) as (ev & Hev) end end.
  rewrite (bind_inr _ _ _ _ _ Hev).
  eexists _, _. split; reflexivity.
Qed.

Lemma get_full_location_run (st : Storage.row) (s : Store) :
  is_Some (units s !! Storage.unit st) ->
  exists loc, Documents.get_full_location st s = (inr loc, s).
Proof.
  intros (u & Hu). unfold Documents.get_full_location, objects_get.
  cbv [mbind M_bind]. rewrite Hu. eexists. reflexivity.
Qed.

Lemma confirm_destruction_run (request : HttpRequest) (pk : Z) (r : Request.row)
    (u : User.row) (s : Store) :
  requests s !! pk = Some r ->
  Request.request_type r = "Destruction" ->
  Request.status r = "Approved" ->
  user request = Authenticated u ->
  crate_writable s (Request.crate r) ->
  exists resp s', Handlers.confirm_destruction request pk s = (inr resp, s') /\
                  status_code resp = 200.
Proof.
  intros Hr Hty Hst Hu (c & Hc & Hb & Ht). unfold Handlers.confirm_destruction.
  rewrite (bind_inr get_store _ s s s eq_refl). unfold find. rewrite Hr.
  cbn [fmap option_fmap option_map Request.status Request.request_type Request.with_pk].
  rewrite Hty, Hst. cbv [String.eqb Ascii.eqb Bool.eqb negb].
  rewrite (bind_inr _ _ _ _ _ (the_user_run _ _ _ Hu)).
  erewrite bind_inr by (apply crate_of_run; exact Hc).
  erewrite bind_inr.
  2:{ apply (Documents_save_run _ (Request.crate r)); [reflexivity|exact Hb|exact Ht]. }
  erewrite bind_inr by (apply (Request_save_run _ pk); reflexivity).
  unfold AuditUtils.log_crate_destroyed, Documents.get_document_count.
  eexists _, _. split; reflexivity.
Qed.

Ltac store_simp :=
  cbn [now uuid_source uuid_count users roles privileges role_privileges units departments
       sections storages crates crate_documents requests documents request_documents
       sendbacks audit_trail digital_signatures set_uuid_count set_crates set_requests
       set_sendbacks set_audit_trail set_digital_signatures set_request_documents].

Ltac run_simp :=
  cbv [mbind M_bind mret M_ret get_store timezone_now objects_get AuditUtils.crate_of];
  cbn [Audit.log_audit_event Audit.save Audit.Model_save AuditTrail.pk AuditTrail.user_agent
       fmap option_fmap option_map AuditUtils.crate_of
       now uuid_source uuid_count users roles privileges role_privileges units departments
       sections storages crates crate_documents requests documents request_documents
       sendbacks audit_trail digital_signatures set_uuid_count set_crates set_requests
       set_sendbacks set_audit_trail set_digital_signatures set_request_documents].

Lemma crate_of_saved (r : Request.row) (c : Crate.row) (s : Store) :
  AuditUtils.crate_of r (set_crates (<[Request.crate r := c]> (crates s)) s) =
    (inr (Crate.with_pk (Request.crate r) c),
     set_crates (<[Request.crate r := c]> (crates s)) s).
Proof. apply crate_of_run. cbn [crates set_crates]. apply lookup_insert_eq. Qed.


Ltac row_simp :=
  cbn [Crate.pk Crate.barcode Crate.status Crate.storage Crate.unit Crate.department
       Crate.section Crate.with_pk Crate.with_barcode Crate.with_status Crate.with_storage
       Request.pk Request.request_type Request.crate Request.status Request.withdrawn_by
       Request.expected_return_date Request.full_withdrawal
       Request.with_pk Request.with_status Request.with_approval Request.with_allocation
       Request.with_issue Request.with_return_date Request.with_updated_at
       Request.with_purpose Request.with_expected_return_date Request.with_full_withdrawal
       Storage.id Storage.unit Storage.with_id].

Lemma Documents_save_kept (c : Crate.row) (k : Z) (s : Store) :
  Crate.pk c = Some k ->
  Py.truthy_str (Crate.barcode c) = true ->
  Documents.barcode_taken (Crate.barcode c) (rows (delete k (crates s))) = false ->
  forall B (f : Crate.row -> M B),
    (Documents.save c ≫= f) s = f c (set_crates (<[k := c]> (crates s)) s).
Proof.
  intros Hk Hb Ht B f. apply bind_inr. apply Documents_save_run; assumption.
Qed.





(** ** The views behind their gate *)

Lemma reads_approvers_rest :
  Forall reads_accounts [Permissions.CanApproveRequests; Permissions.IsActiveUser].
Proof.
  repeat constructor; [apply reads_CanApproveRequests|apply reads_IsActiveUser].
Qed.

Lemma reads_allocators_rest :
  Forall reads_accounts [Permissions.CanAllocateStorage; Permissions.IsActiveUser].
Proof.
  repeat constructor; [apply reads_CanAllocateStorage|apply reads_IsActiveUser].
Qed.

Lemma reads_requesters_rest :
  Forall reads_accounts [Permissions.CanCreateRequests; Permissions.IsActiveUser].
Proof.
  repeat constructor; [apply reads_CanCreateRequests|apply reads_IsActiveUser].
Qed.

Lemma reads_all (rest : list Permissions.permission) :
  Forall reads_accounts rest -> Forall reads_accounts (Permissions.IsAuthenticated :: rest).
Proof. intros H. constructor; [apply reads_IsAuthenticated|exact H]. Qed.

(** A view whose body refuses is refused, whatever the gate says. *)
Lemma view_refuses {A} (rest : list Permissions.permission)
    (h : HttpRequest -> A -> M Response) (request : HttpRequest) (a : A) (s : Store) :
  Forall reads_accounts rest ->
  (exists resp, h request a s = (inr resp, s) /\ 400 <= status_code resp) ->
  exists resp,
    Decorators.api_view (Permissions.IsAuthenticated :: rest)
      (Decorators.require_digital_signature h) request a s = (inr resp, s) /\
    400 <= status_code resp.
Proof.
  intros Hp (resp & Hh & Hcode).
  destruct (Decorators.api_view _ _ request a s) as [r0 s0] eqn:H.
  apply gate_inv in H as [(resp' & -> & -> & Hc) | (_ & H)]; [eauto| |exact Hp].
  rewrite Hh in H. injection H as <- <-. eauto.
Qed.

(** A view that answers below 400 went through its gate. *)
Lemma view_success {A} (rest : list Permissions.permission)
    (h : HttpRequest -> A -> M Response) (request : HttpRequest) (a : A) (s s' : Store)
    (resp : Response) :
  Forall reads_accounts rest ->
  Decorators.api_view (Permissions.IsAuthenticated :: rest)
    (Decorators.require_digital_signature h) request a s = (inr resp, s') ->
  status_code resp < 400 ->
  gate_open (Permissions.IsAuthenticated :: rest) request s /\
  h request a s = (inr resp, s').
Proof.
  intros Hp H Hcode.
  apply gate_inv in H as [(resp' & Hr & -> & Hc) | H]; [|exact H|exact Hp].
  injection Hr as <-. lia.
Qed.

(** An answer of a view either wrote nothing or is an answer of its body. *)
Lemma view_inr {A} (rest : list Permissions.permission)
    (h : HttpRequest -> A -> M Response) (request : HttpRequest) (a : A) (s s' : Store)
    (resp : Response) :
  Forall reads_accounts rest ->
  Decorators.api_view (Permissions.IsAuthenticated :: rest)
    (Decorators.require_digital_signature h) request a s = (inr resp, s') ->
  (400 <= status_code resp /\ s' = s) \/ h request a s = (inr resp, s').
Proof.
  intros Hp H.
  apply gate_inv in H as [(resp' & Hr & -> & Hc) | (_ & H)]; [|auto|exact Hp].
  injection Hr as <-. auto.
Qed.

Lemma status_in_two (st a b : string) :
  Handlers.status_in st [a; b] = true <-> st = a \/ st = b.
Proof.
  unfold Handlers.status_in. cbn [existsb]. rewrite !orb_true_iff, !String.eqb_eq.
  intuition discriminate.
Qed.

(** *** Refusals of the three decisions *)

Lemma approve_request_refuses (request : HttpRequest) (pk : Z) (r : Request.row) (s : Store) :
  requests s !! pk = Some r -> Request.status r <> "Pending" ->
  exists resp, Handlers.approve_request request pk s = (inr resp, s) /\
               status_code resp = 400.
Proof.
  intros Hr Hst. unfold Handlers.approve_request.
  destruct (Serializers.ApproveRequestSerializer _); [eexists; split; reflexivity|].
  rewrite (bind_inr get_store _ s s s eq_refl). unfold find. rewrite Hr.
  cbn [fmap option_fmap option_map Request.status Request.with_pk].
  destruct (String.eqb (Request.status r) "Pending") eqn:E.
  - apply String.eqb_eq in E. contradiction.
  - eexists; split; reflexivity.
Qed.

Lemma reject_request_refuses (request : HttpRequest) (pk : Z) (r : Request.row) (s : Store) :
  requests s !! pk = Some r ->
  Request.status r <> "Pending" -> Request.status r <> "Sent Back" ->
  exists resp, Handlers.reject_request request pk s = (inr resp, s) /\
               status_code resp = 400.
Proof.
  intros Hr H1 H2. unfold Handlers.reject_request.
  destruct (Serializers.RejectRequestSerializer _); [eexists; split; reflexivity|].
  rewrite (bind_inr get_store _ s s s eq_refl). unfold find. rewrite Hr.
  cbn [fmap option_fmap option_map Request.status Request.with_pk].
  destruct (Handlers.status_in (Request.status r) ["Pending"; "Sent Back"]) eqn:E.
  - apply status_in_two in E. tauto.
  - eexists; split; reflexivity.
Qed.

Lemma send_back_request_refuses (request : HttpRequest) (pk : Z) (r : Request.row)
    (s : Store) :
  requests s !! pk = Some r ->
  Request.status r <> "Pending" -> Request.status r <> "Sent Back" ->
  exists resp, Handlers.send_back_request request pk s = (inr resp, s) /\
               status_code resp = 400.
Proof.
  intros Hr H1 H2. unfold Handlers.send_back_request.
  destruct (Serializers.SendBackCreateSerializer _); [eexists; split; reflexivity|].
  rewrite (bind_inr get_store _ s s s eq_refl). unfold find. rewrite Hr.
  cbn [fmap option_fmap option_map Request.status Request.with_pk].
  destruct (Handlers.status_in (Request.status r) ["Pending"; "Sent Back"]) eqn:E.
  - apply status_in_two in E. tauto.
  - eexists; split; reflexivity.
Qed.

Lemma find_lookup (s : Store) (pk : Z) (r x : Request.row) :
  requests s !! pk = Some r -> find (requests s) Request.with_pk pk = Some x ->
  Request.status x = Request.status r /\ Request.request_type x = Request.request_type r /\
  Request.crate x = Request.crate r.
Proof.
  intros Hr Hf. unfold find in Hf. rewrite Hr in Hf. injection Hf as <-. auto.
Qed.

(** C3, as the code has it: Approve goes through only on a Pending request,
    Reject and SendBack only on a Pending or Sent Back one; in any other
    status the view answers 400 or above and leaves the store untouched;
    and with the gate open, valid data and the crate in place, the
    permitted statuses do go through. *)
Theorem C3_status_guards (request : HttpRequest) (pk : Z) (s : Store) (r : Request.row) :
  requests s !! pk = Some r ->
  (forall resp s', Views.approve_request request pk s = (inr resp, s') ->
                   status_code resp = 200 -> Request.status r = "Pending") /\
  (forall resp s', Views.reject_request request pk s = (inr resp, s') ->
                   status_code resp = 200 ->
                   Request.status r = "Pending" \/ Request.status r = "Sent Back") /\
  (forall resp s', Views.send_back_request request pk s = (inr resp, s') ->
                   status_code resp = 200 ->
                   Request.status r = "Pending" \/ Request.status r = "Sent Back") /\
  (Request.status r <> "Pending" ->
   exists resp, Views.approve_request request pk s = (inr resp, s) /\
                400 <= status_code resp) /\
  (Request.status r <> "Pending" -> Request.status r <> "Sent Back" ->
   (exists resp, Views.reject_request request pk s = (inr resp, s) /\
                 400 <= status_code resp) /\
   (exists resp, Views.send_back_request request pk s = (inr resp, s) /\
                 400 <= status_code resp)) /\
  (gate_open approvers request s ->
   Serializers.ApproveRequestSerializer (data request) = inr tt ->
   is_Some (crates s !! Request.crate r) ->
   Request.status r = "Pending" ->
   exists resp s', Views.approve_request request pk s = (inr resp, s') /\
                   status_code resp = 200 /\
                   Request.status <$> requests s' !! pk = Some "Approved") /\
  (forall reason, gate_open approvers request s ->
   Serializers.RejectRequestSerializer (data request) = inr reason ->
   crate_writable s (Request.crate r) ->
   Request.status r = "Pending" \/ Request.status r = "Sent Back" ->
   exists resp s', Views.reject_request request pk s = (inr resp, s') /\
                   status_code resp = 200 /\
                   Request.status <$> requests s' !! pk = Some "Rejected") /\
  (forall reason, gate_open approvers request s ->
   Serializers.SendBackCreateSerializer (data request) = inr reason ->
   is_Some (crates s !! Request.crate r) ->
   Request.status r = "Pending" \/ Request.status r = "Sent Back" ->
   exists resp s', Views.send_back_request request pk s = (inr resp, s') /\
                   status_code resp = 200 /\
                   Request.status <$> requests s' !! pk = Some "Sent Back").
Proof.
  intros Hr.
  assert (Hfind : find (requests s) Request.with_pk pk = Some (Request.with_pk pk r))
    by (unfold find; rewrite Hr; reflexivity).
  split; [|split; [|split; [|split; [|split; [|split; [|split]]]]]].
  - intros resp s' H Hcode.
    apply view_success in H as (_ & H); [|apply reads_approvers_rest|lia].
    apply approve_request_inr in H as [(Hc & _)|(_ & r0 & u & e & Hf & Hst & _)]; [lia|].
    rewrite Hfind in Hf. injection Hf as <-. exact Hst.
  - intros resp s' H Hcode.
    apply view_success in H as (_ & H); [|apply reads_approvers_rest|lia].
    apply reject_request_inr in H
      as [(Hc & _)|(_ & r0 & u & rs & s1 & sb & e & Hf & Hst & _)]; [lia|].
    rewrite Hfind in Hf. injection Hf as <-. apply status_in_two in Hst. exact Hst.
  - intros resp s' H Hcode.
    apply view_success in H as (_ & H); [|apply reads_approvers_rest|lia].
    apply send_back_request_inr in H
      as [(Hc & _)|(_ & r0 & u & rs & sb & e & Hf & Hst & _)]; [lia|].
    rewrite Hfind in Hf. injection Hf as <-. apply status_in_two in Hst. exact Hst.
  - intros Hst. apply view_refuses; [apply reads_approvers_rest|].
    destruct (approve_request_refuses request pk r s Hr Hst) as (resp & H & Hc).
    exists resp. split; [exact H|lia].
  - intros H1 H2. split.
    + apply view_refuses; [apply reads_approvers_rest|].
      destruct (reject_request_refuses request pk r s Hr H1 H2) as (resp & H & Hc).
      exists resp. split; [exact H|lia].
    + apply view_refuses; [apply reads_approvers_rest|].
      destruct (send_back_request_refuses request pk r s Hr H1 H2) as (resp & H & Hc).
      exists resp. split; [exact H|lia].
  - intros Hg Hser Hc Hst.
    pose proof Hg as (_ & u & _ & _ & Hu & _).
    destruct (approve_request_run request pk r u s Hser Hr Hst Hu Hc)
      as (resp & s' & H & Hcode).
    exists resp, s'. unfold Views.approve_request.
    rewrite (gate_open_run _ _ _ _ _ Hg). split; [exact H|]. split; [exact Hcode|].
    apply approve_request_inr in H as [(Hc' & _)|(_ & r0 & u0 & e & _ & _ & _ & Hreqs & _)];
      [lia|].
    rewrite Hreqs, lookup_insert_eq. reflexivity.
  - intros reason Hg Hser Hc Hst.
    pose proof Hg as (_ & u & _ & _ & Hu & _).
    apply status_in_two in Hst.
    destruct (reject_request_run request pk r u reason s Hser Hr Hst Hu Hc)
      as (resp & s' & H & Hcode).
    exists resp, s'. unfold Views.reject_request.
    rewrite (gate_open_run _ _ _ _ _ Hg). split; [exact H|]. split; [exact Hcode|].
    apply reject_request_inr in H
      as [(Hc' & _)|(_ & r0 & u0 & rs & s1 & sb & e & _ & _ & _ & _ & _ & Hreqs & _)];
      [lia|].
    rewrite Hreqs, lookup_insert_eq. reflexivity.
  - intros reason Hg Hser Hc Hst.
    pose proof Hg as (_ & u & _ & _ & Hu & _).
    apply status_in_two in Hst.
    destruct (send_back_request_run request pk r u reason s Hser Hr Hst Hu Hc)
      as (resp & s' & H & Hcode).
    exists resp, s'. unfold Views.send_back_request.
    rewrite (gate_open_run _ _ _ _ _ Hg). split; [exact H|]. split; [exact Hcode|].
    apply send_back_request_inr in H
      as [(Hc' & _)|(_ & r0 & u0 & rs & sb & e & _ & _ & _ & _ & Hreqs & _)];
      [lia|].
    rewrite Hreqs, lookup_insert_eq. reflexivity.
Qed.

(** What a computation that only reads answers decides where it stops. *)
Lemma reader_fst {A} (m : M A) (s : Store) (x : A) :
  account_reader m -> fst (m s) = inr x -> m s = (inr x, s).
Proof.
  intros Hm Hx. destruct (Hm s) as (y & Hy & _). rewrite Hy in Hx |- *.
  cbn in Hx. congruence.
Qed.

Lemma refused_fst (m : M Response) (s : Store) (x : Response) :
  (exists y, m s = (inr y, s) /\ 400 <= status_code y) -> fst (m s) = inr x ->
  m s = (inr x, s).
Proof. intros (y & Hy & _) Hx. rewrite Hy in Hx |- *. cbn in Hx. congruence. Qed.

Lemma sample_gate (rest : list Permissions.permission) (u : User.row) :
  Forall reads_accounts rest ->
  fst (Decorators.check_permissions (Permissions.IsAuthenticated :: rest)
         (Sample.http u) Sample.store) = inr None ->
  Decorators.truthy (Json.JStr (User.password u)) = true ->
  User.status u = "Active" ->
  fst (Decorators.authenticate (User.username u) (Json.JStr (User.password u))
         Sample.store) = inr (Some u) ->
  gate_open (Permissions.IsAuthenticated :: rest) (Sample.http u) Sample.store.
Proof.
  intros Hp Hc Htr Hst Ha. split.
  - apply reader_fst; [apply reader_check_permissions, reads_all, Hp|exact Hc].
  - exists u, (Json.JStr (User.password u)), u.
    split; [reflexivity|]. split; [reflexivity|].
    split; [exact Htr|split; [exact Hst|split]].
    + apply reader_fst; [apply reader_authenticate|exact Ha].
    + reflexivity.
Qed.

(** On the sample archive bob may approve, carol may allocate and alice
    may create requests; each re-enters the right password. *)
Lemma sample_gate_bob : gate_open approvers (Sample.http Sample.bob) Sample.store.
Proof.
  apply sample_gate; [apply reads_approvers_rest|vm_compute; reflexivity|reflexivity|
                      reflexivity|vm_compute; reflexivity].
Qed.

Lemma sample_gate_carol : gate_open allocators (Sample.http Sample.carol) Sample.store.
Proof.
  apply sample_gate; [apply reads_allocators_rest|vm_compute; reflexivity|reflexivity|
                      reflexivity|vm_compute; reflexivity].
Qed.

Lemma sample_gate_alice : gate_open requesters (Sample.http Sample.alice) Sample.store.
Proof.
  apply sample_gate; [apply reads_requesters_rest|vm_compute; reflexivity|reflexivity|
                      reflexivity|vm_compute; reflexivity].
Qed.

(** C3 as stated fails: bob, who may approve and signs correctly, is
    refused on request 2, which is Sent Back; nothing is written. *)
Lemma C3_approve_refuses_sent_back :
  Request.status <$> requests Sample.store !! 2 = Some "Sent Back" /\
  Views.approve_request (Sample.http Sample.bob) 2 Sample.store =
    (inr {| status_code := 400;
            body := [("error",
                      Json.JStr "Request is not in pending state (current status: Sent Back)")] |},
     Sample.store).
Proof.
  split; [vm_compute; reflexivity|].
  apply refused_fst; [|vm_compute; reflexivity].
  apply view_refuses; [apply reads_approvers_rest|].
  destruct (approve_request_refuses (Sample.http Sample.bob) 2
              (Sample.mk_request 2 "Storage" "Sent Back" 2) Sample.store)
    as (resp & H & Hc); [reflexivity|discriminate|].
  exists resp. split; [exact H|lia].
Qed.

(** C3 at work on the sample archive: request 1 is Pending and bob's
    approval goes through. *)
Lemma C3_status_guards_witness :
  requests Sample.store !! 1 = Some (Sample.mk_request 1 "Storage" "Pending" 1) /\
  exists resp s',
    Views.approve_request (Sample.http Sample.bob) 1 Sample.store = (inr resp, s') /\
    status_code resp = 200 /\
    Request.status <$> requests s' !! 1 = Some "Approved".
Proof.
  split; [reflexivity|].
  apply (C3_status_guards (Sample.http Sample.bob) 1 Sample.store
           (Sample.mk_request 1 "Storage" "Pending" 1) eq_refl).
  - exact sample_gate_bob.
  - reflexivity.
  - vm_compute. eauto.
  - reflexivity.
Defined.

(** ** Approving twice *)

(** C4 as stated fails: bob approves request 1 twice; the first call
    changes the state and appends one audit entry, the second is refused,
    and no signature record exists after either. *)
Lemma C4_approve_twice_leaves_no_signature :
  match Views.approve_request (Sample.http Sample.bob) 1 Sample.store with
  | (inr resp1, s1) =>
      status_code resp1 = 200 /\
      Request.status <$> requests s1 !! 1 = Some "Approved" /\
      size (audit_trail s1) = 1%nat /\
      size (digital_signatures s1) = 0%nat /\
      match Views.approve_request (Sample.http Sample.bob) 1 s1 with
      | (inr resp2, s2) =>
          status_code resp2 = 400 /\ size (digital_signatures s2) = 0%nat
      | (inl _, _) => False
      end
  | (inl _, _) => False
  end.
Proof. vm_compute. repeat split; reflexivity. Qed.

(** C4, as the code has it: two approvals in a row of a Pending request by
    a caller the gate lets through make one state change and one audit
    entry, of action Approved, and no signature record; the second call is
    answered 400 and writes nothing. *)
Theorem C4_approve_twice (request : HttpRequest) (pk : Z) (s : Store) (r : Request.row) :
  gate_open approvers request s ->
  Serializers.ApproveRequestSerializer (data request) = inr tt ->
  requests s !! pk = Some r ->
  Request.status r = "Pending" ->
  is_Some (crates s !! Request.crate r) ->
  exists resp1 s1 resp2 e,
    Views.approve_request request pk s = (inr resp1, s1) /\
    status_code resp1 = 200 /\
    Request.status <$> requests s1 !! pk = Some "Approved" /\
    (forall k, k <> pk -> requests s1 !! k = requests s !! k) /\
    audit_trail s !! fresh_pk (audit_trail s) = None /\
    audit_trail s1 = <[fresh_pk (audit_trail s) := e]> (audit_trail s) /\
    AuditTrail.action e = "Approved" /\ AuditTrail.request_id e = Some pk /\
    digital_signatures s1 = digital_signatures s /\
    Views.approve_request request pk s1 = (inr resp2, s1) /\
    status_code resp2 = 400.
Proof.
  intros Hg Hser Hr Hst Hc.
  pose proof Hg as (_ & u & _ & _ & Hu & _).
  destruct (approve_request_run request pk r u s Hser Hr Hst Hu Hc)
    as (resp1 & s1 & H1 & Hcode1).
  pose proof H1 as Hinv.
  apply approve_request_inr in Hinv
    as [(Hc' & _)|(_ & r0 & u0 & e & _ & _ & _ & Hreqs & Haud & Hact & Hrid & _ & _ & Hstatic)];
    [lia|].
  assert (Hg1 : gate_open approvers request s1).
  { apply (gate_open_stable _ _ s); [|apply static_frame_accounts; exact Hstatic|exact Hg].
    apply reads_all, reads_approvers_rest. }
  assert (Hr1 : exists r1, requests s1 !! pk = Some r1 /\ Request.status r1 = "Approved").
  { rewrite Hreqs, lookup_insert_eq. eexists. split; reflexivity. }
  destruct Hr1 as (r1 & Hr1 & Hst1).
  destruct (approve_request_refuses request pk r1 s1 Hr1) as (resp2 & H2 & Hcode2).
  { rewrite Hst1. discriminate. }
  exists resp1, s1, resp2, e. unfold Views.approve_request.
  rewrite (gate_open_run _ _ _ _ _ Hg), (gate_open_run _ _ _ _ _ Hg1).
  split; [exact H1|]. split; [exact Hcode1|].
  split; [rewrite Hr1; cbn; rewrite Hst1; reflexivity|].
  split; [intros k Hk; rewrite Hreqs; apply lookup_insert_ne; congruence|].
  split; [apply fresh_pk_None|].
  split; [exact Haud|]. split; [exact Hact|]. split; [exact Hrid|].
  split; [apply Hstatic|]. split; [exact H2|exact Hcode2].
Qed.

(** C4 at work on the sample archive. *)
Lemma C4_approve_twice_witness :
  gate_open approvers (Sample.http Sample.bob) Sample.store /\
  exists resp1 s1 resp2 e,
    Views.approve_request (Sample.http Sample.bob) 1 Sample.store = (inr resp1, s1) /\
    status_code resp1 = 200 /\
    Request.status <$> requests s1 !! 1 = Some "Approved" /\
    (forall k, k <> 1 -> requests s1 !! k = requests Sample.store !! k) /\
    audit_trail Sample.store !! fresh_pk (audit_trail Sample.store) = None /\
    audit_trail s1 = <[fresh_pk (audit_trail Sample.store) := e]> (audit_trail Sample.store) /\
    AuditTrail.action e = "Approved" /\ AuditTrail.request_id e = Some 1 /\
    digital_signatures s1 = digital_signatures Sample.store /\
    Views.approve_request (Sample.http Sample.bob) 1 s1 = (inr resp2, s1) /\
    status_code resp2 = 400.
Proof.
  split; [exact sample_gate_bob|].
  apply (C4_approve_twice (Sample.http Sample.bob) 1 Sample.store
           (Sample.mk_request 1 "Storage" "Pending" 1) sample_gate_bob).
  - reflexivity.
  - reflexivity.
  - reflexivity.
  - vm_compute. eauto.
Defined.

(** ** Every transition: all of it or none *)

Lemma audit_grows_one (m : gmap Z AuditTrail.row) (e : AuditTrail.row) :
  m ⊂ <[fresh_pk m := e]> m.
Proof. apply insert_subset, fresh_pk_None. Qed.

Lemma audit_grows_two (m : gmap Z AuditTrail.row) (e1 e2 : AuditTrail.row) :
  m ⊂ <[fresh_pk (<[fresh_pk m := e1]> m) := e2]> (<[fresh_pk m := e1]> m).
Proof. etrans; apply audit_grows_one. Qed.


Lemma confirm_destruction_refuses (request : HttpRequest) (pk : Z) (r : Request.row)
    (s : Store) :
  requests s !! pk = Some r -> Request.status r <> "Approved" ->
  exists resp, Handlers.confirm_destruction request pk s = (inr resp, s) /\
               status_code resp = 400.
Proof.
  intros Hr Hst. unfold Handlers.confirm_destruction.
  rewrite (bind_inr get_store _ s s s eq_refl). unfold find. rewrite Hr.
  cbn [fmap option_fmap option_map Request.status Request.request_type Request.with_pk].
  destruct (String.eqb (Request.request_type r) "Destruction"); cbv [negb];
    [|eexists; split; reflexivity].
  destruct (String.eqb (Request.status r) "Approved") eqn:E.
  - apply String.eqb_eq in E. contradiction.
  - eexists; split; reflexivity.
Qed.






Lemma crate_writable_check (s : Store) (k : Z) :
  match crates s !! k with
  | Some c => Py.truthy_str (Crate.barcode c) &&
              negb (Documents.barcode_taken (Crate.barcode c) (rows (delete k (crates s))))
  | None => false
  end = true ->
  crate_writable s k.
Proof.
  destruct (crates s !! k) as [c|] eqn:Hc; [|discriminate].
  intros H. apply andb_true_iff in H as (Hb & Ht). apply negb_true_iff in Ht.
  exists c. auto.
Qed.





(** ** Destruction *)

(** C7: [confirm_destruction] answers 200 only for a Destruction request
    that is Approved; the crate is then Destroyed with its storage
    reference as before, no other crate changes, and the request is
    Completed.  A request in any other status is answered 400 or above and
    nothing is written.  And for a caller the gate lets through, an
    Approved Destruction request whose crate can be written back is
    confirmed: the answer is 200, with the same effect. *)
Theorem C7_confirm_destruction (request : HttpRequest) (pk : Z) (s : Store) :
  (forall resp s',
     Views.confirm_destruction request pk s = (inr resp, s') ->
     status_code resp = 200 ->
     exists r c c',
       requests s !! pk = Some r /\
       Request.request_type r = "Destruction" /\ Request.status r = "Approved" /\
       crates s !! Request.crate r = Some c /\
       crates s' !! Request.crate r = Some c' /\
       Crate.status c' = "Destroyed" /\ Crate.storage c' = Crate.storage c /\
       (forall k, k <> Request.crate r -> crates s' !! k = crates s !! k) /\
       Request.status <$> requests s' !! pk = Some "Completed") /\
  (forall r,
     requests s !! pk = Some r -> Request.status r <> "Approved" ->
     exists resp, Views.confirm_destruction request pk s = (inr resp, s) /\
                  400 <= status_code resp) /\
  (forall r,
     gate_open requesters request s ->
     requests s !! pk = Some r ->
     Request.request_type r = "Destruction" -> Request.status r = "Approved" ->
     crate_writable s (Request.crate r) ->
     exists resp s' c c',
       Views.confirm_destruction request pk s = (inr resp, s') /\
       status_code resp = 200 /\
       crates s !! Request.crate r = Some c /\
       crates s' !! Request.crate r = Some c' /\
       Crate.status c' = "Destroyed" /\ Crate.storage c' = Crate.storage c /\
       (forall k, k <> Request.crate r -> crates s' !! k = crates s !! k) /\
       Request.status <$> requests s' !! pk = Some "Completed").
Proof.
  assert (Hback : forall resp s',
     Views.confirm_destruction request pk s = (inr resp, s') ->
     status_code resp = 200 ->
     exists r c c',
       requests s !! pk = Some r /\
       Request.request_type r = "Destruction" /\ Request.status r = "Approved" /\
       crates s !! Request.crate r = Some c /\
       crates s' !! Request.crate r = Some c' /\
       Crate.status c' = "Destroyed" /\ Crate.storage c' = Crate.storage c /\
       (forall k, k <> Request.crate r -> crates s' !! k = crates s !! k) /\
       Request.status <$> requests s' !! pk = Some "Completed").
  { intros resp s' H Hcode.
    apply view_success in H as (_ & H); [|apply reads_requesters_rest|lia].
    apply confirm_destruction_inr in H
      as [(Hc & _)|(_ & r & u & c & c' & e & Hf & Hty & Hst & _ & Hcrow & Hc' & Hcr &
                    Hreqs & _)]; [lia|].
    apply find_Some in Hf as (r0 & Hr0 & ->).
    exists r0, c, c'. cbn [Request.crate Request.with_pk Request.request_type
                            Request.status] in *.
    split; [exact Hr0|]. split; [exact Hty|]. split; [exact Hst|].
    split; [exact Hcrow|]. split; [rewrite Hcr; apply lookup_insert_eq|].
    split; [rewrite Hc'; reflexivity|]. split; [rewrite Hc'; reflexivity|].
    split; [intros k Hk; rewrite Hcr; apply lookup_insert_ne; congruence|].
    rewrite Hreqs, lookup_insert_eq. reflexivity. }
  split; [exact Hback|]. split.
  - intros r Hr Hst. apply view_refuses; [apply reads_requesters_rest|].
    destruct (confirm_destruction_refuses request pk r s Hr Hst) as (resp & H & Hc).
    exists resp. split; [exact H|lia].
  - intros r Hg Hr Hty Hst Hw.
    pose proof Hg as (_ & u & _ & _ & Hu & _).
    destruct (confirm_destruction_run request pk r u s Hr Hty Hst Hu Hw)
      as (resp & s' & H & Hcode).
    assert (Hview : Views.confirm_destruction request pk s = (inr resp, s')).
    { unfold Views.confirm_destruction. rewrite (gate_open_run _ _ _ _ _ Hg). exact H. }
    destruct (Hback resp s' Hview Hcode)
      as (r0 & c & c' & Hr0 & _ & _ & Hc & Hc' & Hd & Hsto & Hoth & Hdone).
    assert (r0 = r) as -> by congruence.
    exists resp, s', c, c'. auto 10.
Qed.

(** C7 at work on the sample archive: alice confirms request 4; crate 1 is
    Destroyed and still points at storage 1. *)
Lemma C7_confirm_destruction_witness :
  gate_open requesters (Sample.http Sample.alice) Sample.store /\
  crate_writable Sample.store 1 /\
  exists resp s' c c',
    Views.confirm_destruction (Sample.http Sample.alice) 4 Sample.store = (inr resp, s') /\
    status_code resp = 200 /\
    crates Sample.store !! 1 = Some c /\
    crates s' !! 1 = Some c' /\
    Crate.status c' = "Destroyed" /\ Crate.storage c' = Crate.storage c /\
    (forall k, k <> 1 -> crates s' !! k = crates Sample.store !! k) /\
    Request.status <$> requests s' !! 4 = Some "Completed".
Proof.
  assert (Hw : crate_writable Sample.store 1)
    by (apply crate_writable_check; vm_compute; reflexivity).
  split; [exact sample_gate_alice|]. split; [exact Hw|].
  exact (proj2 (proj2 (C7_confirm_destruction (Sample.http Sample.alice) 4 Sample.store))
           (Sample.mk_request 4 "Destruction" "Approved" 1)
           sample_gate_alice eq_refl eq_refl eq_refl Hw).
Defined.

(** On the sample archive: alice confirms request 4; crate 1 is Destroyed
    and still points at storage 1. *)
Example confirm_destruction_sample :
  match Views.confirm_destruction (Sample.http Sample.alice) 4 Sample.store with
  | (inr resp, s') =>
      status_code resp = 200 /\
      Crate.status <$> crates s' !! 1 = Some "Destroyed" /\
      Crate.storage <$> crates s' !! 1 = Some (Some 1) /\
      Request.status <$> requests s' !! 4 = Some "Completed"
  | (inl _, _) => False
  end.
Proof. vm_compute. repeat split; reflexivity. Qed.

(** ** Rejection and the crate *)

(** *** The links between requests and documents *)

Lemma keeps_ret {A} (x : A) : keeps_links (mret x : M A).
Proof. intros s r s' H. injection H as _ <-. reflexivity. Qed.

Lemma keeps_raise {A} (e : exn) : keeps_links (raise e : M A).
Proof. intros s r s' H. injection H as _ <-. reflexivity. Qed.

Lemma keeps_bind {A B} (m : M A) (f : A -> M B) :
  keeps_links m -> (forall x, keeps_links (f x)) -> keeps_links (m ≫= f).
Proof.
  intros Hm Hf s r s' H. cbv [mbind M_bind] in H.
  destruct (m s) as [[e|x] s1] eqn:E.
  - injection H as _ <-. exact (Hm _ _ _ E).
  - rewrite (Hf x _ _ _ H). exact (Hm _ _ _ E).
Qed.

Lemma keeps_objects_get {A} (model : string) (table : Store -> gmap Z A)
    (w : Z -> A -> A) (k : Z) : keeps_links (objects_get model table w k).
Proof.
  intros s r s' H. unfold objects_get in H.
  destruct (table s !! k); injection H as _ <-; reflexivity.
Qed.

Lemma keeps_Model_save_crate (c : Crate.row) : keeps_links (Documents.Model_save c).
Proof.
  intros s r s' H. unfold Documents.Model_save in H.
  destruct (Crate.pk c); destruct (Documents.barcode_taken _ _);
    injection H as _ <-; reflexivity.
Qed.

Lemma keeps_Documents_save (c : Crate.row) : keeps_links (Documents.save c).
Proof.
  unfold Documents.save.
  destruct (negb (Py.truthy_str (Crate.barcode c))); [|apply keeps_Model_save_crate].
  destruct (negb (Py.truthy_pk (Crate.pk c))); [|apply keeps_Model_save_crate].
  apply keeps_bind; [intros st r st' H; injection H as _ <-; reflexivity|intros u1].
  apply keeps_bind; [apply keeps_Model_save_crate|intros c1].
  apply keeps_bind; [intros st r st' H; injection H as _ <-; reflexivity|intros u2].
  apply keeps_bind; [intros st r st' H; injection H as _ <-; reflexivity|intros t].
  apply keeps_bind; [apply keeps_objects_get|intros dept].
  apply keeps_bind.
  { destruct (Crate.section _); [|apply keeps_ret].
    apply keeps_bind; [apply keeps_objects_get|intros sec; apply keeps_ret]. }
  intros sn. apply keeps_bind; [apply keeps_objects_get|intros un].
  apply keeps_bind; [intros st r st' H; injection H as _ <-; reflexivity|intros s0].
  apply keeps_Model_save_crate.
Qed.

Lemma keeps_log_audit_event (u : option User.row) (action message : string)
    (rq : option HttpRequest) (rid sid cid did : option Z) (au : option string) :
  keeps_links (Audit.log_audit_event u action message rq rid sid cid did au).
Proof.
  intros s r s' H. unfold Audit.log_audit_event, Audit.save, Audit.Model_save in H.
  cbn [AuditTrail.pk AuditTrail.user_agent] in H.
  destruct (RequestUtils.get_user_agent <$> rq); injection H as _ <-; reflexivity.
Qed.

Lemma keeps_Request_save (r : Request.row) : keeps_links (Handlers.Request_save r).
Proof.
  intros s x s' H. unfold Handlers.Request_save in H.
  destruct (Request.pk _); injection H as _ <-; reflexivity.
Qed.

Lemma keeps_SendBack_create (r : Request.row) (reason : string) (u : User.row)
    (ty : string) : keeps_links (Handlers.SendBack_create r reason u ty).
Proof.
  intros s x s' H. unfold Handlers.SendBack_create in H.
  destruct (Request.pk _); injection H as _ <-; reflexivity.
Qed.

Lemma keeps_the_user (request : HttpRequest) : keeps_links (the_user request).
Proof.
  unfold the_user. destruct (user request); [apply keeps_raise|apply keeps_ret].
Qed.

Lemma keeps_reject_request (request : HttpRequest) (pk : Z) :
  keeps_links (Handlers.reject_request request pk).
Proof.
  unfold Handlers.reject_request.
  destruct (Serializers.RejectRequestSerializer _); [apply keeps_ret|].
  apply keeps_bind; [intros st r st' H; injection H as _ <-; reflexivity|intros s0].
  destruct (find _ _ _); [|apply keeps_ret].
  destruct (negb _); [apply keeps_ret|].
  apply keeps_bind; [apply keeps_the_user|intros u].
  apply keeps_bind.
  { destruct (String.eqb _ _); [|apply keeps_ret].
    apply keeps_bind; [apply keeps_objects_get|intros c].
    destruct (String.eqb _ _); [|apply keeps_ret].
    apply keeps_bind; [apply keeps_Documents_save|intros c'].
    apply keeps_bind; [apply keeps_log_audit_event|intros e; apply keeps_ret]. }
  intros cs. apply keeps_bind; [apply keeps_Request_save|intros r'].
  apply keeps_bind; [apply keeps_SendBack_create|intros []].
  apply keeps_bind; [|intros e; apply keeps_ret].
  unfold AuditUtils.log_request_rejected.
  apply keeps_bind; [apply keeps_objects_get|intros c; apply keeps_log_audit_event].
Qed.

Lemma keeps_gate {A} (rest : list Permissions.permission)
    (h : HttpRequest -> A -> M Response) (request : HttpRequest) (a : A) :
  Forall reads_accounts rest ->
  keeps_links (h request a) ->
  keeps_links (Decorators.api_view (Permissions.IsAuthenticated :: rest)
                 (Decorators.require_digital_signature h) request a).
Proof.
  intros Hp Hh s r s' H.
  apply gate_inv in H; [|exact Hp].
  destruct H as [(resp & _ & -> & _)|(_ & H)]; [reflexivity|exact (Hh _ _ _ H)].
Qed.

(** C10: a Reject that goes through writes the request (status Rejected),
    one SendBack row and the audit trail, and nothing else: the links
    between requests and documents and the tables no transition writes are
    as before; the crates table is untouched when the request is a Storage
    or a Destruction request, and whenever it does change the request is a
    Withdrawal whose crate was Withdrawn. *)
Theorem C10_reject_frame (request : HttpRequest) (pk : Z) (s s' : Store)
    (resp : Response) (r : Request.row) :
  requests s !! pk = Some r ->
  Views.reject_request request pk s = (inr resp, s') ->
  status_code resp = 200 ->
  (Request.request_type r = "Storage" \/ Request.request_type r = "Destruction" ->
   crates s' = crates s) /\
  (crates s' <> crates s ->
   Request.request_type r = "Withdrawal" /\
   Crate.status <$> crates s !! Request.crate r = Some "Withdrawn") /\
  requests s' = <[pk := Request.with_updated_at (Some (now s))
                          (Request.with_status "Rejected" (Request.with_pk pk r))]>
                  (requests s) /\
  (exists sb, sendbacks s' = (sendbacks s ++ [sb])%list) /\
  audit_trail s ⊂ audit_trail s' /\
  request_documents s' = request_documents s /\
  static_frame s s'.
Proof.
  intros Hr H Hcode.
  assert (Hlinks : request_documents s' = request_documents s).
  { revert H. apply keeps_gate; [apply reads_approvers_rest|apply keeps_reject_request]. }
  apply view_success in H as (_ & H); [|apply reads_approvers_rest|lia].
  apply reject_request_inr in H
    as [(Hc & _)|(_ & r0 & u & rs & s1 & sb & e & Hf & _ & _ & _ & Heff & Hreqs & Hsb & _ &
                  Hcr & Haud & _ & _ & Hst)]; [lia|].
  apply find_Some in Hf as (r1 & Hr1 & ->).
  assert (r1 = r) as -> by congruence.
  cbn [Request.request_type Request.crate Request.with_pk] in Heff.
  unfold reject_crate_effect in Heff.
  cbn [Request.request_type Request.crate Request.with_pk] in Heff.
  split; [|split; [|split; [exact Hreqs|split; [eauto|split; [|split;
    [exact Hlinks|exact Hst]]]]]].
  - intros Hty. destruct Heff as [(Hw & _)|(_ & Hsame & _)].
    + destruct Hty as [Hty|Hty]; rewrite Hw in Hty; discriminate.
    + rewrite Hcr. exact Hsame.
  - intros Hne. destruct Heff as [(Hw & c & c' & e1 & Hc & Hcs & _)|(_ & Hsame & _)].
    + split; [exact Hw|]. rewrite Hc. cbn. rewrite Hcs. reflexivity.
    + exfalso. apply Hne. rewrite Hcr. exact Hsame.
  - rewrite Haud.
    destruct Heff as [(_ & c & c' & e1 & _ & _ & _ & _ & Ha1 & _)|(_ & _ & Ha1)];
      rewrite Ha1; [apply audit_grows_two|apply audit_grows_one].
Qed.

Lemma sample_reject_answer :
  match fst (Views.reject_request (Sample.http Sample.bob) 1 Sample.store) with
  | inr resp => status_code resp = 200
  | inl _ => False
  end.
Proof. vm_compute. reflexivity. Qed.

(** C10 at work on the sample archive: bob rejects the Storage request 1
    and the crates are as before. *)
Lemma C10_reject_frame_witness :
  exists resp s',
    Views.reject_request (Sample.http Sample.bob) 1 Sample.store = (inr resp, s') /\
    status_code resp = 200 /\
    crates s' = crates Sample.store /\
    Request.status <$> requests s' !! 1 = Some "Rejected" /\
    request_documents s' = request_documents Sample.store.
Proof.
  generalize sample_reject_answer.
  destruct (Views.reject_request (Sample.http Sample.bob) 1 Sample.store)
    as [[e|resp] s'] eqn:H; cbn [fst]; intros Hcode; [contradiction|].
  exists resp, s'. split; [reflexivity|]. split; [exact Hcode|].
  destruct (C10_reject_frame (Sample.http Sample.bob) 1 Sample.store s' resp
              (Sample.mk_request 1 "Storage" "Pending" 1) eq_refl H Hcode)
    as (Hcr & _ & Hreqs & _ & _ & Hlinks & _).
  split; [apply Hcr; left; reflexivity|].
  split; [|exact Hlinks].
  rewrite Hreqs, lookup_insert_eq. reflexivity.
Defined.

(** ** Withdrawal and the crate status *)

Lemma create_withdrawal_request_refuses (request : HttpRequest)
    (d : Serializers.WithdrawalData) (c : Crate.row) (s : Store) :
  Serializers.WithdrawalRequestCreateSerializer (data request) s = (inr (inr d), s) ->
  crates s !! Serializers.w_crate d = Some c ->
  Crate.status c <> "Active" -> Crate.status c <> "Archived" ->
  exists resp, Handlers.create_withdrawal_request request s = (inr resp, s) /\
               status_code resp = 400.
Proof.
  intros Hser Hc Ha Hb. unfold Handlers.create_withdrawal_request.
  rewrite (bind_inr _ _ _ _ _ Hser).
  rewrite (bind_inr get_store _ s s s eq_refl). unfold find. rewrite Hc.
  cbn [fmap option_fmap option_map Crate.status Crate.with_pk].
  destruct (Handlers.status_in (Crate.status c) ["Active"; "Archived"]) eqn:E.
  - apply status_in_two in E as [E|E]; contradiction.
  - cbv [negb]. eexists; split; reflexivity.
Qed.

Lemma set_request_documents_twice (l l' : list (Z * Z)) (s : Store) :
  set_request_documents l' (set_request_documents l s) = set_request_documents l' s.
Proof. destruct s. reflexivity. Qed.

Lemma link_documents_run (k : Z) (ids : list Z) (s : Store) :
  NoDup ids ->
  (forall doc, doc ∈ ids -> (k, doc) ∉ request_documents s) ->
  exists l, Handlers.link_documents k ids s = (inr tt, set_request_documents l s).
Proof.
  revert s. induction ids as [|d ids IH]; intros s Hnd Hfresh; cbn [Handlers.link_documents].
  - exists (request_documents s). destruct s. reflexivity.
  - apply NoDup_cons in Hnd as (Hd & Hnd).
    rewrite (bind_inr get_store _ s s s eq_refl).
    destruct (bool_decide (d ∈ documents s)).
    + rewrite bool_decide_eq_false_2 by (apply Hfresh; left).
      erewrite bind_inr by reflexivity.
      destruct (IH (set_request_documents (request_documents s ++ [(k, d)])%list s) Hnd)
        as (l & Hl).
      { intros doc Hdoc. cbn [request_documents set_request_documents].
        intros Hin. apply elem_of_app in Hin as [Hin|Hin].
        - apply (Hfresh doc); [right; exact Hdoc|exact Hin].
        - apply list_elem_of_singleton in Hin. injection Hin as ->. contradiction. }
      rewrite Hl. rewrite set_request_documents_twice. eauto.
    + erewrite bind_inr by reflexivity.
      apply IH; [exact Hnd|]. intros doc Hdoc. apply Hfresh. right. exact Hdoc.
Qed.

Lemma atomic_run {A} (m : M A) (x : A) (s s1 : Store) :
  m s = (inr x, s1) -> atomic m s = (inr x, s1).
Proof. intros H. unfold atomic. rewrite H. reflexivity. Qed.

Lemma create_withdrawal_request_run (request : HttpRequest)
    (d : Serializers.WithdrawalData) (c : Crate.row) (u : User.row) (s : Store) :
  Serializers.WithdrawalRequestCreateSerializer (data request) s = (inr (inr d), s) ->
  crates s !! Serializers.w_crate d = Some c ->
  Handlers.status_in (Crate.status c) ["Active"; "Archived"] = true ->
  user request = Authenticated u ->
  Py.truthy_str (Crate.barcode c) = true ->
  Documents.barcode_taken (Crate.barcode c)
    (rows (delete (Serializers.w_crate d) (crates s))) = false ->
  NoDup (default [] (Serializers.w_document_ids d)) ->
  (forall doc, (fresh_pk (requests s), doc) ∉ request_documents s) ->
  exists resp s', Handlers.create_withdrawal_request request s = (inr resp, s') /\
                  status_code resp = 201.
Proof.
  intros Hser Hc Hst Hu Hb Ht Hnd Hfresh. unfold Handlers.create_withdrawal_request.
  rewrite (bind_inr _ _ _ _ _ Hser).
  rewrite (bind_inr get_store _ s s s eq_refl). unfold find. rewrite Hc.
  cbn [fmap option_fmap option_map Crate.status Crate.with_pk]. rewrite Hst. cbv [negb].
  match goal with |- context [mbind ?f (atomic ?m) s] =>
    assert (Hin : exists x s1, m s = (inr x, s1)) end.
  { rewrite (bind_inr _ _ _ _ _ (the_user_run _ _ _ Hu)).
    erewrite bind_inr by reflexivity.
    row_simp. store_simp.
    match goal with |- context [mbind ?f ?m ?st0] =>
      assert (Hl : exists l, m st0 = (inr tt, set_request_documents l st0)) end.
    { destruct (Serializers.w_document_ids d) as [ids|].
      - destruct (Serializers.w_full_withdrawal d); cbv [negb].
        + eexists (request_documents _). reflexivity.
        + apply link_documents_run; [exact Hnd|]. intros doc _. apply Hfresh.
      - eexists (request_documents _). reflexivity. }
    destruct Hl as (l & Hl). rewrite (bind_inr _ _ _ _ _ Hl).
    rewrite (Documents_save_kept _ (Serializers.w_crate d)); [|reflexivity|exact Hb|exact Ht].
    unfold AuditUtils.log_request_created.
    run_simp. row_simp. rewrite lookup_insert_eq. run_simp.
    eexists _, _. reflexivity. }
  destruct Hin as (x & s1 & Hin).
  rewrite (bind_inr _ _ _ _ _ (atomic_run _ _ _ _ Hin)).
  eexists _, _. split; reflexivity.
Qed.

(** C6: a withdrawal request is created (answer 201) only for a crate that
    is Active or Archived, and the crate is Withdrawn afterwards, with the
    new request Pending, not yet approved, under a fresh key; for a crate
    in any other status the answer is 400 or above and nothing is written,
    so a Withdrawn crate takes no second withdrawal request; a caller the
    gate lets through who sends valid data for an Active or Archived crate
    does get the request created; a Reject that goes through on a
    Withdrawal request whose crate is Withdrawn puts the crate back to
    Active; and for an approver the gate lets through, the Reject of a
    Pending or Sent Back withdrawal request does go through. *)
Theorem C6_withdrawal_crate_status (request : HttpRequest) (s : Store) :
  (forall resp s',
     Views.create_withdrawal_request request tt s = (inr resp, s') ->
     status_code resp = 201 ->
     exists d c c' r',
       Serializers.WithdrawalRequestCreateSerializer (data request) s = (inr (inr d), s) /\
       crates s !! Serializers.w_crate d = Some c /\
       (Crate.status c = "Active" \/ Crate.status c = "Archived") /\
       crates s' !! Serializers.w_crate d = Some c' /\
       Crate.status c' = "Withdrawn" /\
       requests s !! fresh_pk (requests s) = None /\
       requests s' !! fresh_pk (requests s) = Some r' /\
       Request.request_type r' = "Withdrawal" /\ Request.status r' = "Pending" /\
       Request.crate r' = Serializers.w_crate d /\ Request.approved_by r' = None) /\
  (forall d c,
     Serializers.WithdrawalRequestCreateSerializer (data request) s = (inr (inr d), s) ->
     crates s !! Serializers.w_crate d = Some c ->
     Crate.status c <> "Active" -> Crate.status c <> "Archived" ->
     exists resp, Views.create_withdrawal_request request tt s = (inr resp, s) /\
                  400 <= status_code resp) /\
  (forall d c,
     gate_open requesters request s ->
     Serializers.WithdrawalRequestCreateSerializer (data request) s = (inr (inr d), s) ->
     crates s !! Serializers.w_crate d = Some c ->
     Crate.status c = "Active" \/ Crate.status c = "Archived" ->
     crate_writable s (Serializers.w_crate d) ->
     NoDup (default [] (Serializers.w_document_ids d)) ->
     (forall doc, (fresh_pk (requests s), doc) ∉ request_documents s) ->
     exists resp s' c' r',
       Views.create_withdrawal_request request tt s = (inr resp, s') /\
       status_code resp = 201 /\
       crates s' !! Serializers.w_crate d = Some c' /\
       Crate.status c' = "Withdrawn" /\
       requests s' !! fresh_pk (requests s) = Some r' /\
       Request.request_type r' = "Withdrawal" /\ Request.status r' = "Pending" /\
       Request.crate r' = Serializers.w_crate d /\ Request.approved_by r' = None) /\
  (forall pk r c resp s',
     requests s !! pk = Some r -> Request.request_type r = "Withdrawal" ->
     crates s !! Request.crate r = Some c -> Crate.status c = "Withdrawn" ->
     Views.reject_request request pk s = (inr resp, s') ->
     status_code resp = 200 ->
     Crate.status <$> crates s' !! Request.crate r = Some "Active") /\
  (forall pk r c reason,
     gate_open approvers request s ->
     Serializers.RejectRequestSerializer (data request) = inr reason ->
     requests s !! pk = Some r -> Request.request_type r = "Withdrawal" ->
     Request.status r = "Pending" \/ Request.status r = "Sent Back" ->
     crates s !! Request.crate r = Some c -> Crate.status c = "Withdrawn" ->
     crate_writable s (Request.crate r) ->
     exists resp s',
       Views.reject_request request pk s = (inr resp, s') /\
       status_code resp = 200 /\
       Crate.status <$> crates s' !! Request.crate r = Some "Active" /\
       Request.status <$> requests s' !! pk = Some "Rejected").
Proof.
  assert (Hcreate : forall resp s',
     Views.create_withdrawal_request request tt s = (inr resp, s') ->
     status_code resp = 201 ->
     exists d c c' r',
       Serializers.WithdrawalRequestCreateSerializer (data request) s = (inr (inr d), s) /\
       crates s !! Serializers.w_crate d = Some c /\
       (Crate.status c = "Active" \/ Crate.status c = "Archived") /\
       crates s' !! Serializers.w_crate d = Some c' /\
       Crate.status c' = "Withdrawn" /\
       requests s !! fresh_pk (requests s) = None /\
       requests s' !! fresh_pk (requests s) = Some r' /\
       Request.request_type r' = "Withdrawal" /\ Request.status r' = "Pending" /\
       Request.crate r' = Serializers.w_crate d /\ Request.approved_by r' = None).
  { intros resp s' H Hcode. unfold Views.create_withdrawal_request in H.
    apply view_success in H as (_ & H); [|apply reads_requesters_rest|lia].
    apply create_withdrawal_request_inr in H
      as [(Hc & _)|(_ & d & u & c & c' & r' & e1 & e2 & Hser & Hcrow & Hst & _ & Hc' &
                    Hcr & Hreqs & Hrs & Hrt & Hrc & Hra & _)]; [lia|].
    exists d, c, c', r'. apply status_in_two in Hst.
    split; [exact Hser|]. split; [exact Hcrow|]. split; [exact Hst|].
    split; [rewrite Hcr; apply lookup_insert_eq|].
    split; [rewrite Hc'; reflexivity|].
    split; [apply fresh_pk_None|].
    split; [rewrite Hreqs; apply lookup_insert_eq|]. auto. }
  assert (Hreject : forall pk r c resp s',
     requests s !! pk = Some r -> Request.request_type r = "Withdrawal" ->
     crates s !! Request.crate r = Some c -> Crate.status c = "Withdrawn" ->
     Views.reject_request request pk s = (inr resp, s') ->
     status_code resp = 200 ->
     Crate.status <$> crates s' !! Request.crate r = Some "Active" /\
     Request.status <$> requests s' !! pk = Some "Rejected").
  { intros pk r c resp s' Hr Hty Hc Hcs H Hcode.
    apply view_success in H as (_ & H); [|apply reads_approvers_rest|lia].
    apply reject_request_inr in H
      as [(Hx & _)|(_ & r0 & u & rs & s1 & sb & e & Hf & _ & _ & _ & Heff & Hreqs & _ & _ &
                    Hcr & _)]; [lia|].
    apply find_Some in Hf as (r1 & Hr1 & ->).
    assert (r1 = r) as -> by congruence.
    split; [|rewrite Hreqs, lookup_insert_eq; reflexivity].
    unfold reject_crate_effect in Heff.
    cbn [Request.request_type Request.crate Request.with_pk] in Heff.
    destruct Heff as [(_ & c0 & c' & e1 & _ & _ & Hc' & Hs1 & _)|(Hno & _)].
    + rewrite Hcr, Hs1, lookup_insert_eq. cbn. rewrite Hc'. reflexivity.
    + exfalso. apply Hno. split; [exact Hty|]. rewrite Hc. cbn. rewrite Hcs. reflexivity. }
  split; [exact Hcreate|]. split; [|split; [|split]].
  - intros d c Hser Hc Ha Hb. unfold Views.create_withdrawal_request.
    apply (view_refuses _ (fun request (_ : unit) =>
                             Handlers.create_withdrawal_request request));
      [apply reads_requesters_rest|].
    destruct (create_withdrawal_request_refuses request d c s Hser Hc Ha Hb)
      as (resp & H & Hcode).
    exists resp. split; [exact H|lia].
  - intros d c Hg Hser Hc Hst (c0 & Hc0 & Hb & Ht) Hnd Hfresh.
    assert (c0 = c) as -> by congruence.
    pose proof Hg as (_ & u & _ & _ & Hu & _).
    apply status_in_two in Hst.
    destruct (create_withdrawal_request_run request d c u s Hser Hc Hst Hu Hb Ht Hnd Hfresh)
      as (resp & s' & H & Hcode).
    assert (Hview : Views.create_withdrawal_request request tt s = (inr resp, s')).
    { unfold Views.create_withdrawal_request.
      rewrite (gate_open_run _ _ _ _ _ Hg). exact H. }
    destruct (Hcreate resp s' Hview Hcode)
      as (d' & c1 & c' & r' & Hser' & _ & _ & Hc' & Hw & _ & Hr' & Hty & Hpend & Hrc & Hra).
    assert (d' = d) as -> by congruence.
    exists resp, s', c', r'. auto 10.
  - intros pk r c resp s' Hr Hty Hc Hcs H Hcode.
    exact (proj1 (Hreject pk r c resp s' Hr Hty Hc Hcs H Hcode)).
  - intros pk r c reason Hg Hser Hr Hty Hst Hc Hcs Hw.
    pose proof Hg as (_ & u & _ & _ & Hu & _).
    apply status_in_two in Hst.
    destruct (reject_request_run request pk r u reason s Hser Hr Hst Hu Hw)
      as (resp & s' & H & Hcode).
    assert (Hview : Views.reject_request request pk s = (inr resp, s')).
    { unfold Views.reject_request. rewrite (gate_open_run _ _ _ _ _ Hg). exact H. }
    exists resp, s'. split; [exact Hview|]. split; [exact Hcode|].
    exact (Hreject pk r c resp s' Hr Hty Hc Hcs Hview Hcode).
Qed.

Lemma sample_withdrawal_data :
  Serializers.WithdrawalRequestCreateSerializer (data (Sample.http Sample.alice))
    Sample.store =
  (inr (inr {| Serializers.w_crate := 1;
               Serializers.w_expected_return_date := Sample.later;
               Serializers.w_purpose := Some "audit";
               Serializers.w_full_withdrawal := true;
               Serializers.w_document_ids := None |}), Sample.store).
Proof.
  pose proof (WithdrawalRequestCreateSerializer_pure (data (Sample.http Sample.alice))
                Sample.store) as Hp.
  destruct (Serializers.WithdrawalRequestCreateSerializer _ _) as [v s1] eqn:E.
  cbn [snd] in Hp. subst s1. f_equal.
  change v with (fst (v, Sample.store)). rewrite <- E. vm_compute. reflexivity.
Qed.

(** C6 at work on the sample archive: alice asks to withdraw the Active
    crate 1, which becomes Withdrawn under a new Pending request; bob rejects
    the Pending withdrawal request 3 and its crate 3, which was Withdrawn, is
    Active again. *)
Lemma C6_withdrawal_crate_status_witness :
  (gate_open requesters (Sample.http Sample.alice) Sample.store /\
   crate_writable Sample.store 1 /\
   exists resp s' c' r',
     Views.create_withdrawal_request (Sample.http Sample.alice) tt Sample.store
       = (inr resp, s') /\
     status_code resp = 201 /\
     crates s' !! 1 = Some c' /\ Crate.status c' = "Withdrawn" /\
     requests s' !! fresh_pk (requests Sample.store) = Some r' /\
     Request.request_type r' = "Withdrawal" /\ Request.status r' = "Pending" /\
     Request.crate r' = 1 /\ Request.approved_by r' = None) /\
  (gate_open approvers (Sample.http Sample.bob) Sample.store /\
   crate_writable Sample.store 3 /\
   exists resp s',
     Views.reject_request (Sample.http Sample.bob) 3 Sample.store = (inr resp, s') /\
     status_code resp = 200 /\
     Crate.status <$> crates s' !! 3 = Some "Active" /\
     Request.status <$> requests s' !! 3 = Some "Rejected").
Proof.
  assert (Hw1 : crate_writable Sample.store 1)
    by (apply crate_writable_check; vm_compute; reflexivity).
  assert (Hw3 : crate_writable Sample.store 3)
    by (apply crate_writable_check; vm_compute; reflexivity).
  split.
  - split; [exact sample_gate_alice|]. split; [exact Hw1|].
    apply (proj1 (proj2 (proj2 (C6_withdrawal_crate_status (Sample.http Sample.alice)
                                  Sample.store))) _
             (Sample.mk_crate 1 "Active" "MFG01/QC/Lab1/2025/00001" (Some 1))
             sample_gate_alice sample_withdrawal_data).
    + reflexivity.
    + left. reflexivity.
    + exact Hw1.
    + constructor.
    + intros doc Hin. vm_compute in Hin. inversion Hin.
  - split; [exact sample_gate_bob|]. split; [exact Hw3|].
    apply (proj2 (proj2 (proj2 (proj2 (C6_withdrawal_crate_status (Sample.http Sample.bob)
                                         Sample.store)))) 3
             (Sample.mk_request 3 "Withdrawal" "Pending" 3)
             (Sample.mk_crate 3 "Withdrawn" "MFG01/QC/Lab1/2025/00003" (Some 1))
             "label does not match the manifest" sample_gate_bob).
    + reflexivity.
    + reflexivity.
    + reflexivity.
    + left. reflexivity.
    + reflexivity.
    + reflexivity.
    + exact Hw3.
Defined.

(** On the sample archive: alice asks to withdraw the Active crate 1, which
    becomes Withdrawn under the new request 8; a second request for the same
    crate is refused and adds no request; bob rejects request 8 and the crate
    is Active again. *)
Example withdraw_then_reject_sample :
  match Views.create_withdrawal_request (Sample.http Sample.alice) tt Sample.store with
  | (inr resp, s1) =>
      status_code resp = 201 /\
      Crate.status <$> crates s1 !! 1 = Some "Withdrawn" /\
      Request.status <$> requests s1 !! 8 = Some "Pending" /\
      Request.request_type <$> requests s1 !! 8 = Some "Withdrawal" /\
      match Views.create_withdrawal_request (Sample.http Sample.alice) tt s1 with
      | (inr resp2, s2) =>
          status_code resp2 = 400 /\ size (requests s2) = size (requests s1)
      | (inl _, _) => False
      end /\
      match Views.reject_request (Sample.http Sample.bob) 8 s1 with
      | (inr resp3, s3) =>
          status_code resp3 = 200 /\
          Crate.status <$> crates s3 !! 1 = Some "Active" /\
          Request.status <$> requests s3 !! 8 = Some "Rejected"
      | (inl _, _) => False
      end
  | (inl _, _) => False
  end.
Proof. vm_compute. repeat split; reflexivity. Qed.

(** * Further properties of the workflow *)

(** ** Issuing and returning documents *)

Lemma issue_documents_refuses (request : HttpRequest) (pk : Z) (r : Request.row)
    (s : Store) :
  requests s !! pk = Some r ->
  Request.request_type r <> "Withdrawal" \/ Request.status r <> "Approved" ->
  exists resp, Handlers.issue_documents request pk s = (inr resp, s) /\
               status_code resp = 400.
Proof.
  intros Hr Hbad. unfold Handlers.issue_documents.
  destruct (Serializers.IssueDocumentsSerializer _); [eexists; split; reflexivity|].
  rewrite (bind_inr get_store _ s s s eq_refl). unfold find. rewrite Hr.
  cbn [fmap option_fmap option_map Request.status Request.request_type Request.with_pk].
  destruct (String.eqb (Request.request_type r) "Withdrawal") eqn:Ety; cbv [negb];
    [|eexists; split; reflexivity].
  destruct (String.eqb (Request.status r) "Approved") eqn:Est;
    [|eexists; split; reflexivity].
  apply String.eqb_eq in Ety, Est. destruct Hbad; contradiction.
Qed.

(** X1: [issue_documents] answers 200 only for a Withdrawal request that is
    Approved; the request is then Issued, with the caller as [issued_by] and
    the clock as [issue_date], its crate is Withdrawn and keeps its storage,
    and no other request or crate is written.  A request of another type or
    in another status is answered 400 or above and nothing is written. *)
Theorem issue_documents_outcome (request : HttpRequest) (pk : Z) (s : Store)
    (r : Request.row) :
  requests s !! pk = Some r ->
  (forall resp s',
     Views.issue_documents request pk s = (inr resp, s') -> status_code resp = 200 ->
     Request.request_type r = "Withdrawal" /\ Request.status r = "Approved" /\
     exists u c c' r',
       user request = Authenticated u /\
       crates s !! Request.crate r = Some c /\
       crates s' !! Request.crate r = Some c' /\
       Crate.status c' = "Withdrawn" /\ Crate.storage c' = Crate.storage c /\
       (forall k, k <> Request.crate r -> crates s' !! k = crates s !! k) /\
       requests s' !! pk = Some r' /\
       Request.status r' = "Issued" /\ Request.issued_by r' = Some (User.id u) /\
       Request.issue_date r' = Some (now s) /\
       Request.crate r' = Request.crate r /\
       (forall k, k <> pk -> requests s' !! k = requests s !! k)) /\
  (Request.request_type r <> "Withdrawal" \/ Request.status r <> "Approved" ->
   exists resp, Views.issue_documents request pk s = (inr resp, s) /\
                400 <= status_code resp).
Proof.
  intros Hr. split.
  - intros resp s' H Hcode.
    apply view_success in H as (_ & H); [|apply reads_allocators_rest|lia].
    apply issue_documents_inr in H
      as [(Hc & _)|(_ & r0 & u & c & c' & e & Hf & Hty & Hst & Hu & Hcrow & Hc' & Hcr &
                    Hreqs & _)]; [lia|].
    apply find_Some in Hf as (r1 & Hr1 & ->).
    assert (r1 = r) as -> by congruence.
    cbn [Request.crate Request.with_pk Request.request_type Request.status] in *.
    split; [exact Hty|]. split; [exact Hst|].
    exists u, c, c'. eexists.
    split; [exact Hu|]. split; [exact Hcrow|].
    split; [rewrite Hcr; apply lookup_insert_eq|].
    split; [rewrite Hc'; reflexivity|]. split; [rewrite Hc'; reflexivity|].
    split; [intros k Hk; rewrite Hcr; apply lookup_insert_ne; congruence|].
    split; [rewrite Hreqs; apply lookup_insert_eq|].
    repeat split.
    intros k Hk. rewrite Hreqs. apply lookup_insert_ne. congruence.
  - intros Hbad. apply view_refuses; [apply reads_allocators_rest|].
    destruct (issue_documents_refuses request pk r s Hr Hbad) as (resp & H & Hc).
    exists resp. split; [exact H|lia].
Qed.

Lemma sample_issue_answer :
  match fst (Views.issue_documents (Sample.http Sample.carol) 6 Sample.store) with
  | inr resp => status_code resp = 200
  | inl _ => False
  end.
Proof. vm_compute. reflexivity. Qed.

(** X1 at work on the sample archive: carol issues the approved
    withdrawal 6 of crate 3. *)
Lemma issue_documents_outcome_witness :
  exists resp s' r',
    Views.issue_documents (Sample.http Sample.carol) 6 Sample.store = (inr resp, s') /\
    status_code resp = 200 /\
    requests s' !! 6 = Some r' /\ Request.status r' = "Issued" /\
    Request.issued_by r' = Some 3 /\
    Crate.status <$> crates s' !! 3 = Some "Withdrawn".
Proof.
  generalize sample_issue_answer.
  destruct (Views.issue_documents (Sample.http Sample.carol) 6 Sample.store)
    as [[e|resp] s'] eqn:H; cbn [fst]; intros Hcode; [contradiction|].
  destruct (issue_documents_outcome (Sample.http Sample.carol) 6 Sample.store
              (Sample.mk_request 6 "Withdrawal" "Approved" 3) eq_refl)
    as (Hok & _).
  destruct (Hok resp s' H Hcode)
    as (_ & _ & u & c & c' & r' & Hu & _ & Hc' & Hcs & _ & _ & Hr' & Hst & Hby & _).
  injection Hu as <-.
  exists resp, s', r'. repeat split; try assumption.
  cbn [Request.crate Sample.mk_request] in Hc'. rewrite Hc'. cbn. rewrite Hcs. reflexivity.
Defined.

Lemma return_documents_refuses (request : HttpRequest) (pk : Z) (r : Request.row)
    (s : Store) :
  requests s !! pk = Some r ->
  Request.request_type r <> "Withdrawal" \/ Request.status r <> "Issued" ->
  exists resp, Handlers.return_documents request pk s = (inr resp, s) /\
               status_code resp = 400.
Proof.
  intros Hr Hbad. unfold Handlers.return_documents.
  destruct (Serializers.ReturnDocumentsSerializer _) as [e|[reason sid]];
    [eexists; split; reflexivity|].
  rewrite (bind_inr get_store _ s s s eq_refl). unfold find at 1. rewrite Hr.
  cbn [fmap option_fmap option_map Request.status Request.request_type Request.with_pk].
  destruct (String.eqb (Request.request_type r) "Withdrawal") eqn:Ety; cbv [negb];
    [|eexists; split; reflexivity].
  destruct (String.eqb (Request.status r) "Issued") eqn:Est;
    [|eexists; split; reflexivity].
  apply String.eqb_eq in Ety, Est. destruct Hbad; contradiction.
Qed.

(** What a return that goes through read from the payload and wrote to the
    crate and to the return notes. *)
Lemma return_documents_payload (request : HttpRequest) (pk : Z) (resp : Response)
    (s s' : Store) :
  Handlers.return_documents request pk s = (inr resp, s') ->
  status_code resp = 200 ->
  exists reason sid r c',
    Serializers.ReturnDocumentsSerializer (data request) = inr (reason, sid) /\
    is_Some (storages s !! sid) /\
    find (requests s) Request.with_pk pk = Some r /\
    crates s' !! Request.crate r = Some c' /\
    Crate.storage c' = Some sid /\ Crate.status c' = "Active" /\
    (if Py.truthy_str (default "" reason)
     then exists sb, sendbacks s' = (sendbacks s ++ [sb])%list /\
                     SendBack.reason sb = default "" reason /\
                     SendBack.sendback_type sb = "Return Note" /\
                     SendBack.request sb = pk
     else sendbacks s' = sendbacks s).
Proof.
  unfold Handlers.return_documents.
  destruct (Serializers.ReturnDocumentsSerializer (data request))
    as [errors|[reason sid]] eqn:Hser.
  { intros H Hc. apply ret_inv in H as (-> & ->). discriminate. }
  intros H Hcode. bind_in H s0 s1 Hs. apply get_store_inv in Hs as (-> & ->).
  destruct (find (requests s) Request.with_pk pk) as [r|] eqn:Hfind.
  2:{ apply ret_inv in H as (-> & ->). discriminate. }
  destruct (String.eqb (Request.request_type r) "Withdrawal") eqn:Hty; cbv [negb] in H.
  2:{ apply ret_inv in H as (-> & ->). discriminate. }
  destruct (String.eqb (Request.status r) "Issued") eqn:Hst; cbv [negb] in H.
  2:{ apply ret_inv in H as (-> & ->). discriminate. }
  destruct (find (storages s) Storage.with_id sid) as [st|] eqn:Hsto.
  2:{ apply ret_inv in H as (-> & ->). discriminate. }
  destruct (find_Some _ _ _ _ Hfind) as (row & Hrow & Hreq).
  destruct (find_Some _ _ _ _ Hsto) as (srow & Hsrow & Hst').
  assert (Hpk : Request.pk r = Some pk) by (subst r; reflexivity).
  assert (Hsid : Storage.id st = sid) by (subst st; reflexivity).
  bind_in H u s1 Hu. apply the_user_inv in Hu as (Hu & ->).
  bind_in H t s1 Ht. apply timezone_now_inv in Ht as (-> & ->).
  bind_in H r' s1 Hr.
  apply (Request_save_inv _ _ pk) in Hr as (-> & ->); [|exact Hpk].
  bind_in H c0 s1 Hc. bind_in H c' s2 Hsave.
  rewrite Hsid in Hsave.
  apply (crate_update_inv _
           (fun c => Crate.with_storage (Some sid) (Crate.with_status "Active" c))
           _ _ _ _ _ (fun c => eq_refl) Hc) in Hsave
    as (-> & c & Hcrow & Hc' & Hcr & Hstatic & Hreqs & Haud & Hsbs).
  bind_in H x s3 Hsb.
  bind_in H e1 s4 He1. apply log_document_returned_inv in He1 as (-> & Ha1 & Hrid).
  bind_in H old s5 Hold.
  assert (s5 = set_audit_trail (<[fresh_pk (audit_trail s3):=e1]> (audit_trail s3)) s3)
    as ->.
  { destruct (Crate.storage c0).
    - bind_in Hold o s6 Ho. apply objects_get_inv in Ho as (-> & _).
      apply get_full_location_inv in Hold. exact Hold.
    - apply ret_inv in Hold as (_ & ->). reflexivity. }
  bind_in H l s5 Hl. apply get_full_location_inv in Hl as ->.
  bind_in H e2 s5 He2. apply log_audit_event_inv in He2 as (-> & Ha2 & _).
  apply ret_inv in H as (-> & ->).
  cbn [Request.pk Request.with_updated_at Request.with_status Request.with_return_date
       Request.crate] in *.
  cbn [crates set_requests] in Hcrow, Hcr.
  exists reason, sid, r, c'.
  split; [reflexivity|]. split; [eauto|]. split; [reflexivity|].
  assert (Hcr3 : crates s3 = crates s2).
  { destruct (Py.truthy_str (default "" reason)).
    - destruct x. apply SendBack_create_inv in Hsb as (sb & -> & _). reflexivity.
    - apply ret_inv in Hsb as (_ & ->). reflexivity. }
  split; [cbn [crates set_audit_trail]; rewrite Hcr3, Hcr; apply lookup_insert_eq|].
  split; [rewrite Hc'; reflexivity|]. split; [rewrite Hc'; reflexivity|].
  destruct (Py.truthy_str (default "" reason)).
  - unfold Handlers.SendBack_create in Hsb.
    cbn [Request.pk Request.with_updated_at Request.with_return_date Request.with_status]
      in Hsb.
    rewrite Hpk in Hsb. injection Hsb as _ <-.
    eexists. split; [cbn; rewrite Hsbs; reflexivity|]. repeat split.
  - apply ret_inv in Hsb as (_ & ->). cbn. exact Hsbs.
Qed.

(** X2: [return_documents] answers 200 only for a Withdrawal request that
    is Issued and for a storage location that exists; the request is then
    Returned with the clock as [return_date], its crate is Active again at
    the storage location named in the payload, a return note is recorded
    exactly when a reason was given, and no other request or crate is
    written.  A request of another type or in another status is answered
    400 or above and nothing is written. *)
Theorem return_documents_outcome (request : HttpRequest) (pk : Z) (s : Store)
    (r : Request.row) :
  requests s !! pk = Some r ->
  (forall resp s',
     Views.return_documents request pk s = (inr resp, s') -> status_code resp = 200 ->
     Request.request_type r = "Withdrawal" /\ Request.status r = "Issued" /\
     exists reason sid c' r',
       Serializers.ReturnDocumentsSerializer (data request) = inr (reason, sid) /\
       is_Some (storages s !! sid) /\
       crates s' !! Request.crate r = Some c' /\
       Crate.status c' = "Active" /\ Crate.storage c' = Some sid /\
       (forall k, k <> Request.crate r -> crates s' !! k = crates s !! k) /\
       requests s' !! pk = Some r' /\
       Request.status r' = "Returned" /\ Request.return_date r' = Some (now s) /\
       (forall k, k <> pk -> requests s' !! k = requests s !! k) /\
       (if Py.truthy_str (default "" reason)
        then exists sb, sendbacks s' = (sendbacks s ++ [sb])%list /\
                        SendBack.reason sb = default "" reason /\
                        SendBack.sendback_type sb = "Return Note" /\
                        SendBack.request sb = pk
        else sendbacks s' = sendbacks s)) /\
  (Request.request_type r <> "Withdrawal" \/ Request.status r <> "Issued" ->
   exists resp, Views.return_documents request pk s = (inr resp, s) /\
                400 <= status_code resp).
Proof.
  intros Hr. split.
  - intros resp s' H Hcode.
    apply view_success in H as (_ & H); [|apply reads_allocators_rest|lia].
    destruct (return_documents_payload _ _ _ _ _ H Hcode)
      as (reason & sid & r2 & c2 & Hser & Hsto & Hf2 & Hc2 & Hc2s & Hc2a & Hnote).
    apply return_documents_inr in H
      as [(Hc & _)|(_ & r0 & u & sid0 & c & c' & e1 & e2 & Hf & Hty & Hst & Hu & _ & Hcrow &
                    Hc' & Hcr & Hreqs & _)]; [lia|].
    rewrite Hf in Hf2. injection Hf2 as <-.
    apply find_Some in Hf as (r1 & Hr1 & ->).
    assert (r1 = r) as -> by congruence.
    cbn [Request.crate Request.with_pk Request.request_type Request.status] in *.
    split; [exact Hty|]. split; [exact Hst|].
    exists reason, sid, c2. eexists.
    split; [exact Hser|]. split; [exact Hsto|]. split; [exact Hc2|].
    split; [exact Hc2a|]. split; [exact Hc2s|].
    split; [intros k Hk; rewrite Hcr; apply lookup_insert_ne; congruence|].
    split; [rewrite Hreqs; apply lookup_insert_eq|].
    split; [reflexivity|]. split; [reflexivity|].
    split; [|exact Hnote].
    intros k Hk. rewrite Hreqs. apply lookup_insert_ne. congruence.
  - intros Hbad. apply view_refuses; [apply reads_allocators_rest|].
    destruct (return_documents_refuses request pk r s Hr Hbad) as (resp & H & Hc).
    exists resp. split; [exact H|lia].
Qed.

Lemma sample_return_answer :
  match fst (Views.return_documents (Sample.http Sample.carol) 7 Sample.store) with
  | inr resp => status_code resp = 200
  | inl _ => False
  end.
Proof. vm_compute. reflexivity. Qed.

(** X2 at work on the sample archive: carol takes back the issued
    withdrawal 7; crate 3 is Active again. *)
Lemma return_documents_outcome_witness :
  exists resp s' r',
    Views.return_documents (Sample.http Sample.carol) 7 Sample.store = (inr resp, s') /\
    status_code resp = 200 /\
    requests s' !! 7 = Some r' /\ Request.status r' = "Returned" /\
    Crate.status <$> crates s' !! 3 = Some "Active".
Proof.
  generalize sample_return_answer.
  destruct (Views.return_documents (Sample.http Sample.carol) 7 Sample.store)
    as [[e|resp] s'] eqn:H; cbn [fst]; intros Hcode; [contradiction|].
  destruct (return_documents_outcome (Sample.http Sample.carol) 7 Sample.store
              (Sample.mk_request 7 "Withdrawal" "Issued" 3) eq_refl)
    as (Hok & _).
  destruct (Hok resp s' H Hcode)
    as (_ & _ & reason & sid & c' & r' & _ & _ & Hc' & Hcs & _ & _ & Hr' & Hst & _).
  exists resp, s', r'. repeat split; try assumption.
  cbn [Request.crate Sample.mk_request] in Hc'. rewrite Hc'. cbn. rewrite Hcs. reflexivity.
Defined.

(** ** Sending back *)

(** What [CharField] accepts: the trimmed text of a string or a number,
    long enough and free of NUL, or the empty text where blanks are
    allowed. *)
Lemma CharField_inr (allow_blank : bool) (n : nat) (v : Json.value) (t : string) :
  Serializers.CharField allow_blank n v = inr t ->
  exists raw,
    (v = Json.JStr raw \/ exists z, v = Json.JInt z /\ raw = Py.str_int z) /\
    ((Py.strip raw = "" /\ allow_blank = true /\ t = "") \/
     (t = Py.strip raw /\ t <> "" /\ (n <= String.length t)%nat /\
      Py.contains (ascii_of_N 0) t = false)).
Proof.
  unfold Serializers.CharField.
  assert (Hcheck : forall raw r,
    r = (let value := Py.strip raw in
     if negb (Py.truthy_str value) then
       if allow_blank then inr "" else inl ["This field may not be blank."]
     else
       let msgs :=
         ((if (String.length value <? n)%nat then
             ["Ensure this field has at least " +:+ Py.str_int (Z.of_nat n) +:+
              " characters."]
           else []) ++
          (if Py.contains (ascii_of_N 0) value
           then ["Null characters are not allowed."] else []))%list in
       if Serializers.is_nil msgs then inr value else inl msgs) ->
    r = (inr t : list string + string) ->
    (Py.strip raw = "" /\ allow_blank = true /\ t = "") \/
    (t = Py.strip raw /\ t <> "" /\ (n <= String.length t)%nat /\
     Py.contains (ascii_of_N 0) t = false)).
  { intros raw r -> . cbv zeta. destruct (Py.strip raw) as [|a w] eqn:Es.
    - cbn [Py.truthy_str negb]. destruct allow_blank; [|discriminate].
      intros H. injection H as <-. left. auto.
    - cbn [Py.truthy_str negb].
      destruct (String.length (String a w) <? n)%nat eqn:E; [discriminate|].
      destruct (Py.contains (ascii_of_N 0) (String a w)) eqn:En; [discriminate|].
      cbn [app Serializers.is_nil]. intros H. injection H as <-. right.
      split; [reflexivity|]. split; [discriminate|].
      split; [apply Nat.ltb_ge in E; exact E|exact En]. }
  destruct v; try discriminate; intros H.
  - exists (Py.str_int z). split; [right; eauto|]. exact (Hcheck _ _ eq_refl H).
  - exists s. split; [left; reflexivity|]. exact (Hcheck _ _ eq_refl H).
Qed.

Lemma CharField_min_length (allow_blank : bool) (n : nat) (v : Json.value) (t : string) :
  Serializers.CharField allow_blank n v = inr t -> t <> "" -> (n <= String.length t)%nat.
Proof.
  intros H Ht. apply CharField_inr in H as (raw & _ & [(_ & _ & ->)|(_ & _ & Hn & _)]);
    [congruence|exact Hn].
Qed.

Lemma CharField_not_blank (n : nat) (v : Json.value) (t : string) :
  Serializers.CharField false n v = inr t -> t <> "".
Proof.
  intros H. apply CharField_inr in H as (raw & _ & [(_ & Hb & _)|(_ & Ht & _)]);
    [discriminate|exact Ht].
Qed.

(** What [CharField] refuses: a text that is too short once trimmed, or
    that holds a NUL character. *)
Lemma CharField_short (n : nat) (raw : string) :
  (String.length (Py.strip raw) < n)%nat \/
  Py.contains (ascii_of_N 0) (Py.strip raw) = true ->
  exists msgs, Serializers.CharField false n (Json.JStr raw) = inl msgs.
Proof.
  intros Hbad. unfold Serializers.CharField.
  destruct (negb (Py.truthy_str (Py.strip raw))); [eauto|].
  destruct Hbad as [Hlen|Hnul].
  - apply Nat.ltb_lt in Hlen. rewrite Hlen. eauto.
  - rewrite Hnul. destruct (String.length (Py.strip raw) <? n)%nat; eauto.
Qed.

Lemma SendBackCreateSerializer_reason (d : Payload) (x : string) :
  Serializers.SendBackCreateSerializer d = inr x ->
  exists v, reason d = Some v /\ Serializers.CharField false 10 v = inr x.
Proof.
  unfold Serializers.SendBackCreateSerializer, Serializers.field.
  destruct (reason d) as [v|]; [|discriminate].
  destruct (Serializers.CharField false 10 v) as [msg|t] eqn:E; [discriminate|].
  cbn [fst snd app]. destruct (Serializers.is_nil _); [|discriminate].
  intros H. injection H as <-. eauto.
Qed.

Lemma send_back_short_reason (request : HttpRequest) (pk : Z) (raw : string) (s : Store) :
  reason (data request) = Some (Json.JStr raw) ->
  (String.length (Py.strip raw) < 10)%nat \/
  Py.contains (ascii_of_N 0) (Py.strip raw) = true ->
  exists resp, Handlers.send_back_request request pk s = (inr resp, s) /\
               status_code resp = 400.
Proof.
  intros Hraw Hlen. unfold Handlers.send_back_request.
  assert (exists e, Serializers.SendBackCreateSerializer (data request) = inl e) as (e & ->).
  { unfold Serializers.SendBackCreateSerializer, Serializers.field. rewrite Hraw.
    destruct (CharField_short 10 raw Hlen) as (msg & ->). cbn [fst snd]. eauto. }
  eexists. split; reflexivity.
Qed.

(** X3: a [send_back_request] that goes through leaves every crate as it
    was and writes the request, which is now Sent Back, and one change
    request note carrying the reason of the payload: the text sent,
    trimmed, at least ten characters long and free of NUL; users, roles,
    storages and signatures are as before.  A reason shorter than ten
    characters after trimming, or holding a NUL character, is answered 400
    or above and nothing is written. *)
Theorem send_back_request_outcome (request : HttpRequest) (pk : Z) (s : Store)
    (r : Request.row) :
  requests s !! pk = Some r ->
  (forall resp s',
     Views.send_back_request request pk s = (inr resp, s') -> status_code resp = 200 ->
     exists text sb,
       Serializers.SendBackCreateSerializer (data request) = inr text /\
       (forall raw, reason (data request) = Some (Json.JStr raw) -> text = Py.strip raw) /\
       (10 <= String.length text)%nat /\
       Py.contains (ascii_of_N 0) text = false /\
       crates s' = crates s /\
       requests s' = <[pk := Request.with_updated_at (Some (now s))
                               (Request.with_status "Sent Back" (Request.with_pk pk r))]>
                       (requests s) /\
       sendbacks s' = (sendbacks s ++ [sb])%list /\ SendBack.reason sb = text /\
       static_frame s s') /\
  (forall raw,
     reason (data request) = Some (Json.JStr raw) ->
     (String.length (Py.strip raw) < 10)%nat \/
     Py.contains (ascii_of_N 0) (Py.strip raw) = true ->
     exists resp, Views.send_back_request request pk s = (inr resp, s) /\
                  400 <= status_code resp).
Proof.
  intros Hr. split.
  - intros resp s' H Hcode.
    apply view_success in H as (_ & H); [|apply reads_approvers_rest|lia].
    apply send_back_request_inr in H
      as [(Hc & _)|(_ & r0 & u & rs & sb & e & Hf & _ & _ & Hser & Hreqs & Hsb & Hrs & Hcr &
                    _ & _ & _ & Hst)]; [lia|].
    apply find_Some in Hf as (r1 & Hr1 & ->).
    assert (r1 = r) as -> by congruence.
    exists rs, sb. split; [exact Hser|].
    apply SendBackCreateSerializer_reason in Hser as (v & Hv0 & Hv).
    pose proof (CharField_not_blank _ _ _ Hv) as Hnb.
    apply CharField_inr in Hv as (raw0 & Hraw0 & [(_ & _ & ->)|(Ht & _ & Hn & Hnul)]);
      [congruence|].
    split.
    { intros raw Hraw. rewrite Hraw in Hv0. injection Hv0 as <-.
      destruct Hraw0 as [Hj|(z & Hj & _)]; [|discriminate].
      injection Hj as ->. exact Ht. }
    auto 10.
  - intros raw Hraw Hlen. apply view_refuses; [apply reads_approvers_rest|].
    destruct (send_back_short_reason request pk raw s Hraw Hlen) as (resp & H & Hc).
    exists resp. split; [exact H|lia].
Qed.

Lemma sample_send_back_answer :
  match fst (Views.send_back_request (Sample.http Sample.bob) 1 Sample.store) with
  | inr resp => status_code resp = 200
  | inl _ => False
  end.
Proof. vm_compute. reflexivity. Qed.

(** X3 at work on the sample archive: bob sends request 1 back. *)
Lemma send_back_request_outcome_witness :
  exists resp s',
    Views.send_back_request (Sample.http Sample.bob) 1 Sample.store = (inr resp, s') /\
    status_code resp = 200 /\
    crates s' = crates Sample.store /\
    Request.status <$> requests s' !! 1 = Some "Sent Back" /\
    length (sendbacks s') = 1%nat.
Proof.
  generalize sample_send_back_answer.
  destruct (Views.send_back_request (Sample.http Sample.bob) 1 Sample.store)
    as [[e|resp] s'] eqn:H; cbn [fst]; intros Hcode; [contradiction|].
  destruct (send_back_request_outcome (Sample.http Sample.bob) 1 Sample.store
              (Sample.mk_request 1 "Storage" "Pending" 1) eq_refl)
    as (Hok & _).
  destruct (Hok resp s' H Hcode) as (text & sb & _ & _ & _ & _ & Hcr & Hreqs & Hsb & _).
  exists resp, s'. split; [reflexivity|]. split; [exact Hcode|]. split; [exact Hcr|].
  split; [rewrite Hreqs, lookup_insert_eq; reflexivity|].
  rewrite Hsb. reflexivity.
Defined.

(** ** Allocating storage *)

Lemma allocate_storage_refuses (request : HttpRequest) (pk : Z) (r : Request.row)
    (s : Store) :
  requests s !! pk = Some r ->
  Request.status r <> "Approved" \/
  (exists sid, Serializers.AllocateStorageSerializer (data request) = inr sid /\
               storages s !! sid = None) ->
  exists resp, Handlers.allocate_storage request pk s = (inr resp, s) /\
               400 <= status_code resp.
Proof.
  intros Hr Hbad. unfold Handlers.allocate_storage.
  destruct (Serializers.AllocateStorageSerializer _) as [e|sid] eqn:Hser;
    [eexists; split; [reflexivity|code_bound]|].
  rewrite (bind_inr get_store _ s s s eq_refl). unfold find at 1. rewrite Hr.
  cbn [fmap option_fmap option_map Request.status Request.with_pk].
  destruct (String.eqb (Request.status r) "Approved") eqn:Est; cbv [negb];
    [|eexists; split; [reflexivity|code_bound]].
  apply String.eqb_eq in Est. destruct Hbad as [Hbad|(sid' & Hs & Hnone)]; [contradiction|].
  injection Hs as <-. unfold find. rewrite Hnone. cbn [fmap option_fmap option_map].
  eexists; split; [reflexivity|code_bound].
Qed.

(** X4: [allocate_storage] answers 200 only for a request that is Approved
    (of whatever type) and for a storage location that exists; the crate of
    the request then points at the storage location named in the payload
    and keeps its status, the request is Completed with the caller as
    [allocated_by] and the clock as [allocation_date], and no other crate is
    written.  A request in another status, or an unknown storage location,
    is answered 400 or above and nothing is written. *)
Theorem allocate_storage_outcome (request : HttpRequest) (pk : Z) (s : Store)
    (r : Request.row) :
  requests s !! pk = Some r ->
  (forall resp s',
     Views.allocate_storage request pk s = (inr resp, s') -> status_code resp = 200 ->
     Request.status r = "Approved" /\
     exists u sid c c' r',
       user request = Authenticated u /\
       Serializers.AllocateStorageSerializer (data request) = inr sid /\
       is_Some (storages s !! sid) /\
       crates s !! Request.crate r = Some c /\
       crates s' !! Request.crate r = Some c' /\
       Crate.storage c' = Some sid /\ Crate.status c' = Crate.status c /\
       (forall k, k <> Request.crate r -> crates s' !! k = crates s !! k) /\
       requests s' !! pk = Some r' /\
       Request.status r' = "Completed" /\
       Request.request_type r' = Request.request_type r /\
       Request.allocated_by r' = Some (User.id u) /\
       Request.allocation_date r' = Some (now s)) /\
  (Request.status r <> "Approved" \/
   (exists sid, Serializers.AllocateStorageSerializer (data request) = inr sid /\
                storages s !! sid = None) ->
   exists resp, Views.allocate_storage request pk s = (inr resp, s) /\
                400 <= status_code resp).
Proof.
  intros Hr. split.
  - intros resp s' H Hcode.
    apply view_success in H as (_ & H); [|apply reads_allocators_rest|lia].
    apply allocate_storage_inr in H
      as [(Hc & _)|(_ & r0 & u & sid & c & c' & e & Hf & Hst & Hu & Hser & Hsto & Hcrow &
                    Hc' & Hcr & Hreqs & _)]; [lia|].
    apply find_Some in Hf as (r1 & Hr1 & ->).
    assert (r1 = r) as -> by congruence.
    cbn [Request.crate Request.with_pk Request.request_type Request.status] in *.
    split; [exact Hst|].
    exists u, sid, c, c'. eexists.
    split; [exact Hu|]. split; [exact Hser|]. split; [exact Hsto|]. split; [exact Hcrow|].
    split; [rewrite Hcr; apply lookup_insert_eq|].
    split; [rewrite Hc'; reflexivity|]. split; [rewrite Hc'; reflexivity|].
    split; [intros k Hk; rewrite Hcr; apply lookup_insert_ne; congruence|].
    split; [rewrite Hreqs; apply lookup_insert_eq|].
    repeat split.
  - intros Hbad. apply view_refuses; [apply reads_allocators_rest|].
    apply (allocate_storage_refuses request pk r s Hr Hbad).
Qed.

Lemma sample_allocate_answer :
  match fst (Views.allocate_storage (Sample.http Sample.carol) 5 Sample.store) with
  | inr resp => status_code resp = 200
  | inl _ => False
  end.
Proof. vm_compute. reflexivity. Qed.

(** X4 at work on the sample archive: carol places crate 2 of the approved
    storage request 5 at storage location 1. *)
Lemma allocate_storage_outcome_witness :
  exists resp s' r',
    Views.allocate_storage (Sample.http Sample.carol) 5 Sample.store = (inr resp, s') /\
    status_code resp = 200 /\
    requests s' !! 5 = Some r' /\ Request.status r' = "Completed" /\
    Request.allocated_by r' = Some 3 /\
    Crate.storage <$> crates s' !! 2 = Some (Some 1).
Proof.
  generalize sample_allocate_answer.
  destruct (Views.allocate_storage (Sample.http Sample.carol) 5 Sample.store)
    as [[e|resp] s'] eqn:H; cbn [fst]; intros Hcode; [contradiction|].
  destruct (allocate_storage_outcome (Sample.http Sample.carol) 5 Sample.store
              (Sample.mk_request 5 "Storage" "Approved" 2) eq_refl)
    as (Hok & _).
  destruct (Hok resp s' H Hcode)
    as (_ & u & sid & c & c' & r' & Hu & Hser & _ & _ & Hc' & Hcs & _ & _ & Hr' & Hst & _ &
        Hby & _).
  injection Hu as <-.
  assert (sid = 1) as -> by (vm_compute in Hser; congruence).
  exists resp, s', r'. repeat split; try assumption.
  cbn [Request.crate Sample.mk_request] in Hc'. rewrite Hc'. cbn. rewrite Hcs. reflexivity.
Defined.

(** The type of the request is not looked at: on the sample archive carol
    allocates the approved destruction request 4, which is then Completed
    while crate 1 stays Active. *)
Example allocate_storage_on_destruction :
  match Views.allocate_storage (Sample.http Sample.carol) 4 Sample.store with
  | (inr resp, s') =>
      status_code resp = 200 /\
      Request.request_type <$> requests s' !! 4 = Some "Destruction" /\
      Request.status <$> requests s' !! 4 = Some "Completed" /\
      Crate.status <$> crates s' !! 1 = Some "Active"
  | (inl _, _) => False
  end.
Proof. vm_compute. repeat split; reflexivity. Qed.

(** ** A withdrawal from issue to return *)

(** X5: when the documents of a request are issued and then returned, both
    calls answering 200, the request ends as Returned and still names who
    issued it, its crate is Active at the storage location given on return,
    and any further issue or return of the same request, by whoever, is
    answered 400 or above and writes nothing. *)
Theorem issue_then_return (rq1 rq2 : HttpRequest) (pk : Z) (s s1 s2 : Store)
    (resp1 resp2 : Response) (r : Request.row) :
  requests s !! pk = Some r ->
  Views.issue_documents rq1 pk s = (inr resp1, s1) -> status_code resp1 = 200 ->
  Views.return_documents rq2 pk s1 = (inr resp2, s2) -> status_code resp2 = 200 ->
  exists u reason sid c2 r2,
    user rq1 = Authenticated u /\
    Serializers.ReturnDocumentsSerializer (data rq2) = inr (reason, sid) /\
    requests s2 !! pk = Some r2 /\
    Request.status r2 = "Returned" /\ Request.issued_by r2 = Some (User.id u) /\
    Request.issue_date r2 = Some (now s) /\ Request.return_date r2 = Some (now s1) /\
    crates s2 !! Request.crate r = Some c2 /\
    Crate.status c2 = "Active" /\ Crate.storage c2 = Some sid /\
    (forall rq3, exists resp, Views.issue_documents rq3 pk s2 = (inr resp, s2) /\
                              400 <= status_code resp) /\
    (forall rq3, exists resp, Views.return_documents rq3 pk s2 = (inr resp, s2) /\
                              400 <= status_code resp).
Proof.
  intros Hr H1 Hc1 H2 Hc2.
  apply view_success in H1 as (_ & H1); [|apply reads_allocators_rest|lia].
  apply issue_documents_inr in H1
    as [(Hc & _)|(_ & r0 & u & c & c' & e & Hf & _ & _ & Hu & _ & _ & _ & Hreqs1 & _)];
    [lia|].
  apply find_Some in Hf as (r1 & Hr1 & ->).
  assert (r1 = r) as -> by congruence.
  apply view_success in H2 as (_ & H2); [|apply reads_allocators_rest|lia].
  destruct (return_documents_payload _ _ _ _ _ H2 Hc2)
    as (reason & sid & rb & c2 & Hser & _ & Hfb & Hcrate2 & Hsto2 & Hact2 & _).
  apply return_documents_inr in H2
    as [(Hc & _)|(_ & ra & u2 & sid0 & ca & ca' & e1 & e2 & Hfa & _ & _ & _ & _ & _ & _ & _ &
                  Hreqs2 & _)]; [lia|].
  rewrite Hfa in Hfb. injection Hfb as <-.
  unfold find in Hfa. rewrite Hreqs1, lookup_insert_eq in Hfa.
  cbn [fmap option_fmap option_map] in Hfa. injection Hfa as <-.
  cbn [Request.crate Request.with_pk Request.with_updated_at Request.with_issue
       Request.with_status] in Hcrate2.
  exists u, reason, sid, c2. eexists.
  split; [exact Hu|]. split; [exact Hser|].
  split; [rewrite Hreqs2; apply lookup_insert_eq|].
  split; [reflexivity|]. split; [reflexivity|]. split; [reflexivity|].
  split; [reflexivity|]. split; [exact Hcrate2|]. split; [exact Hact2|].
  split; [exact Hsto2|]. split.
  - intros rq3. apply view_refuses; [apply reads_allocators_rest|].
    edestruct (issue_documents_refuses rq3 pk) as (resp & H & Hc);
      [rewrite Hreqs2; apply lookup_insert_eq|right; cbn; discriminate|].
    exists resp. split; [exact H|lia].
  - intros rq3. apply view_refuses; [apply reads_allocators_rest|].
    edestruct (return_documents_refuses rq3 pk) as (resp & H & Hc);
      [rewrite Hreqs2; apply lookup_insert_eq|right; cbn; discriminate|].
    exists resp. split; [exact H|lia].
Qed.

Lemma sample_issue_return_answers :
  match Views.issue_documents (Sample.http Sample.carol) 6 Sample.store with
  | (inr resp1, s1) =>
      status_code resp1 = 200 /\
      match fst (Views.return_documents (Sample.http Sample.carol) 6 s1) with
      | inr resp2 => status_code resp2 = 200
      | inl _ => False
      end
  | (inl _, _) => False
  end.
Proof. vm_compute. split; reflexivity. Qed.

(** X5 at work on the sample archive: carol issues the approved withdrawal
    6 and takes it back. *)
Lemma issue_then_return_witness :
  exists resp1 s1 resp2 s2,
    Views.issue_documents (Sample.http Sample.carol) 6 Sample.store = (inr resp1, s1) /\
    Views.return_documents (Sample.http Sample.carol) 6 s1 = (inr resp2, s2) /\
    Request.status <$> requests s2 !! 6 = Some "Returned" /\
    Crate.status <$> crates s2 !! 3 = Some "Active".
Proof.
  generalize sample_issue_return_answers.
  destruct (Views.issue_documents (Sample.http Sample.carol) 6 Sample.store)
    as [[e|resp1] s1] eqn:H1; [contradiction|].
  destruct (Views.return_documents (Sample.http Sample.carol) 6 s1)
    as [[e|resp2] s2] eqn:H2; cbn [fst]; intros (Hc1 & Hc2); [contradiction|].
  destruct (issue_then_return (Sample.http Sample.carol) (Sample.http Sample.carol) 6
              Sample.store s1 s2 resp1 resp2
              (Sample.mk_request 6 "Withdrawal" "Approved" 3) eq_refl H1 Hc1 H2 Hc2)
    as (u & reason & sid & c2 & r2 & _ & _ & Hr2 & Hst & _ & _ & _ & Hcr & Hact & _).
  exists resp1, s1, resp2, s2. split; [reflexivity|]. split; [exact H2|].
  split; [rewrite Hr2; cbn; rewrite Hst; reflexivity|].
  cbn [Request.crate Sample.mk_request] in Hcr. rewrite Hcr. cbn. rewrite Hact. reflexivity.
Defined.

(** ** The gate in front of every view *)

(** [authenticate] answers with a stored, active account of the given name
    whose credential is the text submitted. *)
Lemma authenticate_Some (name : string) (sig : Json.value) (v : User.row) (s s' : Store) :
  Decorators.authenticate name sig s = (inr (Some v), s') ->
  exists row,
    sig <> Json.JNull /\ users s !! User.id v = Some row /\ v = User.with_id (User.id v) row /\
    User.username row = name /\ User.password row = Json.str sig /\
    User.is_active row = true.
Proof.
  cbv [Decorators.authenticate get_store mbind M_bind mret M_ret]. intros H.
  injection H as H _.
  assert (Hf : head (List.filter
                       (fun u => String.eqb (User.username u) name
                                 && String.eqb (User.password u) (Json.str sig)
                                 && User.is_active u)
                       (instances User.with_id (users s))) = Some v /\ sig <> Json.JNull).
  { destruct sig; try discriminate; split; try exact H; discriminate. }
  destruct Hf as (Hf & Hnn). clear H.
  apply head_Some_elem_of, list_elem_of_In, filter_In in Hf as (Hin & Hok).
  unfold instances in Hin. apply in_map_iff in Hin as ([k row] & <- & Hin).
  apply list_elem_of_In, elem_of_map_to_list in Hin.
  cbn [fst snd User.with_id User.username User.password User.is_active User.id] in *.
  apply andb_true_iff in Hok as (Hok & Hact). apply andb_true_iff in Hok as (Hn & Hp).
  apply String.eqb_eq in Hn, Hp. exists row. auto 10.
Qed.

(** With no refusal, every permission of the list said yes. *)
Lemma check_permissions_None (perms : list Permissions.permission) (request : HttpRequest)
    (s : Store) :
  Forall reads_accounts perms ->
  Decorators.check_permissions perms request s = (inr None, s) ->
  Forall (fun p => Permissions.has_permission p request s = (inr true, s)) perms.
Proof.
  induction 1 as [|p perms Hp Hrest IH]; [constructor|].
  cbn [Decorators.check_permissions]. intros H.
  destruct (Hp request s) as (b & Hb & _). rewrite (bind_inr _ _ _ _ _ Hb) in H.
  destruct b; [|discriminate]. constructor; [exact Hb|apply IH, H].
Qed.

(** X6: whatever the body of a view protected by [IsAuthenticated], further
    permission classes and [require_digital_signature] does, it runs only
    when the caller is signed in, every permission class said yes, the
    account is Active, and the value sent as the password is truthy and
    reads, as [str] reads it, as the credential of the caller's own stored,
    active account: a string is taken as it is, a number as its digits.
    In every other case the answer is 400 or above and nothing is
    written. *)
Theorem view_body_runs_only_signed {A} (rest : list Permissions.permission)
    (h : HttpRequest -> A -> M Response) (request : HttpRequest) (a : A) (s s' : Store)
    (r : exn + Response) :
  Forall reads_accounts rest ->
  Decorators.api_view (Permissions.IsAuthenticated :: rest)
    (Decorators.require_digital_signature h) request a s = (r, s') ->
  (exists resp, r = inr resp /\ s' = s /\ 400 <= status_code resp) \/
  (h request a s = (r, s') /\
   exists u sig row,
     user request = Authenticated u /\ User.status u = "Active" /\
     Forall (fun perm => Permissions.has_permission perm request s = (inr true, s)) rest /\
     digital_signature (data request) = Some sig /\ Decorators.truthy sig = true /\
     users s !! User.id u = Some row /\
     User.username row = User.username u /\ User.password row = Json.str sig /\
     User.is_active row = true).
Proof.
  intros Hp H. apply gate_inv in H as [H|((Hc & u & sig & v & Hu & Hsig & Ht & Hst & Ha & Hid) & H)];
    [left; exact H| |exact Hp].
  right. split; [exact H|].
  apply authenticate_Some in Ha as (row & _ & Hrow & _ & Hn & Hpw & Hact).
  exists u, sig, row. rewrite Hid in Hrow.
  apply check_permissions_None in Hc; [|apply reads_all, Hp].
  apply Forall_cons in Hc as (_ & Hc).
  repeat split; assumption.
Qed.

Lemma sample_approve_answer :
  match fst (Views.approve_request (Sample.http Sample.bob) 1 Sample.store) with
  | inr resp => status_code resp = 200
  | inl _ => False
  end.
Proof. vm_compute. reflexivity. Qed.

(** X6 at work on the sample archive: bob's approval of request 1 went
    through the gate with bob's own password. *)
Lemma view_body_runs_only_signed_witness :
  exists r s',
    Views.approve_request (Sample.http Sample.bob) 1 Sample.store = (r, s') /\
    Handlers.approve_request (Sample.http Sample.bob) 1 Sample.store = (r, s') /\
    exists row, users Sample.store !! 2 = Some row /\ User.password row = "bob-secret".
Proof.
  generalize sample_approve_answer.
  destruct (Views.approve_request (Sample.http Sample.bob) 1 Sample.store)
    as [r s'] eqn:H.
  destruct (view_body_runs_only_signed _ _ _ _ _ _ _ reads_approvers_rest H)
    as [(resp & -> & _ & Hc)|(Hh & u & sig & row & Hu & _ & _ & Hsig & _ & Hrow & _ & Hpw & _)].
  - cbn [fst]. intros Hcode. lia.
  - intros _. exists r, s'. split; [reflexivity|]. split; [exact Hh|].
    injection Hu as <-. injection Hsig as <-. exists row. split; [exact Hrow|exact Hpw].
Defined.

Lemma check_permissions_inactive (perms : list Permissions.permission)
    (request : HttpRequest) (u : User.row) (s : Store) :
  Forall reads_accounts perms ->
  In Permissions.IsActiveUser perms ->
  user request = Authenticated u -> User.status u <> "Active" ->
  exists msg, Decorators.check_permissions perms request s = (inr (Some msg), s).
Proof.
  intros Hall Hin Hu Hst. induction Hall as [|p perms Hp Hrest IH]; [destruct Hin|].
  cbn [Decorators.check_permissions].
  destruct (Hp request s) as (b & Hb & _). rewrite (bind_inr _ _ _ _ _ Hb).
  destruct b; [|eexists; reflexivity].
  destruct Hin as [->|Hin]; [|apply IH, Hin].
  exfalso. revert Hb. cbv [Permissions.IsActiveUser Permissions.has_permission mret M_ret].
  rewrite Hu. destruct (String.eqb (User.status u) "Active") eqn:E; [|discriminate].
  apply String.eqb_eq in E. contradiction.
Qed.

(** X7: a view protected by [IsAuthenticated], further permission classes
    and [require_digital_signature] answers 401 to a caller who is not
    signed in, and 403 to a signed-in caller whose account is not Active
    when [IsActiveUser] is among its permission classes; in both cases the
    body does not run and nothing is written. *)
Theorem view_refuses_strangers {A} (rest : list Permissions.permission)
    (h : HttpRequest -> A -> M Response) (request : HttpRequest) (a : A) (s : Store) :
  Forall reads_accounts rest ->
  (user request = AnonymousUser ->
   exists resp,
     Decorators.api_view (Permissions.IsAuthenticated :: rest)
       (Decorators.require_digital_signature h) request a s = (inr resp, s) /\
     status_code resp = 401) /\
  (forall u,
     user request = Authenticated u -> User.status u <> "Active" ->
     In Permissions.IsActiveUser rest ->
     exists resp,
       Decorators.api_view (Permissions.IsAuthenticated :: rest)
         (Decorators.require_digital_signature h) request a s = (inr resp, s) /\
       status_code resp = 403).
Proof.
  intros Hp. split.
  - intros Hu.
    assert (Hd : Decorators.check_permissions (Permissions.IsAuthenticated :: rest) request s
                 = (inr (Some Permissions.default_message), s)).
    { cbn [Decorators.check_permissions Permissions.has_permission
           Permissions.IsAuthenticated].
      rewrite Hu. reflexivity. }
    unfold Decorators.api_view. rewrite (bind_inr _ _ _ _ _ Hd).
    rewrite Hu. cbn [is_authenticated]. eexists. split; reflexivity.
  - intros u Hu Hst Hin. unfold Decorators.api_view.
    destruct (check_permissions_inactive (Permissions.IsAuthenticated :: rest) request u s)
      as (msg & Hmsg); [apply reads_all, Hp|right; exact Hin|exact Hu|exact Hst|].
    rewrite (bind_inr _ _ _ _ _ Hmsg). rewrite Hu. cbn [is_authenticated].
    eexists. split; reflexivity.
Qed.

(** X7 at work: the views that approve refuse a caller who is not signed
    in, on any store. *)
Lemma view_refuses_strangers_witness :
  exists resp,
    Views.approve_request
      {| user := AnonymousUser; data := Sample.payload "guess";
         REMOTE_ADDR := None; HTTP_X_FORWARDED_FOR := None; HTTP_USER_AGENT := None |}
      1 Sample.store = (inr resp, Sample.store) /\
    status_code resp = 401.
Proof.
  destruct (view_refuses_strangers
              [Permissions.CanApproveRequests; Permissions.IsActiveUser]
              Handlers.approve_request
              {| user := AnonymousUser; data := Sample.payload "guess";
                 REMOTE_ADDR := None; HTTP_X_FORWARDED_FOR := None;
                 HTTP_USER_AGENT := None |}
              1 Sample.store reads_approvers_rest) as (H & _).
  exact (H eq_refl).
Defined.

(** ** Permission classes *)

Lemma has_privilege_holds (s : Store) (a : actor) (codename : string) :
  exists b : bool,
    Permissions.has_privilege (Some a) codename s = (inr b, s) /\
    (b = true <-> holds_privilege s a codename).
Proof.
  unfold holds_privilege. destruct a as [|u]; cbn [Permissions.has_privilege is_authenticated negb].
  - exists false. split; [reflexivity|]. split; [discriminate|].
    intros (u & Hu & _). discriminate.
  - unfold Permissions.actor_is_superuser. destruct (User.is_superuser u) eqn:Hs.
    + exists true. split; [reflexivity|]. split; [|reflexivity]. eauto.
    + unfold mbind, M_bind, mret, M_ret, Permissions.user_role,
        Permissions.get_privilege_codenames, get_store. simpl.
      destruct (User.role u) as [rid|] eqn:Hr.
      * destruct (roles s !! rid) as [r|] eqn:Hrow.
        -- eexists. split; [reflexivity|].
           rewrite bool_decide_eq_true, elem_of_privilege_codenames. split.
           ++ intros Hg. exists u. split; [reflexivity|]. right. eauto.
           ++ intros (u' & Hu & [Hsu|(rid' & r' & Hr' & _ & Hg)]);
                inversion Hu; subst; congruence.
        -- exists false. split; [reflexivity|]. split; [discriminate|].
           intros (u' & Hu & [Hsu|(rid' & r' & Hr' & Hrow' & _)]);
             inversion Hu; subst; congruence.
      * exists false. split; [reflexivity|]. split; [discriminate|].
        intros (u' & Hu & [Hsu|(rid' & r' & Hr' & _)]);
          inversion Hu; subst; congruence.
Qed.

Lemma has_role_holds (s : Store) (a : actor) (name : string) :
  exists b : bool,
    Permissions.has_role (Some a) name s = (inr b, s) /\
    (b = true <-> holds_role s a name).
Proof.
  unfold holds_role. destruct a as [|u]; cbn [Permissions.has_role is_authenticated negb].
  - exists false. split; [reflexivity|]. split; [discriminate|].
    intros (u & Hu & _). discriminate.
  - cbn [Permissions.actor_groups].
    destruct (bool_decide (name ∈ User.groups u)) eqn:Hg.
    + apply bool_decide_eq_true in Hg. exists true. split; [reflexivity|].
      split; [|reflexivity]. eauto.
    + apply bool_decide_eq_false in Hg.
      unfold mbind, M_bind, mret, M_ret, Permissions.user_role, get_store. simpl.
      destruct (User.role u) as [rid|] eqn:Hr.
      * destruct (roles s !! rid) as [r|] eqn:Hrow.
        -- eexists. split; [reflexivity|]. rewrite String.eqb_eq. split.
           ++ intros Hn. exists u. split; [reflexivity|]. right. eauto.
           ++ intros (u' & Hu & [Hin|(rid' & r' & Hr' & Hrow' & Hn)]);
                inversion Hu; subst; [contradiction|congruence].
        -- exists false. split; [reflexivity|]. split; [discriminate|].
           intros (u' & Hu & [Hin|(rid' & r' & Hr' & Hrow' & _)]);
             inversion Hu; subst; [contradiction|congruence].
      * exists false. split; [reflexivity|]. split; [discriminate|].
        intros (u' & Hu & [Hin|(rid' & r' & Hr' & _)]);
          inversion Hu; subst; [contradiction|congruence].
Qed.

Lemma or_else_run (a b : M bool) (s : Store) (x y : bool) :
  a s = (inr x, s) -> b s = (inr y, s) ->
  Permissions.or_else a b s = (inr (x || y), s).
Proof.
  intros Ha Hb. unfold Permissions.or_else. rewrite (bind_inr _ _ _ _ _ Ha).
  destruct x; [reflexivity|exact Hb].
Qed.

(** X8: each permission class that tests a capability and falls back on a
    role name answers without raising or writing, and says yes exactly to a
    signed-in caller who is a superuser, or whose role is granted the
    capability, or who holds the role of the fallback name through a group
    or the role field, whether or not that role is granted the capability. *)
Theorem capability_class_passes (p : Permissions.permission) (codename role_name : string)
    (request : HttpRequest) (s : Store) :
  In (p, codename, role_name) capability_classes ->
  exists b : bool,
    Permissions.has_permission p request s = (inr b, s) /\
    (b = true <->
     holds_privilege s (user request) codename \/ holds_role s (user request) role_name).
Proof.
  intros Hin.
  destruct (has_privilege_holds s (user request) codename) as (x & Hx & Hxi).
  destruct (has_role_holds s (user request) role_name) as (y & Hy & Hyi).
  exists (x || y). split.
  - cbv [capability_classes In] in Hin.
    destruct Hin as [H|[H|[H|[H|[H|[H|[]]]]]]]; injection H as <- <- <-;
      apply (or_else_run _ _ _ _ _ Hx Hy).
  - rewrite orb_true_iff, Hxi, Hyi. reflexivity.
Qed.

(** X8 at work on the sample archive: carol, whose role Store Head is
    linked only to a deactivated capability, may still allocate storage. *)
Lemma capability_class_passes_witness :
  ~ holds_privilege Sample.store (Authenticated Sample.carol) "allocate_storage" /\
  Permissions.has_permission Permissions.CanAllocateStorage (Sample.http Sample.carol)
    Sample.store = (inr true, Sample.store).
Proof.
  destruct (capability_class_passes Permissions.CanAllocateStorage "allocate_storage"
              "Store Head" (Sample.http Sample.carol) Sample.store)
    as (b & Hb & Hiff); [right; right; left; reflexivity|].
  split.
  - intros (u & Hu & [Hsu|(rid & r & Hr & _ & pid & p & Hin & Hp & Hact & _)]);
      injection Hu as <-; [discriminate|].
    injection Hr as <-. apply list_elem_of_In in Hin. cbv in Hin.
    destruct Hin as [Hin|[Hin|[Hin|[]]]]; try discriminate Hin.
    injection Hin as <-. vm_compute in Hp. injection Hp as <-. discriminate.
  - rewrite Hb. f_equal. f_equal. apply Hiff. right.
    exists Sample.carol. split; [reflexivity|]. right.
    exists 3, {| Role.role_name := "Store Head"; Role.is_active := true |}.
    repeat split.
Defined.

Lemma is_system_admin_holds (s : Store) (a : actor) :
  exists b : bool,
    Permissions.is_system_admin (Some a) s = (inr b, s) /\
    (b = true <->
     (exists u, a = Authenticated u /\ User.is_superuser u = true) \/
     holds_role s a "System Admin").
Proof.
  destruct a as [|u]; cbn [Permissions.is_system_admin is_authenticated negb].
  - exists false. split; [reflexivity|]. split; [discriminate|].
    intros [(u & Hu & _)|(u & Hu & _)]; discriminate.
  - cbn [Permissions.actor_is_superuser]. destruct (User.is_superuser u) eqn:Hs.
    + exists true. split; [reflexivity|]. split; [|reflexivity]. eauto.
    + destruct (has_role_holds s (Authenticated u) "System Admin") as (b & Hb & Hiff).
      exists b. split; [exact Hb|]. rewrite Hiff. split; [auto|].
      intros [(u' & Hu & Hsu)|H]; [|exact H]. injection Hu as <-. congruence.
Qed.

(** X9: each permission class that tests a capability and falls back on
    the administrator check answers without raising or writing, and says
    yes exactly to a signed-in caller who is a superuser, or whose role is
    granted the capability, or who holds the role System Admin through a
    group or the role field. *)
Theorem admin_class_passes (p : Permissions.permission) (codename : string)
    (request : HttpRequest) (s : Store) :
  In (p, codename) admin_classes ->
  exists b : bool,
    Permissions.has_permission p request s = (inr b, s) /\
    (b = true <->
     holds_privilege s (user request) codename \/
     holds_role s (user request) "System Admin").
Proof.
  intros Hin.
  destruct (has_privilege_holds s (user request) codename) as (x & Hx & Hxi).
  destruct (is_system_admin_holds s (user request)) as (y & Hy & Hyi).
  exists (x || y). split.
  - cbv [admin_classes In] in Hin.
    destruct Hin as [H|[H|[H|[H|[]]]]]; injection H as <- <-;
      apply (or_else_run _ _ _ _ _ Hx Hy).
  - rewrite orb_true_iff, Hxi, Hyi. unfold holds_privilege. split.
    + intros [H|[(u & Hu & Hsu)|H]]; eauto.
    + intros [H|H]; auto.
Qed.

(** X9 at work on the sample archive: bob is refused by [CanManageUsers],
    so he neither holds the capability nor administers. *)
Lemma admin_class_passes_witness :
  ~ holds_privilege Sample.store (Authenticated Sample.bob) "manage_users" /\
  ~ holds_role Sample.store (Authenticated Sample.bob) "System Admin".
Proof.
  destruct (admin_class_passes Permissions.CanManageUsers "manage_users"
              (Sample.http Sample.bob) Sample.store)
    as (b & Hb & Hiff); [left; reflexivity|].
  assert (Hf : fst (Permissions.has_permission Permissions.CanManageUsers
                      (Sample.http Sample.bob) Sample.store) = inr false)
    by (vm_compute; reflexivity).
  rewrite Hb in Hf. cbn [fst] in Hf. injection Hf as ->.
  split; intros H; enough (false = true) by discriminate; apply Hiff; [left|right];
    exact H.
Defined.

(** X10: [CanViewReports] and [CanViewAuditTrails] let every signed-in
    caller through, whatever the capabilities of the role, refuse a caller
    who is not signed in, and never raise or write. *)
Theorem report_classes_open (request : HttpRequest) (s : Store) :
  Permissions.has_permission Permissions.CanViewReports request s
    = (inr (is_authenticated (user request)), s) /\
  Permissions.has_permission Permissions.CanViewAuditTrails request s
    = (inr (is_authenticated (user request)), s).
Proof.
  assert (H : forall c,
    Permissions.or_else (Permissions.has_privilege (Some (user request)) c)
      (mret (is_authenticated (user request))) s
    = (inr (is_authenticated (user request)), s)).
  { intros c. destruct (has_privilege_holds s (user request) c) as (x & Hx & Hxi).
    rewrite (or_else_run _ (mret (is_authenticated (user request)) : M bool) s x
               (is_authenticated (user request)) Hx eq_refl).
    destruct x; [|reflexivity]. destruct (proj1 Hxi eq_refl) as (u & -> & _). reflexivity. }
  split; apply H.
Qed.

(** ** The audit trail *)

(** X11: the audit trail only grows.  [AuditTrail.save] raises on an entry
    that already has a primary key and [AuditTrail.delete] raises always,
    both leaving the store as it was; and whatever [save] is called on and
    however it ends, every entry stored before is stored unchanged after. *)
Theorem audit_trail_append_only (e : AuditTrail.row) (s : Store) :
  (forall k, AuditTrail.pk e = Some k ->
     Audit.save e s =
       (inl (ValueError
          "Audit trail records cannot be modified once created (21 CFR Part 11 compliance)"),
        s)) /\
  Audit.delete e s =
    (inl (ValueError "Audit trail records cannot be deleted (21 CFR Part 11 compliance)"), s) /\
  (forall r s', Audit.save e s = (r, s') ->
     forall k x, audit_trail s !! k = Some x -> audit_trail s' !! k = Some x).
Proof.
  split; [intros k Hk; apply (audit_update_raises s e k Hk)|].
  split; [reflexivity|].
  intros r s'. unfold Audit.save, Audit.Model_save.
  destruct (AuditTrail.pk e); [intros H; injection H as _ <-; auto|].
  destruct (AuditTrail.user_agent e); intros H; injection H as _ <-; [|auto].
  intros k x Hk. cbn [audit_trail set_audit_trail].
  rewrite lookup_insert_ne; [exact Hk|].
  intros <-. rewrite fresh_pk_None in Hk. discriminate.
Qed.

(** X12: [log_audit_event] called with a request appends exactly one entry,
    under a key not in use, stamped with the clock and carrying the action,
    the message, the ids passed, and as user name the name of the user when
    there is one and the attempted name otherwise; it writes nothing else.
    Called without a request it raises, because [user_agent] is then [None]
    in a column that does not take nulls, and the store is as before. *)
Theorem log_audit_event_outcome (u : option User.row) (action message : string)
    (rid sid cid did : option Z) (au : option string) (s : Store) :
  (forall rq, exists e,
     Audit.log_audit_event u action message (Some rq) rid sid cid did au s =
       (inr e, set_audit_trail (<[fresh_pk (audit_trail s) := e]> (audit_trail s)) s) /\
     audit_trail s !! fresh_pk (audit_trail s) = None /\
     AuditTrail.pk e = Some (fresh_pk (audit_trail s)) /\
     AuditTrail.action_time e = Some (now s) /\
     AuditTrail.action e = action /\ AuditTrail.message e = message /\
     AuditTrail.user e = User.id <$> u /\
     AuditTrail.attempted_username e =
       match u with Some x => User.username x | None => default "" au end /\
     AuditTrail.request_id e = rid /\ AuditTrail.storage_id e = sid /\
     AuditTrail.crate_id e = cid /\ AuditTrail.document_id e = did) /\
  Audit.log_audit_event u action message None rid sid cid did au s =
    (inl (IntegrityError "audit_trail.user_agent"), s).
Proof.
  split; [|reflexivity].
  intros rq. eexists. split; [reflexivity|]. split; [apply fresh_pk_None|].
  repeat split.
Qed.

(** X13: the session helpers of [audit/utils.py].  A failed login of a
    known user is recorded under that user and that user's name, whatever
    attempted name is passed along; a failed login of an unknown user is
    recorded with no user and the attempted name (empty when none was
    given); each is one new entry of action LoginFailed.  Every helper
    called without a request object, which is the default of its
    [django_request] parameter, raises and records nothing. *)
Theorem session_events (reason : string) (s : Store) :
  (forall u rq au, exists e,
     AuditUtils.log_login_failed (Some u) reason (Some rq) au s =
       (inr e, set_audit_trail (<[fresh_pk (audit_trail s) := e]> (audit_trail s)) s) /\
     AuditTrail.action e = "LoginFailed" /\
     AuditTrail.user e = Some (User.id u) /\
     AuditTrail.attempted_username e = User.username u) /\
  (forall rq au, exists e,
     AuditUtils.log_login_failed None reason (Some rq) au s =
       (inr e, set_audit_trail (<[fresh_pk (audit_trail s) := e]> (audit_trail s)) s) /\
     AuditTrail.action e = "LoginFailed" /\
     AuditTrail.user e = None /\
     AuditTrail.attempted_username e = default "" au) /\
  (forall u au,
     AuditUtils.log_login_failed u reason None au s =
       (inl (IntegrityError "audit_trail.user_agent"), s)) /\
  (forall u,
     AuditUtils.log_login_success u None s =
       (inl (IntegrityError "audit_trail.user_agent"), s) /\
     AuditUtils.log_logout u None s =
       (inl (IntegrityError "audit_trail.user_agent"), s) /\
     AuditUtils.log_session_timeout u None s =
       (inl (IntegrityError "audit_trail.user_agent"), s) /\
     AuditUtils.log_session_terminated u reason None s =
       (inl (IntegrityError "audit_trail.user_agent"), s)).
Proof.
  split; [intros u rq au; eexists; split; [reflexivity|repeat split]|].
  split; [intros rq au; eexists; split; [reflexivity|repeat split]|].
  split; [intros u au; reflexivity|].
  intros u. repeat split.
Qed.

(** ** Signature records *)

Lemma rows_insert {A} (m : gmap Z A) (k : Z) (x : A) : In x (rows (<[k := x]> m)).
Proof.
  unfold rows. apply in_map_iff. exists (k, x). split; [reflexivity|].
  apply list_elem_of_In, elem_of_map_to_list, lookup_insert_eq.
Qed.

(** What [create_signature] leaves behind when it returns: one new row
    under a fresh key, holding the hash of the data that were signed. *)
Lemma create_signature_inr (H : string -> string) (user : User.row)
    (ty purpose model : string) (rid : Z) (signed_data : Json.value) (desc : string)
    (rq : option HttpRequest) (sig : DigitalSignature.row) (s s' : Store) :
  Signature.create_signature H user ty purpose model rid signed_data desc rq s
    = (inr sig, s') ->
  s' = set_digital_signatures
         (<[fresh_pk (digital_signatures s) := sig]> (digital_signatures s)) s /\
  DigitalSignature.pk sig = Some (fresh_pk (digital_signatures s)) /\
  DigitalSignature.data_hash sig = H (Json.dumps signed_data) /\
  DigitalSignature.signer sig = User.id user /\
  DigitalSignature.signer_username sig = User.username user /\
  DigitalSignature.signer_full_name sig = User.full_name user /\
  DigitalSignature.signature_type sig = ty /\
  DigitalSignature.signature_timestamp sig = Some (now s) /\
  DigitalSignature.password_verified_at sig = Some (now s).
Proof.
  unfold Signature.create_signature. intros Hc.
  bind_in Hc s0 s1 Hs. apply get_store_inv in Hs as (-> & ->).
  unfold Signature.save in Hc. cbn [DigitalSignature.pk Py.truthy_pk negb] in Hc.
  unfold Signature.Model_save in Hc.
  cbn [DigitalSignature.pk DigitalSignature.with_signature_hash] in Hc.
  match type of Hc with (if ?b then _ else _) = _ => destruct b end; [discriminate|].
  injection Hc as <- <-. repeat split.
Qed.

(** X14: the hash of the signed data is a unique column: while a
    signature row holding the hash of some data is stored,
    [create_signature] over the same data raises an integrity error and
    stores nothing, whoever signs, for whatever purpose and record, and
    whatever the hash function is. *)
Theorem create_signature_same_data_twice (H : string -> string)
    (u : User.row) (ty p m : string) (id : Z)
    (signed_data : Json.value) (d : string) (rq : option HttpRequest)
    (k : Z) (row : DigitalSignature.row) (s : Store) :
  digital_signatures s !! k = Some row ->
  DigitalSignature.data_hash row = H (Json.dumps signed_data) ->
  Signature.create_signature H u ty p m id signed_data d rq s
    = (inl (IntegrityError "digital_signatures"), s).
Proof.
  intros Hrow Hd.
  unfold Signature.create_signature.
  rewrite (bind_inr get_store _ s s s eq_refl).
  unfold Signature.save. cbn [DigitalSignature.pk Py.truthy_pk negb].
  unfold Signature.Model_save.
  cbn [DigitalSignature.pk DigitalSignature.with_signature_hash].
  match goal with |- (if ?b then _ else _) = _ => assert (Ht : b = true) end.
  { unfold Signature.hash_taken. apply existsb_exists. exists row. split.
    - unfold rows. apply in_map_iff. exists (k, row). split; [reflexivity|].
      apply list_elem_of_In, elem_of_map_to_list, Hrow.
    - apply orb_true_iff. left. apply String.eqb_eq. rewrite Hd. reflexivity. }
  rewrite Ht. reflexivity.
Qed.

Lemma sample_signature_created :
  match fst (Signature.create_signature SHA256.hexdigest Sample.bob "APPROVE"
               "approval of request 1" "Request" 1
               (Json.JDict [("status", Json.JStr "Approved")]) "Storage request 1"
               (Some (Sample.http Sample.bob)) Sample.store) with
  | inr _ => True
  | inl _ => False
  end.
Proof. vm_compute. exact I. Qed.

(** X14 at work on the sample archive, with SHA-256: once bob has signed
    the approval of request 1, the row is stored, and carol cannot sign the
    approval of request 5, the data signed being the same. *)
Lemma create_signature_same_data_twice_witness :
  exists sig s1,
    Signature.create_signature SHA256.hexdigest Sample.bob "APPROVE"
      "approval of request 1" "Request" 1
      (Json.JDict [("status", Json.JStr "Approved")]) "Storage request 1"
      (Some (Sample.http Sample.bob)) Sample.store = (inr sig, s1) /\
    digital_signatures s1 !! fresh_pk (digital_signatures Sample.store) = Some sig /\
    Signature.create_signature SHA256.hexdigest Sample.carol "APPROVE"
      "approval of request 5" "Request" 5
      (Json.JDict [("status", Json.JStr "Approved")]) "Storage request 5"
      (Some (Sample.http Sample.carol)) s1 = (inl (IntegrityError "digital_signatures"), s1).
Proof.
  generalize sample_signature_created.
  destruct (Signature.create_signature SHA256.hexdigest Sample.bob "APPROVE"
              "approval of request 1" "Request" 1
              (Json.JDict [("status", Json.JStr "Approved")]) "Storage request 1"
              (Some (Sample.http Sample.bob)) Sample.store) as [[e|sig] s1] eqn:H1;
    cbn [fst]; intros Hok; [contradiction|].
  exists sig, s1. split; [reflexivity|].
  apply create_signature_inr in H1 as (-> & _ & Hd & _).
  assert (Hrow : digital_signatures
                   (set_digital_signatures
                      (<[fresh_pk (digital_signatures Sample.store) := sig]>
                         (digital_signatures Sample.store)) Sample.store)
                 !! fresh_pk (digital_signatures Sample.store) = Some sig).
  { cbn [digital_signatures set_digital_signatures]. apply lookup_insert_eq. }
  split; [exact Hrow|].
  exact (create_signature_same_data_twice SHA256.hexdigest Sample.carol "APPROVE"
           "approval of request 5" "Request" 5
           (Json.JDict [("status", Json.JStr "Approved")]) "Storage request 5"
           (Some (Sample.http Sample.carol)) _ sig _ Hrow Hd).
Defined.

(** X15: [DigitalSignature.save] on a record that has a primary key (other
    than zero) raises and writes nothing.  On a new record it hashes the
    signature string as it stands before the insert and then either raises
    an integrity error, writing nothing, or stores the record under a key
    not in use, with both time stamps set to the clock; in that case no row
    stored before had the same data hash or signature hash, and every row
    stored before is still there. *)
Theorem signature_save_outcome (H : string -> string) (d : DigitalSignature.row)
    (s : Store) :
  (forall k, DigitalSignature.pk d = Some k -> k <> 0 ->
     Signature.save H d s =
       (inl (ValueError
          "Digital signatures are immutable and cannot be modified after creation"), s)) /\
  (DigitalSignature.pk d = None ->
   forall r s', Signature.save H d s = (r, s') ->
     (r = inl (IntegrityError "digital_signatures") /\ s' = s) \/
     (let k := fresh_pk (digital_signatures s) in
      let sig := DigitalSignature.with_insert k (now s)
                   (DigitalSignature.with_signature_hash
                      (H (Signature.signature_string d)) d) in
      r = inr sig /\
      s' = set_digital_signatures (<[k := sig]> (digital_signatures s)) s /\
      digital_signatures s !! k = None /\
      (forall j x, digital_signatures s !! j = Some x ->
         digital_signatures s' !! j = Some x /\
         DigitalSignature.data_hash x <> DigitalSignature.data_hash d /\
         DigitalSignature.signature_hash x <> H (Signature.signature_string d)))).
Proof.
  split; [intros k Hk Hz; apply (signature_update_raises H s d k Hk Hz)|].
  intros Hpk r s'. unfold Signature.save, Py.truthy_pk. rewrite Hpk. cbv [negb].
  unfold Signature.Model_save.
  change (DigitalSignature.pk (DigitalSignature.with_signature_hash
            (H (Signature.signature_string d)) d)) with (DigitalSignature.pk d).
  rewrite Hpk.
  match goal with |- context [Signature.hash_taken ?a ?b] =>
    destruct (Signature.hash_taken a b) eqn:Ht end.
  - intros Hr. injection Hr as <- <-. left. auto.
  - intros Hr. injection Hr as <- <-. right. cbv zeta.
    split; [reflexivity|]. split; [reflexivity|]. split; [apply fresh_pk_None|].
    intros j x Hj. split.
    + cbn [digital_signatures set_digital_signatures].
      rewrite lookup_insert_ne; [exact Hj|].
      intros <-. rewrite fresh_pk_None in Hj. discriminate.
    + unfold Signature.hash_taken in Ht.
      assert (Hin : In x (rows (digital_signatures s))).
      { unfold rows. apply in_map_iff. exists (j, x). split; [reflexivity|].
        apply list_elem_of_In, elem_of_map_to_list, Hj. }
      assert (Hx : (String.eqb (DigitalSignature.data_hash x) (DigitalSignature.data_hash d)
                    || String.eqb (DigitalSignature.signature_hash x)
                         (H (Signature.signature_string d))) = false).
      { destruct (_ || _) eqn:E; [|reflexivity].
        rewrite <- Ht. symmetry. apply existsb_exists. exists x. split; [exact Hin|exact E]. }
      apply orb_false_iff in Hx as (Hx1 & Hx2).
      apply String.eqb_neq in Hx1, Hx2. auto.
Qed.

(** ** Crates and their barcodes *)

Lemma barcode_taken_false (b : string) (m : gmap Z Crate.row) :
  Documents.barcode_taken b (rows m) = false ->
  forall j x, m !! j = Some x -> Crate.barcode x <> b.
Proof.
  unfold Documents.barcode_taken. intros Ht j x Hj Hb.
  enough (existsb (fun r => String.eqb (Crate.barcode r) b) (rows m) = true) by congruence.
  apply existsb_exists. exists x. split; [|apply String.eqb_eq, Hb].
  unfold rows. apply in_map_iff. exists (j, x). split; [reflexivity|].
  apply list_elem_of_In, elem_of_map_to_list, Hj.
Qed.

Lemma barcode_taken_true (b : string) (m : gmap Z Crate.row) :
  Documents.barcode_taken b (rows m) = true ->
  exists j x, m !! j = Some x /\ Crate.barcode x = b.
Proof.
  unfold Documents.barcode_taken. intros Ht.
  apply existsb_exists in Ht as (x & Hin & Hb). apply String.eqb_eq in Hb.
  unfold rows in Hin. apply in_map_iff in Hin as ([j y] & <- & Hin).
  apply list_elem_of_In, elem_of_map_to_list in Hin. eauto.
Qed.

(** What the inherited save of a crate does when it returns. *)
Lemma Model_save_crate_unique (c c' : Crate.row) (s s1 : Store) :
  Documents.Model_save c s = (inr c', s1) ->
  exists k, c' = Crate.with_pk k c /\ s1 = set_crates (<[k := c']> (crates s)) s /\
            (Crate.pk c = Some k \/ (Crate.pk c = None /\ k = fresh_pk (crates s))) /\
            forall j x, j <> k -> crates s !! j = Some x ->
                        Crate.barcode x <> Crate.barcode c.
Proof.
  unfold Documents.Model_save. destruct (Crate.pk c) as [k|] eqn:Hk.
  - destruct (Documents.barcode_taken _ _) eqn:Ht; intros H; [discriminate|].
    injection H as <- <-. exists k. rewrite (with_pk_same c k Hk).
    repeat split; [auto|]. intros j x Hj Hx.
    apply (barcode_taken_false _ _ Ht j). rewrite lookup_delete_ne; [exact Hx|congruence].
  - destruct (Documents.barcode_taken _ _) eqn:Ht; intros H; [discriminate|].
    injection H as <- <-. eexists. repeat split; [auto|]. intros j x _ Hx.
    apply (barcode_taken_false _ _ Ht j x Hx).
Qed.

(** X16: a crate that has a barcode keeps it through [Crate.save]: when the
    call returns, the row written is the instance itself, under its own key
    or under a fresh one if it had none, with the barcode it came with, and
    no other crate carries that barcode.  When the call raises, which it
    does exactly when another crate carries the barcode, nothing is
    written. *)
Theorem crate_save_keeps_barcode (self : Crate.row) (s s' : Store)
    (r : exn + Crate.row) :
  Py.truthy_str (Crate.barcode self) = true ->
  Documents.save self s = (r, s') ->
  (r = inl (IntegrityError "crates.barcode") /\ s' = s /\
   exists j x, crates s !! j = Some x /\ Some j <> Crate.pk self /\
               Crate.barcode x = Crate.barcode self) \/
  (exists k,
     r = inr (Crate.with_pk k self) /\
     (Crate.pk self = Some k \/ (Crate.pk self = None /\ k = fresh_pk (crates s))) /\
     crates s' = <[k := Crate.with_pk k self]> (crates s) /\
     Crate.barcode (Crate.with_pk k self) = Crate.barcode self /\
     forall j x, j <> k -> crates s !! j = Some x ->
                 Crate.barcode x <> Crate.barcode self).
Proof.
  intros Hb. unfold Documents.save. rewrite Hb. cbv [negb]. intros H.
  destruct r as [e|c'].
  - left. revert H. unfold Documents.Model_save.
    destruct (Crate.pk self) as [k|] eqn:Hk.
    + destruct (Documents.barcode_taken _ _) eqn:Ht; intros H; [|discriminate].
      injection H as <- <-. split; [reflexivity|]. split; [reflexivity|].
      apply barcode_taken_true in Ht as (j & x & Hj & Hx).
      exists j, x. destruct (decide (j = k)) as [->|Hne].
      * rewrite lookup_delete_eq in Hj. discriminate.
      * rewrite lookup_delete_ne in Hj by congruence. repeat split; [exact Hj|congruence|exact Hx].
    + destruct (Documents.barcode_taken _ _) eqn:Ht; intros H; [|discriminate].
      injection H as <- <-. split; [reflexivity|]. split; [reflexivity|].
      apply barcode_taken_true in Ht as (j & x & Hj & Hx).
      exists j, x. repeat split; [exact Hj|discriminate|exact Hx].
  - right. apply Model_save_crate_unique in H as (k & -> & -> & Hk & Huniq).
    exists k. repeat split; try assumption.
Qed.

(** X16 at work on the sample archive: crate 1 is saved as Archived and
    keeps its barcode. *)
Lemma crate_save_keeps_barcode_witness :
  exists s',
    Documents.save (Crate.with_status "Archived"
                      (Sample.mk_crate 1 "Active" "MFG01/QC/Lab1/2025/00001" (Some 1)))
                   Sample.store
      = (inr (Sample.mk_crate 1 "Archived" "MFG01/QC/Lab1/2025/00001" (Some 1)), s') /\
    Crate.barcode <$> crates s' !! 1 = Some "MFG01/QC/Lab1/2025/00001".
Proof.
  destruct (Documents.save (Crate.with_status "Archived"
                              (Sample.mk_crate 1 "Active" "MFG01/QC/Lab1/2025/00001" (Some 1)))
                           Sample.store) as [r s'] eqn:H.
  destruct (crate_save_keeps_barcode
              (Crate.with_status "Archived"
                 (Sample.mk_crate 1 "Active" "MFG01/QC/Lab1/2025/00001" (Some 1)))
              Sample.store s' r eq_refl H)
    as [(_ & _ & j & x & Hj & Hne & Hx)|(k & -> & [Hk|(Hk & _)] & Hcr & _)].
  - exfalso. cbn in Hne, Hx.
    assert (Hs : forall j x, crates Sample.store !! j = Some x ->
                   Crate.barcode x = "MFG01/QC/Lab1/2025/00001" -> j = 1).
    { clear. intros j x Hj Hx.
      assert (Hin : (j, x) ∈ map_to_list (crates Sample.store))
        by (apply elem_of_map_to_list, Hj).
      apply list_elem_of_In in Hin. vm_compute in Hin.
      destruct Hin as [Hin|[Hin|[Hin|[]]]]; injection Hin as <- <-;
        first [reflexivity|discriminate Hx]. }
    apply Hne. f_equal. apply (Hs j x Hj Hx).
  - injection Hk as <-. exists s'. split; [reflexivity|].
    rewrite Hcr, lookup_insert_eq. reflexivity.
  - discriminate.
Defined.

Lemma prefix_app (a b : string) : String.prefix a (a +:+ b) = true.
Proof.
  induction a as [|c a IH]; simpl; [destruct b; reflexivity|].
  destruct (ascii_dec c c) as [_|Hne]; [exact IH|contradiction].
Qed.

Lemma prefix_app2 (a b c : string) : String.prefix (a +:+ b) (a +:+ b +:+ c) = true.
Proof.
  induction a as [|x a IH]; [exact (prefix_app b c)|].
  simpl. destruct (ascii_dec x x) as [_|Hne]; [exact IH|contradiction].
Qed.

Lemma filter_none {A} (f : A -> bool) (l : list A) :
  (forall x, In x l -> f x = false) -> List.filter f l = [].
Proof.
  induction l as [|x l IH]; intros H; [reflexivity|]. cbn.
  rewrite (H x (or_introl eq_refl)). apply IH. intros y Hy. apply H. right. exact Hy.
Qed.

Lemma instances_insert_fresh (m : gmap Z Crate.row) (c x : Crate.row) :
  In x (instances Crate.with_pk (<[fresh_pk m := c]> m)) ->
  Crate.pk x = Some (fresh_pk m) \/
  exists j r, m !! j = Some r /\ x = Crate.with_pk j r.
Proof.
  unfold instances. intros Hin. apply in_map_iff in Hin as ([j r] & <- & Hin).
  apply list_elem_of_In, elem_of_map_to_list in Hin. cbn [fst snd].
  destruct (decide (j = fresh_pk m)) as [->|Hne]; [left; reflexivity|].
  rewrite lookup_insert_ne in Hin by congruence. right. eauto.
Qed.

Lemma siblings_none (self : Crate.row) (barcode_prefix : string) (temp : Crate.row)
    (s s1 : Store) :
  crates s1 = <[fresh_pk (crates s) := temp]> (crates s) ->
  Crate.pk self = Some (fresh_pk (crates s)) ->
  (forall j x, crates s !! j = Some x ->
     Py.startswith (barcode_prefix +:+ "/") (Crate.barcode x) = false) ->
  Documents.siblings self barcode_prefix s1 = [].
Proof.
  intros Hcr Hpk Hfree. unfold Documents.siblings. rewrite Hcr.
  rewrite filter_none; [reflexivity|].
  intros x Hin. apply instances_insert_fresh in Hin as [Hx|(j & r & Hj & ->)].
  - rewrite Hx, Hpk.
    rewrite (bool_decide_eq_true_2 (Some (fresh_pk (crates s)) = Some (fresh_pk (crates s)))
               eq_refl).
    cbn [negb]. apply andb_false_r.
  - change (Crate.barcode (Crate.with_pk j r)) with (Crate.barcode r).
    rewrite (Hfree j r Hj). cbn [negb andb]. rewrite andb_false_r. reflexivity.
Qed.

(** X17: the first save of a crate (no key, no barcode) whose unit,
    department and section exist, on a store where no barcode starts with
    the prefix of its unit, department, section and year, and where the
    placeholder drawn first is not in use, returns; the crate is stored
    under a fresh key with the barcode prefix/00001, the prefix being
    unit code, department name and, when it is not empty, section name, both
    names without blanks and hyphens and cut to ten characters, and the
    year of the clock; no other crate is written. *)
Theorem first_crate_barcode (self : Crate.row) (dept : Department.row) (unit : Unit.row)
    (s : Store) :
  Crate.pk self = None -> Crate.barcode self = "" ->
  departments s !! Crate.department self = Some dept ->
  units s !! Crate.unit self = Some unit ->
  (forall sid, Crate.section self = Some sid -> is_Some (sections s !! sid)) ->
  let section_name_clean :=
    match Crate.section self ≫= fun sid => sections s !! sid with
    | Some sec => Documents.clean_name (Section.section_name sec)
    | None => ""
    end in
  let barcode_prefix :=
    if Py.truthy_str section_name_clean then
      Unit.unit_code unit +:+ "/" +:+ Documents.clean_name (Department.department_name dept)
      +:+ "/" +:+ section_name_clean +:+ "/" +:+ Py.str_N (Py.year (now s))
    else
      Unit.unit_code unit +:+ "/" +:+ Documents.clean_name (Department.department_name dept)
      +:+ "/" +:+ Py.str_N (Py.year (now s)) in
  (forall j x, crates s !! j = Some x ->
     Py.startswith (barcode_prefix +:+ "/") (Crate.barcode x) = false /\
     Crate.barcode x <> "TEMP-" +:+ uuid_source s (uuid_count s)) ->
  let k := fresh_pk (crates s) in
  let c := Crate.with_barcode (barcode_prefix +:+ "/00001") (Crate.with_pk k self) in
  Documents.save self s =
    (inr c, set_crates (<[k := c]> (crates s)) (set_uuid_count (S (S (uuid_count s))) s)).
Proof.
  intros Hpk Hb Hdept Hunit Hsec section_name_clean barcode_prefix Hfree k c.
  unfold Documents.save. rewrite Hb, Hpk. cbn [Py.truthy_str Py.truthy_pk negb].
  rewrite (bind_inr uuid4_hex _ s _ _ eq_refl).
  assert (Htemp : Documents.barcode_taken ("TEMP-" +:+ uuid_source s (uuid_count s))
                    (rows (crates s)) = false).
  { destruct (Documents.barcode_taken _ _) eqn:Ht; [|reflexivity].
    apply barcode_taken_true in Ht as (j & x & Hj & Hx).
    destruct (Hfree j x Hj) as (_ & Hne). contradiction. }
  set (self1 := Crate.with_pk k (Crate.with_barcode
                  ("TEMP-" +:+ uuid_source s (uuid_count s)) self)).
  set (s1 := set_crates (<[k := self1]> (crates s)) (set_uuid_count (S (uuid_count s)) s)).
  assert (H1 : Documents.Model_save
                 (Crate.with_barcode ("TEMP-" +:+ uuid_source s (uuid_count s)) self)
                 (set_uuid_count (S (uuid_count s)) s) = (inr self1, s1)).
  { unfold Documents.Model_save. cbn [Crate.pk Crate.with_barcode Crate.barcode]. rewrite Hpk.
    cbn [crates set_uuid_count]. rewrite Htemp. reflexivity. }
  rewrite (bind_inr _ _ _ _ _ H1).
  rewrite (bind_inr uuid4_hex _ s1 _ _ eq_refl). clear H1. subst s1 self1.
  match goal with |- (timezone_now ≫= ?f) ?s0 = _ =>
    rewrite (bind_inr timezone_now f s0 (now s0) s0 eq_refl) end.
  match goal with |- (objects_get ?a ?b ?w ?i ≫= ?f) ?s0 = _ =>
    rewrite (bind_inr (objects_get a b w i) f s0 dept s0) end.
  2:{ unfold objects_get. cbn [departments set_uuid_count set_crates Crate.department
                                Crate.with_barcode Crate.with_pk].
      rewrite Hdept. reflexivity. }
  cbn [Crate.section Crate.with_barcode Crate.with_pk].
  match goal with |- (?m ≫= ?f) ?s0 = _ =>
    rewrite (bind_inr m f s0 section_name_clean s0) end.
  2:{ subst section_name_clean. destruct (Crate.section self) as [sid|] eqn:Hs; [|reflexivity].
      destruct (Hsec sid eq_refl) as (sec & Hsid). cbn [mbind option_bind]. rewrite Hsid.
      match goal with |- (objects_get ?a ?b ?w ?i ≫= ?f) ?s0 = _ =>
        rewrite (bind_inr (objects_get a b w i) f s0 sec s0) end; [reflexivity|].
      unfold objects_get. cbn [sections set_uuid_count set_crates]. rewrite Hsid. reflexivity. }
  cbn [Crate.unit Crate.with_barcode Crate.with_pk].
  match goal with |- (objects_get ?a ?b ?w ?i ≫= ?f) ?s0 = _ =>
    rewrite (bind_inr (objects_get a b w i) f s0 unit s0) end.
  2:{ unfold objects_get. cbn [units set_uuid_count set_crates]. rewrite Hunit. reflexivity. }
  match goal with |- (get_store ≫= ?f) ?s0 = _ =>
    rewrite (bind_inr get_store f s0 s0 s0 eq_refl) end.
  cbn [now set_uuid_count set_crates].
  fold barcode_prefix.
  match goal with |- context [Documents.siblings ?a ?p ?st] =>
    rewrite (siblings_none a p _ s st eq_refl eq_refl (fun j x Hj => proj1 (Hfree j x Hj)))
  end.
  change (Py.format_0d 5 (Documents.next_number_after (Documents.max_barcode_of [])))
    with "00001".
  unfold Documents.Model_save.
  cbn [Crate.pk Crate.with_barcode Crate.with_pk Crate.barcode crates set_crates
       set_uuid_count].
  rewrite delete_insert_id by apply fresh_pk_None.
  assert (Hnew : Documents.barcode_taken (barcode_prefix +:+ "/" +:+ "00001")
                   (rows (crates s)) = false).
  { destruct (Documents.barcode_taken (barcode_prefix +:+ "/" +:+ "00001")
                (rows (crates s))) eqn:Ht; [|reflexivity].
    apply barcode_taken_true in Ht as (j & x & Hj & Hx).
    destruct (Hfree j x Hj) as (Hst & _). rewrite Hx in Hst.
    unfold Py.startswith in Hst.
    rewrite prefix_app2 in Hst. discriminate. }
  rewrite Hnew. rewrite insert_insert_eq. reflexivity.
Qed.

(** X17 at work on the sample archive: the first crate of department QC
    that belongs to no section. *)
Lemma first_crate_barcode_witness :
  exists c s',
    Documents.save
      {| Crate.pk := None; Crate.barcode := ""; Crate.destruction_date := None;
         Crate.created_by := 1; Crate.status := "Active"; Crate.storage := None;
         Crate.unit := 1; Crate.department := 1; Crate.section := None;
         Crate.to_central := false; Crate.to_be_retained := true |}
      Sample.store = (inr c, s') /\
    Crate.barcode c = "MFG01/QC/2025/00001" /\ Crate.pk c = Some 4.
Proof.
  eexists _, _. split.
  - apply (first_crate_barcode
             {| Crate.pk := None; Crate.barcode := ""; Crate.destruction_date := None;
                Crate.created_by := 1; Crate.status := "Active"; Crate.storage := None;
                Crate.unit := 1; Crate.department := 1; Crate.section := None;
                Crate.to_central := false; Crate.to_be_retained := true |}
             {| Department.department_name := "QC"; Department.unit := 1 |}
             {| Unit.unit_code := "MFG01"; Unit.unit_name := "Plant 1" |}
             Sample.store eq_refl eq_refl eq_refl eq_refl).
    + intros sid Hsid. discriminate.
    + intros j x Hj.
      assert (Hin : (j, x) ∈ map_to_list (crates Sample.store))
        by (apply elem_of_map_to_list, Hj).
      apply list_elem_of_In in Hin. vm_compute in Hin.
      destruct Hin as [Hin|[Hin|[Hin|[]]]]; injection Hin as <- <-;
        (split; [vm_compute; reflexivity|discriminate]).
  - split; vm_compute; reflexivity.
Defined.

(** ** Destruction requests *)






(** On the sample archive alice asks for the destruction of crate 1, which
    stays Active, and then asks once more: both requests are accepted. *)
Example destruction_requested_twice :
  match Views.create_destruction_request (Sample.http Sample.alice) tt Sample.store with
  | (inr resp1, s1) =>
      status_code resp1 = 201 /\
      Request.request_type <$> requests s1 !! 8 = Some "Destruction" /\
      Crate.status <$> crates s1 !! 1 = Some "Active" /\
      match Views.create_destruction_request (Sample.http Sample.alice) tt s1 with
      | (inr resp2, s2) =>
          status_code resp2 = 201 /\ Request.crate <$> requests s2 !! 9 = Some 1
      | (inl _, _) => False
      end
  | (inl _, _) => False
  end.
Proof. vm_compute. repeat split; reflexivity. Qed.

(** ** Resubmitting a request that was sent back *)

Lemma try_except_inv {A} (m : M A) (h : exn -> M A) (x : A) (s s' : Store) :
  try_except m h s = (inr x, s') ->
  m s = (inr x, s') \/ exists e s1, m s = (inl e, s1) /\ h e s1 = (inr x, s').
Proof.
  unfold try_except. destruct (m s) as [[e|y] s1]; intros H; [right; eauto|left; exact H].
Qed.

Lemma not_own_request_inv (r : Request.row) (request : HttpRequest) (b : bool)
    (s s1 : Store) :
  Handlers.not_own_request r request s = (inr b, s1) ->
  s1 = s /\
  (b = false <->
   exists u, user request = Authenticated u /\ Request.withdrawn_by r = Some (User.id u)).
Proof.
  unfold Handlers.not_own_request. destruct (Request.withdrawn_by r) as [uid|].
  - intros H. bind_in H owner s2 Ho. apply objects_get_inv in Ho as (-> & row & _ & ->).
    apply ret_inv in H as (-> & ->). split; [reflexivity|].
    cbn [User.id User.with_id]. destruct (user request) as [|u].
    + split; [discriminate|]. intros (u & Hu & _). discriminate.
    + destruct (uid =? User.id u) eqn:E; cbn [negb].
      * apply Z.eqb_eq in E. subst uid. split; [eauto|reflexivity].
      * apply Z.eqb_neq in E. split; [discriminate|].
        intros (u' & Hu & Hw). injection Hu as <-. congruence.
  - intros H. apply ret_inv in H as (-> & ->). split; [reflexivity|].
    split; [discriminate|]. intros (u & _ & Hw). discriminate.
Qed.

Lemma update_destruction_request_inr (request : HttpRequest) (pk : Z) (resp : Response)
    (s s' : Store) :
  Handlers.update_destruction_request request pk s = (inr resp, s') ->
  400 <= status_code resp \/
  (status_code resp = 200 /\
   exists r u purpose e,
     find (requests s) Request.with_pk pk = Some r /\
     Request.status r = "Sent Back" /\ Request.request_type r = "Destruction" /\
     user request = Authenticated u /\ Request.withdrawn_by r = Some (User.id u) /\
     Serializers.DestructionRequestUpdateSerializer (data request) = inr purpose /\
     is_Some (crates s !! Request.crate r) /\
     s' = set_audit_trail (<[fresh_pk (audit_trail s) := e]> (audit_trail s))
            (set_requests
               (<[pk := Request.with_updated_at (Some (now s))
                          (Request.with_status "Pending"
                             (Request.with_purpose (default "" purpose) r))]> (requests s)) s) /\
     AuditTrail.action e = "Updated" /\ AuditTrail.crate_id e = Some (Request.crate r)).
Proof.
  unfold Handlers.update_destruction_request. intros H.
  destruct (Serializers.DestructionRequestUpdateSerializer (data request))
    as [errors|purpose] eqn:Hser.
  { apply ret_inv in H as (-> & ->). left. code_bound. }
  bind_in H s0 s1 Hs. apply get_store_inv in Hs as (-> & ->).
  destruct (find (requests s) Request.with_pk pk) as [r|] eqn:Hfind.
  2:{ apply ret_inv in H as (-> & ->). left. code_bound. }
  destruct (String.eqb (Request.status r) "Sent Back") eqn:Hst; cbv [negb] in H.
  2:{ apply ret_inv in H as (-> & ->). left. code_bound. }
  bind_in H other s1 Ho. apply not_own_request_inv in Ho as (-> & Hown).
  destruct other.
  { apply ret_inv in H as (-> & ->). left. code_bound. }
  destruct (proj1 Hown eq_refl) as (u & Hu & Hw).
  destruct (String.eqb (Request.request_type r) "Destruction") eqn:Hty; cbv [negb] in H.
  2:{ apply ret_inv in H as (-> & ->). left. code_bound. }
  apply String.eqb_eq in Hst, Hty.
  apply try_except_inv in H as [H|(e & s1 & _ & H)].
  2:{ apply ret_inv in H as (-> & ->). left. code_bound. }
  assert (Hpk : Request.pk r = Some pk).
  { apply find_Some in Hfind as (row & _ & ->). reflexivity. }
  bind_in H r' s1 Hr.
  apply (Request_save_inv _ _ pk) in Hr as (-> & ->); [|exact Hpk].
  bind_in H u' s1 Hu'. apply the_user_inv in Hu' as (Hu' & ->).
  rewrite Hu in Hu'. injection Hu' as <-.
  bind_in H c s1 Hc. apply crate_of_inv in Hc as (-> & Hcpk & row & Hrow & _).
  bind_in H e s1 He. apply log_audit_event_inv in He as (-> & Ha & _ & Hcid & _).
  apply ret_inv in H as (-> & ->). right. split; [reflexivity|].
  exists r, u, purpose, e.
  cbn [Request.crate Request.with_updated_at Request.with_status Request.with_purpose
       crates set_requests] in Hrow, Hcpk.
  repeat split; try assumption; [eauto|congruence].
Qed.

Lemma not_own_request_other (r : Request.row) (request : HttpRequest) (s : Store) :
  (forall u, user request = Authenticated u ->
             Request.withdrawn_by r <> Some (User.id u)) ->
  (forall uid, Request.withdrawn_by r = Some uid -> is_Some (users s !! uid)) ->
  Handlers.not_own_request r request s = (inr true, s).
Proof.
  intros Hother Husers. unfold Handlers.not_own_request.
  destruct (Request.withdrawn_by r) as [uid|] eqn:Hw; [|reflexivity].
  destruct (Husers uid eq_refl) as (row & Hrow).
  assert (Ho : objects_get "User" users User.with_id uid s = (inr (User.with_id uid row), s)).
  { unfold objects_get. rewrite Hrow. reflexivity. }
  rewrite (bind_inr _ _ _ _ _ Ho). cbn [User.id User.with_id].
  destruct (user request) as [|u]; [reflexivity|].
  destruct (uid =? User.id u) eqn:E; [|reflexivity].
  apply Z.eqb_eq in E. subst uid. destruct (Hother u eq_refl eq_refl).
Qed.

Lemma update_destruction_request_refuses (request : HttpRequest) (pk : Z)
    (r : Request.row) (s : Store) :
  requests s !! pk = Some r ->
  Request.status r <> "Sent Back" \/
  ((forall u, user request = Authenticated u ->
              Request.withdrawn_by r <> Some (User.id u)) /\
   (forall uid, Request.withdrawn_by r = Some uid -> is_Some (users s !! uid))) ->
  exists resp, Handlers.update_destruction_request request pk s = (inr resp, s) /\
               400 <= status_code resp.
Proof.
  intros Hr Hbad. unfold Handlers.update_destruction_request.
  destruct (Serializers.DestructionRequestUpdateSerializer _);
    [eexists; split; [reflexivity|code_bound]|].
  rewrite (bind_inr get_store _ s s s eq_refl). unfold find. rewrite Hr.
  cbn [fmap option_fmap option_map Request.status Request.with_pk].
  destruct (String.eqb (Request.status r) "Sent Back") eqn:Est; cbv [negb];
    [|eexists; split; [reflexivity|code_bound]].
  apply String.eqb_eq in Est. destruct Hbad as [Hbad|(Hother & Husers)]; [contradiction|].
  rewrite (bind_inr _ _ _ _ _
             (not_own_request_other (Request.with_pk pk r) request s Hother Husers)).
  eexists; split; [reflexivity|code_bound].
Qed.

(** X19: [update_destruction_request] answers below 400 only with 200, and
    only for a Destruction request that is Sent Back and whose requester is
    the caller; the request is then Pending again with the purpose of the
    payload (empty when none was sent), one audit entry of action Updated
    names its crate, and crates and notes are as before.  A request in
    another status, or one the caller did not make, is answered 400 or above
    and nothing is written. *)
Theorem update_destruction_request_outcome (request : HttpRequest) (pk : Z) (s : Store)
    (r : Request.row) :
  requests s !! pk = Some r ->
  (forall resp s',
     Views.update_destruction_request request pk s = (inr resp, s') ->
     status_code resp < 400 ->
     status_code resp = 200 /\
     Request.status r = "Sent Back" /\ Request.request_type r = "Destruction" /\
     exists u purpose e,
       user request = Authenticated u /\ Request.withdrawn_by r = Some (User.id u) /\
       Serializers.DestructionRequestUpdateSerializer (data request) = inr purpose /\
       requests s' = <[pk := Request.with_updated_at (Some (now s))
                               (Request.with_status "Pending"
                                  (Request.with_purpose (default "" purpose)
                                     (Request.with_pk pk r)))]> (requests s) /\
       crates s' = crates s /\ sendbacks s' = sendbacks s /\
       audit_trail s' = <[fresh_pk (audit_trail s) := e]> (audit_trail s) /\
       AuditTrail.action e = "Updated" /\
       AuditTrail.crate_id e = Some (Request.crate r)) /\
  (Request.status r <> "Sent Back" \/
   ((forall u, user request = Authenticated u ->
               Request.withdrawn_by r <> Some (User.id u)) /\
    (forall uid, Request.withdrawn_by r = Some uid -> is_Some (users s !! uid))) ->
   exists resp, Views.update_destruction_request request pk s = (inr resp, s) /\
                400 <= status_code resp).
Proof.
  intros Hr. split.
  - intros resp s' H Hcode.
    apply view_success in H as (_ & H); [|apply reads_requesters_rest|exact Hcode].
    apply update_destruction_request_inr in H
      as [Hc|(Hc & r0 & u & purpose & e & Hf & Hst & Hty & Hu & Hw & Hser & _ & -> & Ha & Hcid)];
      [lia|].
    apply find_Some in Hf as (r1 & Hr1 & ->).
    assert (r1 = r) as -> by congruence.
    cbn [Request.status Request.request_type Request.withdrawn_by Request.crate
         Request.with_pk] in *.
    split; [exact Hc|]. split; [exact Hst|]. split; [exact Hty|].
    exists u, purpose, e. repeat split; assumption.
  - intros Hbad. apply view_refuses; [apply reads_requesters_rest|].
    apply (update_destruction_request_refuses request pk r s Hr Hbad).
Qed.

Lemma sample_update_destruction_answer :
  match fst (Views.update_destruction_request (Sample.http Sample.alice) 8
               (set_requests (<[8 := Sample.mk_request 8 "Destruction" "Sent Back" 1]>
                                (requests Sample.store)) Sample.store)) with
  | inr resp => status_code resp = 200
  | inl _ => False
  end.
Proof. vm_compute. reflexivity. Qed.

(** X19 at work: on the sample archive with a destruction request 8 of
    alice that was sent back, alice resubmits it. *)
Lemma update_destruction_request_outcome_witness :
  exists resp s',
    Views.update_destruction_request (Sample.http Sample.alice) 8
      (set_requests (<[8 := Sample.mk_request 8 "Destruction" "Sent Back" 1]>
                       (requests Sample.store)) Sample.store) = (inr resp, s') /\
    Request.status <$> requests s' !! 8 = Some "Pending" /\
    Request.purpose <$> requests s' !! 8 = Some "audit".
Proof.
  generalize sample_update_destruction_answer.
  destruct (Views.update_destruction_request (Sample.http Sample.alice) 8
              (set_requests (<[8 := Sample.mk_request 8 "Destruction" "Sent Back" 1]>
                               (requests Sample.store)) Sample.store))
    as [[e|resp] s'] eqn:H; cbn [fst]; intros Hcode; [contradiction|].
  destruct (update_destruction_request_outcome (Sample.http Sample.alice) 8
              (set_requests (<[8 := Sample.mk_request 8 "Destruction" "Sent Back" 1]>
                               (requests Sample.store)) Sample.store)
              (Sample.mk_request 8 "Destruction" "Sent Back" 1)
              (lookup_insert_eq (requests Sample.store) 8 _)) as (Hok & _).
  destruct (Hok resp s' H ltac:(lia))
    as (_ & _ & _ & u & purpose & e & _ & _ & Hser & Hreqs & _).
  exists resp, s'. split; [reflexivity|].
  assert (purpose = Some "audit") as -> by (vm_compute in Hser; congruence).
  rewrite Hreqs, lookup_insert_eq. split; reflexivity.
Defined.

(** X20: a destruction request that is sent back and then resubmitted by
    its requester, both calls answering 200, is Pending again; the crates
    are as they were before the two calls, one note was added, and an
    approver who passes the gate can now approve it, which the send-back
    alone had made impossible. *)
Theorem send_back_then_resubmit (rq1 rq2 : HttpRequest) (pk : Z) (s s1 s2 : Store)
    (resp1 resp2 : Response) (r : Request.row) :
  requests s !! pk = Some r ->
  Views.send_back_request rq1 pk s = (inr resp1, s1) -> status_code resp1 = 200 ->
  Views.update_destruction_request rq2 pk s1 = (inr resp2, s2) ->
  status_code resp2 = 200 ->
  Request.request_type r = "Destruction" /\
  Request.status <$> requests s2 !! pk = Some "Pending" /\
  crates s2 = crates s /\
  length (sendbacks s2) = S (length (sendbacks s)) /\
  (forall rq3, exists resp, Views.approve_request rq3 pk s1 = (inr resp, s1) /\
                            400 <= status_code resp) /\
  (forall rq3,
     gate_open approvers rq3 s2 ->
     Serializers.ApproveRequestSerializer (data rq3) = inr tt ->
     exists resp s3, Views.approve_request rq3 pk s2 = (inr resp, s3) /\
                     status_code resp = 200 /\
                     Request.status <$> requests s3 !! pk = Some "Approved").
Proof.
  intros Hr H1 Hc1 H2 Hc2.
  apply view_success in H1 as (_ & H1); [|apply reads_approvers_rest|lia].
  apply send_back_request_inr in H1
    as [(Hc & _)|(_ & r0 & u & rs & sb & e & Hf & _ & _ & _ & Hreqs1 & Hsb1 & _ & Hcr1 & _)];
    [lia|].
  apply find_Some in Hf as (r1 & Hr1 & ->).
  assert (r1 = r) as -> by congruence.
  apply view_success in H2 as (_ & H2); [|apply reads_requesters_rest|lia].
  apply update_destruction_request_inr in H2
    as [Hc|(_ & ra & u2 & purpose & e2 & Hfa & _ & Hty & _ & _ & _ & Hcrate & Hs2 & _)];
    [lia|].
  unfold find in Hfa. rewrite Hreqs1, lookup_insert_eq in Hfa.
  cbn [fmap option_fmap option_map] in Hfa. injection Hfa as <-.
  cbn [Request.request_type Request.crate Request.with_pk Request.with_updated_at
       Request.with_status] in Hty, Hcrate.
  match type of Hs2 with _ = set_audit_trail _ (set_requests (<[_ := ?x]> _) _) =>
    set (r2 := x) in Hs2 end.
  assert (Hreq2 : requests s2 !! pk = Some r2).
  { rewrite Hs2. cbn [requests set_audit_trail set_requests]. apply lookup_insert_eq. }
  assert (Hcr2 : crates s2 = crates s1) by (rewrite Hs2; reflexivity).
  assert (Hsb2 : sendbacks s2 = sendbacks s1) by (rewrite Hs2; reflexivity).
  split; [exact Hty|].
  split; [rewrite Hreq2; reflexivity|].
  split; [congruence|].
  split; [rewrite Hsb2, Hsb1, length_app; cbn; lia|].
  split.
  - intros rq3. apply view_refuses; [apply reads_approvers_rest|].
    assert (Hreq1 : requests s1 !! pk =
                    Some (Request.with_updated_at (Some (now s))
                            (Request.with_status "Sent Back" (Request.with_pk pk r))))
      by (rewrite Hreqs1; apply lookup_insert_eq).
    destruct (approve_request_refuses rq3 pk _ s1 Hreq1) as (resp & H & Hc);
      [cbn; discriminate|].
    exists resp. split; [exact H|lia].
  - intros rq3 Hg Hser. pose proof Hg as (_ & u3 & _ & _ & Hu3 & _).
    unfold Views.approve_request. rewrite (gate_open_run _ _ _ _ _ Hg).
    destruct (approve_request_run rq3 pk r2 u3 s2 Hser Hreq2 eq_refl Hu3)
      as (resp & s3 & H3 & Hc3); [rewrite Hcr2; exact Hcrate|].
    exists resp, s3. split; [exact H3|]. split; [exact Hc3|].
    apply approve_request_inr in H3
      as [(Hc & _)|(_ & rb & ub & eb & _ & _ & _ & Hreqs3 & _)]; [lia|].
    rewrite Hreqs3, lookup_insert_eq. reflexivity.
Qed.

Lemma sample_cycle_answers :
  match Views.send_back_request (Sample.http Sample.bob) 8
          (set_requests (<[8 := Sample.mk_request 8 "Destruction" "Pending" 1]>
                           (requests Sample.store)) Sample.store) with
  | (inr resp1, s1) =>
      status_code resp1 = 200 /\
      match fst (Views.update_destruction_request (Sample.http Sample.alice) 8 s1) with
      | inr resp2 => status_code resp2 = 200
      | inl _ => False
      end
  | (inl _, _) => False
  end.
Proof. vm_compute. split; reflexivity. Qed.

(** X20 at work: on the sample archive with a pending destruction request
    8 of alice, bob sends it back and alice resubmits it. *)
Lemma send_back_then_resubmit_witness :
  exists resp1 s1 resp2 s2,
    Views.send_back_request (Sample.http Sample.bob) 8
      (set_requests (<[8 := Sample.mk_request 8 "Destruction" "Pending" 1]>
                       (requests Sample.store)) Sample.store) = (inr resp1, s1) /\
    Views.update_destruction_request (Sample.http Sample.alice) 8 s1 = (inr resp2, s2) /\
    Request.status <$> requests s2 !! 8 = Some "Pending" /\
    crates s2 = crates Sample.store.
Proof.
  generalize sample_cycle_answers.
  destruct (Views.send_back_request (Sample.http Sample.bob) 8
              (set_requests (<[8 := Sample.mk_request 8 "Destruction" "Pending" 1]>
                               (requests Sample.store)) Sample.store))
    as [[e|resp1] s1] eqn:H1; [contradiction|].
  destruct (Views.update_destruction_request (Sample.http Sample.alice) 8 s1)
    as [[e|resp2] s2] eqn:H2; cbn [fst]; intros (Hc1 & Hc2); [contradiction|].
  destruct (send_back_then_resubmit (Sample.http Sample.bob) (Sample.http Sample.alice) 8
              (set_requests (<[8 := Sample.mk_request 8 "Destruction" "Pending" 1]>
                               (requests Sample.store)) Sample.store)
              s1 s2 resp1 resp2 (Sample.mk_request 8 "Destruction" "Pending" 1)
              (lookup_insert_eq (requests Sample.store) 8 _) H1 Hc1 H2 Hc2)
    as (_ & Hst & Hcr & _).
  exists resp1, s1, resp2, s2. split; [reflexivity|]. split; [exact H2|].
  split; [exact Hst|exact Hcr].
Defined.

Lemma atomic_inl {A} (m : M A) (e : exn) (s s1 : Store) :
  atomic m s = (inl e, s1) -> s1 = s.
Proof.
  unfold atomic. destruct (m s) as [[e'|y] s2]; intros H; [|discriminate].
  injection H as _ <-. reflexivity.
Qed.

Lemma validate_passed (full : bool) (ids : option (list Z)) (date : Py.datetime)
    (s s1 : Store) :
  Serializers.validate full ids date s = (inr None, s1) ->
  Py.datetime_cmp date (now s) = Some Gt /\
  (full = false -> default [] ids <> []).
Proof.
  unfold Serializers.validate.
  destruct (negb full && Serializers.is_nil (default [] ids)) eqn:Hp; [discriminate|].
  cbv [mbind M_bind timezone_now].
  destruct (Py.datetime_cmp date (now s)) as [[ | | ]|]; try discriminate.
  intros _. split; [reflexivity|].
  intros ->. cbn [negb andb] in Hp. destruct (default [] ids); [discriminate|discriminate].
Qed.

Lemma WithdrawalRequestUpdateSerializer_future (d : Payload)
    (x : Serializers.WithdrawalUpdate) (s s1 : Store) :
  Serializers.WithdrawalRequestUpdateSerializer d s = (inr (inr x), s1) ->
  expected_return_date d = Some (Serializers.wu_expected_return_date x) /\
  Py.datetime_cmp (Serializers.wu_expected_return_date x) (now s) = Some Gt /\
  (Serializers.wu_full_withdrawal x = false ->
   exists ids, Serializers.wu_document_ids x = Some ids /\ ids <> []).
Proof.
  unfold Serializers.WithdrawalRequestUpdateSerializer.
  destruct (expected_return_date d) as [date|]; [|discriminate].
  destruct (negb (Serializers.is_nil _)); [discriminate|].
  cbv [mbind M_bind].
  destruct (Serializers.validate _ _ _ s) as [[e|[msg|]] s2] eqn:Hv; try discriminate.
  apply validate_passed in Hv as (Hcmp & Hids).
  intros H. injection H as <- _. cbn. split; [reflexivity|]. split; [exact Hcmp|].
  intros Hfull. specialize (Hids Hfull).
  destruct (document_ids d) as [ids|]; [|contradiction]. eauto.
Qed.

Lemma update_withdrawal_request_inr (request : HttpRequest) (pk : Z) (resp : Response)
    (s s' : Store) :
  Handlers.update_withdrawal_request request pk s = (inr resp, s') ->
  (400 <= status_code resp /\ s' = s) \/
  (status_code resp = 200 /\
   exists r u d e l,
     find (requests s) Request.with_pk pk = Some r /\
     Request.status r = "Sent Back" /\ Request.request_type r = "Withdrawal" /\
     user request = Authenticated u /\ Request.withdrawn_by r = Some (User.id u) /\
     Serializers.WithdrawalRequestUpdateSerializer (data request) s = (inr (inr d), s) /\
     is_Some (crates s !! Request.crate r) /\
     s' = set_audit_trail (<[fresh_pk (audit_trail s) := e]> (audit_trail s))
            (set_requests
               (<[pk := Request.with_updated_at (Some (now s))
                          (Request.with_status "Pending"
                             (Request.with_full_withdrawal (Serializers.wu_full_withdrawal d)
                                (Request.with_purpose (default "" (Serializers.wu_purpose d))
                                   (Request.with_expected_return_date
                                      (Some (Serializers.wu_expected_return_date d)) r))))]>
                  (requests s))
               (set_request_documents l s)) /\
     AuditTrail.action e = "Updated" /\ AuditTrail.crate_id e = Some (Request.crate r)).
Proof.
  unfold Handlers.update_withdrawal_request. intros H.
  bind_in H v s1 Hser.
  pose proof (WithdrawalRequestUpdateSerializer_pure (data request) s) as Hpure.
  rewrite Hser in Hpure. cbn [snd] in Hpure. subst s1.
  destruct v as [errors|d].
  { apply ret_inv in H as (-> & ->). left. split; [code_bound|reflexivity]. }
  bind_in H s0 s1 Hs. apply get_store_inv in Hs as (-> & ->).
  destruct (find (requests s) Request.with_pk pk) as [r|] eqn:Hfind.
  2:{ apply ret_inv in H as (-> & ->). left. split; [code_bound|reflexivity]. }
  destruct (String.eqb (Request.status r) "Sent Back") eqn:Hst; cbv [negb] in H.
  2:{ apply ret_inv in H as (-> & ->). left. split; [code_bound|reflexivity]. }
  bind_in H other s1 Ho. apply not_own_request_inv in Ho as (-> & Hown).
  destruct other.
  { apply ret_inv in H as (-> & ->). left. split; [code_bound|reflexivity]. }
  destruct (proj1 Hown eq_refl) as (u & Hu & Hw).
  destruct (String.eqb (Request.request_type r) "Withdrawal") eqn:Hty; cbv [negb] in H.
  2:{ apply ret_inv in H as (-> & ->). left. split; [code_bound|reflexivity]. }
  apply String.eqb_eq in Hst, Hty.
  apply try_except_inv in H as [H|(e & s1 & Hraise & H)].
  2:{ apply atomic_inl in Hraise as ->. apply ret_inv in H as (-> & ->).
      left. split; [code_bound|reflexivity]. }
  apply atomic_inv in H.
  assert (Hpk : Request.pk r = Some pk).
  { apply find_Some in Hfind as (row & _ & ->). reflexivity. }
  bind_in H s0 s1 Hs. apply get_store_inv in Hs as (-> & ->).
  bind_in H x s1 Hput. cbv [put_store] in Hput. injection Hput as _ <-.
  bind_in H y s2 Hlink.
  assert (exists l, s2 = set_request_documents l s) as (l & ->).
  { cbn [Request.pk Request.with_full_withdrawal Request.with_purpose
         Request.with_expected_return_date Request.full_withdrawal] in Hlink.
    rewrite Hpk in Hlink.
    destruct (Serializers.wu_document_ids d).
    - match type of Hlink with (if ?b then _ else _) _ = _ => destruct b end.
      + destruct y. apply link_documents_inv in Hlink as (l0 & ->). exists l0.
        destruct s. reflexivity.
      + apply ret_inv in Hlink as (_ & ->). eexists. reflexivity.
    - apply ret_inv in Hlink as (_ & ->). eexists. reflexivity. }
  bind_in H r' s1 Hr.
  apply (Request_save_inv _ _ pk) in Hr as (-> & ->); [|exact Hpk].
  bind_in H u' s1 Hu'. apply the_user_inv in Hu' as (Hu' & ->).
  rewrite Hu in Hu'. injection Hu' as <-.
  bind_in H c s1 Hc. apply crate_of_inv in Hc as (-> & Hcpk & row & Hrow & _).
  bind_in H e s1 He. apply log_audit_event_inv in He as (-> & Ha & _ & Hcid & _).
  apply ret_inv in H as (-> & ->). right. split; [reflexivity|].
  exists r, u, d, e, l.
  cbn [Request.crate Request.with_updated_at Request.with_status Request.with_purpose
       Request.with_full_withdrawal Request.with_expected_return_date
       crates set_requests set_request_documents] in Hrow, Hcpk.
  repeat split; try assumption; [eauto|congruence].
Qed.

(** X21: [update_withdrawal_request] runs its writes in one transaction:
    whenever it answers, either the answer is 400 or above, the 500 of a
    failure inside the transaction included, and the store is exactly as
    before, or it is 200, the request was a Withdrawal that was Sent Back
    and was made by the caller, the new expected return date is an instant
    after the clock, and the request is Pending again with the date,
    purpose and extent of the payload, while crates and notes are as before
    and the audit trail has grown. *)
Theorem update_withdrawal_request_outcome (request : HttpRequest) (pk : Z)
    (s s' : Store) (resp : Response) :
  Views.update_withdrawal_request request pk s = (inr resp, s') ->
  (400 <= status_code resp /\ s' = s) \/
  (status_code resp = 200 /\
   exists r u d r',
     requests s !! pk = Some r /\
     Request.status r = "Sent Back" /\ Request.request_type r = "Withdrawal" /\
     user request = Authenticated u /\ Request.withdrawn_by r = Some (User.id u) /\
     Serializers.WithdrawalRequestUpdateSerializer (data request) s = (inr (inr d), s) /\
     expected_return_date (data request) = Some (Serializers.wu_expected_return_date d) /\
     Py.datetime_cmp (Serializers.wu_expected_return_date d) (now s) = Some Gt /\
     requests s' = <[pk := r']> (requests s) /\
     Request.status r' = "Pending" /\ Request.crate r' = Request.crate r /\
     Request.expected_return_date r' = Some (Serializers.wu_expected_return_date d) /\
     Request.purpose r' = default "" (Serializers.wu_purpose d) /\
     Request.full_withdrawal r' = Serializers.wu_full_withdrawal d /\
     crates s' = crates s /\ sendbacks s' = sendbacks s /\
     audit_trail s ⊂ audit_trail s').
Proof.
  intros H. apply view_inr in H as [H|H]; [left; exact H| |apply reads_requesters_rest].
  apply update_withdrawal_request_inr in H
    as [H|(Hc & r0 & u & d & e & l & Hf & Hst & Hty & Hu & Hw & Hser & _ & -> & _)];
    [left; exact H|].
  right. split; [exact Hc|].
  apply find_Some in Hf as (r & Hr & ->).
  cbn [Request.status Request.request_type Request.withdrawn_by Request.with_pk] in *.
  exists r, u, d. eexists.
  split; [exact Hr|]. split; [exact Hst|]. split; [exact Hty|]. split; [exact Hu|].
  split; [exact Hw|]. split; [exact Hser|].
  split; [apply (WithdrawalRequestUpdateSerializer_future _ _ _ _ Hser)|].
  split; [apply (WithdrawalRequestUpdateSerializer_future _ _ _ _ Hser)|].
  split; [reflexivity|]. do 7 (split; [reflexivity|]).
  cbn [audit_trail set_audit_trail set_requests set_request_documents].
  apply audit_grows_one.
Qed.

Lemma sample_update_withdrawal_answer :
  match fst (Views.update_withdrawal_request (Sample.http Sample.alice) 3
               (set_requests (<[3 := Sample.mk_request 3 "Withdrawal" "Sent Back" 3]>
                                (requests Sample.store)) Sample.store)) with
  | inr resp => status_code resp = 200
  | inl _ => False
  end.
Proof. vm_compute. reflexivity. Qed.

(** X21 at work: on the sample archive with the withdrawal request 3 of
    alice sent back, alice resubmits it. *)
Lemma update_withdrawal_request_outcome_witness :
  exists resp s',
    Views.update_withdrawal_request (Sample.http Sample.alice) 3
      (set_requests (<[3 := Sample.mk_request 3 "Withdrawal" "Sent Back" 3]>
                       (requests Sample.store)) Sample.store) = (inr resp, s') /\
    Request.status <$> requests s' !! 3 = Some "Pending" /\
    Request.expected_return_date <$> requests s' !! 3 = Some (Some Sample.later) /\
    crates s' = crates Sample.store.
Proof.
  generalize sample_update_withdrawal_answer.
  destruct (Views.update_withdrawal_request (Sample.http Sample.alice) 3
              (set_requests (<[3 := Sample.mk_request 3 "Withdrawal" "Sent Back" 3]>
                               (requests Sample.store)) Sample.store))
    as [[e|resp] s'] eqn:H; cbn [fst]; intros Hcode; [contradiction|].
  destruct (update_withdrawal_request_outcome _ _ _ _ _ H)
    as [(Hc & _)|(_ & r & u & d & r' & _ & _ & _ & _ & _ & _ & Hd & _ & Hreqs & Hst & _ &
                  Hdate & _ & _ & Hcr & _)]; [lia|].
  exists resp, s'. split; [reflexivity|].
  assert (Hd' : Serializers.wu_expected_return_date d = Sample.later).
  { cbn in Hd. congruence. }
  rewrite Hreqs, lookup_insert_eq. cbn [fmap option_fmap option_map].
  rewrite Hst, Hdate, Hd'. repeat split. exact Hcr.
Defined.

(** ** Overdue withdrawals *)

Lemma is_overdue_run (r : Request.row) (expected : Py.datetime) (s : Store) :
  Request.request_type r = "Withdrawal" -> Request.status r = "Issued" ->
  Request.expected_return_date r = Some expected ->
  is_Some (Py.utcoffset expected) -> is_Some (Py.utcoffset (now s)) ->
  Requests.is_overdue r s = (inr (Py.instant expected <? Py.instant (now s)), s).
Proof.
  intros Hty Hst He (o1 & Ho1) (o2 & Ho2). unfold Requests.is_overdue.
  rewrite Hty, Hst, He. cbv [String.eqb Ascii.eqb Bool.eqb andb].
  cbv [mbind M_bind timezone_now]. unfold Py.datetime_cmp. rewrite Ho1, Ho2.
  rewrite Z.ltb_compare, (Z.compare_antisym (Py.instant (now s))).
  destruct (Py.instant (now s) ?= Py.instant expected); reflexivity.
Qed.

Lemma is_overdue_naive (r : Request.row) (expected : Py.datetime) (s : Store) :
  Request.request_type r = "Withdrawal" -> Request.status r = "Issued" ->
  Request.expected_return_date r = Some expected ->
  Py.utcoffset expected = None -> is_Some (Py.utcoffset (now s)) ->
  exists e, Requests.is_overdue r s = (inl e, s).
Proof.
  intros Hty Hst He Ho1 (o2 & Ho2). unfold Requests.is_overdue.
  rewrite Hty, Hst, He. cbv [String.eqb Ascii.eqb Bool.eqb andb].
  cbv [mbind M_bind timezone_now]. unfold Py.datetime_cmp. rewrite Ho1, Ho2.
  eexists. reflexivity.
Qed.

(** X22: a request is overdue only while its documents are out.  The
    request that [issue_documents] leaves behind keeps its expected return
    date and is reported overdue by [Request.is_overdue] exactly when that
    date is an instant before the clock of the moment of asking, both being
    aware timestamps, and never when it has no such date; the request that
    [return_documents] leaves behind is never reported overdue, whatever
    its dates; and [is_overdue] writes nothing. *)
Theorem overdue_only_while_issued (rq : HttpRequest) (pk : Z) (s s' : Store)
    (resp : Response) :
  (Views.issue_documents rq pk s = (inr resp, s') -> status_code resp = 200 ->
   exists r r', requests s !! pk = Some r /\ requests s' !! pk = Some r' /\
     Request.expected_return_date r' = Request.expected_return_date r /\
     (forall st expected,
        Request.expected_return_date r' = Some expected ->
        is_Some (Py.utcoffset expected) -> is_Some (Py.utcoffset (now st)) ->
        Requests.is_overdue r' st =
          (inr (Py.instant expected <? Py.instant (now st)), st)) /\
     (forall st, Request.expected_return_date r' = None ->
                 Requests.is_overdue r' st = (inr false, st))) /\
  (Views.return_documents rq pk s = (inr resp, s') -> status_code resp = 200 ->
   exists r', requests s' !! pk = Some r' /\
     forall st, Requests.is_overdue r' st = (inr false, st)).
Proof.
  split; intros H Hcode.
  - apply view_success in H as (_ & H); [|apply reads_allocators_rest|lia].
    apply issue_documents_inr in H
      as [(Hc & _)|(_ & r0 & u & c & c' & e & Hf & Hty & _ & _ & _ & _ & _ & Hreqs & _)];
      [lia|].
    apply find_Some in Hf as (r & Hr & ->).
    exists r. eexists. split; [exact Hr|].
    split; [rewrite Hreqs; apply lookup_insert_eq|].
    split; [reflexivity|]. split.
    + intros st expected He Ho1 Ho2. apply is_overdue_run; try assumption; reflexivity.
    + intros st He. unfold Requests.is_overdue. rewrite He.
      match goal with |- (if ?b then _ else _) _ = _ => destruct b end; reflexivity.
  - apply view_success in H as (_ & H); [|apply reads_allocators_rest|lia].
    apply return_documents_inr in H
      as [(Hc & _)|(_ & r0 & u & sid & c & c' & e1 & e2 & Hf & Hty & _ & _ & _ & _ & _ & _ &
                    Hreqs & _)]; [lia|].
    eexists. split; [rewrite Hreqs; apply lookup_insert_eq|].
    intros st. unfold Requests.is_overdue.
    cbn [Request.request_type Request.status Request.expected_return_date
         Request.with_updated_at Request.with_return_date Request.with_status].
    rewrite Hty. reflexivity.
Qed.

(** X22 at work: carol issues the Approved withdrawal request 6, due on
    1 April 2025; asked on 7 March, the request is not overdue. *)
Lemma overdue_only_while_issued_witness :
  exists resp s' r',
    Views.issue_documents (Sample.http Sample.carol) 6
      (set_requests
         (<[6 := Request.with_expected_return_date (Some Sample.later)
                   (Sample.mk_request 6 "Withdrawal" "Approved" 3)]>
            (requests Sample.store)) Sample.store) = (inr resp, s') /\
    requests s' !! 6 = Some r' /\
    Request.expected_return_date r' = Some Sample.later /\
    Requests.is_overdue r' Sample.store = (inr false, Sample.store).
Proof.
  assert (Hrun : match fst (Views.issue_documents (Sample.http Sample.carol) 6
      (set_requests
         (<[6 := Request.with_expected_return_date (Some Sample.later)
                   (Sample.mk_request 6 "Withdrawal" "Approved" 3)]>
            (requests Sample.store)) Sample.store)) with
    | inr resp => status_code resp = 200
    | inl _ => False
    end) by (vm_compute; reflexivity).
  destruct (Views.issue_documents _ _ _) as [[e|resp] s'] eqn:H; cbn [fst] in Hrun;
    [contradiction|].
  destruct (proj1 (overdue_only_while_issued _ _ _ _ _) H Hrun)
    as (r & r' & Hr & Hr' & Hsame & Hdue & _).
  assert (Hdate : Request.expected_return_date r' = Some Sample.later).
  { rewrite Hsame. cbn [requests set_requests] in Hr. rewrite lookup_insert_eq in Hr.
    injection Hr as <-. reflexivity. }
  exists resp, s', r'. split; [reflexivity|]. split; [exact Hr'|]. split; [exact Hdate|].
  rewrite (Hdue Sample.store Sample.later Hdate); [reflexivity|eexists; reflexivity..].
Defined.

(** ** What a withdrawal request must say *)

Lemma WithdrawalRequestCreateSerializer_refuses (d : Payload) (s : Store) :
  expected_return_date d = None \/
  (exists date c, expected_return_date d = Some date /\
                  Py.datetime_cmp date (now s) = Some c /\ c <> Gt) \/
  (full_withdrawal d = Some false /\ default [] (document_ids d) = []) ->
  exists e, Serializers.WithdrawalRequestCreateSerializer d s = (inr (inl e), s).
Proof.
  intros Hbad. unfold Serializers.WithdrawalRequestCreateSerializer.
  destruct (snd (Serializers.field "crate_id" true Serializers.IntegerField (crate_id d)))
    as [cid|]; [|destruct (expected_return_date d); eexists; reflexivity].
  destruct (expected_return_date d) as [date|] eqn:Hdate; [|eexists; reflexivity].
  destruct (negb (Serializers.is_nil _)); [eexists; reflexivity|].
  unfold Serializers.validate.
  destruct (negb (default true (full_withdrawal d)) &&
            Serializers.is_nil (default [] (document_ids d))) eqn:Hp.
  { eexists; reflexivity. }
  cbv [mbind M_bind timezone_now].
  destruct Hbad as [Hbad|[(date' & c & Hd & Hleb & Hc)|(Hfull & Hids)]]; [discriminate| |].
  - injection Hd as <-. rewrite Hleb.
    destruct c; [eexists; reflexivity..|contradiction].
  - rewrite Hfull, Hids in Hp. discriminate.
Qed.

(** X23: [create_withdrawal_request] answers 400 or above and writes
    nothing when the payload has no expected return date, or one that is
    not an instant after the clock, or asks for a partial withdrawal
    without naming a document; and when it does answer 201 the expected
    return date of the payload is an instant after the clock. *)
Theorem create_withdrawal_request_validation (request : HttpRequest) (s : Store) :
  (expected_return_date (data request) = None \/
   (exists date c, expected_return_date (data request) = Some date /\
                   Py.datetime_cmp date (now s) = Some c /\ c <> Gt) \/
   (full_withdrawal (data request) = Some false /\
    default [] (document_ids (data request)) = []) ->
   exists resp, Views.create_withdrawal_request request tt s = (inr resp, s) /\
                400 <= status_code resp) /\
  (forall resp s',
     Views.create_withdrawal_request request tt s = (inr resp, s') ->
     status_code resp = 201 ->
     exists date,
       expected_return_date (data request) = Some date /\
       Py.datetime_cmp date (now s) = Some Gt).
Proof.
  split.
  - intros Hbad. unfold Views.create_withdrawal_request.
    apply (view_refuses _ (fun request (_ : unit) =>
                             Handlers.create_withdrawal_request request));
      [apply reads_requesters_rest|].
    destruct (WithdrawalRequestCreateSerializer_refuses (data request) s Hbad)
      as (e & He).
    unfold Handlers.create_withdrawal_request.
    rewrite (bind_inr _ _ _ _ _ He).
    eexists. split; [reflexivity|code_bound].
  - intros resp s' H Hcode. unfold Views.create_withdrawal_request in H.
    apply view_success in H as (_ & H); [|apply reads_requesters_rest|lia].
    apply create_withdrawal_request_inr in H
      as [(Hc & _)|(_ & d & u & c & c' & r' & e1 & e2 & Hser & _)]; [lia|].
    revert Hser. unfold Serializers.WithdrawalRequestCreateSerializer.
    destruct (snd (Serializers.field "crate_id" true Serializers.IntegerField _));
      [|destruct (expected_return_date (data request)); discriminate].
    destruct (expected_return_date (data request)) as [date|]; [|discriminate].
    destruct (negb (Serializers.is_nil _)); [discriminate|].
    cbv [mbind M_bind].
    destruct (Serializers.validate _ _ _ s) as [[e|[msg|]] s2] eqn:Hv; try discriminate.
    apply validate_passed in Hv as (Hcmp & _). intros _. eauto.
Qed.

(** X23 at work on the sample archive: alice asks for a withdrawal that
    is due at the very moment of asking and is refused. *)
Lemma create_withdrawal_request_validation_witness :
  exists resp,
    Views.create_withdrawal_request
      {| user := Authenticated Sample.alice;
         data := {| digital_signature := Some (Json.JStr "alice-secret");
                    reason := None; storage := None; crate_id := Some (Json.JInt 1);
                    purpose := None; expected_return_date := Some Sample.clock;
                    full_withdrawal := None; document_ids := None |};
         REMOTE_ADDR := None; HTTP_X_FORWARDED_FOR := None; HTTP_USER_AGENT := None |}
      tt Sample.store = (inr resp, Sample.store) /\
    400 <= status_code resp.
Proof.
  apply (proj1 (create_withdrawal_request_validation _ Sample.store)).
  right. left. exists Sample.clock, Eq. split; [reflexivity|]. split; [|discriminate].
  vm_compute. reflexivity.
Defined.

(** ** Group decorators *)

(** X24: [require_group] and [require_any_group] run the view for a
    superuser and for a caller who is in the group, or in one of the groups,
    named; every other caller, a caller who is not signed in included, is
    answered 403 and nothing is written.  So [require_any_group] with one
    name lets the view run exactly when [require_group] with that name
    does, and with no name only for superusers. *)
Theorem group_decorators {A} (group_name : string) (group_names : list string)
    (view_func : HttpRequest -> A -> M Response) (request : HttpRequest) (args : A)
    (s : Store) :
  let member g := g ∈ Permissions.actor_groups (user request) in
  let superuser := Permissions.actor_is_superuser (user request) = true in
  (superuser \/ member group_name ->
   Decorators.require_group group_name view_func request args s
     = view_func request args s) /\
  (~ superuser -> ~ member group_name ->
   exists resp,
     Decorators.require_group group_name view_func request args s = (inr resp, s) /\
     status_code resp = 403) /\
  (superuser \/ (exists g, g ∈ group_names /\ member g) ->
   Decorators.require_any_group group_names view_func request args s
     = view_func request args s) /\
  (~ superuser -> (forall g, g ∈ group_names -> ~ member g) ->
   exists resp,
     Decorators.require_any_group group_names view_func request args s = (inr resp, s) /\
     status_code resp = 403) /\
  (user request = AnonymousUser ->
   exists resp,
     Decorators.require_any_group group_names view_func request args s = (inr resp, s) /\
     status_code resp = 403).
Proof.
  cbv zeta.
  assert (Hany : existsb (fun g => bool_decide (g ∈ group_names))
                   (Permissions.actor_groups (user request)) = true <->
                 exists g, g ∈ group_names /\ g ∈ Permissions.actor_groups (user request)).
  { rewrite existsb_exists. split.
    - intros (g & Hin & Hg). apply bool_decide_eq_true in Hg.
      apply list_elem_of_In in Hin. eauto.
    - intros (g & Hg & Hin). exists g. split; [apply list_elem_of_In, Hin|].
      apply bool_decide_eq_true. exact Hg. }
  split; [|split; [|split; [|split]]].
  - intros [Hsu|Hm]; unfold Decorators.require_group.
    + rewrite Hsu. rewrite andb_false_r. reflexivity.
    + rewrite (bool_decide_eq_true_2 _ Hm). reflexivity.
  - intros Hsu Hm. unfold Decorators.require_group.
    rewrite (bool_decide_eq_false_2 _ Hm).
    destruct (Permissions.actor_is_superuser (user request)); [contradiction|].
    eexists. split; reflexivity.
  - intros [Hsu|Hm]; unfold Decorators.require_any_group.
    + rewrite Hsu. rewrite andb_false_r. reflexivity.
    + rewrite (proj2 Hany Hm). reflexivity.
  - intros Hsu Hnone. unfold Decorators.require_any_group.
    destruct (existsb _ _) eqn:E.
    + destruct (proj1 Hany eq_refl) as (g & Hg & Hm). destruct (Hnone g Hg Hm).
    + destruct (Permissions.actor_is_superuser (user request)); [contradiction|].
      eexists. split; reflexivity.
  - intros Hu. unfold Decorators.require_any_group. rewrite Hu.
    eexists. split; reflexivity.
Qed.

(** ** A requester who is gone *)

(** X25: [issue_documents] on an approved withdrawal whose requester field
    is empty (the foreign key is set to null when the user is deleted) does
    not answer: with the gate passed, valid data and the crate in place,
    the call raises an attribute error, because the audit message reads the
    requester's full name after the request and the crate have been saved.
    The view runs outside any transaction, so both writes stay: the request
    is Issued and the crate Withdrawn, and the audit trail has no entry for
    it. *)
Theorem issue_documents_without_requester (request : HttpRequest) (pk : Z) (s : Store)
    (r : Request.row) :
  gate_open allocators request s ->
  Serializers.IssueDocumentsSerializer (data request) = inr tt ->
  requests s !! pk = Some r ->
  Request.request_type r = "Withdrawal" -> Request.status r = "Approved" ->
  Request.withdrawn_by r = None ->
  crate_writable s (Request.crate r) ->
  exists u c s',
    user request = Authenticated u /\
    crates s !! Request.crate r = Some c /\
    Views.issue_documents request pk s =
      (inl (AttributeError "'NoneType' object has no attribute 'full_name'"), s') /\
    s' = set_crates
           (<[Request.crate r := Crate.with_status "Withdrawn"
                                   (Crate.with_pk (Request.crate r) c)]> (crates s))
           (set_requests
              (<[pk := Request.with_updated_at (Some (now s))
                         (Request.with_issue (Some (User.id u)) (Some (now s))
                            (Request.with_status "Issued" (Request.with_pk pk r)))]>
                 (requests s)) s) /\
    Request.status <$> requests s' !! pk = Some "Issued" /\
    Crate.status <$> crates s' !! Request.crate r = Some "Withdrawn" /\
    audit_trail s' = audit_trail s.
Proof.
  intros Hg Hser Hr Hty Hst Hw (c & Hc & Hb & Htaken).
  pose proof Hg as (_ & u & _ & _ & Hu & _).
  exists u, c. eexists. split; [exact Hu|]. split; [exact Hc|].
  split; [|split; [reflexivity|]].
  2:{ cbn [requests crates audit_trail set_crates set_requests].
      rewrite !lookup_insert_eq. repeat split. }
  unfold Views.issue_documents. rewrite (gate_open_run _ _ _ _ _ Hg).
  unfold Handlers.issue_documents. rewrite Hser.
  rewrite (bind_inr get_store _ s s s eq_refl). unfold find. rewrite Hr.
  cbn [fmap option_fmap option_map Request.status Request.request_type Request.with_pk].
  rewrite Hty, Hst. cbn [String.eqb Ascii.eqb Bool.eqb negb].
  rewrite (bind_inr _ _ _ _ _ (the_user_run request u s Hu)).
  rewrite (bind_inr timezone_now _ s (now s) s eq_refl).
  match goal with |- (Handlers.Request_save ?x ≫= ?f) ?s0 = _ =>
    rewrite (bind_inr _ f s0 _ _ (Request_save_run x pk s0 eq_refl)) end.
  match goal with |- (AuditUtils.crate_of ?x ≫= ?f) ?s0 = _ =>
    rewrite (bind_inr _ f s0 _ _ (crate_of_run x c s0 Hc)) end.
  cbn [Request.crate Request.with_updated_at Request.with_issue Request.with_status].
  match goal with |- (Documents.save ?x ≫= ?f) ?s0 = _ =>
    rewrite (bind_inr _ f s0 _ _ (Documents_save_run x (Request.crate r) s0 eq_refl Hb Htaken))
  end.
  unfold AuditUtils.log_document_issued.
  match goal with |- ((AuditUtils.crate_of ?x ≫= ?g) ≫= ?f) ?s0 = _ =>
    assert (Hraise : (AuditUtils.crate_of x ≫= g) s0 =
              (inl (AttributeError "'NoneType' object has no attribute 'full_name'"), s0))
  end.
  { match goal with |- (AuditUtils.crate_of ?x ≫= ?g) ?s0 = _ =>
      erewrite (bind_inr _ g s0) end.
    2:{ apply crate_of_run. cbn [crates set_crates set_requests Request.crate
                                  Request.with_updated_at Request.with_issue
                                  Request.with_status].
        apply lookup_insert_eq. }
    cbn [Request.withdrawn_by Request.with_updated_at Request.with_issue
         Request.with_status Request.with_pk].
    rewrite Hw. reflexivity. }
  rewrite (bind_inl _ _ _ _ _ Hraise). reflexivity.
Qed.

(** X25 at work: on the sample archive with the requester of the approved
    withdrawal 6 removed, carol's call to issue it raises and leaves the
    request Issued with nothing in the audit trail. *)
Lemma issue_documents_without_requester_witness :
  exists s',
    Views.issue_documents (Sample.http Sample.carol) 6
      (set_requests
         (<[6 := {| Request.pk := Some 6; Request.request_type := "Withdrawal";
                      Request.crate := 3; Request.unit := 1;
                      Request.approval_date := None; Request.issue_date := None;
                      Request.return_date := None;
                      Request.expected_return_date := None;
                      Request.approved_by := None; Request.allocation_date := None;
                      Request.allocated_by := None; Request.status := "Approved";
                      Request.withdrawn_by := None; Request.purpose := "archive";
                      Request.full_withdrawal := true; Request.issued_by := None;
                      Request.updated_at := None |}]> (requests Sample.store))
         Sample.store) =
      (inl (AttributeError "'NoneType' object has no attribute 'full_name'"), s') /\
    Request.status <$> requests s' !! 6 = Some "Issued" /\
    audit_trail s' = audit_trail Sample.store.
Proof.
  destruct (issue_documents_without_requester (Sample.http Sample.carol) 6
           (set_requests
              (<[6 := {| Request.pk := Some 6; Request.request_type := "Withdrawal";
                 Request.crate := 3; Request.unit := 1;
                 Request.approval_date := None; Request.issue_date := None;
                 Request.return_date := None; Request.expected_return_date := None;
                 Request.approved_by := None; Request.allocation_date := None;
                 Request.allocated_by := None; Request.status := "Approved";
                 Request.withdrawn_by := None; Request.purpose := "archive";
                 Request.full_withdrawal := true; Request.issued_by := None;
                 Request.updated_at := None |}]> (requests Sample.store)) Sample.store)
           ({| Request.pk := Some 6; Request.request_type := "Withdrawal";
                 Request.crate := 3; Request.unit := 1;
                 Request.approval_date := None; Request.issue_date := None;
                 Request.return_date := None; Request.expected_return_date := None;
                 Request.approved_by := None; Request.allocation_date := None;
                 Request.allocated_by := None; Request.status := "Approved";
                 Request.withdrawn_by := None; Request.purpose := "archive";
                 Request.full_withdrawal := true; Request.issued_by := None;
                 Request.updated_at := None |}))
    as (u & c & s' & _ & _ & H & _ & Hst & _ & Haud).
  - apply (gate_open_stable _ _ Sample.store);
      [apply reads_all, reads_allocators_rest|repeat split|exact sample_gate_carol].
  - reflexivity.
  - apply lookup_insert_eq.
  - reflexivity.
  - reflexivity.
  - reflexivity.
  - eexists. split; [reflexivity|]. split; vm_compute; reflexivity.
  - exists s'. split; [exact H|]. split; [exact Hst|exact Haud].
Defined.

(** ** Verifying a signature that was altered *)

Lemma length_append (a b : string) :
  String.length (a +:+ b) = (String.length a + String.length b)%nat.
Proof. induction a as [|c a IH]; simpl; [reflexivity|]. rewrite IH. reflexivity. Qed.

Lemma app_inv_suffix (x y r : string) : x +:+ r = y +:+ r -> x = y.
Proof.
  intros H.
  assert (Hlen : String.length x = String.length y).
  { apply (f_equal String.length) in H. rewrite !length_append in H. lia. }
  revert y H Hlen. induction x as [|a x IH]; intros [|b y] H Hlen; try discriminate.
  - reflexivity.
  - simpl in H. injection H as -> H. f_equal. apply IH; [exact H|].
    simpl in Hlen. lia.
Qed.

Lemma join_cons (sep x y : string) (l : list string) :
  Json.join sep (x :: y :: l) = x +:+ sep +:+ Json.join sep (y :: l).
Proof. reflexivity. Qed.

Lemma join_changed (sep x y : string) (l1 l2 : list string) :
  Json.join sep (l1 ++ x :: l2) = Json.join sep (l1 ++ y :: l2) -> x = y.
Proof.
  induction l1 as [|a l1 IH].
  - destruct l2 as [|b l2]; [exact (fun H => H)|].
    cbn [app]. rewrite !join_cons. apply app_inv_suffix.
  - intros H. apply IH.
    destruct l1 as [|b l1]; cbn [app] in *; rewrite !join_cons in H;
      apply app_inv_prefix, app_inv_prefix in H; exact H.
Qed.

Lemma signature_string_components (d : DigitalSignature.row) :
  Signature.signature_string d = Json.join "|" (signature_components d).
Proof. reflexivity. Qed.

(** X26: an altered record passes [verify_integrity] only through a
    collision of SHA-256.  Take a signature record that [verify_integrity]
    accepts, and alter it while leaving the stored signature hash alone: if
    exactly one of the texts that enter the signature string (user name,
    full name, role, signature type, time stamp, model, record id, data
    hash) is replaced by a different text, or if the signed data are
    replaced by data with another JSON text while the data hash stays, then
    [verify_integrity] rejects the altered record, unless the two texts
    hashed, which differ, have the same digest. *)
Theorem verify_integrity_detects (d d' : DigitalSignature.row) :
  fst (Signature.verify_integrity SHA256.hexdigest d) = true ->
  DigitalSignature.signature_hash d' = DigitalSignature.signature_hash d ->
  one_component_changed d d' \/
  (DigitalSignature.data_hash d' = DigitalSignature.data_hash d /\
   Json.dumps (DigitalSignature.signature_data d') <>
   Json.dumps (DigitalSignature.signature_data d)) ->
  fst (Signature.verify_integrity SHA256.hexdigest d') = false \/
  (Signature.signature_string d' <> Signature.signature_string d /\
   SHA256.hexdigest (Signature.signature_string d') =
   SHA256.hexdigest (Signature.signature_string d)) \/
  (Json.dumps (DigitalSignature.signature_data d') <>
   Json.dumps (DigitalSignature.signature_data d) /\
   SHA256.hexdigest (Json.dumps (DigitalSignature.signature_data d')) =
   SHA256.hexdigest (Json.dumps (DigitalSignature.signature_data d))).
Proof.
  intros Hok Hsig Hchanged.
  unfold Signature.verify_integrity in Hok.
  destruct (String.eqb (SHA256.hexdigest (Json.dumps (DigitalSignature.signature_data d)))
              (DigitalSignature.data_hash d)) eqn:Hd; cbv [negb] in Hok; [|discriminate].
  destruct (String.eqb (SHA256.hexdigest (Signature.signature_string d))
              (DigitalSignature.signature_hash d)) eqn:Hs; cbv [negb] in Hok;
    [|discriminate].
  apply String.eqb_eq in Hd, Hs.
  unfold Signature.verify_integrity.
  destruct (String.eqb (SHA256.hexdigest (Json.dumps (DigitalSignature.signature_data d')))
              (DigitalSignature.data_hash d')) eqn:Hd'; cbv [negb]; [|left; reflexivity].
  destruct (String.eqb (SHA256.hexdigest (Signature.signature_string d'))
              (DigitalSignature.signature_hash d')) eqn:Hs'; cbv [negb];
    [|left; reflexivity].
  right. apply String.eqb_eq in Hd', Hs'.
  destruct Hchanged as [(l1 & x & y & l2 & Hc & Hc' & Hne)|(Hdh & Hne)].
  - left. split; [|congruence].
    intros Heq. apply Hne. apply (join_changed "|" x y l1 l2).
    rewrite <- Hc, <- Hc', <- !signature_string_components. congruence.
  - right. split; [exact Hne|congruence].
Qed.

(** X26 at work, with the hashes computed by SHA-256: a record signed by
    bob as Section Head is accepted, and the same record with the role
    changed to System Admin is rejected. *)
Lemma verify_integrity_detects_witness :
  let record (role hash : string) : DigitalSignature.row :=
    {| DigitalSignature.pk := Some 1; DigitalSignature.signer := 2;
       DigitalSignature.signer_username := "bob";
       DigitalSignature.signer_full_name := "Bob Approver";
       DigitalSignature.signer_role := role;
       DigitalSignature.signer_email := "bob@example.org";
       DigitalSignature.password_verified_at := Some Sample.clock;
       DigitalSignature.authentication_method := "PASSWORD";
       DigitalSignature.signature_type := "APPROVE";
       DigitalSignature.signature_purpose := "approval of request 1";
       DigitalSignature.signature_timestamp := Some Sample.clock;
       DigitalSignature.signed_model := "Request";
       DigitalSignature.signed_record_id := 1;
       DigitalSignature.signed_record_description := "Storage request 1";
       DigitalSignature.data_hash :=
         SHA256.hexdigest (Json.dumps (Json.JDict [("status", Json.JStr "Approved")]));
       DigitalSignature.signature_data := Json.JDict [("status", Json.JStr "Approved")];
       DigitalSignature.signature_hash := hash;
       DigitalSignature.ip_address := None; DigitalSignature.user_agent := "";
       DigitalSignature.is_valid := true; DigitalSignature.invalidation_reason := "";
       DigitalSignature.invalidated_at := None; DigitalSignature.invalidated_by := None;
       DigitalSignature.audit_trail_id := None |} in
  let signed :=
    SHA256.hexdigest (Signature.signature_string (record "Section Head" "")) in
  fst (Signature.verify_integrity SHA256.hexdigest (record "Section Head" signed)) = true /\
  fst (Signature.verify_integrity SHA256.hexdigest (record "System Admin" signed)) = false.
Proof.
  intros record signed.
  assert (Hok : fst (Signature.verify_integrity SHA256.hexdigest
                       (record "Section Head" signed)) = true)
    by (vm_compute; reflexivity).
  split; [exact Hok|].
  destruct (verify_integrity_detects (record "Section Head" signed)
              (record "System Admin" signed) Hok eq_refl) as [Hno|[(_ & Hsame)|(Hne & _)]].
  - left. exists ["bob"; "Bob Approver"], "Section Head", "System Admin".
    eexists. split; [reflexivity|]. split; [reflexivity|discriminate].
  - exact Hno.
  - exfalso. vm_compute in Hsame. discriminate Hsame.
  - exfalso. apply Hne. reflexivity.
Defined.
